(** * Cat feeder firmware: feeding state machine and load-cell sampler

    A shallow embedding of [firmware/cat-feeder/src/loadcell.cpp] and
    [firmware/cat-feeder/src/fsm.cpp] (with the declarations of
    [include/loadcell.h] and [include/fsm.h]), and of the key debouncing and
    the line rendering of [firmware/cat-feeder/src/ui.cpp], followed by the
    properties of the specification that were checked against it and by
    further properties of the code.

    Conventions of the embedding.
    - The target is a 32-bit microcontroller: [int], [long], [int32_t] are
      32 bits wide, [unsigned long] is 32 bits wide, [uint16_t] is 16 bits.
    - Unsigned arithmetic wraps; the wrap-around is written out with [mod].
    - Signed overflow, division by zero, an array access out of bounds and a
      float-to-int conversion out of range are undefined behaviour in C++:
      such a step yields [Undefined] instead of a value.
    - The only loop whose trip count depends on the data, the deficit loop of
      [StateMachine::update], runs on fuel; [OutOfFuel] is the third outcome.
    - [float] is IEEE-754 binary32 with round-to-nearest-even, taken from the
      executable specification [SpecFloat] at precision 24.
    - What the hardware delivers during one pass of the main loop (the HX711
      converter, [millis()], the limit switch pin) is an explicit [Inputs]
      record.
    - What is drawn on the display is a list of drawing operations; how
      [printf] formats a [float] is left open in [get_state_report], as a
      variable of its section. *)

From Stdlib Require Import ZArith List Bool Ascii String DecimalString Lia.
From Stdlib Require Import Floats.SpecFloat.
Import ListNotations.
Local Open Scope Z_scope.

(** ** Outcomes of a C++ computation *)

Inductive outcome (A : Type) : Type :=
| Ok (a : A)
| Undefined
| OutOfFuel.
Arguments Ok {A} a.
Arguments Undefined {A}.
Arguments OutOfFuel {A}.

Definition bind {A B : Type} (c : outcome A) (k : A -> outcome B) : outcome B :=
  match c with
  | Ok a => k a
  | Undefined => Undefined
  | OutOfFuel => OutOfFuel
  end.

Notation "x <- c ;; k" := (bind c (fun x => k))
  (at level 61, c at next level, right associativity).
Notation "' p <- c ;; k" := (bind c (fun x => let 'p := x in k))
  (at level 61, p pattern, c at next level, right associativity).

(** ** Machine integers *)

Module Machine.

Definition INT32_MIN : Z := - 2 ^ 31.
Definition INT32_MAX : Z := 2 ^ 31 - 1.
Definition INT64_MIN : Z := - 2 ^ 63.
Definition INT64_MAX : Z := 2 ^ 63 - 1.

Definition in_int32 (z : Z) : bool := (INT32_MIN <=? z) && (z <=? INT32_MAX).
Definition in_int64 (z : Z) : bool := (INT64_MIN <=? z) && (z <=? INT64_MAX).

(** The value of a signed 32-bit (resp. 64-bit) arithmetic expression. *)
Definition int32 (z : Z) : outcome Z := if in_int32 z then Ok z else Undefined.
Definition int64 (z : Z) : outcome Z := if in_int64 z then Ok z else Undefined.

(** Signed division truncates towards zero. *)
Definition int32_div (a b : Z) : outcome Z :=
  if b =? 0 then Undefined else int32 (Z.quot a b).
Definition int64_div (a b : Z) : outcome Z :=
  if b =? 0 then Undefined else int64 (Z.quot a b).

(** Unsigned arithmetic is modular. *)
Definition uint32 (z : Z) : Z := z mod 2 ^ 32.
Definition uint16 (z : Z) : Z := z mod 2 ^ 16.

(** [static_cast<int32_t>] of a wider or unsigned value keeps the low 32
    bits and reads them as two's complement. *)
Definition to_int32 (z : Z) : Z := (z + 2 ^ 31) mod 2 ^ 32 - 2 ^ 31.

End Machine.
Import Machine.

(** ** binary32 *)

Module F32.

Definition prec : Z := 24.
Definition emax : Z := 128.

Definition float : Type := spec_float.

Definition add : float -> float -> float := SFadd prec emax.
Definition sub : float -> float -> float := SFsub prec emax.
Definition mul : float -> float -> float := SFmul prec emax.
Definition div : float -> float -> float := SFdiv prec emax.
Definition sqrt : float -> float := SFsqrt prec emax.
Definition abs : float -> float := SFabs.
Definition neg : float -> float := SFopp.
Definition ltb : float -> float -> bool := SFltb.
Definition gtb (x y : float) : bool := SFltb y x.

(** The float nearest to [m * 2^e]; this is how a decimal literal with the
    suffix [f] and an integer-to-float conversion are read. *)
Definition of_scaled (m e : Z) : float := binary_normalize prec emax m e false.
Definition of_Z (z : Z) : float := of_scaled z 0.

(** [static_cast<int>(x)]: truncation towards zero, undefined when the
    truncated value does not fit (NaN and the infinities included). *)
Definition to_int (x : float) : outcome Z :=
  match x with
  | S754_zero _ => Ok 0
  | S754_finite s m e =>
      let v := match e with
               | Zneg p => Z.shiftr (Zpos m) (Zpos p)
               | _ => Z.shiftl (Zpos m) e
               end in
      int32 (if s then - v else v)
  | S754_infinity _ | S754_nan => Undefined
  end.

End F32.

(** ** The load-cell sampler ([loadcell.h], [loadcell.cpp]) *)

Module Loadcell.

Inductive Sensor : Type := RESERVOIR | BOWL.

Definition NUM_SAMPLES : Z := 32.

(** [-0.0020530327830519573f] and [0.003227106961589246f]. *)
Definition GAIN_RESERVOIR : F32.float := S754_finite true 8817709 (-32).
Definition GAIN_BOWL : F32.float := S754_finite false 13860319 (-32).

Record t : Type := {
  hx711_gain : Z;              (* gain selected in the HX711 driver *)
  samples_remaining : Z;
  sensor : Sensor;
  apply_tare : bool;
  samples : list Z;            (* int32_t samples[NUM_SAMPLES] *)
  tare_reservoir : Z;
  tare_bowl : Z;
  mean : F32.float;
  stddev : F32.float;
  mean_raw : Z
}.

(** The in-class member initialisers. *)
Definition init : t := {|
  hx711_gain := 128;
  samples_remaining := 0;
  sensor := RESERVOIR;
  apply_tare := false;
  samples := repeat 0 (Z.to_nat NUM_SAMPLES);
  tare_reservoir := INT32_MIN;
  tare_bowl := INT32_MIN;
  mean := S754_zero false;
  stddev := S754_zero false;
  mean_raw := 0
|}.

Definition start (target_sensor : Sensor) (tare : bool) (l : t) : t := {|
  hx711_gain := match target_sensor with RESERVOIR => 128 | BOWL => 32 end;
  samples_remaining := NUM_SAMPLES;
  sensor := target_sensor;
  apply_tare := tare;
  samples := samples l;
  tare_reservoir := tare_reservoir l;
  tare_bowl := tare_bowl l;
  mean := mean l;
  stddev := stddev l;
  mean_raw := mean_raw l
|}.

(** [samples[i] = v]. *)
Fixpoint store (a : list Z) (i : nat) (v : Z) : outcome (list Z) :=
  match a, i with
  | [], _ => Undefined
  | _ :: a', O => Ok (v :: a')
  | x :: a', S i' => a'' <- store a' i' v ;; Ok (x :: a'')
  end.

(** [for (auto sample : samples) accum += sample;] on an [int64_t]. *)
Fixpoint accum_sum (accum : Z) (a : list Z) : outcome Z :=
  match a with
  | [] => Ok accum
  | sample :: a' => acc <- int64 (accum + sample) ;; accum_sum acc a'
  end.

(** [for (const auto sample : samples) { const int64_t diff = sample -
    mean_raw; accum += diff * diff; }]; the difference is taken in [int]. *)
Fixpoint accum_sqdev (mean_raw : Z) (accum : Z) (a : list Z) : outcome Z :=
  match a with
  | [] => Ok accum
  | sample :: a' =>
      diff <- int32 (sample - mean_raw) ;;
      sq <- int64 (diff * diff) ;;
      acc <- int64 (accum + sq) ;;
      accum_sqdev mean_raw acc a'
  end.

(** The raw mean of a full buffer, lines 29-33 of [loadcell.cpp]. *)
Definition compute_mean_raw (a : list Z) : outcome Z :=
  accum <- accum_sum (NUM_SAMPLES / 2) a ;;
  q <- int64_div accum NUM_SAMPLES ;;
  Ok (to_int32 q).

(** The variance of a full buffer, lines 36-41. *)
Definition compute_var (mean_raw : Z) (a : list Z) : outcome F32.float :=
  accum <- accum_sqdev mean_raw (NUM_SAMPLES / 2) a ;;
  Ok (F32.div (F32.of_Z accum) (F32.of_Z NUM_SAMPLES)).

(** [Loadcell::update]; [ready] and [raw] are what [hx711.is_ready()] and
    [hx711.read()] deliver in this pass.  [sqrt] and [abs] are taken at their
    [float] overloads. *)
Definition update (ready : bool) (raw : Z) (l : t) : outcome t :=
  if samples_remaining l =? 0 then Ok l else
  if negb ready then Ok l else
  n <- int32 (samples_remaining l - 1) ;;
  _ <- (if n <? 0 then Undefined else Ok tt) ;;
  buf <- store (samples l) (Z.to_nat n) raw ;;
  if negb (n =? 0) then
    Ok {| hx711_gain := hx711_gain l; samples_remaining := n;
          sensor := sensor l; apply_tare := apply_tare l; samples := buf;
          tare_reservoir := tare_reservoir l; tare_bowl := tare_bowl l;
          mean := mean l; stddev := stddev l; mean_raw := mean_raw l |}
  else
  m <- compute_mean_raw buf ;;
  var <- compute_var m buf ;;
  let tr := match sensor l with
            | RESERVOIR =>
                if apply_tare l || (tare_reservoir l =? INT32_MIN)
                then m else tare_reservoir l
            | BOWL => tare_reservoir l
            end in
  let tb := match sensor l with
            | RESERVOIR => tare_bowl l
            | BOWL =>
                if apply_tare l || (tare_bowl l =? INT32_MIN)
                then m else tare_bowl l
            end in
  let tare := match sensor l with RESERVOIR => tr | BOWL => tb end in
  let gain := match sensor l with
              | RESERVOIR => GAIN_RESERVOIR
              | BOWL => GAIN_BOWL
              end in
  d <- int32 (m - tare) ;;
  Ok {| hx711_gain := hx711_gain l; samples_remaining := n;
        sensor := sensor l; apply_tare := apply_tare l; samples := buf;
        tare_reservoir := tr; tare_bowl := tb;
        mean := F32.mul (F32.of_Z d) gain;
        stddev := F32.mul (F32.sqrt var) (F32.abs gain);
        mean_raw := m |}.

Definition is_busy (l : t) : bool := 0 <? samples_remaining l.
Definition get_mean (l : t) : F32.float := mean l.
Definition get_stddev (l : t) : F32.float := stddev l.
Definition get_sensor (l : t) : Sensor := sensor l.
Definition get_mean_raw (l : t) : Z := mean_raw l.

Definition set_tare_raw (sensor0 : Sensor) (raw : Z) (l : t) : t := {|
  hx711_gain := hx711_gain l;
  samples_remaining := samples_remaining l;
  sensor := sensor l;
  apply_tare := apply_tare l;
  samples := samples l;
  tare_reservoir := match sensor0 with RESERVOIR => raw | BOWL => tare_reservoir l end;
  tare_bowl := match sensor0 with RESERVOIR => tare_bowl l | BOWL => raw end;
  mean := mean l;
  stddev := stddev l;
  mean_raw := mean_raw l
|}.

End Loadcell.

(** ** The feeding controller ([fsm.h], [fsm.cpp]) *)

Module StateMachine.

Local Open Scope string_scope.
Local Open Scope Z_scope.

Inductive FeedResult : Type := NONE | SUCCESS | SENSOR_RETRY.

Record FeedReport : Type := {
  result : FeedResult;
  arg : Z;
  millis : Z
}.

Inductive ErrorSeverity : Type := OKAY | WARNING | ERROR.

Record ErrorReport : Type := {
  message : option string;     (* [None] is the null pointer *)
  severity : ErrorSeverity
}.

Inductive State : Type :=
| IDLE
| IDLE_TARE_RESERVOIR_WAIT
| IDLE_TARE_RESERVOIR
| IDLE_TARE_BOWL
| IDLE_MEASURE_RESERVOIR
| IDLE_MEASURE_BOWL
| FEED_PRE_MEASURE_WAIT
| FEED_PRE_MEASURE_RESERVOIR
| FEED_PRE_MEASURE_BOWL
| FEED_RUN_SYNC
| FEED_RUN_A
| FEED_RUN_B
| FEED_RUN_C
| FEED_POST_WAIT
| FEED_POST_MEASURE_BOWL
| FEED_POST_MEASURE_RESERVOIR.

Definition State_eq_dec (a b : State) : {a = b} + {a <> b}.
Proof. decide equality. Defined.

Definition State_eqb (a b : State) : bool :=
  if State_eq_dec a b then true else false.

Inductive MaintenanceMode : Type := OPERATIONAL | MAINTENANCE | JAMMED.

(** [MAINTENANCE] and [JAMMED] of the source carry the prefix [BLOCKED_]
    here, the names being taken by [MaintenanceMode]. *)
Inductive FeedBlockReason : Type :=
| NOT_BLOCKED
| BLOCKED_MAINTENANCE
| BLOCKED_JAMMED
| COOLDOWN
| DEFICIT.

(** Constants of [fsm.h]; [DEBUG_FSM] is not defined (production build). *)
Definition FEED_MAX_RETRIES : Z := 3.
Definition FEED_RUN_TIMEOUT_MILLIS : Z := 3000.
Definition FEED_RUN_LIMP_MILLIS : Z := 2000.
Definition FEED_RUN_POST_MILLIS : Z := 10.
Definition FEED_TO_MEASURE_MILLIS : Z := 800.
Definition FEED_COOLDOWN_MILLIS : Z := 5 * 60 * 1000.
Definition FEED_ASSUMED_WEIGHT_GRAMS : F32.float := F32.of_Z 9.
Definition FEED_MAX_DISAGREE_GRAMS : F32.float := F32.of_Z 5.

(** The float literal [0.3f] is [10066330 * 2^-25]. *)
Definition lit_0_3f : F32.float := F32.of_scaled 10066330 (-25).

(** The members of [class StateMachine], in the order of [fsm.h];
    [pin_motor] is the level last written to [PIN_MOTOR]. *)
Record t : Type := {
  loadcell : Loadcell.t;
  state : State;
  maintenance_mode : MaintenanceMode;
  error_reservoir_stddev : bool;
  error_bowl_stddev : bool;
  error_loadcell_timeout : bool;
  error_loadcell_disagree : bool;
  error_loadcell_unreasonable : bool;
  error_limit_switch : bool;
  error_power_loss : bool;
  grams_per_day : Z;
  deficit_ms_remain : Z;
  deficit_mg : Z;
  deficit_threshold_mg : Z;
  update_prev_millis : Z;
  millis_since_reservoir_read : Z;
  millis_since_bowl_read : Z;
  millis_since_feed_attempt : Z;
  millis_since_transition : Z;
  millis_since_mqtt_string_update : Z;
  state_retries : Z;
  feed_sensor_retries : Z;
  feed_jammed_retries : Z;
  feed_reservoir_pre : F32.float;
  feed_reservoir_post : F32.float;
  feed_bowl_pre : F32.float;
  feed_bowl_post : F32.float;
  feed_bowl_post_valid : bool;
  feed_report : FeedReport;
  reservoir_mean : F32.float;
  reservoir_stddev : F32.float;
  bowl_mean : F32.float;
  bowl_stddev : F32.float;
  mqtt_deficit : F32.float;
  mqtt_last_feed : F32.float;
  mqtt_grams_per_day : F32.float;
  mqtt_feeding : bool;
  mqtt_maintenance : bool;
  mqtt_jammed : bool;
  mqtt_error : string;
  pin_motor : bool
}.

(** *** Field assignment

    [eta] spells a state out field by field; the assignment to the field
    read by [proj] is [eta] with that one reading replaced. *)
Definition eta (s : t) : t := {|
  loadcell := loadcell s;
  state := state s;
  maintenance_mode := maintenance_mode s;
  error_reservoir_stddev := error_reservoir_stddev s;
  error_bowl_stddev := error_bowl_stddev s;
  error_loadcell_timeout := error_loadcell_timeout s;
  error_loadcell_disagree := error_loadcell_disagree s;
  error_loadcell_unreasonable := error_loadcell_unreasonable s;
  error_limit_switch := error_limit_switch s;
  error_power_loss := error_power_loss s;
  grams_per_day := grams_per_day s;
  deficit_ms_remain := deficit_ms_remain s;
  deficit_mg := deficit_mg s;
  deficit_threshold_mg := deficit_threshold_mg s;
  update_prev_millis := update_prev_millis s;
  millis_since_reservoir_read := millis_since_reservoir_read s;
  millis_since_bowl_read := millis_since_bowl_read s;
  millis_since_feed_attempt := millis_since_feed_attempt s;
  millis_since_transition := millis_since_transition s;
  millis_since_mqtt_string_update := millis_since_mqtt_string_update s;
  state_retries := state_retries s;
  feed_sensor_retries := feed_sensor_retries s;
  feed_jammed_retries := feed_jammed_retries s;
  feed_reservoir_pre := feed_reservoir_pre s;
  feed_reservoir_post := feed_reservoir_post s;
  feed_bowl_pre := feed_bowl_pre s;
  feed_bowl_post := feed_bowl_post s;
  feed_bowl_post_valid := feed_bowl_post_valid s;
  feed_report := feed_report s;
  reservoir_mean := reservoir_mean s;
  reservoir_stddev := reservoir_stddev s;
  bowl_mean := bowl_mean s;
  bowl_stddev := bowl_stddev s;
  mqtt_deficit := mqtt_deficit s;
  mqtt_last_feed := mqtt_last_feed s;
  mqtt_grams_per_day := mqtt_grams_per_day s;
  mqtt_feeding := mqtt_feeding s;
  mqtt_maintenance := mqtt_maintenance s;
  mqtt_jammed := mqtt_jammed s;
  mqtt_error := mqtt_error s;
  pin_motor := pin_motor s
|}.

Ltac field_assignment proj :=
  let v := fresh "v" in
  let s := fresh "s" in
  intros v s;
  let e := eval cbv beta delta [eta] in (eta s) in
  match eval pattern (proj s) in e with
  | ?g _ => let r := eval cbv beta in (g v) in exact r
  end.

Definition assign_loadcell : Loadcell.t -> t -> t := ltac:(field_assignment loadcell).
Definition assign_state : State -> t -> t := ltac:(field_assignment state).
Definition assign_maintenance_mode : MaintenanceMode -> t -> t := ltac:(field_assignment maintenance_mode).
Definition assign_error_reservoir_stddev : bool -> t -> t := ltac:(field_assignment error_reservoir_stddev).
Definition assign_error_bowl_stddev : bool -> t -> t := ltac:(field_assignment error_bowl_stddev).
Definition assign_error_loadcell_timeout : bool -> t -> t := ltac:(field_assignment error_loadcell_timeout).
Definition assign_error_loadcell_disagree : bool -> t -> t := ltac:(field_assignment error_loadcell_disagree).
Definition assign_error_loadcell_unreasonable : bool -> t -> t := ltac:(field_assignment error_loadcell_unreasonable).
Definition assign_error_limit_switch : bool -> t -> t := ltac:(field_assignment error_limit_switch).
Definition assign_error_power_loss : bool -> t -> t := ltac:(field_assignment error_power_loss).
Definition assign_grams_per_day : Z -> t -> t := ltac:(field_assignment grams_per_day).
Definition assign_deficit_ms_remain : Z -> t -> t := ltac:(field_assignment deficit_ms_remain).
Definition assign_deficit_mg : Z -> t -> t := ltac:(field_assignment deficit_mg).
Definition assign_deficit_threshold_mg : Z -> t -> t := ltac:(field_assignment deficit_threshold_mg).
Definition assign_update_prev_millis : Z -> t -> t := ltac:(field_assignment update_prev_millis).
Definition assign_millis_since_reservoir_read : Z -> t -> t := ltac:(field_assignment millis_since_reservoir_read).
Definition assign_millis_since_bowl_read : Z -> t -> t := ltac:(field_assignment millis_since_bowl_read).
Definition assign_millis_since_feed_attempt : Z -> t -> t := ltac:(field_assignment millis_since_feed_attempt).
Definition assign_millis_since_transition : Z -> t -> t := ltac:(field_assignment millis_since_transition).
Definition assign_millis_since_mqtt_string_update : Z -> t -> t := ltac:(field_assignment millis_since_mqtt_string_update).
Definition assign_state_retries : Z -> t -> t := ltac:(field_assignment state_retries).
Definition assign_feed_sensor_retries : Z -> t -> t := ltac:(field_assignment feed_sensor_retries).
Definition assign_feed_jammed_retries : Z -> t -> t := ltac:(field_assignment feed_jammed_retries).
Definition assign_feed_reservoir_pre : F32.float -> t -> t := ltac:(field_assignment feed_reservoir_pre).
Definition assign_feed_reservoir_post : F32.float -> t -> t := ltac:(field_assignment feed_reservoir_post).
Definition assign_feed_bowl_pre : F32.float -> t -> t := ltac:(field_assignment feed_bowl_pre).
Definition assign_feed_bowl_post : F32.float -> t -> t := ltac:(field_assignment feed_bowl_post).
Definition assign_feed_report : FeedReport -> t -> t := ltac:(field_assignment feed_report).
Definition assign_reservoir_mean : F32.float -> t -> t := ltac:(field_assignment reservoir_mean).
Definition assign_reservoir_stddev : F32.float -> t -> t := ltac:(field_assignment reservoir_stddev).
Definition assign_bowl_mean : F32.float -> t -> t := ltac:(field_assignment bowl_mean).
Definition assign_bowl_stddev : F32.float -> t -> t := ltac:(field_assignment bowl_stddev).
Definition assign_mqtt_deficit : F32.float -> t -> t := ltac:(field_assignment mqtt_deficit).
Definition assign_mqtt_last_feed : F32.float -> t -> t := ltac:(field_assignment mqtt_last_feed).
Definition assign_mqtt_grams_per_day : F32.float -> t -> t := ltac:(field_assignment mqtt_grams_per_day).
Definition assign_mqtt_feeding : bool -> t -> t := ltac:(field_assignment mqtt_feeding).
Definition assign_mqtt_maintenance : bool -> t -> t := ltac:(field_assignment mqtt_maintenance).
Definition assign_mqtt_jammed : bool -> t -> t := ltac:(field_assignment mqtt_jammed).
Definition assign_mqtt_error : string -> t -> t := ltac:(field_assignment mqtt_error).
Definition assign_pin_motor : bool -> t -> t := ltac:(field_assignment pin_motor).

(** What the hardware delivers during one pass of [loop()]. *)
Record Inputs : Type := {
  hx711_is_ready : bool;         (* [hx711.is_ready()] *)
  hx711_read : Z;                (* [hx711.read()] *)
  now : Z;                       (* [millis()] at the top of [update] *)
  now_report : Z;                (* [millis()] when a feed report is written *)
  limit : bool                   (* [digitalRead(PIN_LIMIT) == HIGH] *)
}.

(** *** Private helpers *)

Definition error_reset (s : t) : t :=
  let s := assign_error_reservoir_stddev false s in
  let s := assign_error_bowl_stddev false s in
  let s := assign_error_loadcell_timeout false s in
  let s := assign_error_loadcell_disagree false s in
  let s := assign_error_loadcell_unreasonable false s in
  let s := assign_error_limit_switch false s in
  assign_error_power_loss false s.

Definition loadcell_limp_mode (s : t) : option string :=
  if error_loadcell_timeout s then Some "Sensor timeout"
  else if error_reservoir_stddev s then Some "Reservoir noisy"
  else if error_bowl_stddev s then Some "Bowl noisy"
  else if error_loadcell_disagree s then Some "Sensor disagree"
  else if error_loadcell_unreasonable s then Some "Sensor sanity"
  else None.

Definition need_to_feed (s : t) : FeedBlockReason :=
  match maintenance_mode s with
  | MAINTENANCE => BLOCKED_MAINTENANCE
  | JAMMED => BLOCKED_JAMMED
  | OPERATIONAL =>
      if deficit_mg s <? deficit_threshold_mg s then DEFICIT
      else if millis_since_feed_attempt s <? FEED_COOLDOWN_MILLIS then COOLDOWN
      else NOT_BLOCKED
  end.

Definition transition (new_state : State) (s : t) : t :=
  let s := if State_eqb new_state (state s)
           then assign_state_retries (uint16 (state_retries s + 1)) s
           else assign_state_retries 0 s in
  let s := match new_state with
           | IDLE_TARE_RESERVOIR =>
               assign_loadcell (Loadcell.start Loadcell.RESERVOIR true (loadcell s)) s
           | IDLE_TARE_BOWL =>
               assign_loadcell (Loadcell.start Loadcell.BOWL true (loadcell s)) s
           | IDLE_MEASURE_RESERVOIR
           | FEED_PRE_MEASURE_RESERVOIR
           | FEED_POST_MEASURE_RESERVOIR =>
               assign_loadcell (Loadcell.start Loadcell.RESERVOIR false (loadcell s)) s
           | IDLE_MEASURE_BOWL
           | FEED_PRE_MEASURE_BOWL
           | FEED_POST_MEASURE_BOWL =>
               assign_loadcell (Loadcell.start Loadcell.BOWL false (loadcell s)) s
           | _ => s
           end in
  let s := assign_millis_since_transition 0 s in
  assign_state new_state s.

(** Returns whether the readout is complete, and the state it leaves. *)
Definition handle_loadcell_readout (s : t) : bool * t :=
  if error_loadcell_timeout s || (10000 <? millis_since_transition s) then
    (true, assign_error_loadcell_timeout true s)
  else if Loadcell.is_busy (loadcell s) then (false, s)
  else
    match Loadcell.get_sensor (loadcell s) with
    | Loadcell.RESERVOIR =>
        let s := assign_reservoir_mean (Loadcell.get_mean (loadcell s)) s in
        let s := assign_reservoir_stddev (Loadcell.get_stddev (loadcell s)) s in
        (true, assign_millis_since_reservoir_read 0 s)
    | Loadcell.BOWL =>
        let s := assign_bowl_mean (Loadcell.get_mean (loadcell s)) s in
        let s := assign_bowl_stddev (Loadcell.get_stddev (loadcell s)) s in
        (true, assign_millis_since_bowl_read 0 s)
    end.

(** Returns the estimate, and the state with the flags it raised. *)
Definition estimate_dispensed_weight_grams (s : t) : F32.float * t :=
  match loadcell_limp_mode s with
  | Some _ => (FEED_ASSUMED_WEIGHT_GRAMS, s)
  | None =>
      let dispensed_reservoir := F32.sub (feed_reservoir_pre s) (feed_reservoir_post s) in
      let dispensed_bowl := F32.sub (feed_bowl_post s) (feed_bowl_pre s) in
      if F32.gtb (F32.abs (F32.sub dispensed_reservoir dispensed_bowl))
                 FEED_MAX_DISAGREE_GRAMS
      then (FEED_ASSUMED_WEIGHT_GRAMS, assign_error_loadcell_disagree true s)
      else
        let dispensed := F32.div (F32.add dispensed_reservoir dispensed_bowl) (F32.of_Z 2) in
        if F32.ltb dispensed (F32.neg (F32.of_Z 2))
           || F32.gtb dispensed (F32.mul FEED_ASSUMED_WEIGHT_GRAMS (F32.of_Z 3))
        then (FEED_ASSUMED_WEIGHT_GRAMS, assign_error_loadcell_unreasonable true s)
        else (dispensed, s)
  end.

(** The jam bookkeeping of [complete_feed] (lines 126-136). *)
Definition update_jam_state (dispensed_weight_grams : F32.float) (s : t) : t :=
  if F32.gtb dispensed_weight_grams (F32.mul FEED_ASSUMED_WEIGHT_GRAMS lit_0_3f) then
    let s := assign_feed_jammed_retries 0 s in
    match maintenance_mode s with
    | JAMMED => assign_maintenance_mode OPERATIONAL s
    | _ => s
    end
  else
    let s := assign_feed_jammed_retries (uint16 (feed_jammed_retries s + 1)) s in
    if FEED_MAX_RETRIES <=? feed_jammed_retries s
    then assign_maintenance_mode JAMMED s
    else s.

Definition complete_feed (i : Inputs) (s : t) : outcome t :=
  let '(dispensed_weight_grams, s) := estimate_dispensed_weight_grams s in
  let s := update_jam_state dispensed_weight_grams s in
  dispensed_weight_mg <- F32.to_int (F32.mul dispensed_weight_grams (F32.of_Z 1000)) ;;
  d <- int32 (deficit_mg s - dispensed_weight_mg) ;;
  let s := assign_deficit_mg d s in
  let s := assign_millis_since_feed_attempt 0 s in
  let s := assign_feed_sensor_retries 0 s in
  let s := assign_feed_report {| result := SUCCESS;
                              arg := dispensed_weight_mg;
                              millis := now_report i |} s in
  let s := assign_mqtt_last_feed dispensed_weight_grams s in
  Ok (transition IDLE s).

(** *** Commands and reports *)

Definition init : t := {|
  loadcell := Loadcell.init;
  state := IDLE;
  maintenance_mode := OPERATIONAL;
  error_reservoir_stddev := false;
  error_bowl_stddev := false;
  error_loadcell_timeout := false;
  error_loadcell_disagree := false;
  error_loadcell_unreasonable := false;
  error_limit_switch := false;
  error_power_loss := true;
  grams_per_day := 60;
  deficit_ms_remain := 0;
  deficit_mg := 0;
  deficit_threshold_mg := 0;
  update_prev_millis := 0;
  millis_since_reservoir_read := (2 ^ 32 - 1) / 2;
  millis_since_bowl_read := (2 ^ 32 - 1) / 2;
  millis_since_feed_attempt := 0;
  millis_since_transition := 0;
  millis_since_mqtt_string_update := 0;
  state_retries := 0;
  feed_sensor_retries := 0;
  feed_jammed_retries := 0;
  feed_reservoir_pre := S754_zero false;
  feed_reservoir_post := S754_zero false;
  feed_bowl_pre := S754_zero false;
  feed_bowl_post := S754_zero false;
  feed_bowl_post_valid := false;
  feed_report := {| result := NONE; arg := 0; millis := 0 |};
  reservoir_mean := S754_zero false;
  reservoir_stddev := S754_zero false;
  bowl_mean := S754_zero false;
  bowl_stddev := S754_zero false;
  mqtt_deficit := S754_zero false;
  mqtt_last_feed := S754_zero false;
  mqtt_grams_per_day := S754_zero false;
  mqtt_feeding := false;
  mqtt_maintenance := false;
  mqtt_jammed := false;
  mqtt_error := "";
  pin_motor := false
|}.

(** [begin()]; [now0] is the value of [millis()] it reads. *)
Definition begin (now0 : Z) (s : t) : t :=
  let s := assign_pin_motor false s in
  let s := assign_loadcell (Loadcell.set_tare_raw Loadcell.RESERVOIR (-754589) (loadcell s)) s in
  let s := assign_loadcell (Loadcell.set_tare_raw Loadcell.BOWL 31485 (loadcell s)) s in
  assign_update_prev_millis now0 s.

Definition enter_maintenance (s : t) : t :=
  let s := error_reset s in
  let s := assign_maintenance_mode MAINTENANCE s in
  transition IDLE s.

Definition maintenance (s : t) : bool :=
  match maintenance_mode s with MAINTENANCE => true | _ => false end.

Definition tare_reservoir (s : t) : t :=
  let s := assign_maintenance_mode MAINTENANCE s in
  transition IDLE_TARE_RESERVOIR_WAIT s.

Definition tare_bowl (s : t) : t :=
  let s := assign_maintenance_mode MAINTENANCE s in
  transition IDLE_TARE_BOWL s.

Definition reset (s : t) : t :=
  let s := error_reset s in
  let s := assign_maintenance_mode OPERATIONAL s in
  let s := transition IDLE s in
  let s := assign_state_retries 0 s in
  let s := assign_feed_jammed_retries 0 s in
  assign_feed_sensor_retries 0 s.

Definition feed (s : t) : t := transition FEED_PRE_MEASURE_WAIT s.

Definition get_deficit (s : t) : Z := deficit_mg s.

Definition adjust_deficit (milligrams : Z) (s : t) : outcome t :=
  d <- int32 (deficit_mg s + milligrams) ;;
  Ok (assign_deficit_mg d s).

Definition get_grams_per_day (s : t) : Z := grams_per_day s.

Definition set_grams_per_day (new_grams_per_day : Z) (s : t) : t :=
  assign_grams_per_day new_grams_per_day s.

Definition get_feed_report (s : t) : FeedReport := feed_report s.

Definition get_error_report (s : t) : ErrorReport :=
  if error_limit_switch s then
    {| message := Some "Motor timeout"; severity := ERROR |}
  else
    match loadcell_limp_mode s with
    | Some mode => {| message := Some mode; severity := ERROR |}
    | None =>
        if error_power_loss s then
          {| message := Some "Power loss"; severity := ERROR |}
        else
          match maintenance_mode s with
          | JAMMED => {| message := Some "Jammed/empty"; severity := ERROR |}
          | _ =>
              if negb (feed_jammed_retries s =? 0) then
                {| message := Some "Jammed/empty?"; severity := WARNING |}
              else if F32.ltb (reservoir_mean s) (F32.of_Z 250) then
                {| message := Some "Reservoir low"; severity := WARNING |}
              else {| message := None; severity := OKAY |}
          end
    end.

(** *** [update()] *)

(** The loop of lines 209-212. *)
Fixpoint deficit_loop (fuel : nat) (s : t) : outcome t :=
  if deficit_ms_remain s <? 0 then
    match fuel with
    | O => OutOfFuel
    | S fuel' =>
        period <- int32_div 86400 (grams_per_day s) ;;
        r <- int32 (deficit_ms_remain s + period) ;;
        let s := assign_deficit_ms_remain r s in
        m <- int32 (deficit_mg s + 1) ;;
        let s := assign_deficit_mg m s in
        deficit_loop fuel' s
    end
  else Ok s.

(** "Update deficit", lines 208-213. *)
Definition update_deficit (fuel : nat) (delta_millis : Z) (s : t) : outcome t :=
  r <- int32 (deficit_ms_remain s - delta_millis) ;;
  let s := assign_deficit_ms_remain r s in
  s <- deficit_loop fuel s ;;
  Ok (assign_mqtt_deficit (F32.div (F32.of_Z (deficit_mg s)) (F32.of_Z 1000)) s).

Definition is_feeding (st : State) : bool :=
  match st with
  | IDLE | IDLE_TARE_RESERVOIR_WAIT | IDLE_TARE_RESERVOIR | IDLE_TARE_BOWL
  | IDLE_MEASURE_RESERVOIR | IDLE_MEASURE_BOWL => false
  | _ => true
  end.

(** "Update MQTT status", lines 216-251.  The [force] argument of the
    published sensors only decides whether the value is sent again; the
    stored value is the new one either way, and every message fits the
    21-byte buffer of [mqtt_error]. *)
Definition update_mqtt_status (delta_millis : Z) (s : t) : t :=
  let s := if 5000 <? millis_since_mqtt_string_update s
           then assign_millis_since_mqtt_string_update 0 s
           else assign_millis_since_mqtt_string_update
                  (uint32 (millis_since_mqtt_string_update s + delta_millis)) s in
  let s := assign_mqtt_feeding (is_feeding (state s)) s in
  let s := assign_mqtt_maintenance
             (match maintenance_mode s with MAINTENANCE => true | _ => false end) s in
  let s := assign_mqtt_jammed
             (match maintenance_mode s with JAMMED => true | _ => false end) s in
  let er := get_error_report s in
  let s := assign_mqtt_error
             (match message er with Some m => m | None => "No error" end) s in
  assign_mqtt_grams_per_day (F32.of_Z (grams_per_day s)) s.

(** "Update regular timers", lines 254-257. *)
Definition update_timers (delta_millis : Z) (s : t) : t :=
  let s := assign_millis_since_reservoir_read
             (uint32 (millis_since_reservoir_read s + delta_millis)) s in
  let s := assign_millis_since_bowl_read
             (uint32 (millis_since_bowl_read s + delta_millis)) s in
  let s := assign_millis_since_feed_attempt
             (uint32 (millis_since_feed_attempt s + delta_millis)) s in
  assign_millis_since_transition
    (uint32 (millis_since_transition s + delta_millis)) s.

(** The abort of a feed cycle on a noisy pre-feed reading (lines 332-337
    and 362-367). *)
Definition sensor_retry (i : Inputs) (s : t) : t :=
  let s := assign_millis_since_feed_attempt 0 s in
  let s := assign_feed_sensor_retries (uint16 (feed_sensor_retries s + 1)) s in
  let s := assign_feed_report {| result := SENSOR_RETRY;
                                 arg := feed_sensor_retries s;
                                 millis := now_report i |} s in
  transition IDLE s.

(** "Handle state machine", lines 263-483: the value of [motor] and the
    state after the [switch]. *)
Definition handle_state_machine (i : Inputs) (s : t) : outcome (bool * t) :=
  match state s with
  | IDLE =>
      match need_to_feed s with
      | NOT_BLOCKED => Ok (false, feed s)
      | _ =>
          let sensor_read_cooldown :=
            match maintenance_mode s with
            | MAINTENANCE => 0
            | _ => 5 * 60 * 1000
            end in
          if millis_since_bowl_read s <? millis_since_reservoir_read s then
            if sensor_read_cooldown <? millis_since_reservoir_read s
            then Ok (false, transition IDLE_MEASURE_RESERVOIR s)
            else Ok (false, s)
          else
            if sensor_read_cooldown <? millis_since_bowl_read s
            then Ok (false, transition IDLE_MEASURE_BOWL s)
            else Ok (false, s)
      end

  | IDLE_TARE_RESERVOIR_WAIT =>
      if 2000 <? millis_since_transition s
      then Ok (false, transition IDLE_TARE_RESERVOIR s)
      else Ok (false, s)

  | IDLE_TARE_RESERVOIR
  | IDLE_MEASURE_RESERVOIR
  | IDLE_TARE_BOWL
  | IDLE_MEASURE_BOWL =>
      let '(done, s) := handle_loadcell_readout s in
      if done then Ok (false, transition IDLE s) else Ok (false, s)

  | FEED_PRE_MEASURE_WAIT =>
      if 2000 <? millis_since_transition s
      then Ok (false, transition FEED_PRE_MEASURE_RESERVOIR s)
      else Ok (false, s)

  | FEED_PRE_MEASURE_RESERVOIR =>
      let limp s :=
        let s := assign_error_reservoir_stddev true s in
        transition FEED_PRE_MEASURE_BOWL s in
      match loadcell_limp_mode s with
      | Some _ => Ok (false, limp s)
      | None =>
          let '(done, s) := handle_loadcell_readout s in
          if negb done then Ok (false, s)
          else if F32.ltb (Loadcell.get_stddev (loadcell s)) (F32.of_Z 1) then
            let s := assign_feed_reservoir_pre (Loadcell.get_mean (loadcell s)) s in
            Ok (false, transition FEED_PRE_MEASURE_BOWL s)
          else if state_retries s <? 5 then Ok (false, transition (state s) s)
          else if feed_sensor_retries s <=? FEED_MAX_RETRIES then
            Ok (false, sensor_retry i s)
          else Ok (false, limp s)
      end

  | FEED_PRE_MEASURE_BOWL =>
      let limp s :=
        let s := assign_error_bowl_stddev true s in
        transition FEED_RUN_SYNC s in
      match loadcell_limp_mode s with
      | Some _ => Ok (false, limp s)
      | None =>
          let '(done, s) := handle_loadcell_readout s in
          if negb done then Ok (false, s)
          else if F32.ltb (Loadcell.get_stddev (loadcell s)) (F32.of_Z 1) then
            let s := assign_feed_bowl_pre (Loadcell.get_mean (loadcell s)) s in
            Ok (false, transition FEED_RUN_SYNC s)
          else if state_retries s <? 5 then Ok (false, transition (state s) s)
          else if feed_sensor_retries s <=? FEED_MAX_RETRIES then
            Ok (false, sensor_retry i s)
          else Ok (false, limp s)
      end

  | FEED_RUN_SYNC =>
      let fault s :=
        let s := assign_error_limit_switch true s in
        transition FEED_POST_WAIT s in
      if negb (error_limit_switch s) then
        if negb (limit i) then Ok (true, transition FEED_RUN_A s)
        else if millis_since_transition s <? FEED_RUN_TIMEOUT_MILLIS then Ok (true, s)
        else Ok (true, fault s)
      else
        if FEED_RUN_LIMP_MILLIS <? millis_since_transition s
        then Ok (true, transition FEED_POST_WAIT s)
        else Ok (true, s)

  | FEED_RUN_A =>
      if limit i && (50 <? millis_since_transition s) then
        Ok (true, transition FEED_RUN_B s)
      else if millis_since_transition s <? FEED_RUN_TIMEOUT_MILLIS then Ok (true, s)
      else
        let s := assign_error_limit_switch true s in
        Ok (true, transition FEED_POST_WAIT s)

  | FEED_RUN_B =>
      if negb (limit i) && (50 <? millis_since_transition s) then
        Ok (true, transition FEED_RUN_C s)
      else if millis_since_transition s <? FEED_RUN_TIMEOUT_MILLIS then Ok (true, s)
      else
        let s := assign_error_limit_switch true s in
        Ok (true, transition FEED_POST_WAIT s)

  | FEED_RUN_C =>
      if FEED_RUN_POST_MILLIS <? millis_since_transition s
      then Ok (true, transition FEED_POST_WAIT s)
      else Ok (true, s)

  | FEED_POST_WAIT =>
      if FEED_TO_MEASURE_MILLIS <? millis_since_transition s
      then Ok (false, transition FEED_POST_MEASURE_BOWL s)
      else Ok (false, s)

  | FEED_POST_MEASURE_BOWL =>
      let limp s :=
        let s := assign_error_bowl_stddev true s in
        transition FEED_POST_MEASURE_RESERVOIR s in
      match loadcell_limp_mode s with
      | Some _ => Ok (false, limp s)
      | None =>
          let '(done, s) := handle_loadcell_readout s in
          if negb done then Ok (false, s)
          else if F32.ltb (Loadcell.get_stddev (loadcell s)) (F32.of_Z 1) then
            let s := assign_feed_bowl_post (Loadcell.get_mean (loadcell s)) s in
            Ok (false, transition FEED_POST_MEASURE_RESERVOIR s)
          else if state_retries s <? 5 then Ok (false, transition (state s) s)
          else Ok (false, limp s)
      end

  | FEED_POST_MEASURE_RESERVOIR =>
      let limp s :=
        let s := assign_error_reservoir_stddev true s in
        s' <- complete_feed i s ;; Ok (false, s') in
      match loadcell_limp_mode s with
      | Some _ => limp s
      | None =>
          let '(done, s) := handle_loadcell_readout s in
          if negb done then Ok (false, s)
          else if F32.ltb (Loadcell.get_stddev (loadcell s)) (F32.of_Z 1) then
            let s := assign_feed_reservoir_post (Loadcell.get_mean (loadcell s)) s in
            s' <- complete_feed i s ;; Ok (false, s')
          else if state_retries s <? 5 then Ok (false, transition (state s) s)
          else limp s
      end
  end.

(** [millis() - update_prev_millis], read as an [int32_t] (lines 203-204). *)
Definition delta_millis_of (i : Inputs) (s : t) : Z :=
  to_int32 (uint32 (now i - update_prev_millis s)).

(** Lines 199-257 of [update()]: everything ahead of the [switch]. *)
Definition update_bookkeeping (fuel : nat) (i : Inputs) (s : t) : outcome t :=
  (* Update owned lower-level drivers. *)
  l <- Loadcell.update (hx711_is_ready i) (hx711_read i) (loadcell s) ;;
  let s := assign_loadcell l s in
  (* Figure out time delta. *)
  let current_millis := now i in
  let delta_millis := delta_millis_of i s in
  let s := assign_update_prev_millis current_millis s in
  (* Update deficit. *)
  s <- update_deficit fuel delta_millis s ;;
  (* Update MQTT status. *)
  let s := update_mqtt_status delta_millis s in
  (* Update regular timers. *)
  Ok (update_timers delta_millis s).

Definition update (fuel : nat) (i : Inputs) (s : t) : outcome t :=
  s <- update_bookkeeping fuel i s ;;
  (* Handle state machine. *)
  ms <- handle_state_machine i s ;;
  (* Update motor state. *)
  Ok (assign_pin_motor (fst ms) (snd ms)).

(** *** [get_state_report] *)

Record StateReport : Type := {
  header : string;
  detail1 : string;
  detail2 : string;
  large : bool
}.

(** What [snprintf] leaves in a buffer of 21 bytes: no more than 20
    characters of the text. *)
Definition snprintf21 (text : string) : string := substring 0 20 text.

(** The conversions [%d] and [%02d] of an [int]. *)
Definition decimal (z : Z) : string := NilZero.string_of_int (Z.to_int z).

Definition decimal02 (z : Z) : string :=
  if (0 <=? z) && (z <? 10) then ("0" ++ decimal z)%string else decimal z.

(** The loop of lines 631-634 with the terminator of line 634: ten
    characters, the first [progress] of them [#]. *)
Definition progress_bar (progress : Z) : string :=
  string_of_list_ascii
    (map (fun k => if Z.of_nat k <? progress then "#"%char else "-"%char)
       (seq 0 10)).

Section StateReports.

(** The conversions [%+7.1f] and [%6.1f] of the C library: [format_float
    plus width x] is the text of [x] with one decimal, padded to [width], with
    a sign on positive numbers if [plus]. *)
Variable format_float : bool -> nat -> F32.float -> string.

Definition details_maintenance (title : string) (s : t) : StateReport := {|
  header := title;
  detail1 := snprintf21 (format_float true 7 (reservoir_mean s) ++ "g +/-"
                         ++ format_float false 6 (reservoir_stddev s) ++ "g")%string;
  detail2 := snprintf21 (format_float true 7 (bowl_mean s) ++ "g +/-"
                         ++ format_float false 6 (bowl_stddev s) ++ "g")%string;
  large := false
|}.

Definition details_feeding (progress : Z) : StateReport := {|
  header := "Feeding";
  detail1 := progress_bar progress;
  detail2 := "";
  large := true
|}.

(** [get_state_report]; [current_millis] is the value of [millis()]. *)
Definition get_state_report (current_millis : Z) (s : t) : outcome StateReport :=
  match state s with
  | IDLE | IDLE_MEASURE_RESERVOIR | IDLE_MEASURE_BOWL =>
      if (match result (feed_report s) with SUCCESS => true | _ => false end)
         && (uint32 (current_millis - millis (feed_report s)) <? 10000)
      then
        Ok {| header := "Feed result";
              detail1 :=
                snprintf21
                  ("R " ++ format_float true 7 (feed_reservoir_pre s) ++ "g "
                   ++ format_float true 7
                        (F32.sub (feed_reservoir_post s) (feed_reservoir_pre s))
                   ++ "g")%string;
              detail2 :=
                snprintf21
                  ("B " ++ format_float true 7 (feed_bowl_pre s) ++ "g "
                   ++ format_float true 7
                        (F32.sub (feed_bowl_post s) (feed_bowl_pre s))
                   ++ "g")%string;
              large := false |}
      else
        match need_to_feed s with
        | BLOCKED_MAINTENANCE => Ok (details_maintenance "Maintenance" s)
        | BLOCKED_JAMMED =>
            Ok {| header := ""; detail1 := "JAMMED"; detail2 := "";
                  large := true |}
        | COOLDOWN =>
            let remain := uint32 (FEED_COOLDOWN_MILLIS - millis_since_feed_attempt s) in
            let text :=
              if remain <? FEED_COOLDOWN_MILLIS then
                let seconds := remain / 1000 in
                let minutes := seconds / 60 in
                let seconds := uint32 (seconds - uint32 (minutes * 60)) in
                snprintf21 (decimal (to_int32 minutes) ++ ":"
                            ++ decimal02 (to_int32 seconds))%string
              else "" in
            Ok {| header := "Cooldown"; detail1 := text; detail2 := "";
                  large := true |}
        | DEFICIT =>
            deficit <- int32 (deficit_mg s - deficit_threshold_mg s) ;;
            Ok {| header := "Deficit";
                  detail1 := snprintf21 (decimal deficit ++ "mg")%string;
                  detail2 := ""; large := true |}
        | NOT_BLOCKED => Ok (details_feeding 0)
        end
  | IDLE_TARE_RESERVOIR_WAIT | IDLE_TARE_RESERVOIR =>
      Ok (details_maintenance "Tare reservoir" s)
  | IDLE_TARE_BOWL => Ok (details_maintenance "Tare bowl" s)
  | FEED_PRE_MEASURE_WAIT => Ok (details_feeding 0)
  | FEED_PRE_MEASURE_RESERVOIR => Ok (details_feeding 1)
  | FEED_PRE_MEASURE_BOWL => Ok (details_feeding 2)
  | FEED_RUN_SYNC => Ok (details_feeding 3)
  | FEED_RUN_A => Ok (details_feeding 4)
  | FEED_RUN_B => Ok (details_feeding 5)
  | FEED_RUN_C => Ok (details_feeding 6)
  | FEED_POST_WAIT => Ok (details_feeding 7)
  | FEED_POST_MEASURE_BOWL => Ok (details_feeding 8)
  | FEED_POST_MEASURE_RESERVOIR => Ok (details_feeding 9)
  end.

End StateReports.

End StateMachine.

(** ** The user interface ([ui.h], [ui.cpp]) *)

Module UserInterface.

Local Open Scope string_scope.
Local Open Scope list_scope.
Local Open Scope Z_scope.

(** [size_t] and [uint8_t] of the target. *)
Definition size_t (z : Z) : Z := z mod 2 ^ 32.
Definition uint8 (z : Z) : Z := z mod 2 ^ 8.

(** The conversion to the [int16_t] coordinates of the display driver. *)
Definition to_int16 (z : Z) : Z := (z + 2 ^ 15) mod 2 ^ 16 - 2 ^ 15.

(** *** [class Button] *)

Module Button.

(** The member [state] after [begin()]. *)
Definition begin : Z := 0.

(** [update()]: the value it returns and the [state] it leaves; [low] is
    [digitalRead(pin) == LOW], the key being held down. *)
Definition update (low : bool) (state : Z) : bool * Z :=
  if low then (false, 3)
  else if negb (state =? 0) then
    let state := uint8 (state - 1) in
    if state =? 0 then (true, state) else (false, state)
  else (false, state).

End Button.

(** *** Drawing

    What is sent to the display driver: a filled rectangle, and a text, which
    stands for the calls [setCursor], [setTextColor], [setTextSize],
    [setTextWrap(false)] and [print] that draw it. *)
Inductive DrawOp : Type :=
| FillRect (x y w h : Z) (color : Z)
| Text (x y : Z) (color bg : Z) (scale : Z) (buffer : string).

(** [render_line]; the three colours are those of the members [color_fg],
    [color_gr] and [color_bg]. *)
Definition render_line (color_fg color_gr color_bg : Z)
    (y : Z) (buffer : string) (scale : Z) (grayed : bool) : list DrawOp :=
  let w := size_t (size_t (Z.of_nat (String.length buffer) * 6) * scale) in
  let h := size_t (8 * scale) in
  let w := if 240 <? w then 240 else w in
  let x := size_t (240 - w) / 2 in
  let r := size_t (size_t (240 - x) - w) in
  (if negb (x =? 0)
   then [FillRect 0 (to_int16 y) (to_int16 x) (to_int16 h) color_bg] else [])
  ++ (if negb (r =? 0)
      then [FillRect (to_int16 (size_t (x + w))) (to_int16 y) (to_int16 r)
              (to_int16 h) color_bg]
      else [])
  ++ (if w =? 0 then []
      else [Text (to_int16 x) (to_int16 y)
              (if grayed then color_gr else color_fg) color_bg
              (uint8 scale) buffer]).

End UserInterface.

(** * Vocabulary of the properties *)

Import StateMachine.

Local Open Scope string_scope.
Local Open Scope list_scope.
Local Open Scope Z_scope.

(** ** Runs *)

(** The calls of the command surface, and [update()]. *)
Inductive Call : Type :=
| CallUpdate (fuel : nat) (i : Inputs)
| CallFeed
| CallReset
| CallEnterMaintenance
| CallTareReservoir
| CallTareBowl
| CallAdjustDeficit (milligrams : Z)
| CallSetGramsPerDay (new_grams_per_day : Z).

Definition call (c : Call) (s : t) : outcome t :=
  match c with
  | CallUpdate fuel i => update fuel i s
  | CallFeed => Ok (feed s)
  | CallReset => Ok (reset s)
  | CallEnterMaintenance => Ok (enter_maintenance s)
  | CallTareReservoir => Ok (tare_reservoir s)
  | CallTareBowl => Ok (tare_bowl s)
  | CallAdjustDeficit mg => adjust_deficit mg s
  | CallSetGramsPerDay g => Ok (set_grams_per_day g s)
  end.

Fixpoint run (calls : list Call) (s : t) : outcome t :=
  match calls with
  | [] => Ok s
  | c :: calls' => s' <- call c s ;; run calls' s'
  end.

(** The calls that run [error_reset]. *)
Definition clears_errors (c : Call) : bool :=
  match c with
  | CallReset | CallEnterMaintenance => true
  | _ => false
  end.

(** The states after each call of a run of [update()] calls. *)
Fixpoint run_updates (ticks : list (nat * Inputs)) (s : t) : outcome (list t) :=
  match ticks with
  | [] => Ok []
  | (fuel, i) :: ticks' =>
      s' <- update fuel i s ;;
      trace <- run_updates ticks' s' ;;
      Ok (s' :: trace)
  end.

(** Feeding a sampling session one reading per pass, the converter being
    ready each time. *)
Fixpoint take_readings (readings : list Z) (l : Loadcell.t) : outcome Loadcell.t :=
  match readings with
  | [] => Ok l
  | raw :: readings' =>
      l' <- Loadcell.update true raw l ;; take_readings readings' l'
  end.

(** The state a call leaves, for calls known to return. *)
Definition returned (o : outcome t) : t :=
  match o with Ok s => s | _ => init end.

(** ** The sampler *)

Definition sum_samples (a : list Z) : Z := fold_right Z.add 0 a.

(** A reading as the 32-bit [long] that [hx711.read()] returns. *)
Definition is_int32 (z : Z) : Prop := INT32_MIN <= z <= INT32_MAX.

(** ** The error report *)

Definition any_loadcell_limp_flag (s : t) : bool :=
  error_loadcell_timeout s || error_reservoir_stddev s || error_bowl_stddev s
  || error_loadcell_disagree s || error_loadcell_unreasonable s.

(** The conditions of the specification, most severe first, each with the
    report it stands for. *)
Definition error_conditions (s : t) : list (bool * ErrorReport) :=
  [ (error_limit_switch s,
     {| message := Some "Motor timeout"; severity := ERROR |});
    (any_loadcell_limp_flag s,
     {| message := loadcell_limp_mode s; severity := ERROR |});
    (error_power_loss s,
     {| message := Some "Power loss"; severity := ERROR |});
    (match maintenance_mode s with JAMMED => true | _ => false end,
     {| message := Some "Jammed/empty"; severity := ERROR |});
    (negb (feed_jammed_retries s =? 0),
     {| message := Some "Jammed/empty?"; severity := WARNING |});
    (F32.ltb (reservoir_mean s) (F32.of_Z 250),
     {| message := Some "Reservoir low"; severity := WARNING |}) ].

Definition okay_report : ErrorReport := {| message := None; severity := OKAY |}.

(** The report of the first condition that holds. *)
Fixpoint first_match (l : list (bool * ErrorReport)) : ErrorReport :=
  match l with
  | [] => okay_report
  | (c, r) :: l' => if c then r else first_match l'
  end.

Definition none_holds (l : list (bool * ErrorReport)) : bool :=
  forallb (fun x => negb (fst x)) l.

(** ** The deficit account *)

(** The countdown is replenished by [86400 / grams_per_day] milliseconds per
    milligram: a day has 86 400 000 ms and [grams_per_day] grams are
    [1000 * grams_per_day] milligrams. *)
Definition deficit_period (s : t) : Z := Z.quot 86400 (grams_per_day s).

(** The number of passes a negative countdown needs. *)
Definition accrual_count (remain period : Z) : Z :=
  if remain <? 0 then (period - 1 - remain) / period else 0.

(** [accrues period delta s s1]: from [s] to [s1] the countdown lost [delta]
    milliseconds, and then as many passes as it took to make it non-negative
    each added one milligram and [period] milliseconds. *)
Definition accrues (period delta : Z) (s s1 : t) : Prop :=
  exists n : nat,
    deficit_mg s1 = deficit_mg s + Z.of_nat n
    /\ deficit_ms_remain s1 = deficit_ms_remain s - delta + Z.of_nat n * period
    /\ 0 <= deficit_ms_remain s1
    /\ (forall k : nat, (k < n)%nat ->
          deficit_ms_remain s - delta + Z.of_nat k * period < 0).

(** [feed_completed a b]: the call of [update()] that led from [a] to [b]
    found the machine in the last weighing of a feed cycle and left it in
    [IDLE]; these are the calls that run [complete_feed]. *)
Definition feed_completed (a b : t) : bool :=
  match state a, state b with
  | FEED_POST_MEASURE_RESERVOIR, IDLE => true
  | _, _ => false
  end.

(** [completes_feed i s1 b]: the [switch] of a call of [update()] that stood
    at [s1] after its bookkeeping ran [complete_feed] and the call left [b].
    [s0] is the state on entry to [complete_feed], with the deficit of [s1],
    and [mg] the dispensed weight it computed, in whole milligrams: the
    deficit of [b] is that of [s1] less [mg], and [mg] is the number in the
    Success feed report. *)
Definition completes_feed (i : Inputs) (s1 b : t) : Prop :=
  exists s0 b0 mg,
    deficit_mg s0 = deficit_mg s1
    /\ complete_feed i s0 = Ok b0
    /\ b = assign_pin_motor false b0
    /\ F32.to_int
         (F32.mul (fst (estimate_dispensed_weight_grams s0)) (F32.of_Z 1000))
       = Ok mg
    /\ deficit_mg b = deficit_mg s1 - mg
    /\ feed_report b = {| result := SUCCESS; arg := mg; millis := now_report i |}.

(** ** Jam escalation and cooldown *)


(** The feed-attempt timer after a run of calls, from the [millis()] value
    [prev] of the call before and the timer value [timer] it left. *)
Fixpoint timer_after (ticks : list (nat * Inputs)) (prev timer : Z) : Z :=
  match ticks with
  | [] => timer
  | (_, i) :: ticks' =>
      timer_after ticks' (now i)
        (uint32 (timer + to_int32 (uint32 (now i - prev))))
  end.

(** [cooling_down_after i s']: in every run of [update()] calls from [s'],
    the state left by the call with input [i], and for as long as the
    feed-attempt timer has stayed short of the cooldown, no feed cycle has
    begun, the timer holds the time elapsed since [s'], and [need_to_feed]
    blocks, with reason Cooldown when the mode is Operational and the deficit
    has reached the threshold. *)
Definition cooling_down_after (i : Inputs) (s' : t) : Prop :=
  forall (ticks : list (nat * Inputs)) (trace : list t) (k : nat) (u : t),
    run_updates ticks s' = Ok trace ->
    nth_error trace k = Some u ->
    (forall (j : nat) (v : t), (j <= k)%nat -> nth_error trace j = Some v ->
       millis_since_feed_attempt v < FEED_COOLDOWN_MILLIS) ->
    is_feeding (state u) = false
    /\ millis_since_feed_attempt u = timer_after (firstn (S k) ticks) (now i) 0
    /\ need_to_feed u <> NOT_BLOCKED
    /\ (maintenance_mode u = OPERATIONAL ->
        deficit_threshold_mg u <= deficit_mg u ->
        need_to_feed u = COOLDOWN).

(** ** Frames

    What a part of [update()] leaves as it was. *)

(** [same_books a b]: the deficit account, the feeding rate and the power-loss
    flag are the same in [a] and [b]. *)
Record same_books (a b : t) : Prop := {
  books_mg : deficit_mg b = deficit_mg a;
  books_ms : deficit_ms_remain b = deficit_ms_remain a;
  books_threshold : deficit_threshold_mg b = deficit_threshold_mg a;
  books_rate : grams_per_day b = grams_per_day a;
  books_power : error_power_loss b = error_power_loss a
}.

(** [same_schedule a b]: what [need_to_feed] looks at, and the time of the
    last call, are the same in [a] and [b]. *)
Record same_schedule (a b : t) : Prop := {
  sch_mode : maintenance_mode b = maintenance_mode a;
  sch_mg : deficit_mg b = deficit_mg a;
  sch_threshold : deficit_threshold_mg b = deficit_threshold_mg a;
  sch_attempt : millis_since_feed_attempt b = millis_since_feed_attempt a;
  sch_prev : update_prev_millis b = update_prev_millis a
}.

(** What the bookkeeping of [update()] leaves as it was, and how it moves the
    timers. *)
Record bookkeeping_frame (i : Inputs) (s s1 : t) : Prop := {
  bk_state : state s1 = state s;
  bk_mode : maintenance_mode s1 = maintenance_mode s;
  bk_reservoir_stddev : error_reservoir_stddev s1 = error_reservoir_stddev s;
  bk_bowl_stddev : error_bowl_stddev s1 = error_bowl_stddev s;
  bk_timeout : error_loadcell_timeout s1 = error_loadcell_timeout s;
  bk_disagree : error_loadcell_disagree s1 = error_loadcell_disagree s;
  bk_unreasonable : error_loadcell_unreasonable s1 = error_loadcell_unreasonable s;
  bk_limit_switch : error_limit_switch s1 = error_limit_switch s;
  bk_state_retries : state_retries s1 = state_retries s;
  bk_sensor_retries : feed_sensor_retries s1 = feed_sensor_retries s;
  bk_jammed_retries : feed_jammed_retries s1 = feed_jammed_retries s;
  bk_since_transition :
    millis_since_transition s1
    = uint32 (millis_since_transition s + delta_millis_of i s);
  bk_since_feed_attempt :
    millis_since_feed_attempt s1
    = uint32 (millis_since_feed_attempt s + delta_millis_of i s);
  bk_feed_report : feed_report s1 = feed_report s
}.

(** What [handle_loadcell_readout] leaves as it was. *)
Record readout_frame (s s2 : t) : Prop := {
  rf_loadcell : loadcell s2 = loadcell s;
  rf_state : state s2 = state s;
  rf_state_retries : state_retries s2 = state_retries s;
  rf_sensor_retries : feed_sensor_retries s2 = feed_sensor_retries s;
  rf_feed_report : feed_report s2 = feed_report s;
  rf_prev : update_prev_millis s2 = update_prev_millis s
}.

(** ** Sample inputs and states *)

(** A pass of [loop()] one millisecond after [begin()], the converter not
    ready and the limit switch released. *)
Definition first_tick : Inputs := {|
  hx711_is_ready := false;
  hx711_read := 0;
  now := 1;
  now_report := 1;
  limit := false
|}.

(** The same pass with the limit switch asserted. *)
Definition tick_limit_asserted : Inputs := {|
  hx711_is_ready := false;
  hx711_read := 0;
  now := 1;
  now_report := 1;
  limit := true
|}.

(** A rate above 86400 grams per day makes the period zero. *)
Definition fast_rate : t := set_grams_per_day 86401 (begin 0 init).

(** An idle sampler whose last reading of the reservoir gave [mean] grams
    with a standard deviation of [stddev] grams. *)
Definition reservoir_read (mean stddev : F32.float) : Loadcell.t := {|
  Loadcell.hx711_gain := 128;
  Loadcell.samples_remaining := 0;
  Loadcell.sensor := Loadcell.RESERVOIR;
  Loadcell.apply_tare := false;
  Loadcell.samples := Loadcell.samples Loadcell.init;
  Loadcell.tare_reservoir := -754589;
  Loadcell.tare_bowl := 31485;
  Loadcell.mean := mean;
  Loadcell.stddev := stddev;
  Loadcell.mean_raw := 0
|}.

(** A feed cycle about to end: the reservoir went from 500 g to 491 g, the
    bowl from 10 g to 19 g, the last reading is in and it is quiet (0.25 g);
    the deficit stands at 10 g. *)
Definition feed_ending : t :=
  let s := begin 0 init in
  let s := assign_loadcell (reservoir_read (F32.of_Z 491) (F32.of_scaled 1 (-2))) s in
  let s := assign_state FEED_POST_MEASURE_RESERVOIR s in
  let s := assign_error_power_loss false s in
  let s := assign_feed_reservoir_pre (F32.of_Z 500) s in
  let s := assign_feed_bowl_pre (F32.of_Z 10) s in
  let s := assign_feed_bowl_post (F32.of_Z 19) s in
  let s := assign_millis_since_transition 700 s in
  assign_deficit_mg 10000 s.

(** The motor has been in [FEED_RUN_SYNC] for 2999 ms with no fault on
    record. *)
Definition sync_timing_out : t :=
  let s := begin 0 init in
  let s := assign_state FEED_RUN_SYNC s in
  assign_millis_since_transition 2999 s.

(** No load-cell flag is raised, the reservoir went from 500 g to 491 g and
    the bowl from 10 g to 10.5 g. *)
Definition sensors_disagreeing : t :=
  let s := begin 0 init in
  let s := assign_feed_reservoir_pre (F32.of_Z 500) s in
  let s := assign_feed_reservoir_post (F32.of_Z 491) s in
  let s := assign_feed_bowl_pre (F32.of_Z 10) s in
  assign_feed_bowl_post (F32.of_scaled 21 (-1)) s.



(** The pre-feed reading of the reservoir is in and still noisy (2 g) on the
    sixth try in the state, after [retries] aborted cycles, in maintenance
    mode [mode]; the last feed attempt was 15 minutes ago. *)
Definition noisy_reading (retries : Z) (mode : MaintenanceMode) : t :=
  let s := begin 0 init in
  let s := assign_loadcell (reservoir_read (F32.of_Z 500) (F32.of_Z 2)) s in
  let s := assign_state FEED_PRE_MEASURE_RESERVOIR s in
  let s := assign_maintenance_mode mode s in
  let s := assign_millis_since_transition 400 s in
  let s := assign_millis_since_feed_attempt 900000 s in
  let s := assign_state_retries 5 s in
  assign_feed_sensor_retries retries s.

(** ** Sampling sessions *)

(** A reading of the HX711, a 24-bit converter. *)
Definition is_reading (z : Z) : Prop := - 2 ^ 23 <= z < 2 ^ 23.

Definition tare_of (sn : Loadcell.Sensor) (l : Loadcell.t) : Z :=
  match sn with
  | Loadcell.RESERVOIR => Loadcell.tare_reservoir l
  | Loadcell.BOWL => Loadcell.tare_bowl l
  end.

Definition gain_of (sn : Loadcell.Sensor) : F32.float :=
  match sn with
  | Loadcell.RESERVOIR => Loadcell.GAIN_RESERVOIR
  | Loadcell.BOWL => Loadcell.GAIN_BOWL
  end.

Definition other_sensor (sn : Loadcell.Sensor) : Loadcell.Sensor :=
  match sn with
  | Loadcell.RESERVOIR => Loadcell.BOWL
  | Loadcell.BOWL => Loadcell.RESERVOIR
  end.

(** [l] in the middle of a session, with [n] samples to go and the buffer
    [buf]. *)
Definition sampling (l : Loadcell.t) (n : Z) (buf : list Z) : Loadcell.t := {|
  Loadcell.hx711_gain := Loadcell.hx711_gain l;
  Loadcell.samples_remaining := n;
  Loadcell.sensor := Loadcell.sensor l;
  Loadcell.apply_tare := Loadcell.apply_tare l;
  Loadcell.samples := buf;
  Loadcell.tare_reservoir := Loadcell.tare_reservoir l;
  Loadcell.tare_bowl := Loadcell.tare_bowl l;
  Loadcell.mean := Loadcell.mean l;
  Loadcell.stddev := Loadcell.stddev l;
  Loadcell.mean_raw := Loadcell.mean_raw l
|}.

(** The sampler has its 32-sample buffer and a tare for [sn] that is either
    unset or of a size a 24-bit reading can be compared with. *)
Definition sampler_ready (sn : Loadcell.Sensor) (l : Loadcell.t) : Prop :=
  List.length (Loadcell.samples l) = 32%nat
  /\ (tare_of sn l = INT32_MIN \/ - 2 ^ 30 <= tare_of sn l <= 2 ^ 30).

(** The sum of the squared deviations of the samples [a] from [m]. *)
Definition sum_sqdev (m : Z) (a : list Z) : Z :=
  fold_right (fun x acc => (x - m) * (x - m) + acc) 0 a.

(** Whether the session that is running on [l] ends by taking the tare. *)
Definition captures_tare (l : Loadcell.t) : bool :=
  Loadcell.apply_tare l || (tare_of (Loadcell.sensor l) l =? INT32_MIN).

(** The raw mean of a full buffer, in closed form. *)
Definition session_mean_raw (buf : list Z) : Z := Z.quot (16 + sum_samples buf) 32.

(** The sampler a session leaves behind when it ends with the buffer [buf],
    in closed form. *)
Definition session_result (l : Loadcell.t) (buf : list Z) : Loadcell.t :=
  let sn := Loadcell.sensor l in
  let m := session_mean_raw buf in
  let tare := if captures_tare l then m else tare_of sn l in
  {| Loadcell.hx711_gain := Loadcell.hx711_gain l;
     Loadcell.samples_remaining := 0;
     Loadcell.sensor := sn;
     Loadcell.apply_tare := Loadcell.apply_tare l;
     Loadcell.samples := buf;
     Loadcell.tare_reservoir :=
       match sn with
       | Loadcell.RESERVOIR => tare
       | Loadcell.BOWL => Loadcell.tare_reservoir l
       end;
     Loadcell.tare_bowl :=
       match sn with
       | Loadcell.RESERVOIR => Loadcell.tare_bowl l
       | Loadcell.BOWL => tare
       end;
     Loadcell.mean := F32.mul (F32.of_Z (m - tare)) (gain_of sn);
     Loadcell.stddev :=
       F32.mul
         (F32.sqrt (F32.div (F32.of_Z (16 + sum_sqdev m buf)) (F32.of_Z 32)))
         (F32.abs (gain_of sn));
     Loadcell.mean_raw := m |}.

(** A run of passes of [Loadcell::update()]: for each pass, whether the
    converter is ready and what it would read. *)
Fixpoint run_sampler (passes : list (bool * Z)) (l : Loadcell.t) : outcome Loadcell.t :=
  match passes with
  | [] => Ok l
  | (ready, raw) :: passes' =>
      l' <- Loadcell.update ready raw l ;; run_sampler passes' l'
  end.

(** The readings taken in a run of passes: those of the passes in which the
    converter is ready. *)
Definition ready_readings (passes : list (bool * Z)) : list Z :=
  map snd (filter fst passes).

(** The least standard deviation the sampler reports, in raw units: the
    square root of one half. *)
Definition stddev_floor : F32.float := F32.sqrt (F32.of_scaled 1 (-1)).

(** A session of 32 readings around 8000, with a pass in which the converter
    is not ready ahead of them and a reading too many after them. *)
Definition sample_readings : list Z := map (fun k => 8000 + Z.of_nat k) (seq 0 32).

Definition sample_passes : list (bool * Z) :=
  (false, 0) :: map (fun r => (true, r)) sample_readings ++ [(true, 99)].

(** The sign of the zero that a taring session of [sn] reports: the gain of
    the reservoir is negative. *)
Definition tared_mean (sn : Loadcell.Sensor) : F32.float :=
  match sn with
  | Loadcell.RESERVOIR => S754_zero true
  | Loadcell.BOWL => S754_zero false
  end.

(** ** The feed cycle *)

(** The states in which [update()] drives the motor. *)
Definition drives_motor (st : State) : bool :=
  match st with
  | FEED_RUN_SYNC | FEED_RUN_A | FEED_RUN_B | FEED_RUN_C => true
  | _ => false
  end.

(** The states in which [update()] waits for a sampling session. *)
Definition measures (st : State) : bool :=
  match st with
  | IDLE_TARE_RESERVOIR | IDLE_TARE_BOWL | IDLE_MEASURE_RESERVOIR
  | IDLE_MEASURE_BOWL | FEED_PRE_MEASURE_RESERVOIR | FEED_PRE_MEASURE_BOWL
  | FEED_POST_MEASURE_BOWL | FEED_POST_MEASURE_RESERVOIR => true
  | _ => false
  end.

(** The states that [update()] can move to from [st]. *)
Definition successors (st : State) : list State :=
  match st with
  | IDLE => [FEED_PRE_MEASURE_WAIT; IDLE_MEASURE_RESERVOIR; IDLE_MEASURE_BOWL]
  | IDLE_TARE_RESERVOIR_WAIT => [IDLE_TARE_RESERVOIR]
  | IDLE_TARE_RESERVOIR | IDLE_TARE_BOWL
  | IDLE_MEASURE_RESERVOIR | IDLE_MEASURE_BOWL => [IDLE]
  | FEED_PRE_MEASURE_WAIT => [FEED_PRE_MEASURE_RESERVOIR]
  | FEED_PRE_MEASURE_RESERVOIR => [FEED_PRE_MEASURE_BOWL; IDLE]
  | FEED_PRE_MEASURE_BOWL => [FEED_RUN_SYNC; IDLE]
  | FEED_RUN_SYNC => [FEED_RUN_A; FEED_POST_WAIT]
  | FEED_RUN_A => [FEED_RUN_B; FEED_POST_WAIT]
  | FEED_RUN_B => [FEED_RUN_C; FEED_POST_WAIT]
  | FEED_RUN_C => [FEED_POST_WAIT]
  | FEED_POST_WAIT => [FEED_POST_MEASURE_BOWL]
  | FEED_POST_MEASURE_BOWL => [FEED_POST_MEASURE_RESERVOIR]
  | FEED_POST_MEASURE_RESERVOIR => [IDLE]
  end.

(** The level of the motor pin after the call [c] made in the state [s]. *)
Definition motor_after (c : Call) (s : t) : bool :=
  match c with
  | CallUpdate _ _ => drives_motor (state s)
  | _ => pin_motor s
  end.

(** The time the machine has spent in its state, as the call of [update()]
    made with [i] in the state [s] sees it. *)
Definition time_in_state (i : Inputs) (s : t) : Z :=
  uint32 (millis_since_transition s + delta_millis_of i s).

(** The time in a state after which [update()] no longer leaves the machine
    in it; [IDLE] has none. *)
Definition deadline (st : State) : option Z :=
  match st with
  | IDLE => None
  | IDLE_TARE_RESERVOIR_WAIT | FEED_PRE_MEASURE_WAIT => Some 2000
  | FEED_RUN_SYNC | FEED_RUN_A | FEED_RUN_B => Some (FEED_RUN_TIMEOUT_MILLIS - 1)
  | FEED_RUN_C => Some FEED_RUN_POST_MILLIS
  | FEED_POST_WAIT => Some FEED_TO_MEASURE_MILLIS
  | IDLE_TARE_RESERVOIR | IDLE_TARE_BOWL | IDLE_MEASURE_RESERVOIR
  | IDLE_MEASURE_BOWL | FEED_PRE_MEASURE_RESERVOIR | FEED_PRE_MEASURE_BOWL
  | FEED_POST_MEASURE_BOWL | FEED_POST_MEASURE_RESERVOIR => Some 10000
  end.

(** The level of the limit switch that a run state waits for: released
    ([false]) to leave the sync phase and phase B, asserted to leave
    phase A. *)
Definition awaited_switch (st : State) : option bool :=
  match st with
  | FEED_RUN_SYNC | FEED_RUN_B => Some false
  | FEED_RUN_A => Some true
  | _ => None
  end.

(** The switch has not reached the awaited level, [elapsed] milliseconds
    into the state [st], and the run has timed out. *)
Definition switch_overdue (st : State) (level : bool) (elapsed : Z) : bool :=
  match awaited_switch st with
  | Some awaited =>
      negb (Bool.eqb level awaited) && (FEED_RUN_TIMEOUT_MILLIS <=? elapsed)
  | None => false
  end.

(** The feed-attempt timer as the call of [update()] made with [i] in the
    state [s] sees it. *)
Definition feed_attempt_timer (i : Inputs) (s : t) : Z :=
  uint32 (millis_since_feed_attempt s + delta_millis_of i s).

(** Idle after start-up, with the last feed attempt five minutes ago. *)
Definition cooled_down : t :=
  assign_millis_since_feed_attempt 300000 (begin 0 init).

(** Idle and jammed, with the last feed attempt five minutes ago. *)
Definition jammed_idle : t := assign_maintenance_mode JAMMED cooled_down.

(** ** Error flags *)

(** [flags_stay_raised a b]: every error flag that is raised in [a] is raised
    in [b]. *)
Record flags_stay_raised (a b : t) : Prop := {
  raised_reservoir_stddev :
    error_reservoir_stddev a = true -> error_reservoir_stddev b = true;
  raised_bowl_stddev :
    error_bowl_stddev a = true -> error_bowl_stddev b = true;
  raised_loadcell_timeout :
    error_loadcell_timeout a = true -> error_loadcell_timeout b = true;
  raised_loadcell_disagree :
    error_loadcell_disagree a = true -> error_loadcell_disagree b = true;
  raised_loadcell_unreasonable :
    error_loadcell_unreasonable a = true -> error_loadcell_unreasonable b = true;
  raised_limit_switch :
    error_limit_switch a = true -> error_limit_switch b = true;
  raised_power_loss :
    error_power_loss a = true -> error_power_loss b = true
}.

(** [same_flags a b]: the error flags are the same in [a] and [b]. *)
Record same_flags (a b : t) : Prop := {
  flag_reservoir_stddev : error_reservoir_stddev b = error_reservoir_stddev a;
  flag_bowl_stddev : error_bowl_stddev b = error_bowl_stddev a;
  flag_loadcell_timeout : error_loadcell_timeout b = error_loadcell_timeout a;
  flag_loadcell_disagree : error_loadcell_disagree b = error_loadcell_disagree a;
  flag_loadcell_unreasonable :
    error_loadcell_unreasonable b = error_loadcell_unreasonable a;
  flag_limit_switch : error_limit_switch b = error_limit_switch a;
  flag_power_loss : error_power_loss b = error_power_loss a
}.

(** The motor has run into the limit-switch timeout, a reading has timed out
    and a manual feed is under way. *)
Definition faulty : t :=
  let s := begin 0 init in
  let s := assign_error_limit_switch true s in
  let s := assign_error_loadcell_timeout true s in
  feed s.

(** ** Published weights and feed reports *)

(** [same_weights a b]: the weights on display are the same in [a] and
    [b]. *)
Record same_weights (a b : t) : Prop := {
  wt_reservoir_mean : reservoir_mean b = reservoir_mean a;
  wt_reservoir_stddev : reservoir_stddev b = reservoir_stddev a;
  wt_bowl_mean : bowl_mean b = bowl_mean a;
  wt_bowl_stddev : bowl_stddev b = bowl_stddev a
}.

(** [same_attempt a b]: the feed report and the feed-attempt timer are the
    same in [a] and [b]. *)
Record same_attempt (a b : t) : Prop := {
  att_report : feed_report b = feed_report a;
  att_timer : millis_since_feed_attempt b = millis_since_feed_attempt a
}.

(** A call that leads from the state [a] to the state [b] ends a feed
    cycle. *)
Definition ends_cycle (a b : State) : bool := is_feeding a && negb (is_feeding b).

(** The result that the end of a feed cycle reports: only the last state of
    the cycle ends it with success. *)
Definition cycle_result (st : State) : FeedResult :=
  match st with
  | FEED_POST_MEASURE_RESERVOIR => SUCCESS
  | _ => SENSOR_RETRY
  end.

(** ** Limp mode *)

(** The weight that a feed cycle books when the load cells cannot be
    trusted, in milligrams. *)
Definition assumed_weight_mg : Z := 9000.

(** The four weighings of a feed cycle. *)
Definition weighs_feed (st : State) : bool := measures st && is_feeding st.

(** The state after a weighing of the feed cycle. *)
Definition after_weighing (st : State) : State :=
  match st with
  | FEED_PRE_MEASURE_RESERVOIR => FEED_PRE_MEASURE_BOWL
  | FEED_PRE_MEASURE_BOWL => FEED_RUN_SYNC
  | FEED_POST_MEASURE_BOWL => FEED_POST_MEASURE_RESERVOIR
  | _ => IDLE
  end.

(** The noise flag of the sensor that the state [st] weighs. *)
Definition noise_flag (st : State) (s : t) : bool :=
  match st with
  | FEED_PRE_MEASURE_BOWL | FEED_POST_MEASURE_BOWL => error_bowl_stddev s
  | _ => error_reservoir_stddev s
  end.

(** The last weighing of a feed cycle is due, a reading has timed out
    before, and the machine is jammed with a deficit of 10 g. *)
Definition limping : t :=
  let s := begin 0 init in
  let s := assign_error_loadcell_timeout true s in
  let s := assign_maintenance_mode JAMMED s in
  let s := assign_feed_jammed_retries 3 s in
  let s := assign_deficit_mg 10000 s in
  assign_state FEED_POST_MEASURE_RESERVOIR s.

(** ** The length of a feed cycle *)

(** The place of a state in the feed cycle; the states outside it come
    last. *)
Definition phase (st : State) : Z :=
  match st with
  | FEED_PRE_MEASURE_WAIT => 0
  | FEED_PRE_MEASURE_RESERVOIR => 1
  | FEED_PRE_MEASURE_BOWL => 2
  | FEED_RUN_SYNC => 3
  | FEED_RUN_A => 4
  | FEED_RUN_B => 5
  | FEED_RUN_C => 6
  | FEED_POST_WAIT => 7
  | FEED_POST_MEASURE_BOWL => 8
  | FEED_POST_MEASURE_RESERVOIR => 9
  | _ => 10
  end.

(** An upper bound on the number of calls of [update()] that a feed cycle
    still takes from [s], the clock advancing between the calls: a state is
    held for at most 10 s, a weighing is tried at most six times, and there
    are ten states to the cycle. *)
Definition cycle_budget (s : t) : Z :=
  (9 - phase (state s)) * 60012
  + (5 - Z.min 5 (state_retries s)) * 10002
  + (10001 - millis_since_transition s).

(** ** Keys and display *)

(** The state of a key after the passes [samples], oldest first, each telling
    whether the key was held down, since [begin()]. *)
Definition key_state (samples : list bool) : Z :=
  fold_left (fun st low => snd (UserInterface.Button.update low st)) samples
    UserInterface.Button.begin.

(** Whether the pass that follows the passes [samples] and reads [low]
    reports a press. *)
Definition key_event (samples : list bool) (low : bool) : bool :=
  fst (UserInterface.Button.update low (key_state samples)).

(** The pixel columns that a drawing operation paints: the first one and
    their number.  A character cell of the display font is 6 pixels wide and
    8 high, times the text size. *)
Definition columns (op : UserInterface.DrawOp) : Z * Z :=
  match op with
  | UserInterface.FillRect x _ w _ _ => (x, w)
  | UserInterface.Text x _ _ _ scale buffer =>
      (x, 6 * scale * Z.of_nat (String.length buffer))
  end.

(** The pixel rows that a drawing operation paints. *)
Definition rows (op : UserInterface.DrawOp) : Z * Z :=
  match op with
  | UserInterface.FillRect _ y _ h _ => (y, h)
  | UserInterface.Text _ y _ _ scale _ => (y, 8 * scale)
  end.

Definition paints (col : Z) (op : UserInterface.DrawOp) : bool :=
  (fst (columns op) <=? col) && (col <? fst (columns op) + snd (columns op)).

(** ** The state report *)

(** A bar of ten characters of which the first [p] are [#]. *)
Definition bar (p : nat) : string :=
  string_of_list_ascii (repeat "#"%char p ++ repeat "-"%char (10 - p)).

(** The idle states, in which the display tells why no feed cycle runs. *)
Definition shows_idle (st : State) : bool :=
  match st with
  | IDLE | IDLE_MEASURE_RESERVOIR | IDLE_MEASURE_BOWL => true
  | _ => false
  end.

(** The last feed ended with success less than ten seconds before
    [current_millis]. *)
Definition fresh_success (current_millis : Z) (s : t) : bool :=
  match result (feed_report s) with
  | SUCCESS => uint32 (current_millis - millis (feed_report s)) <? 10000
  | _ => false
  end.

(** The text of a time of [seconds] seconds, minutes and two digits of
    seconds. *)
Definition clock_text (seconds : Z) : string :=
  (decimal (seconds / 60) ++ ":" ++ decimal02 (seconds mod 60))%string.

(** The conversions of floats that the state report needs play no part in
    the properties below; this one prints nothing. *)
Definition no_floats (plus : bool) (width : nat) (x : F32.float) : string := "".

(** Idle and cooling down, 100 s after a feed attempt. *)
Definition cooling : t :=
  let s := assign_deficit_mg 5 (begin 0 init) in
  assign_millis_since_feed_attempt 100000 s.

(** ** Idle measurements *)

(** The sampling session that the transition to [st] starts, for the states
    that measure or tare outside a feed cycle: the sensor, and whether the
    tare is taken. *)
Definition idle_session (st : State) : option (Loadcell.Sensor * bool) :=
  match st with
  | IDLE_MEASURE_RESERVOIR => Some (Loadcell.RESERVOIR, false)
  | IDLE_MEASURE_BOWL => Some (Loadcell.BOWL, false)
  | IDLE_TARE_RESERVOIR => Some (Loadcell.RESERVOIR, true)
  | IDLE_TARE_BOWL => Some (Loadcell.BOWL, true)
  | _ => None
  end.

(** What the converter delivers in the calls of a run. *)
Definition passes_of (ticks : list (nat * Inputs)) : list (bool * Z) :=
  map (fun tick => (hx711_is_ready (snd tick), hx711_read (snd tick))) ticks.

(** The published weight of a sensor, its deviation, and the time since it
    was read. *)
Definition published_mean (sn : Loadcell.Sensor) (s : t) : F32.float :=
  match sn with
  | Loadcell.RESERVOIR => reservoir_mean s
  | Loadcell.BOWL => bowl_mean s
  end.

Definition published_stddev (sn : Loadcell.Sensor) (s : t) : F32.float :=
  match sn with
  | Loadcell.RESERVOIR => reservoir_stddev s
  | Loadcell.BOWL => bowl_stddev s
  end.

Definition millis_since_read (sn : Loadcell.Sensor) (s : t) : Z :=
  match sn with
  | Loadcell.RESERVOIR => millis_since_reservoir_read s
  | Loadcell.BOWL => millis_since_bowl_read s
  end.

(** The trace of a run of [update()] calls that is known to return. *)
Definition traced (ticks : list (nat * Inputs)) (s : t) : list t :=
  match run_updates ticks s with Ok trace => trace | _ => [] end.

(** A pass in which the converter is ready and reads [raw]; the clock stands
    at 1 ms. *)
Definition reading (raw : Z) : nat * Inputs :=
  (5%nat, {| hx711_is_ready := true; hx711_read := raw; now := 1;
             now_report := 1; limit := false |}).

(** The bowl is being tared at start-up. *)
Definition taring_bowl : t := tare_bowl (begin 0 init).

(** The calls of [update()] that take the first 31 of the sample readings,
    and the call that takes the last. *)
Definition taring_run : list (nat * Inputs) :=
  map reading (firstn 31 sample_readings).

Definition taring_final : nat * Inputs := reading 8031.

(** ** The deficit account and the clock *)

(** The time that passes over a run of calls, as [update()] measures it;
    [prev] is the time of the call before the first. *)
Fixpoint elapsed (prev : Z) (ticks : list (nat * Inputs)) : Z :=
  match ticks with
  | [] => 0
  | (_, i) :: ticks' => to_int32 (uint32 (now i - prev)) + elapsed (now i) ticks'
  end.

(** The time that the deficit account stands for, in milliseconds: a period
    for every milligram of deficit, less what is left of the countdown. *)
Definition account (s : t) : Z :=
  deficit_mg s * deficit_period s - deficit_ms_remain s.

(** No call of the run that went from [a] through the states [trace]
    completed a feed. *)
Fixpoint no_feed_completed (a : t) (trace : list t) : bool :=
  match trace with
  | [] => true
  | b :: rest => negb (feed_completed a b) && no_feed_completed b rest
  end.

(** The last weighing of a feed cycle has just begun: the sampler is busy
    with the reservoir. *)
Definition last_weighing : t :=
  transition FEED_POST_MEASURE_RESERVOIR (begin 0 init).

(** ** Calibration *)

(** The sampling session that the transition to [st] starts, if any. *)
Definition session_of (st : State) : option (Loadcell.Sensor * bool) :=
  match st with
  | IDLE_TARE_RESERVOIR => Some (Loadcell.RESERVOIR, true)
  | IDLE_TARE_BOWL => Some (Loadcell.BOWL, true)
  | IDLE_MEASURE_RESERVOIR | FEED_PRE_MEASURE_RESERVOIR
  | FEED_POST_MEASURE_RESERVOIR => Some (Loadcell.RESERVOIR, false)
  | IDLE_MEASURE_BOWL | FEED_PRE_MEASURE_BOWL
  | FEED_POST_MEASURE_BOWL => Some (Loadcell.BOWL, false)
  | _ => None
  end.

(** The states on the way to taking a tare. *)
Definition taring (st : State) : bool :=
  match st with
  | IDLE_TARE_RESERVOIR_WAIT | IDLE_TARE_RESERVOIR | IDLE_TARE_BOWL => true
  | _ => false
  end.

Definition is_tare_command (c : Call) : bool :=
  match c with
  | CallTareReservoir | CallTareBowl => true
  | _ => false
  end.

(** Nothing is under way that would take a tare: the machine is not taring,
    a session the sampler is busy with is not a taring one, and both tares
    are set. *)
Record calibrated (s : t) : Prop := {
  cal_state : taring (state s) = false;
  cal_session :
    Loadcell.is_busy (loadcell s) = true ->
    Loadcell.apply_tare (loadcell s) = false;
  cal_reservoir : Loadcell.tare_reservoir (loadcell s) <> INT32_MIN;
  cal_bowl : Loadcell.tare_bowl (loadcell s) <> INT32_MIN
}.

(** The sampler is the same or has been started on a session that takes no
    tare. *)
Inductive sampler_kept (l : Loadcell.t) : Loadcell.t -> Prop :=
| sampler_same : sampler_kept l l
| sampler_started (sn : Loadcell.Sensor) :
    sampler_kept l (Loadcell.start sn false l).

(** ** The weighings of a feed cycle *)

(** Where the weighing of the state [st] records its weight. *)
Definition recorded_weight (st : State) (s : t) : F32.float :=
  match st with
  | FEED_PRE_MEASURE_RESERVOIR => feed_reservoir_pre s
  | FEED_PRE_MEASURE_BOWL => feed_bowl_pre s
  | FEED_POST_MEASURE_BOWL => feed_bowl_post s
  | _ => feed_reservoir_post s
  end.

(** The four weights of a feed cycle are the same in [a] and [b]. *)
Record same_records (a b : t) : Prop := {
  rec_reservoir_pre : feed_reservoir_pre b = feed_reservoir_pre a;
  rec_reservoir_post : feed_reservoir_post b = feed_reservoir_post a;
  rec_bowl_pre : feed_bowl_pre b = feed_bowl_pre a;
  rec_bowl_post : feed_bowl_post b = feed_bowl_post a
}.

(** The sampler [sampler] started anew on the session of the state [st]. *)
Definition restarted (st : State) (sampler : Loadcell.t) : Loadcell.t :=
  match session_of st with
  | Some (sn, tr) => Loadcell.start sn tr sampler
  | None => sampler
  end.

(** The outcome of a call of [update()] in a weighing state of the feed
    cycle, the load cells being trusted and the reading not overdue;
    [sampler] is the sampler after the pass the call gave it, [s] the state
    before the call and [s'] the state after it. *)
Definition weighing_outcome (sampler : Loadcell.t) (s s' : t) : Prop :=
  if Loadcell.is_busy sampler then
    (* the session is still running *)
    state s' = state s /\ state_retries s' = state_retries s
    /\ same_records s s'
  else if F32.ltb (Loadcell.get_stddev sampler) (F32.of_Z 1) then
    (* a quiet reading is taken *)
    state s' = after_weighing (state s)
    /\ recorded_weight (state s) s' = Loadcell.get_mean sampler
  else if state_retries s <? 5 then
    (* a noisy reading is tried again *)
    state s' = state s
    /\ state_retries s' = uint16 (state_retries s + 1)
    /\ loadcell s' = restarted (state s) sampler
    /\ same_records s s'
  else True.

(** ** Soundness of the sampler *)

(** What is done to a sampler: a session is started, a pass of [update()]
    is made, a tare is set. *)
Inductive SamplerOp : Type :=
| OpStart (sn : Loadcell.Sensor) (tare : bool)
| OpUpdate (ready : bool) (raw : Z)
| OpSetTare (sn : Loadcell.Sensor) (raw : Z).

Definition sampler_op (op : SamplerOp) (l : Loadcell.t) : outcome Loadcell.t :=
  match op with
  | OpStart sn tare => Ok (Loadcell.start sn tare l)
  | OpUpdate ready raw => Loadcell.update ready raw l
  | OpSetTare sn raw => Ok (Loadcell.set_tare_raw sn raw l)
  end.

Fixpoint sampler_run (ops : list SamplerOp) (l : Loadcell.t) : outcome Loadcell.t :=
  match ops with
  | [] => Ok l
  | op :: ops' => l' <- sampler_op op l ;; sampler_run ops' l'
  end.

(** The values that come from outside are those of a 24-bit converter, and
    a tare that is set is no larger than 2^30. *)
Definition op_in_range (op : SamplerOp) : Prop :=
  match op with
  | OpStart _ _ => True
  | OpUpdate _ raw => is_reading raw
  | OpSetTare _ raw => - 2 ^ 30 <= raw <= 2 ^ 30
  end.

Definition tare_in_range (tare : Z) : Prop :=
  tare = INT32_MIN \/ - 2 ^ 30 <= tare <= 2 ^ 30.

(** The sampler is in order: at most 32 samples are to go, the buffer has its
    32 entries, all of them readings of a 24-bit converter, and each tare is
    unset or no larger than 2^30. *)
Record sampler_sound (l : Loadcell.t) : Prop := {
  sound_remaining : 0 <= Loadcell.samples_remaining l <= 32;
  sound_length : List.length (Loadcell.samples l) = 32%nat;
  sound_samples : Forall is_reading (Loadcell.samples l);
  sound_tare_reservoir : tare_in_range (Loadcell.tare_reservoir l);
  sound_tare_bowl : tare_in_range (Loadcell.tare_bowl l)
}.

(** ** The status sent to Home Assistant *)

(** The text of the error sensor: the message of the error report, or that
    there is none. *)
Definition status_text (s : t) : string :=
  match message (get_error_report s) with
  | Some m => m
  | None => "No error"
  end.

Definition in_mode (m : MaintenanceMode) (s : t) : bool :=
  match m, maintenance_mode s with
  | OPERATIONAL, OPERATIONAL | MAINTENANCE, MAINTENANCE | JAMMED, JAMMED => true
  | _, _ => false
  end.

(** [same_status a b]: the values last handed to the Home Assistant sensors,
    the weight of the last feed apart, are the same in [a] and [b]. *)
Record same_status (a b : t) : Prop := {
  st_feeding : mqtt_feeding b = mqtt_feeding a;
  st_maintenance : mqtt_maintenance b = mqtt_maintenance a;
  st_jammed : mqtt_jammed b = mqtt_jammed a;
  st_error : mqtt_error b = mqtt_error a;
  st_rate : mqtt_grams_per_day b = mqtt_grams_per_day a;
  st_deficit : mqtt_deficit b = mqtt_deficit a
}.

(** ** binary32 numbers *)

(** The shape of a rounded number: never NaN, and a mantissa of at most 24
    bits. *)
Definition rounded (sx : bool) (x : F32.float) : Prop :=
  match x with
  | S754_zero s => s = sx
  | S754_infinity s => s = sx
  | S754_nan => False
  | S754_finite s m e => s = sx /\ Zpos m < 2 ^ 24
  end.

(** The same for a number below [2^B]: it is not an infinity either. *)
Definition rounded_below (B : Z) (sx : bool) (x : F32.float) : Prop :=
  match x with
  | S754_zero s => s = sx
  | S754_finite s m e => s = sx /\ Zpos m < 2 ^ 24 /\ Zpos m <= 2 ^ (B - e) /\ e <= B
  | _ => False
  end.

(** Neither an infinity nor NaN. *)
Definition is_finite (x : F32.float) : bool :=
  match x with
  | S754_zero _ | S754_finite _ _ _ => true
  | _ => false
  end.

Definition not_nan (x : F32.float) : Prop :=
  match x with S754_nan => False | _ => True end.

(** Zero, an infinity, or a number with a mantissa of at most 24 bits. *)
Definition bounded_mantissa (x : F32.float) : Prop :=
  match x with
  | S754_nan => False
  | S754_finite _ m _ => Zpos m < 2 ^ 24
  | _ => True
  end.

(** ** The machine in order *)

(** The sampler is in order and the weights that the estimate of a feed is
    computed from are numbers: the mean the sampler holds and the four
    weights recorded in a feed cycle are neither NaN nor infinite. *)
Record sensors_sound (s : t) : Prop := {
  sns_sampler : sampler_sound (loadcell s);
  sns_mean : is_finite (Loadcell.mean (loadcell s)) = true;
  sns_reservoir_pre : is_finite (feed_reservoir_pre s) = true;
  sns_reservoir_post : is_finite (feed_reservoir_post s) = true;
  sns_bowl_pre : is_finite (feed_bowl_pre s) = true;
  sns_bowl_post : is_finite (feed_bowl_post s) = true
}.

(** The machine is in order: its sensors are, the rate is one for which the
    accrual loop ends, from 1 to 86400 grams per day, and the countdown is
    not negative, as every call of [update()] leaves it. *)
Record machine_sound (s : t) : Prop := {
  mch_sensors : sensors_sound s;
  mch_rate : 0 < grams_per_day s <= 86400;
  mch_countdown : 0 <= deficit_ms_remain s <= INT32_MAX
}.

(** The calls of a run are in order: each is made at least one millisecond,
    and less than 2^31 ms, after the call before, has fuel for the passes of
    the accrual loop that this time can ask for, and reads 24 bits from the
    converter; [prev] is the time of the call before the first. *)
Fixpoint ticks_in_order (prev : Z) (ticks : list (nat * Inputs)) : Prop :=
  match ticks with
  | [] => True
  | (fuel, i) :: ticks' =>
      1 <= to_int32 (uint32 (now i - prev))
      /\ (Z.to_nat (to_int32 (uint32 (now i - prev))) <= fuel)%nat
      /\ is_reading (hx711_read i)
      /\ ticks_in_order (now i) ticks'
  end.

(** A call of [update()] at the time [now0], the converter not ready and the
    limit switch released. *)
Definition tick_at (now0 : Z) : nat * Inputs :=
  (5%nat, {| hx711_is_ready := false; hx711_read := 0; now := now0;
             now_report := now0; limit := false |}).

(** The last weighing of a feed cycle has been tried six times and has been
    under way for 9998 ms; the converter has not delivered a reading. *)
Definition weighing_overdue : t :=
  let s := assign_state_retries 5 last_weighing in
  assign_millis_since_transition 9998 s.

(** * Properties *)

(** Reading a field of a state built by field assignments. *)
Ltac fields :=
  cbn [
    loadcell state maintenance_mode error_reservoir_stddev error_bowl_stddev
    error_loadcell_timeout error_loadcell_disagree
    error_loadcell_unreasonable error_limit_switch error_power_loss
    grams_per_day deficit_ms_remain deficit_mg deficit_threshold_mg
    update_prev_millis millis_since_reservoir_read millis_since_bowl_read
    millis_since_feed_attempt millis_since_transition
    millis_since_mqtt_string_update state_retries feed_sensor_retries
    feed_jammed_retries feed_reservoir_pre feed_reservoir_post feed_bowl_pre
    feed_bowl_post feed_report reservoir_mean reservoir_stddev bowl_mean
    bowl_stddev mqtt_deficit mqtt_last_feed mqtt_grams_per_day mqtt_feeding
    mqtt_maintenance mqtt_jammed mqtt_error pin_motor feed_bowl_post_valid
    assign_loadcell assign_state assign_maintenance_mode
    assign_error_reservoir_stddev assign_error_bowl_stddev
    assign_error_loadcell_timeout assign_error_loadcell_disagree
    assign_error_loadcell_unreasonable assign_error_limit_switch
    assign_error_power_loss assign_grams_per_day assign_deficit_ms_remain
    assign_deficit_mg assign_deficit_threshold_mg assign_update_prev_millis
    assign_millis_since_reservoir_read assign_millis_since_bowl_read
    assign_millis_since_feed_attempt assign_millis_since_transition
    assign_millis_since_mqtt_string_update assign_state_retries
    assign_feed_sensor_retries assign_feed_jammed_retries
    assign_feed_reservoir_pre assign_feed_reservoir_post
    assign_feed_bowl_pre assign_feed_bowl_post assign_feed_report
    assign_reservoir_mean assign_reservoir_stddev assign_bowl_mean
    assign_bowl_stddev assign_mqtt_deficit assign_mqtt_last_feed
    assign_mqtt_grams_per_day assign_mqtt_feeding assign_mqtt_maintenance
    assign_mqtt_jammed assign_mqtt_error assign_pin_motor
  ].
Tactic Notation "fields" "in" hyp(H) :=
  cbn [
    loadcell state maintenance_mode error_reservoir_stddev error_bowl_stddev
    error_loadcell_timeout error_loadcell_disagree
    error_loadcell_unreasonable error_limit_switch error_power_loss
    grams_per_day deficit_ms_remain deficit_mg deficit_threshold_mg
    update_prev_millis millis_since_reservoir_read millis_since_bowl_read
    millis_since_feed_attempt millis_since_transition
    millis_since_mqtt_string_update state_retries feed_sensor_retries
    feed_jammed_retries feed_reservoir_pre feed_reservoir_post feed_bowl_pre
    feed_bowl_post feed_report reservoir_mean reservoir_stddev bowl_mean
    bowl_stddev mqtt_deficit mqtt_last_feed mqtt_grams_per_day mqtt_feeding
    mqtt_maintenance mqtt_jammed mqtt_error pin_motor feed_bowl_post_valid
    assign_loadcell assign_state assign_maintenance_mode
    assign_error_reservoir_stddev assign_error_bowl_stddev
    assign_error_loadcell_timeout assign_error_loadcell_disagree
    assign_error_loadcell_unreasonable assign_error_limit_switch
    assign_error_power_loss assign_grams_per_day assign_deficit_ms_remain
    assign_deficit_mg assign_deficit_threshold_mg assign_update_prev_millis
    assign_millis_since_reservoir_read assign_millis_since_bowl_read
    assign_millis_since_feed_attempt assign_millis_since_transition
    assign_millis_since_mqtt_string_update assign_state_retries
    assign_feed_sensor_retries assign_feed_jammed_retries
    assign_feed_reservoir_pre assign_feed_reservoir_post
    assign_feed_bowl_pre assign_feed_bowl_post assign_feed_report
    assign_reservoir_mean assign_reservoir_stddev assign_bowl_mean
    assign_bowl_stddev assign_mqtt_deficit assign_mqtt_last_feed
    assign_mqtt_grams_per_day assign_mqtt_feeding assign_mqtt_maintenance
    assign_mqtt_jammed assign_mqtt_error assign_pin_motor
  ] in H.

(** Reading a field through one assignment by an equation rather than by
    computation; this keeps proof checking fast on deeply nested states. *)
Ltac read_field :=
  match goal with
  | |- context [?p (?f ?v ?x)] =>
      match type of x with t => idtac end;
      match type of (f v x) with t => idtac end;
      first
        [ let H := fresh in
          assert (H : forall v' x', p (f v' x') = p x') by (intros; reflexivity);
          rewrite (H v x); clear H
        | let H := fresh in
          assert (H : forall v' x', p (f v' x') = v') by (intros; reflexivity);
          rewrite (H v x); clear H ]
  end.

Ltac books := split; reflexivity.

(** ** Machine integers and outcomes *)

Lemma int32_ok (z : Z) : is_int32 z -> int32 z = Ok z.
Proof.
  unfold is_int32, int32, in_int32. intros [H1 H2].
  apply Z.leb_le in H1. apply Z.leb_le in H2. now rewrite H1, H2.
Qed.

Lemma int32_inv (z r : Z) : int32 z = Ok r -> r = z /\ is_int32 z.
Proof.
  unfold is_int32, int32, in_int32.
  destruct (INT32_MIN <=? z) eqn:H1; destruct (z <=? INT32_MAX) eqn:H2;
    cbn; intros H; try discriminate.
  apply Z.leb_le in H1. apply Z.leb_le in H2. injection H as <-. auto.
Qed.

Lemma int64_ok (z : Z) : INT64_MIN <= z <= INT64_MAX -> int64 z = Ok z.
Proof.
  unfold int64, in_int64. intros [H1 H2].
  apply Z.leb_le in H1. apply Z.leb_le in H2. now rewrite H1, H2.
Qed.

Lemma to_int32_small (z : Z) : is_int32 z -> to_int32 z = z.
Proof.
  unfold is_int32, to_int32, INT32_MIN, INT32_MAX. intros H.
  rewrite Z.mod_small; lia.
Qed.

Lemma int32_div_inv (a b q : Z) :
  int32_div a b = Ok q -> b <> 0 /\ q = Z.quot a b.
Proof.
  unfold int32_div. destruct (Z.eqb_spec b 0); [discriminate |].
  intros H. apply int32_inv in H. now destruct H.
Qed.

Lemma bind_inv {A B : Type} (c : outcome A) (k : A -> outcome B) (b : B) :
  bind c k = Ok b -> exists a, c = Ok a /\ k a = Ok b.
Proof. destruct c; cbn; try discriminate. eauto. Qed.

(** ** The raw mean of the sampler *)

Lemma sum_samples_bound (a : list Z) :
  Forall is_int32 a ->
  - (Z.of_nat (List.length a) * 2 ^ 31) <= sum_samples a
    <= Z.of_nat (List.length a) * (2 ^ 31 - 1).
Proof.
  induction 1 as [|x a Hx _ IH]; cbn [sum_samples fold_right List.length].
  - lia.
  - fold (sum_samples a). unfold is_int32, INT32_MIN, INT32_MAX in Hx. lia.
Qed.

Lemma accum_sum_ok (a : list Z) : forall accum,
  Forall is_int32 a ->
  - 2 ^ 62 <= accum <= 2 ^ 62 ->
  Z.of_nat (List.length a) * 2 ^ 31 <= 2 ^ 62 - Z.abs accum ->
  Loadcell.accum_sum accum a = Ok (accum + sum_samples a).
Proof.
  induction a as [|x a IH]; intros accum Ha Hacc Hlen.
  - cbn. f_equal. lia.
  - inversion Ha as [|? ? Hx Ha']; subst.
    cbn [Loadcell.accum_sum sum_samples fold_right List.length] in *.
    fold (sum_samples a).
    unfold is_int32, INT32_MIN, INT32_MAX in Hx.
    rewrite int64_ok by (unfold INT64_MIN, INT64_MAX; lia).
    cbn [bind]. rewrite IH; [f_equal; lia | assumption | lia | lia].
Qed.

(** On a full buffer of 32-bit readings the raw mean is the truncating
    quotient of the biased sum. *)
Lemma compute_mean_raw_quot (a : list Z) :
  Forall is_int32 a -> List.length a = 32%nat ->
  Loadcell.compute_mean_raw a = Ok (Z.quot (16 + sum_samples a) 32).
Proof.
  intros Ha Hlen. unfold Loadcell.compute_mean_raw.
  change (Loadcell.NUM_SAMPLES / 2) with 16.
  rewrite accum_sum_ok; [| assumption | lia | rewrite Hlen; cbn; lia].
  cbn [bind]. unfold int64_div. change (Loadcell.NUM_SAMPLES =? 0) with false.
  change Loadcell.NUM_SAMPLES with 32. cbv iota.
  pose proof (sum_samples_bound a Ha) as Hs. rewrite Hlen in Hs.
  change (Z.of_nat 32 * 2 ^ 31) with (2 ^ 36) in Hs.
  change (Z.of_nat 32 * (2 ^ 31 - 1)) with (2 ^ 36 - 32) in Hs.
  assert (Hq : - 2 ^ 31 <= Z.quot (16 + sum_samples a) 32 <= 2 ^ 31 - 1).
  { destruct (Z_le_gt_dec 0 (16 + sum_samples a)) as [Hp|Hn].
    - rewrite Z.quot_div_nonneg by lia.
      split; [apply Z.le_trans with 0; [lia | apply Z.div_pos; lia] |].
      assert ((16 + sum_samples a) / 32 < 2 ^ 31); [| lia].
      apply Z.div_lt_upper_bound; lia.
    - assert (E : Z.quot (16 + sum_samples a) 32 = - ((- (16 + sum_samples a)) / 32)).
      { rewrite <- (Z.opp_involutive (16 + sum_samples a)) at 1.
        rewrite Z.quot_opp_l by lia. rewrite Z.quot_div_nonneg by lia. reflexivity. }
      rewrite E.
      assert (0 <= (- (16 + sum_samples a)) / 32) by (apply Z.div_pos; lia).
      assert ((- (16 + sum_samples a)) / 32 <= 2 ^ 31); [| lia].
      apply Z.lt_succ_r. apply Z.div_lt_upper_bound; lia. }
  rewrite int64_ok by (unfold INT64_MIN, INT64_MAX; lia).
  cbn [bind]. rewrite to_int32_small; [reflexivity |].
  unfold is_int32, INT32_MIN, INT32_MAX. lia.
Qed.

(** Where the sum is not negative the biased quotient is the mean rounded to
    the nearest integer, halves upwards. *)
Lemma compute_mean_raw_nearest_nonneg (a : list Z) :
  Forall is_int32 a -> List.length a = 32%nat -> 0 <= sum_samples a ->
  exists m, Loadcell.compute_mean_raw a = Ok m /\
            -16 <= sum_samples a - 32 * m < 16.
Proof.
  intros Ha Hlen Hs. exists (Z.quot (16 + sum_samples a) 32). split.
  - now apply compute_mean_raw_quot.
  - rewrite Z.quot_div_nonneg by lia.
    pose proof (Z.div_mod (16 + sum_samples a) 32 ltac:(lia)) as E.
    pose proof (Z.mod_pos_bound (16 + sum_samples a) 32 ltac:(lia)) as B.
    lia.
Qed.

(** C9 (the code departs from the claim).  A session in which all 32
    readings are -1 has the exact mean -1, yet [Loadcell::update] leaves
    [mean_raw = 0]: the biased sum is -16 and the division truncates towards
    zero, so the result is a whole unit away from the mean and not the nearest
    integer. *)
Theorem mean_raw_of_negative_readings :
  exists l,
    take_readings (repeat (-1) 32)
      (Loadcell.start Loadcell.RESERVOIR false Loadcell.init) = Ok l
    /\ Loadcell.is_busy l = false
    /\ Loadcell.samples l = repeat (-1) 32
    /\ sum_samples (Loadcell.samples l) = 32 * (-1)
    /\ Loadcell.get_mean_raw l = 0.
Proof.
  vm_compute. eexists. repeat split.
Qed.

(** ** The error report *)

Lemma first_match_split (pre post : list (bool * ErrorReport)) (r : ErrorReport) :
  none_holds pre = true -> first_match (pre ++ (true, r) :: post) = r.
Proof.
  induction pre as [|[c r'] pre IH]; cbn; [reflexivity |].
  destruct c; cbn; [discriminate | exact IH].
Qed.

Lemma first_match_none (l : list (bool * ErrorReport)) :
  none_holds l = true -> first_match l = okay_report.
Proof.
  induction l as [|[c r] l IH]; cbn; [reflexivity |].
  destruct c; cbn; [discriminate | exact IH].
Qed.

Lemma limp_mode_flag (s : t) :
  any_loadcell_limp_flag s = false <-> loadcell_limp_mode s = None.
Proof.
  unfold any_loadcell_limp_flag, loadcell_limp_mode.
  destruct (error_loadcell_timeout s), (error_reservoir_stddev s),
    (error_bowl_stddev s), (error_loadcell_disagree s),
    (error_loadcell_unreasonable s); cbn; split; congruence.
Qed.

Lemma get_error_report_first_match (s : t) :
  get_error_report s = first_match (error_conditions s).
Proof.
  unfold get_error_report, error_conditions, first_match,
    any_loadcell_limp_flag, loadcell_limp_mode.
  destruct (error_limit_switch s), (error_loadcell_timeout s),
    (error_reservoir_stddev s), (error_bowl_stddev s),
    (error_loadcell_disagree s), (error_loadcell_unreasonable s),
    (error_power_loss s), (maintenance_mode s),
    (feed_jammed_retries s =? 0),
    (F32.ltb (reservoir_mean s) (F32.of_Z 250)); reflexivity.
Qed.

(** C8.  [get_error_report] returns the report of the first condition that
    holds in the order limit-switch fault, any load-cell limp-mode flag (the
    message then is the one [loadcell_limp_mode] gives), power loss, jammed
    (all Error), jam suspected, reservoir low (both Warning); a condition
    further down never shows while one above it holds, and with no condition
    holding the report is the null message with severity Okay. *)
Theorem get_error_report_priority (s : t) :
  get_error_report s = first_match (error_conditions s)
  /\ (any_loadcell_limp_flag s = false <-> loadcell_limp_mode s = None)
  /\ (forall pre post r,
        error_conditions s = pre ++ (true, r) :: post ->
        none_holds pre = true ->
        get_error_report s = r)
  /\ (none_holds (error_conditions s) = true -> get_error_report s = okay_report)
  /\ map (fun x => severity (snd x)) (error_conditions s)
     = [ERROR; ERROR; ERROR; ERROR; WARNING; WARNING]
  /\ message okay_report = None /\ severity okay_report = OKAY.
Proof.
  pose proof (get_error_report_first_match s) as E.
  split; [exact E |].
  split; [apply limp_mode_flag |].
  split; [intros pre post r Hs Hp; rewrite E, Hs; now apply first_match_split |].
  split; [intros Hn; rewrite E; now apply first_match_none |].
  repeat split.
Qed.

(** At start-up only the power-loss condition holds: two conditions stand
    ahead of it and neither does. *)
Lemma get_error_report_priority_witness :
  get_error_report init = {| message := Some "Power loss"; severity := ERROR |}.
Proof.
  apply (proj1 (proj2 (proj2 (get_error_report_priority init)))
           [ (false, {| message := Some "Motor timeout"; severity := ERROR |});
             (false, {| message := None; severity := ERROR |}) ]
           [ (false, {| message := Some "Jammed/empty"; severity := ERROR |});
             (false, {| message := Some "Jammed/empty?"; severity := WARNING |});
             (true, {| message := Some "Reservoir low"; severity := WARNING |}) ]);
    reflexivity.
Defined.

(** ** What the parts of [update()] leave alone *)

Lemma same_books_refl (s : t) : same_books s s.
Proof. now split. Qed.

Lemma same_books_trans (a b c : t) :
  same_books a b -> same_books b c -> same_books a c.
Proof. intros [] []; split; congruence. Qed.

Lemma transition_books (st : State) (s : t) : same_books s (transition st s).
Proof.
  unfold transition. destruct (State_eqb st (state s)); destruct st; books.
Qed.

Lemma handle_loadcell_readout_books (s : t) :
  same_books s (snd (handle_loadcell_readout s)).
Proof.
  unfold handle_loadcell_readout.
  destruct (error_loadcell_timeout s || (10000 <? millis_since_transition s));
    [books |].
  destruct (Loadcell.is_busy (loadcell s)); [books |].
  destruct (Loadcell.get_sensor (loadcell s)); books.
Qed.

Lemma sensor_retry_books (i : Inputs) (s : t) : same_books s (sensor_retry i s).
Proof.
  unfold sensor_retry.
  eapply same_books_trans; [| apply transition_books]. books.
Qed.

Lemma feed_books (s : t) : same_books s (feed s).
Proof. apply transition_books. Qed.

Lemma update_mqtt_status_books (d : Z) (s : t) :
  same_books s (update_mqtt_status d s).
Proof.
  unfold update_mqtt_status.
  destruct (5000 <? millis_since_mqtt_string_update s); books.
Qed.

Lemma update_timers_books (d : Z) (s : t) : same_books s (update_timers d s).
Proof. books. Qed.

(** The [switch] either leaves the books alone or ends the feed cycle
    through [complete_feed]. *)
Lemma handle_state_machine_books (i : Inputs) (s : t) (ms : bool * t) :
  handle_state_machine i s = Ok ms ->
  same_books s (snd ms)
  \/ (state s = FEED_POST_MEASURE_RESERVOIR
      /\ exists s0, same_books s s0 /\ complete_feed i s0 = Ok (snd ms)).
Proof.
  unfold handle_state_machine.
  pose proof (handle_loadcell_readout_books s) as Hr.
  destruct (state s) eqn:Hst.
  all: repeat match goal with
       | |- context [handle_loadcell_readout ?x] =>
           destruct (handle_loadcell_readout x) as [done s1]; cbn [snd] in Hr; cbn zeta
       | |- (if ?c then _ else _) = _ -> _ => destruct c
       | |- match ?c with _ => _ end = _ -> _ => destruct c
       end.
  all: try (intros [= <-]; cbn [snd]; left).
  all: try assumption.
  all: try apply same_books_refl.
  all: try apply transition_books.
  all: try apply feed_books.
  all: try (eapply same_books_trans; [exact Hr | apply transition_books]).
  all: try (eapply same_books_trans; [exact Hr | apply sensor_retry_books]).
  all: try (eapply same_books_trans; [| apply transition_books]; books).
  all: try (eapply same_books_trans;
            [exact Hr | eapply same_books_trans; [| apply transition_books]; books]).
  all: match goal with
       | |- context [complete_feed ?j ?x] =>
           destruct (complete_feed j x) as [s2| |] eqn:E; cbn [bind];
           try discriminate; intros [= <-]; cbn [snd]; right;
           split; [reflexivity |]; exists x; split; [| exact E]
       end.
  all: try books.
  all: eapply same_books_trans; [exact Hr | books].
Qed.

(** [complete_feed] moves the deficit by the dispensed weight only. *)
Lemma complete_feed_books (i : Inputs) (s s' : t) :
  complete_feed i s = Ok s' ->
  deficit_ms_remain s' = deficit_ms_remain s
  /\ deficit_threshold_mg s' = deficit_threshold_mg s
  /\ grams_per_day s' = grams_per_day s
  /\ error_power_loss s' = error_power_loss s
  /\ exists mg,
       F32.to_int (F32.mul (fst (estimate_dispensed_weight_grams s)) (F32.of_Z 1000))
       = Ok mg
       /\ deficit_mg s' = deficit_mg s - mg
       /\ feed_report s' = {| result := SUCCESS; arg := mg; millis := now_report i |}.
Proof.
  unfold complete_feed.
  destruct (estimate_dispensed_weight_grams s) as [w s1] eqn:Ee. cbn [fst].
  destruct (F32.to_int (F32.mul w (F32.of_Z 1000))) as [mg| |]; cbn [bind];
    try discriminate.
  destruct (int32 (deficit_mg (update_jam_state w s1) - mg)) as [d| |] eqn:Ed;
    cbn [bind]; try discriminate.
  apply int32_inv in Ed. destruct Ed as [-> _].
  intros [= <-].
  assert (Hs1 : same_books s s1).
  { revert Ee. unfold estimate_dispensed_weight_grams.
    repeat match goal with
           | |- (if ?c then _ else _) = _ -> _ => destruct c
           | |- match ?c with _ => _ end = _ -> _ => destruct c
           end; intros [= _ <-]; books. }
  assert (Hs2 : same_books s1 (update_jam_state w s1)).
  { unfold update_jam_state.
    repeat match goal with
           | |- context [if ?c then _ else _] => destruct c
           | |- context [match maintenance_mode ?c with _ => _ end] =>
               destruct (maintenance_mode c)
           end; books. }
  destruct (same_books_trans _ _ _ Hs1 Hs2) as [Hmg Hms Hth Hr Hp].
  match goal with |- context [transition IDLE ?x] =>
    destruct (transition_books IDLE x) as [Tmg Tms Tth Tr Tp] end.
  rewrite Tms, Tth, Tr, Tp, Tmg.
  replace (feed_report (transition IDLE _)) with
    {| result := SUCCESS; arg := mg; millis := now_report i |}
    by (unfold transition; match goal with |- context [State_eqb ?a ?b] =>
          destruct (State_eqb a b) end; reflexivity).
  cbn. rewrite Hms, Hth, Hr, Hp, Hmg.
  repeat split. exists mg. repeat split.
Qed.

(** ** The deficit loop *)

(** The loop touches the two deficit fields and nothing else. *)
Lemma deficit_loop_frame (fuel : nat) : forall s s',
  deficit_loop fuel s = Ok s' ->
  s' = assign_deficit_mg (deficit_mg s')
         (assign_deficit_ms_remain (deficit_ms_remain s') s).
Proof.
  induction fuel as [|fuel IH]; intros s s'; cbn [deficit_loop];
    destruct (deficit_ms_remain s <? 0).
  - discriminate.
  - intros [= <-]. now destruct s.
  - destruct (int32_div 86400 (grams_per_day s)) as [p| |]; cbn [bind];
      try discriminate.
    destruct (int32 (deficit_ms_remain s + p)) as [r| |]; cbn [bind];
      try discriminate.
    match goal with |- context [int32 ?e] => destruct (int32 e) as [m| |] end;
      cbn [bind]; try discriminate.
    intros H. apply IH in H. rewrite H at 1. reflexivity.
  - intros [= <-]. now destruct s.
Qed.

(** Each pass of the loop body runs with a negative countdown, adds one
    milligram and [deficit_period] milliseconds; the loop is left with a
    countdown that is not negative. *)
Lemma deficit_loop_count (fuel : nat) : forall s s',
  deficit_loop fuel s = Ok s' ->
  exists n : nat,
    (n <= fuel)%nat
    /\ deficit_mg s' = deficit_mg s + Z.of_nat n
    /\ deficit_ms_remain s' = deficit_ms_remain s + Z.of_nat n * deficit_period s
    /\ 0 <= deficit_ms_remain s'
    /\ (forall k : nat, (k < n)%nat ->
          deficit_ms_remain s + Z.of_nat k * deficit_period s < 0).
Proof.
  induction fuel as [|fuel IH]; intros s s'; cbn [deficit_loop];
    destruct (Z.ltb_spec (deficit_ms_remain s) 0) as [Hneg|Hpos].
  - discriminate.
  - intros [= <-]. exists 0%nat. repeat split; try lia.
  - destruct (int32_div 86400 (grams_per_day s)) as [p| |] eqn:Ep; cbn [bind];
      try discriminate.
    apply int32_div_inv in Ep. destruct Ep as [_ ->]. fold (deficit_period s).
    destruct (int32 (deficit_ms_remain s + deficit_period s)) as [r| |] eqn:Er;
      cbn [bind]; try discriminate.
    apply int32_inv in Er. destruct Er as [-> _].
    match goal with |- context [int32 ?e] =>
      destruct (int32 e) as [m| |] eqn:Em end; cbn [bind]; try discriminate.
    apply int32_inv in Em. destruct Em as [-> _].
    intros H. apply IH in H. destruct H as (n & Hn & Hmg & Hms & Hge & Hlt).
    cbn in Hmg, Hms, Hlt.
    change (Z.quot 86400 (grams_per_day s)) with (deficit_period s) in *.
    unfold deficit_period in Hms, Hlt; cbn in Hms, Hlt;
      fold (deficit_period s) in Hms, Hlt.
    exists (S n). repeat split; try lia.
    intros [|k] Hk; [lia |]. specialize (Hlt k ltac:(lia)). lia.
  - intros [= <-]. exists 0%nat. repeat split; try lia.
Qed.

Lemma accrual_count_nonneg (remain period : Z) :
  0 < period -> 0 <= accrual_count remain period.
Proof.
  unfold accrual_count. intros Hp. destruct (Z.ltb_spec remain 0); [| lia].
  apply Z.div_pos; lia.
Qed.

Lemma accrual_count_step (remain period : Z) :
  0 < period -> remain < 0 ->
  accrual_count remain period = 1 + accrual_count (remain + period) period.
Proof.
  intros Hp Hr. unfold accrual_count.
  destruct (Z.ltb_spec remain 0); [| lia].
  destruct (Z.ltb_spec (remain + period) 0).
  - replace (period - 1 - remain) with (period - 1 - (remain + period) + 1 * period) by lia.
    rewrite Z.div_add by lia. lia.
  - replace (period - 1 - remain) with ((- remain) + 1 * period - 1) by lia.
    assert (1 = (- remain + 1 * period - 1) / period); [| lia].
    apply Z.div_unique with (r := - remain - 1); lia.
Qed.

Lemma deficit_period_bounds (s : t) :
  0 < grams_per_day s <= 86400 -> 1 <= deficit_period s <= 86400.
Proof.
  intros H. unfold deficit_period. rewrite Z.quot_div_nonneg by lia. split.
  - apply Z.div_le_lower_bound; lia.
  - apply Z.div_le_upper_bound; lia.
Qed.

(** For a rate between 1 and 86400 grams per day the loop comes to an end
    after [accrual_count] passes, provided the deficit has that much room
    below [INT32_MAX]. *)
Lemma deficit_loop_terminates (fuel : nat) : forall s,
  0 < grams_per_day s <= 86400 ->
  is_int32 (deficit_ms_remain s) ->
  INT32_MIN <= deficit_mg s ->
  deficit_mg s + accrual_count (deficit_ms_remain s) (deficit_period s) <= INT32_MAX ->
  (Z.to_nat (accrual_count (deficit_ms_remain s) (deficit_period s)) <= fuel)%nat ->
  exists s',
    deficit_loop fuel s = Ok s'
    /\ deficit_mg s'
       = deficit_mg s + accrual_count (deficit_ms_remain s) (deficit_period s)
    /\ 0 <= deficit_ms_remain s'.
Proof.
  induction fuel as [|fuel IH]; intros s Hg Hr Hlo Hhi Hfuel;
    pose proof (deficit_period_bounds s Hg) as Hp;
    cbn [deficit_loop];
    destruct (Z.ltb_spec (deficit_ms_remain s) 0) as [Hneg|Hpos].
  - rewrite accrual_count_step in Hfuel by lia.
    pose proof (accrual_count_nonneg (deficit_ms_remain s + deficit_period s)
                  (deficit_period s) ltac:(lia)). lia.
  - exists s. unfold accrual_count. destruct (Z.ltb_spec (deficit_ms_remain s) 0); [lia |].
    repeat split; lia.
  - rewrite accrual_count_step in Hhi, Hfuel |- * by lia.
    pose proof (accrual_count_nonneg (deficit_ms_remain s + deficit_period s)
                  (deficit_period s) ltac:(lia)) as Hc.
    unfold is_int32, INT32_MIN, INT32_MAX in *.
    unfold int32_div. destruct (Z.eqb_spec (grams_per_day s) 0); [lia |].
    fold (deficit_period s).
    rewrite (int32_ok (deficit_period s))
      by (unfold is_int32, INT32_MIN, INT32_MAX; lia).
    cbn [bind].
    rewrite int32_ok by (unfold is_int32, INT32_MIN, INT32_MAX; lia).
    cbn [bind].
    match goal with |- context [int32 ?e] =>
      rewrite (int32_ok e)
        by (unfold is_int32, INT32_MIN, INT32_MAX; fields; lia) end.
    cbn [bind].
    match goal with |- context [deficit_loop fuel ?x] =>
      destruct (IH x) as (s' & E & Hmg & Hms) end;
      try (fields; change (deficit_period (assign_deficit_mg _ _))
                     with (deficit_period s); lia).
    exists s'. split; [exact E |]. split; [| exact Hms].
    rewrite Hmg. fields.
    change (deficit_period (assign_deficit_mg _ _)) with (deficit_period s). lia.
  - exists s. unfold accrual_count. destruct (Z.ltb_spec (deficit_ms_remain s) 0); [lia |].
    repeat split; lia.
Qed.

(** With a period of zero a negative countdown is never left behind. *)
Lemma deficit_loop_stuck (fuel : nat) : forall s s',
  deficit_period s = 0 -> deficit_ms_remain s < 0 ->
  deficit_loop fuel s <> Ok s'.
Proof.
  induction fuel as [|fuel IH]; intros s s' Hp Hneg; cbn [deficit_loop];
    destruct (Z.ltb_spec (deficit_ms_remain s) 0); try lia; [discriminate |].
  destruct (int32_div 86400 (grams_per_day s)) as [p| |] eqn:Ep; cbn [bind];
    try discriminate.
  apply int32_div_inv in Ep. destruct Ep as [_ ->]. fold (deficit_period s).
  destruct (int32 (deficit_ms_remain s + deficit_period s)) as [r| |] eqn:Er;
    cbn [bind]; try discriminate.
  apply int32_inv in Er. destruct Er as [-> _].
  match goal with |- context [int32 ?e] =>
    destruct (int32 e) as [m| |] end; cbn [bind]; try discriminate.
  apply IH; [exact Hp | cbn; lia].
Qed.

(** *** The bookkeeping of [update()] *)

Lemma update_deficit_inv (fuel : nat) (d : Z) (s s' : t) :
  update_deficit fuel d s = Ok s' ->
  exists s0,
    is_int32 (deficit_ms_remain s - d)
    /\ deficit_loop fuel (assign_deficit_ms_remain (deficit_ms_remain s - d) s) = Ok s0
    /\ s' = assign_mqtt_deficit
              (F32.div (F32.of_Z (deficit_mg s0)) (F32.of_Z 1000)) s0.
Proof.
  unfold update_deficit. intros H.
  apply bind_inv in H. destruct H as (r & Hr & H).
  apply int32_inv in Hr. destruct Hr as [-> Hr].
  apply bind_inv in H. destruct H as (s0 & Hs0 & [= <-]).
  exists s0. auto.
Qed.

Lemma update_bookkeeping_inv (fuel : nat) (i : Inputs) (s s1 : t) :
  update_bookkeeping fuel i s = Ok s1 ->
  exists l s0,
    Loadcell.update (hx711_is_ready i) (hx711_read i) (loadcell s) = Ok l
    /\ update_deficit fuel (delta_millis_of i s)
         (assign_update_prev_millis (now i) (assign_loadcell l s)) = Ok s0
    /\ s1 = update_timers (delta_millis_of i s)
              (update_mqtt_status (delta_millis_of i s) s0).
Proof.
  unfold update_bookkeeping. intros H.
  apply bind_inv in H. destruct H as (l & Hl & H).
  apply bind_inv in H. destruct H as (s0 & Hs0 & [= <-]).
  exists l, s0. auto.
Qed.

Lemma update_inv (fuel : nat) (i : Inputs) (s s' : t) :
  update fuel i s = Ok s' ->
  exists s1 ms,
    update_bookkeeping fuel i s = Ok s1
    /\ handle_state_machine i s1 = Ok ms
    /\ s' = assign_pin_motor (fst ms) (snd ms).
Proof.
  unfold update. intros H.
  apply bind_inv in H. destruct H as (s1 & Hs1 & H).
  apply bind_inv in H. destruct H as (ms & Hms & [= <-]).
  exists s1, ms. auto.
Qed.

(** What the bookkeeping does to the deficit account. *)
Lemma update_bookkeeping_deficit (fuel : nat) (i : Inputs) (s s1 : t) :
  update_bookkeeping fuel i s = Ok s1 ->
  exists n : nat,
    (n <= fuel)%nat
    /\ deficit_mg s1 = deficit_mg s + Z.of_nat n
    /\ deficit_ms_remain s1
       = deficit_ms_remain s - delta_millis_of i s + Z.of_nat n * deficit_period s
    /\ 0 <= deficit_ms_remain s1
    /\ (forall k : nat, (k < n)%nat ->
          deficit_ms_remain s - delta_millis_of i s + Z.of_nat k * deficit_period s < 0)
    /\ grams_per_day s1 = grams_per_day s
    /\ deficit_threshold_mg s1 = deficit_threshold_mg s
    /\ error_power_loss s1 = error_power_loss s.
Proof.
  intros H. apply update_bookkeeping_inv in H.
  destruct H as (l & s0 & _ & Hd & ->).
  apply update_deficit_inv in Hd. destruct Hd as (s2 & _ & Hloop & ->).
  pose proof (deficit_loop_frame _ _ _ Hloop) as Hf.
  apply deficit_loop_count in Hloop.
  destruct Hloop as (n & Hn & Hmg & Hms & Hge & Hlt).
  fields in Hmg. fields in Hms. fields in Hlt.
  change (deficit_period (assign_deficit_ms_remain _ _)) with (deficit_period s) in *.
  exists n.
  match goal with |- context [update_timers ?d (update_mqtt_status ?d ?x)] =>
    destruct (same_books_trans _ _ _ (update_mqtt_status_books d x)
                (update_timers_books d (update_mqtt_status d x)))
      as [Bmg Bms Bth Br Bp] end.
  rewrite Bmg, Bms, Bth, Br, Bp. fields.
  repeat split; try assumption; rewrite Hf; reflexivity.
Qed.

(** The state the bookkeeping leaves, spelled out. *)
Lemma update_bookkeeping_shape (fuel : nat) (i : Inputs) (s s1 : t) :
  update_bookkeeping fuel i s = Ok s1 ->
  exists l m r,
    Loadcell.update (hx711_is_ready i) (hx711_read i) (loadcell s) = Ok l
    /\ s1 = update_timers (delta_millis_of i s)
              (update_mqtt_status (delta_millis_of i s)
                 (assign_mqtt_deficit (F32.div (F32.of_Z m) (F32.of_Z 1000))
                    (assign_deficit_mg m
                       (assign_deficit_ms_remain r
                          (assign_update_prev_millis (now i)
                             (assign_loadcell l s)))))).
Proof.
  intros H. apply update_bookkeeping_inv in H.
  destruct H as (l & s0 & Hl & Hd & ->).
  apply update_deficit_inv in Hd. destruct Hd as (s2 & _ & Hloop & ->).
  apply deficit_loop_frame in Hloop.
  exists l, (deficit_mg s2), (deficit_ms_remain s2).
  split; [exact Hl |]. rewrite Hloop at 1 2. reflexivity.
Qed.

Lemma update_bookkeeping_frame (fuel : nat) (i : Inputs) (s s1 : t) :
  update_bookkeeping fuel i s = Ok s1 -> bookkeeping_frame i s s1.
Proof.
  intros H. apply update_bookkeeping_shape in H.
  destruct H as (l & m & r & _ & ->).
  unfold update_timers, update_mqtt_status.
  destruct (5000 <? _); split; reflexivity.
Qed.

(** Past the bookkeeping nothing in [update()] touches the countdown. *)
Lemma update_keeps_countdown (fuel : nat) (i : Inputs) (s s' : t) :
  update fuel i s = Ok s' ->
  exists s1,
    update_bookkeeping fuel i s = Ok s1
    /\ deficit_ms_remain s' = deficit_ms_remain s1.
Proof.
  intros H. apply update_inv in H. destruct H as (s1 & ms & Hb & Hh & ->).
  exists s1. split; [exact Hb |].
  fields. apply handle_state_machine_books in Hh.
  destruct Hh as [[_ Hms _ _ _] | (_ & s0 & [_ Hms _ _ _] & Hc)];
    [exact Hms |].
  apply complete_feed_books in Hc. destruct Hc as (Hc & _). congruence.
Qed.

(** C1 as the specification words it, with 86400000 / grams_per_day
    milliseconds per pass, fails on the first pass after start-up: one
    millisecond has elapsed, one milligram is added and the countdown stands
    at 1439 = -1 + 86400 / 60, not at -1 + 86400000 / 60. *)
Lemma deficit_accrual_counterexample :
  exists s1,
    update_bookkeeping 1 first_tick (begin 0 init) = Ok s1
    /\ deficit_mg s1 = 1
    /\ deficit_ms_remain s1 = 1439
    /\ ~ accrues (86400000 / grams_per_day (begin 0 init))
           (delta_millis_of first_tick (begin 0 init)) (begin 0 init) s1.
Proof.
  eexists. split; [vm_compute; reflexivity |].
  split; [reflexivity |]. split; [reflexivity |].
  intros (n & Hmg & Hms & _).
  assert (Hmg' : 1 = 0 + Z.of_nat n) by exact Hmg.
  assert (Hms' : 1439 = 0 - 1 + Z.of_nat n * 1440000) by exact Hms.
  lia.
Qed.

(** C1 (amended).  Every call of [update()] that returns has subtracted the
    elapsed milliseconds from [deficit_ms_remain] and then, pass by pass and
    only while the countdown was negative, added exactly 1 to [deficit_mg] and
    86400 / grams_per_day milliseconds to the countdown, until the countdown
    was no longer negative; nothing later in [update()] touches the
    countdown. *)
Theorem deficit_accrual (fuel : nat) (i : Inputs) (s s' : t) :
  update fuel i s = Ok s' ->
  exists s1,
    update_bookkeeping fuel i s = Ok s1
    /\ accrues (Z.quot 86400 (grams_per_day s)) (delta_millis_of i s) s s1
    /\ deficit_ms_remain s' = deficit_ms_remain s1.
Proof.
  intros H. apply update_keeps_countdown in H. destruct H as (s1 & Hb & Hk).
  exists s1. split; [exact Hb |]. split; [| exact Hk].
  apply update_bookkeeping_deficit in Hb.
  destruct Hb as (n & _ & Hmg & Hms & Hge & Hlt & _).
  exists n. repeat split.
  - exact Hmg.
  - exact Hms.
  - exact Hge.
  - exact Hlt.
Qed.

Lemma deficit_accrual_witness :
  exists s1,
    update_bookkeeping 5 first_tick (begin 0 init) = Ok s1
    /\ accrues (Z.quot 86400 60) 1 (begin 0 init) s1
    /\ deficit_ms_remain (returned (update 5 first_tick (begin 0 init)))
       = deficit_ms_remain s1.
Proof.
  apply (deficit_accrual 5 first_tick (begin 0 init)
           (returned (update 5 first_tick (begin 0 init)))).
  vm_compute. reflexivity.
Defined.

(** ** Termination of the deficit loop *)

Lemma accrual_count_bound (remain period : Z) :
  1 <= period -> accrual_count remain period <= Z.max 0 (- remain).
Proof.
  intros Hp. unfold accrual_count. destruct (Z.ltb_spec remain 0); [| lia].
  assert ((period - 1 - remain) / period < - remain + 1); [| lia].
  apply Z.div_lt_upper_bound; nia.
Qed.

(** C2 as the specification words it fails for a rate of 86401 grams per day:
    the rate is positive and one millisecond has elapsed, the countdown is
    -1 and stays there, and [update()] does not return whatever the fuel. *)
Lemma deficit_loop_counterexample :
  0 < grams_per_day fast_rate
  /\ 0 <= delta_millis_of first_tick fast_rate
  /\ forall fuel s',
       update_deficit fuel (delta_millis_of first_tick fast_rate) fast_rate <> Ok s'
       /\ update fuel first_tick fast_rate <> Ok s'.
Proof.
  split; [reflexivity |]. split; [discriminate |].
  assert (Hd : forall fuel s s',
             grams_per_day s = 86401 -> deficit_ms_remain s = 0 ->
             update_deficit fuel 1 s <> Ok s').
  { intros fuel s s' Hg Hr H. apply update_deficit_inv in H.
    destruct H as (s0 & _ & H & _). revert H.
    apply deficit_loop_stuck.
    - unfold deficit_period. fields. rewrite Hg. reflexivity.
    - fields. lia. }
  intros fuel s'. split; [now apply Hd |].
  intros H. apply update_inv in H. destruct H as (s1 & ms & Hb & _).
  apply update_bookkeeping_inv in Hb. destruct Hb as (l & s0 & _ & Hdd & _).
  revert Hdd. now apply Hd.
Qed.

(** C2 (amended).  For a rate of at least 1 and at most 86400 grams per day
    and an elapsed time that is not negative, the loop ends after
    [accrual_count] passes, a number bounded by the milliseconds the countdown
    is short, leaving the countdown non-negative (signed overflow apart: the
    subtraction and the increments must fit 32 bits).  And for any rate, a
    call of [update()] that returns leaves [deficit_ms_remain] non-negative. *)
Theorem deficit_loop_bounded (fuel : nat) (i : Inputs) (s : t) :
  let delta := delta_millis_of i s in
  let count := accrual_count (deficit_ms_remain s - delta) (deficit_period s) in
  0 < grams_per_day s <= 86400 ->
  0 <= delta ->
  is_int32 (deficit_ms_remain s - delta) ->
  INT32_MIN <= deficit_mg s ->
  deficit_mg s + count <= INT32_MAX ->
  (Z.to_nat count <= fuel)%nat ->
  (exists s1,
     update_deficit fuel delta s = Ok s1
     /\ deficit_mg s1 = deficit_mg s + count
     /\ 0 <= count <= Z.max 0 (delta - deficit_ms_remain s)
     /\ 0 <= deficit_ms_remain s1)
  /\ (forall s', update fuel i s = Ok s' -> 0 <= deficit_ms_remain s').
Proof.
  intros delta count Hg Hd Hr Hlo Hhi Hfuel. split.
  - pose proof (deficit_period_bounds s Hg) as Hp.
    destruct (deficit_loop_terminates fuel
                (assign_deficit_ms_remain (deficit_ms_remain s - delta) s))
      as (s0 & E & Hmg & Hms); try assumption.
    unfold update_deficit. rewrite (int32_ok _ Hr). cbn [bind].
    rewrite E. cbn [bind]. eexists. split; [reflexivity |].
    fields. fields in Hmg. split; [exact Hmg |]. split; [| exact Hms].
    subst count. split.
    + apply accrual_count_nonneg. lia.
    + pose proof (accrual_count_bound (deficit_ms_remain s - delta)
                    (deficit_period s) ltac:(lia)). lia.
  - intros s' H. apply update_keeps_countdown in H.
    destruct H as (s1 & Hb & ->).
    apply update_bookkeeping_deficit in Hb.
    destruct Hb as (n & _ & _ & _ & Hge & _). exact Hge.
Qed.

Lemma deficit_loop_bounded_witness :
  (exists s1,
     update_deficit 5 1 (begin 0 init) = Ok s1
     /\ deficit_mg s1 = 0 + 1
     /\ 0 <= 1 <= Z.max 0 (1 - 0)
     /\ 0 <= deficit_ms_remain s1)
  /\ (forall s', update 5 first_tick (begin 0 init) = Ok s' ->
                 0 <= deficit_ms_remain s').
Proof.
  apply (deficit_loop_bounded 5 first_tick (begin 0 init));
    vm_compute; try split; try discriminate; try reflexivity.
  repeat constructor.
Defined.

(** ** Power loss stays reported *)

Lemma call_keeps_power_loss (c : Call) (s s' : t) :
  clears_errors c = false -> call c s = Ok s' ->
  error_power_loss s' = error_power_loss s.
Proof.
  destruct c; cbn [clears_errors call]; try discriminate; intros _ H.
  - apply update_inv in H. destruct H as (s1 & ms & Hb & Hh & ->).
    apply update_bookkeeping_deficit in Hb.
    destruct Hb as (n & _ & _ & _ & _ & _ & _ & _ & Hp).
    fields. rewrite <- Hp.
    apply handle_state_machine_books in Hh.
    destruct Hh as [[_ _ _ _ Hp'] | (_ & s0 & [_ _ _ _ Hp'] & Hc)];
      [exact Hp' |].
    apply complete_feed_books in Hc.
    destruct Hc as (_ & _ & _ & Hc & _). congruence.
  - injection H as <-. apply (books_power _ _ (feed_books s)).
  - injection H as <-. unfold tare_reservoir.
    now rewrite (books_power _ _ (transition_books _ _)).
  - injection H as <-. unfold tare_bowl.
    now rewrite (books_power _ _ (transition_books _ _)).
  - unfold adjust_deficit in H. apply bind_inv in H.
    destruct H as (d & _ & [= <-]). reflexivity.
  - injection H as <-. reflexivity.
Qed.

Lemma run_keeps_power_loss (calls : list Call) : forall s s',
  forallb (fun c => negb (clears_errors c)) calls = true ->
  run calls s = Ok s' ->
  error_power_loss s' = error_power_loss s.
Proof.
  induction calls as [|c calls IH]; intros s s' Hn H; cbn [run] in H.
  - now injection H as <-.
  - cbn [forallb] in Hn. apply andb_prop in Hn. destruct Hn as [Hc Hn].
    apply negb_true_iff in Hc.
    apply bind_inv in H. destruct H as (s1 & H1 & H).
    rewrite (IH _ _ Hn H). now apply call_keeps_power_loss with (c := c).
Qed.

(** C10.  In the production build the power-loss flag is true after
    [begin()], and no [update()], [feed()], [tare_reservoir()], [tare_bowl()],
    [adjust_deficit()] or [set_grams_per_day()] clears it: in every state
    reached from [begin()] without a call of [reset()] or
    [enter_maintenance()] the flag is set, and where neither the
    limit-switch fault nor a load-cell limp-mode flag is set [get_error_report]
    returns "Power loss" with severity Error. *)
Theorem power_loss_reported_until_reset
    (now0 : Z) (calls : list Call) (s : t) :
  forallb (fun c => negb (clears_errors c)) calls = true ->
  run calls (begin now0 init) = Ok s ->
  error_power_loss (begin now0 init) = true
  /\ error_power_loss s = true
  /\ (error_limit_switch s = false ->
      loadcell_limp_mode s = None ->
      get_error_report s = {| message := Some "Power loss"; severity := ERROR |}).
Proof.
  intros Hn Hrun. split; [reflexivity |].
  assert (Hp : error_power_loss s = true)
    by (rewrite (run_keeps_power_loss _ _ _ Hn Hrun); reflexivity).
  split; [exact Hp |].
  intros Hl Hm. unfold get_error_report. now rewrite Hl, Hm, Hp.
Qed.

(** A start-up followed by a pass of the loop, a manual feed and another
    pass. *)
Lemma power_loss_reported_until_reset_witness :
  get_error_report
    (returned (run [CallUpdate 5 first_tick; CallFeed; CallUpdate 5 first_tick]
                 (begin 0 init)))
  = {| message := Some "Power loss"; severity := ERROR |}.
Proof.
  apply (power_loss_reported_until_reset 0
           [CallUpdate 5 first_tick; CallFeed; CallUpdate 5 first_tick]);
    vm_compute; reflexivity.
Defined.

(** ** The sync phase of the motor run *)

Lemma update_from_bookkeeping (fuel : nat) (i : Inputs) (s s1 : t) (ms : bool * t) :
  update_bookkeeping fuel i s = Ok s1 ->
  handle_state_machine i s1 = Ok ms ->
  update fuel i s = Ok (assign_pin_motor (fst ms) (snd ms)).
Proof. intros Hb Hh. unfold update. rewrite Hb. cbn [bind]. now rewrite Hh. Qed.

Lemma error_limit_switch_transition (st : State) (s : t) :
  error_limit_switch (transition st s) = error_limit_switch s.
Proof.
  unfold transition. destruct (State_eqb st (state s)); destruct st; reflexivity.
Qed.

(** C3 as the specification words it fails when the phase times out: with the
    switch still asserted at 3000 ms the fault flag is set and the machine
    goes to [FEED_POST_WAIT], not to [FEED_RUN_A]. *)
Lemma run_sync_counterexample :
  state sync_timing_out = FEED_RUN_SYNC
  /\ error_limit_switch sync_timing_out = false
  /\ limit tick_limit_asserted = true
  /\ exists s',
       update 5 tick_limit_asserted sync_timing_out = Ok s'
       /\ millis_since_transition sync_timing_out
          + delta_millis_of tick_limit_asserted sync_timing_out
          = FEED_RUN_TIMEOUT_MILLIS
       /\ error_limit_switch s' = true
       /\ state s' = FEED_POST_WAIT
       /\ state s' <> FEED_RUN_A.
Proof.
  repeat split. eexists. split; [vm_compute; reflexivity |].
  repeat split. discriminate.
Qed.

(** C3 (amended).  In [FEED_RUN_SYNC] with the limit-switch fault flag clear
    the motor is driven and: on a pass where the limit switch is not asserted
    the machine goes to [FEED_RUN_A]; while the switch is asserted and less
    than 3000 ms have passed in the state it stays in [FEED_RUN_SYNC]; once
    3000 ms have passed with the switch asserted it sets the fault flag and
    goes to [FEED_POST_WAIT].  The call returns whenever its bookkeeping
    does. *)
Theorem run_sync_step (fuel : nat) (i : Inputs) (s s1 : t) :
  update_bookkeeping fuel i s = Ok s1 ->
  state s = FEED_RUN_SYNC ->
  error_limit_switch s = false ->
  let elapsed := uint32 (millis_since_transition s + delta_millis_of i s) in
  exists s',
    update fuel i s = Ok s'
    /\ pin_motor s' = true
    /\ (limit i = false ->
        state s' = FEED_RUN_A /\ error_limit_switch s' = false)
    /\ (limit i = true -> elapsed < FEED_RUN_TIMEOUT_MILLIS ->
        state s' = FEED_RUN_SYNC /\ error_limit_switch s' = false)
    /\ (limit i = true -> FEED_RUN_TIMEOUT_MILLIS <= elapsed ->
        state s' = FEED_POST_WAIT /\ error_limit_switch s' = true).
Proof.
  intros Hb Hst Hflag elapsed.
  pose proof (update_bookkeeping_frame _ _ _ _ Hb) as F.
  assert (Hh : exists ms, handle_state_machine i s1 = Ok ms
                 /\ fst ms = true
                 /\ (limit i = false ->
                     state (snd ms) = FEED_RUN_A
                     /\ error_limit_switch (snd ms) = false)
                 /\ (limit i = true -> elapsed < FEED_RUN_TIMEOUT_MILLIS ->
                     state (snd ms) = FEED_RUN_SYNC
                     /\ error_limit_switch (snd ms) = false)
                 /\ (limit i = true -> FEED_RUN_TIMEOUT_MILLIS <= elapsed ->
                     state (snd ms) = FEED_POST_WAIT
                     /\ error_limit_switch (snd ms) = true)).
  { unfold handle_state_machine.
    rewrite (bk_state _ _ _ F), Hst, (bk_limit_switch _ _ _ F), Hflag.
    rewrite (bk_since_transition _ _ _ F). fold elapsed. cbn [negb].
    destruct (limit i); cbn [negb].
    - destruct (Z.ltb_spec elapsed FEED_RUN_TIMEOUT_MILLIS) as [Hlt|Hge];
        eexists; (split; [reflexivity |]); cbn [fst snd];
        (split; [reflexivity |]); repeat split; try discriminate; try lia.
      + rewrite (bk_state _ _ _ F). exact Hst.
      + rewrite (bk_limit_switch _ _ _ F). exact Hflag.
      + rewrite error_limit_switch_transition. reflexivity.
    - eexists. split; [reflexivity |]. cbn [fst snd].
      split; [reflexivity |]. repeat split; try discriminate.
      rewrite error_limit_switch_transition, (bk_limit_switch _ _ _ F).
      exact Hflag. }
  destruct Hh as (ms & Hh & Hm & H1 & H2 & H3).
  exists (assign_pin_motor (fst ms) (snd ms)).
  split; [now apply update_from_bookkeeping with (s1 := s1) |].
  fields. auto.
Qed.

Lemma run_sync_step_witness :
  exists s',
    update 5 tick_limit_asserted sync_timing_out = Ok s'
    /\ pin_motor s' = true
    /\ (limit tick_limit_asserted = false ->
        state s' = FEED_RUN_A /\ error_limit_switch s' = false)
    /\ (limit tick_limit_asserted = true -> 3000 < FEED_RUN_TIMEOUT_MILLIS ->
        state s' = FEED_RUN_SYNC /\ error_limit_switch s' = false)
    /\ (limit tick_limit_asserted = true -> FEED_RUN_TIMEOUT_MILLIS <= 3000 ->
        state s' = FEED_POST_WAIT /\ error_limit_switch s' = true).
Proof.
  apply (run_sync_step 5 tick_limit_asserted sync_timing_out
           (returned (update_bookkeeping 5 tick_limit_asserted sync_timing_out)));
    vm_compute; reflexivity.
Defined.

(** ** The dispensed weight *)

(** C4.  With no load-cell limp-mode flag set,
    [estimate_dispensed_weight_grams] takes [dispensed_reservoir =
    feed_reservoir_pre - feed_reservoir_post] and [dispensed_bowl =
    feed_bowl_post - feed_bowl_pre]; if the absolute value of their difference
    exceeds 5 it sets the disagreement flag and returns 9; otherwise it takes
    their average, and if that is below -2 or above 27 it sets the
    unreasonable flag and returns 9, else it returns the average and sets
    nothing.  With 500, 491, 10 and 10.5 the two amounts are 9 and 0.5, they
    differ by 8.5, the disagreement flag is set and 9 is returned. *)
Theorem estimate_dispensed_weight (s : t) :
  loadcell_limp_mode s = None ->
  let dispensed_reservoir := F32.sub (feed_reservoir_pre s) (feed_reservoir_post s) in
  let dispensed_bowl := F32.sub (feed_bowl_post s) (feed_bowl_pre s) in
  let disagreement := F32.abs (F32.sub dispensed_reservoir dispensed_bowl) in
  let average := F32.div (F32.add dispensed_reservoir dispensed_bowl) (F32.of_Z 2) in
  (F32.gtb disagreement (F32.of_Z 5) = true ->
   estimate_dispensed_weight_grams s
   = (F32.of_Z 9, assign_error_loadcell_disagree true s))
  /\ (F32.gtb disagreement (F32.of_Z 5) = false ->
      F32.ltb average (F32.of_Z (-2)) = true \/ F32.gtb average (F32.of_Z 27) = true ->
      estimate_dispensed_weight_grams s
      = (F32.of_Z 9, assign_error_loadcell_unreasonable true s))
  /\ (F32.gtb disagreement (F32.of_Z 5) = false ->
      F32.ltb average (F32.of_Z (-2)) = false ->
      F32.gtb average (F32.of_Z 27) = false ->
      estimate_dispensed_weight_grams s = (average, s))
  /\ (feed_reservoir_pre s = F32.of_Z 500 ->
      feed_reservoir_post s = F32.of_Z 491 ->
      feed_bowl_pre s = F32.of_Z 10 ->
      feed_bowl_post s = F32.of_scaled 21 (-1) ->
      dispensed_reservoir = F32.of_Z 9
      /\ dispensed_bowl = F32.of_scaled 1 (-1)
      /\ disagreement = F32.of_scaled 17 (-1)
      /\ estimate_dispensed_weight_grams s
         = (F32.of_Z 9, assign_error_loadcell_disagree true s)).
Proof.
  intros Hlimp dr db dis avg.
  assert (E9 : FEED_ASSUMED_WEIGHT_GRAMS = F32.of_Z 9) by reflexivity.
  assert (E5 : FEED_MAX_DISAGREE_GRAMS = F32.of_Z 5) by reflexivity.
  assert (E2 : F32.neg (F32.of_Z 2) = F32.of_Z (-2)) by (vm_compute; reflexivity).
  assert (E27 : F32.mul FEED_ASSUMED_WEIGHT_GRAMS (F32.of_Z 3) = F32.of_Z 27)
    by (vm_compute; reflexivity).
  assert (Hgen :
    estimate_dispensed_weight_grams s
    = if F32.gtb dis (F32.of_Z 5)
      then (F32.of_Z 9, assign_error_loadcell_disagree true s)
      else if F32.ltb avg (F32.of_Z (-2)) || F32.gtb avg (F32.of_Z 27)
           then (F32.of_Z 9, assign_error_loadcell_unreasonable true s)
           else (avg, s)).
  { unfold estimate_dispensed_weight_grams. rewrite Hlimp.
    fold dr db. fold dis. fold avg. rewrite E2, E27, E9, E5. reflexivity. }
  split; [intros H; rewrite Hgen, H; reflexivity |].
  split.
  { intros H [H1|H1]; rewrite Hgen, H, H1; [reflexivity |].
    now rewrite orb_true_r. }
  split; [intros H H1 H2; rewrite Hgen, H, H1, H2; reflexivity |].
  intros Hrp Hrq Hbp Hbq.
  assert (Hdr : dr = F32.of_Z 9)
    by (subst dr; rewrite Hrp, Hrq; vm_compute; reflexivity).
  assert (Hdb : db = F32.of_scaled 1 (-1))
    by (subst db; rewrite Hbp, Hbq; vm_compute; reflexivity).
  assert (Hdis : dis = F32.of_scaled 17 (-1))
    by (subst dis; rewrite Hdr, Hdb; vm_compute; reflexivity).
  repeat split; try assumption.
  rewrite Hgen, Hdis. reflexivity.
Qed.

Lemma estimate_dispensed_weight_witness :
  estimate_dispensed_weight_grams sensors_disagreeing
  = (F32.of_Z 9, assign_error_loadcell_disagree true sensors_disagreeing).
Proof.
  apply (estimate_dispensed_weight sensors_disagreeing); vm_compute; reflexivity.
Defined.

(** ** Jam escalation *)




Lemma complete_feed_jam_state (i : Inputs) (s s' : t) :
  complete_feed i s = Ok s' ->
  maintenance_mode s'
  = maintenance_mode
      (update_jam_state (fst (estimate_dispensed_weight_grams s))
         (snd (estimate_dispensed_weight_grams s)))
  /\ feed_jammed_retries s'
     = feed_jammed_retries
         (update_jam_state (fst (estimate_dispensed_weight_grams s))
            (snd (estimate_dispensed_weight_grams s))).
Proof.
  unfold complete_feed.
  destruct (estimate_dispensed_weight_grams s) as [w s1]. cbn [fst snd].
  intros H. apply bind_inv in H. destruct H as (mg & _ & H).
  apply bind_inv in H. destruct H as (d & _ & [= <-]).
  unfold transition.
  match goal with |- context [State_eqb ?a ?b] => destruct (State_eqb a b) end;
    split; reflexivity.
Qed.




(** ** The abort on noisy pre-feed readings *)

Lemma same_schedule_trans (a b c : t) :
  same_schedule a b -> same_schedule b c -> same_schedule a c.
Proof. intros [] []; split; congruence. Qed.

Lemma need_to_feed_same_schedule (a b : t) :
  same_schedule a b -> need_to_feed b = need_to_feed a.
Proof. intros [Hm Hd Ht Ha _]. unfold need_to_feed. now rewrite Hm, Hd, Ht, Ha. Qed.

Lemma transition_schedule (st : State) (s : t) : same_schedule s (transition st s).
Proof.
  unfold transition. destruct (State_eqb st (state s)); destruct st;
    split; reflexivity.
Qed.

Lemma handle_loadcell_readout_schedule (s : t) :
  same_schedule s (snd (handle_loadcell_readout s)).
Proof.
  unfold handle_loadcell_readout.
  destruct (error_loadcell_timeout s || (10000 <? millis_since_transition s));
    [split; reflexivity |].
  destruct (Loadcell.is_busy (loadcell s)); [split; reflexivity |].
  destruct (Loadcell.get_sensor (loadcell s)); split; reflexivity.
Qed.

Lemma handle_loadcell_readout_state (s : t) :
  state (snd (handle_loadcell_readout s)) = state s.
Proof.
  unfold handle_loadcell_readout.
  destruct (error_loadcell_timeout s || (10000 <? millis_since_transition s));
    [reflexivity |].
  destruct (Loadcell.is_busy (loadcell s)); [reflexivity |].
  destruct (Loadcell.get_sensor (loadcell s)); reflexivity.
Qed.

(** While the feed-attempt timer is short of the cooldown, [need_to_feed]
    blocks, and the reason is Cooldown when the mode is Operational and the
    deficit has reached the threshold. *)
Lemma need_to_feed_cooling (s : t) :
  millis_since_feed_attempt s < FEED_COOLDOWN_MILLIS ->
  need_to_feed s <> NOT_BLOCKED
  /\ (maintenance_mode s = OPERATIONAL ->
      deficit_threshold_mg s <= deficit_mg s ->
      need_to_feed s = COOLDOWN).
Proof.
  intros Hc. unfold need_to_feed.
  destruct (maintenance_mode s); try (split; [discriminate | discriminate]).
  destruct (Z.ltb_spec (deficit_mg s) (deficit_threshold_mg s)).
  - split; [discriminate | intros _ H'; lia].
  - destruct (Z.ltb_spec (millis_since_feed_attempt s) FEED_COOLDOWN_MILLIS);
      [split; [discriminate | reflexivity] | lia].
Qed.

(** Outside a feed cycle a call of [update()] advances the feed-attempt timer
    by the elapsed time, and it starts a feed cycle only if [need_to_feed]
    does not block. *)
Lemma idle_update (fuel : nat) (i : Inputs) (a b : t) :
  is_feeding (state a) = false ->
  update fuel i a = Ok b ->
  millis_since_feed_attempt b
  = uint32 (millis_since_feed_attempt a + delta_millis_of i a)
  /\ update_prev_millis b = now i
  /\ (is_feeding (state b) = false \/ need_to_feed b = NOT_BLOCKED).
Proof.
  intros Hidle H. apply update_inv in H. destruct H as (s1 & ms & Hb & Hh & ->).
  pose proof (update_bookkeeping_frame _ _ _ _ Hb) as F.
  rewrite <- (bk_since_feed_attempt _ _ _ F).
  assert (Hp : update_prev_millis s1 = now i).
  { apply update_bookkeeping_shape in Hb. destruct Hb as (l & m & r & _ & ->).
    unfold update_timers, update_mqtt_status.
    destruct (5000 <? _); reflexivity. }
  assert (G : same_schedule s1 (snd ms)
              /\ (is_feeding (state (snd ms)) = false
                  \/ need_to_feed s1 = NOT_BLOCKED)).
  { revert Hh. unfold handle_state_machine. rewrite (bk_state _ _ _ F).
    pose proof (handle_loadcell_readout_schedule s1) as Hr.
    pose proof (handle_loadcell_readout_state s1) as Hrs.
    rewrite (bk_state _ _ _ F) in Hrs.
    destruct (state a) eqn:Hst; try discriminate Hidle.
    all: repeat match goal with
         | |- context [handle_loadcell_readout ?x] =>
             destruct (handle_loadcell_readout x) as [done s2];
             cbn [snd] in Hr, Hrs; cbn zeta
         | |- match need_to_feed ?x with _ => _ end = _ -> _ =>
             destruct (need_to_feed x) eqn:Hn
         | |- (if ?c then _ else _) = _ -> _ => destruct c
         | |- match ?c with _ => _ end = _ -> _ => destruct c
         end.
    all: intros [= <-]; cbn [snd].
    all: try (split; [apply transition_schedule | now right]).
    all: try (split; [apply transition_schedule | now left]).
    all: try (split; [split; reflexivity | left; rewrite (bk_state _ _ _ F), Hst;
                                           reflexivity]).
    all: try (split; [eapply same_schedule_trans;
                        [exact Hr | apply transition_schedule] | now left]).
    all: split; [exact Hr | left; rewrite Hrs; reflexivity]. }
  destruct G as [Hs Hf].
  fields. split; [apply (sch_attempt _ _ Hs) |].
  split; [rewrite (sch_prev _ _ Hs); exact Hp |].
  destruct Hf as [Hf|Hf]; [left; exact Hf | right].
  rewrite <- Hf. apply need_to_feed_same_schedule.
  eapply same_schedule_trans; [exact Hs | split; reflexivity].
Qed.

(** After the feed-attempt timer was restarted and for as long as it stays
    short of the cooldown, no feed cycle begins. *)
Lemma no_feed_while_cooling (ticks : list (nat * Inputs)) :
  forall (s : t) (trace : list t),
    is_feeding (state s) = false ->
    run_updates ticks s = Ok trace ->
    forall (k : nat) (u : t),
      nth_error trace k = Some u ->
      (forall (j : nat) (v : t), (j <= k)%nat -> nth_error trace j = Some v ->
         millis_since_feed_attempt v < FEED_COOLDOWN_MILLIS) ->
      is_feeding (state u) = false
      /\ millis_since_feed_attempt u
         = timer_after (firstn (S k) ticks) (update_prev_millis s)
             (millis_since_feed_attempt s).
Proof.
  induction ticks as [|[fuel i] ticks IH]; intros s trace Hidle Hrun k u Hk Hcool.
  - cbn in Hrun. injection Hrun as <-. destruct k; discriminate.
  - cbn [run_updates] in Hrun.
    apply bind_inv in Hrun. destruct Hrun as (s1 & Hu & Hrun).
    apply bind_inv in Hrun. destruct Hrun as (tr & Htr & [= <-]).
    destruct (idle_update _ _ _ _ Hidle Hu) as (Htimer & Hprev & Hnext).
    assert (Hidle1 : is_feeding (state s1) = false).
    { destruct Hnext as [H|H]; [exact H |].
      pose proof (Hcool 0%nat s1 ltac:(lia) eq_refl) as Hc.
      apply need_to_feed_cooling in Hc. now destruct Hc. }
    change (firstn (S k) ((fuel, i) :: ticks))
      with ((fuel, i) :: firstn k ticks).
    cbn [timer_after]. fold (delta_millis_of i s). rewrite <- Htimer.
    destruct k as [|k].
    + cbn in Hk. injection Hk as <-. split; [exact Hidle1 | reflexivity].
    + cbn [nth_error] in Hk. rewrite <- Hprev.
      apply (IH s1 tr Hidle1 Htr k u Hk).
      intros j v Hj Hv. apply (Hcool (S j) v); [lia | exact Hv].
Qed.

Lemma handle_loadcell_readout_frame (s : t) :
  readout_frame s (snd (handle_loadcell_readout s)).
Proof.
  unfold handle_loadcell_readout.
  destruct (error_loadcell_timeout s || (10000 <? millis_since_transition s));
    [split; reflexivity |].
  destruct (Loadcell.is_busy (loadcell s)); [split; reflexivity |].
  destruct (Loadcell.get_sensor (loadcell s)); split; reflexivity.
Qed.

Lemma transition_keeps_report (st : State) (s : t) :
  feed_report (transition st s) = feed_report s
  /\ feed_sensor_retries (transition st s) = feed_sensor_retries s
  /\ error_reservoir_stddev (transition st s) = error_reservoir_stddev s
  /\ error_bowl_stddev (transition st s) = error_bowl_stddev s.
Proof.
  unfold transition. destruct (State_eqb st (state s)); destruct st;
    repeat split.
Qed.

(** C7 as the specification words it fails in two ways.  With the overall
    count at 3 the cycle is aborted, but after a manual feed in maintenance
    mode [need_to_feed] reports Maintenance, not Cooldown.  With the count
    at 4 the cycle is not aborted: the reservoir is flagged noisy and the
    machine goes on to weigh the bowl, with no feed report written. *)
Lemma sensor_retry_counterexample :
  (exists s',
     update 5 first_tick (noisy_reading 3 MAINTENANCE) = Ok s'
     /\ state s' = IDLE
     /\ feed_report s' = {| result := SENSOR_RETRY; arg := 4; millis := 1 |}
     /\ millis_since_feed_attempt s' = 0
     /\ need_to_feed s' = BLOCKED_MAINTENANCE
     /\ need_to_feed s' <> COOLDOWN)
  /\ (exists s',
        update 5 first_tick (noisy_reading 4 OPERATIONAL) = Ok s'
        /\ state s' = FEED_PRE_MEASURE_BOWL
        /\ state s' <> IDLE
        /\ error_reservoir_stddev s' = true
        /\ feed_report s' = {| result := NONE; arg := 0; millis := 0 |}).
Proof.
  split; eexists; (split; [vm_compute; reflexivity |]);
    repeat split; discriminate.
Qed.

(** C7 (amended).  In a pre-feed measurement state, when a reading is in,
    is noisy (standard deviation not below 1 g) and the in-state retries are
    used up (5), then
    - while the overall sensor-retry count is at most 3 the feed cycle is
      aborted: the count goes up by one, a SensorRetry feed report carries the
      new count, the machine is back in Idle and the feed-attempt timer is
      back at zero, so that until the timer has again counted the 5-minute
      cooldown no feed cycle begins and [need_to_feed] blocks, with reason
      Cooldown when the mode is Operational and the deficit has reached the
      threshold;
    - once the count is above 3 the cycle is not aborted: the sensor is
      flagged noisy and the machine goes on to the next state, and no feed
      report is written.
    The call returns whenever its bookkeeping does. *)
Theorem sensor_retry_abort (fuel : nat) (i : Inputs) (s s1 : t) :
  update_bookkeeping fuel i s = Ok s1 ->
  state s = FEED_PRE_MEASURE_RESERVOIR \/ state s = FEED_PRE_MEASURE_BOWL ->
  loadcell_limp_mode s = None ->
  fst (handle_loadcell_readout s1) = true ->
  F32.ltb (Loadcell.get_stddev (loadcell s1)) (F32.of_Z 1) = false ->
  5 <= state_retries s ->
  exists s',
    update fuel i s = Ok s'
    /\ (feed_sensor_retries s <= FEED_MAX_RETRIES ->
        state s' = IDLE
        /\ feed_sensor_retries s' = uint16 (feed_sensor_retries s + 1)
        /\ feed_report s' = {| result := SENSOR_RETRY;
                               arg := uint16 (feed_sensor_retries s + 1);
                               millis := now_report i |}
        /\ millis_since_feed_attempt s' = 0
        /\ need_to_feed s' <> NOT_BLOCKED
        /\ cooling_down_after i s')
    /\ (FEED_MAX_RETRIES < feed_sensor_retries s ->
        (state s = FEED_PRE_MEASURE_RESERVOIR ->
         state s' = FEED_PRE_MEASURE_BOWL /\ error_reservoir_stddev s' = true)
        /\ (state s = FEED_PRE_MEASURE_BOWL ->
            state s' = FEED_RUN_SYNC /\ error_bowl_stddev s' = true)
        /\ feed_sensor_retries s' = feed_sensor_retries s
        /\ feed_report s' = feed_report s).
Proof.
  intros Hb Hst Hlimp Hdone Hnoisy Hretries.
  pose proof (update_bookkeeping_frame _ _ _ _ Hb) as F.
  assert (Hp : update_prev_millis s1 = now i).
  { pose proof Hb as Hb'. apply update_bookkeeping_shape in Hb'.
    destruct Hb' as (l & m & r & _ & ->).
    unfold update_timers, update_mqtt_status. destruct (5000 <? _); reflexivity. }
  assert (Hlimp1 : loadcell_limp_mode s1 = None).
  { revert Hlimp. unfold loadcell_limp_mode.
    now rewrite (bk_timeout _ _ _ F), (bk_reservoir_stddev _ _ _ F),
      (bk_bowl_stddev _ _ _ F), (bk_disagree _ _ _ F), (bk_unreasonable _ _ _ F). }
  pose proof (handle_loadcell_readout_frame s1) as R.
  destruct (handle_loadcell_readout s1) as [done s2] eqn:Er.
  cbn [fst] in Hdone. cbn [snd] in R. subst done.
  destruct R as [Rl Rst Rsr Rfr Rrep Rprev].
  rewrite (bk_state_retries _ _ _ F) in Rsr.
  rewrite (bk_sensor_retries _ _ _ F) in Rfr.
  rewrite (bk_feed_report _ _ _ F) in Rrep.
  rewrite (bk_state _ _ _ F) in Rst.
  destruct (Z.leb_spec (feed_sensor_retries s) FEED_MAX_RETRIES) as [Hle|Hgt].
  - (* the cycle is aborted *)
    assert (Hh : handle_state_machine i s1 = Ok (false, sensor_retry i s2)).
    { unfold handle_state_machine. rewrite (bk_state _ _ _ F).
      destruct Hst as [Hst|Hst]; rewrite Hst, Hlimp1, Er; cbn [negb];
        rewrite Rl, Hnoisy, Rsr, Rfr;
        destruct (Z.ltb_spec (state_retries s) 5); try lia;
        destruct (Z.leb_spec (feed_sensor_retries s) FEED_MAX_RETRIES); try lia;
        reflexivity. }
    exists (assign_pin_motor false (sensor_retry i s2)).
    split; [exact (update_from_bookkeeping _ _ _ _ _ Hb Hh) |].
    split; [intros _ | intros H; lia].
    assert (Hst' : state (assign_pin_motor false (sensor_retry i s2)) = IDLE)
      by reflexivity.
    assert (Hcount : feed_sensor_retries (assign_pin_motor false (sensor_retry i s2))
                     = uint16 (feed_sensor_retries s + 1)).
    { read_field. unfold sensor_retry.
      rewrite (proj1 (proj2 (transition_keeps_report _ _))).
      repeat read_field. now rewrite Rfr. }
    assert (Hrep : feed_report (assign_pin_motor false (sensor_retry i s2))
                   = {| result := SENSOR_RETRY;
                        arg := uint16 (feed_sensor_retries s + 1);
                        millis := now_report i |}).
    { read_field. unfold sensor_retry.
      rewrite (proj1 (transition_keeps_report _ _)).
      repeat read_field. now rewrite Rfr. }
    assert (Htimer : millis_since_feed_attempt
                       (assign_pin_motor false (sensor_retry i s2)) = 0).
    { read_field. unfold sensor_retry.
      rewrite (sch_attempt _ _ (transition_schedule _ _)).
      repeat read_field. reflexivity. }
    assert (Hprev : update_prev_millis
                      (assign_pin_motor false (sensor_retry i s2)) = now i).
    { read_field. unfold sensor_retry.
      rewrite (sch_prev _ _ (transition_schedule _ _)).
      repeat read_field. now rewrite Rprev. }
    assert (Hcool : millis_since_feed_attempt
                      (assign_pin_motor false (sensor_retry i s2))
                    < FEED_COOLDOWN_MILLIS)
      by (rewrite Htimer; reflexivity).
    split; [exact Hst' |]. split; [exact Hcount |]. split; [exact Hrep |].
    split; [exact Htimer |]. split.
    + exact (proj1 (need_to_feed_cooling _ Hcool)).
    + intros ticks trace k u Hrun Hk Hall.
      destruct (no_feed_while_cooling ticks _ trace
                  ltac:(rewrite Hst'; reflexivity) Hrun k u Hk Hall)
        as [Hidle Ht].
      rewrite Hprev, Htimer in Ht.
      pose proof (need_to_feed_cooling u (Hall k u (le_n k) Hk)) as [Hn Hc].
      repeat split; assumption.
  - (* the sensor is flagged and the cycle goes on *)
    destruct Hst as [Hst|Hst].
    + assert (Hh : handle_state_machine i s1
                   = Ok (false, transition FEED_PRE_MEASURE_BOWL
                                  (assign_error_reservoir_stddev true s2))).
      { unfold handle_state_machine. rewrite (bk_state _ _ _ F).
        rewrite Hst, Hlimp1, Er; cbn [negb].
        rewrite Rl, Hnoisy, Rsr, Rfr.
        destruct (Z.ltb_spec (state_retries s) 5); try lia.
        destruct (Z.leb_spec (feed_sensor_retries s) FEED_MAX_RETRIES); try lia.
        reflexivity. }
      eexists. split; [exact (update_from_bookkeeping _ _ _ _ _ Hb Hh) |].
      split; [intros H; lia | intros _].
      cbn [fst snd]. repeat read_field.
      destruct (transition_keeps_report FEED_PRE_MEASURE_BOWL
                  (assign_error_reservoir_stddev true s2)) as (T1 & T2 & T3 & T4).
      rewrite T1, T2, T3. repeat read_field.
      repeat split; try assumption; congruence.
    + assert (Hh : handle_state_machine i s1
                   = Ok (false, transition FEED_RUN_SYNC
                                  (assign_error_bowl_stddev true s2))).
      { unfold handle_state_machine. rewrite (bk_state _ _ _ F).
        rewrite Hst, Hlimp1, Er; cbn [negb].
        rewrite Rl, Hnoisy, Rsr, Rfr.
        destruct (Z.ltb_spec (state_retries s) 5); try lia.
        destruct (Z.leb_spec (feed_sensor_retries s) FEED_MAX_RETRIES); try lia.
        reflexivity. }
      eexists. split; [exact (update_from_bookkeeping _ _ _ _ _ Hb Hh) |].
      split; [intros H; lia | intros _].
      cbn [fst snd]. repeat read_field.
      destruct (transition_keeps_report FEED_RUN_SYNC
                  (assign_error_bowl_stddev true s2)) as (T1 & T2 & T3 & T4).
      rewrite T1, T2, T4. repeat read_field.
      repeat split; try assumption; congruence.
Qed.

Lemma sensor_retry_abort_witness :
  let s := noisy_reading 3 OPERATIONAL in
  exists s',
    update 5 first_tick s = Ok s'
    /\ (feed_sensor_retries s <= FEED_MAX_RETRIES ->
        state s' = IDLE
        /\ feed_sensor_retries s' = uint16 (feed_sensor_retries s + 1)
        /\ feed_report s' = {| result := SENSOR_RETRY;
                               arg := uint16 (feed_sensor_retries s + 1);
                               millis := now_report first_tick |}
        /\ millis_since_feed_attempt s' = 0
        /\ need_to_feed s' <> NOT_BLOCKED
        /\ cooling_down_after first_tick s')
    /\ (FEED_MAX_RETRIES < feed_sensor_retries s ->
        (state s = FEED_PRE_MEASURE_RESERVOIR ->
         state s' = FEED_PRE_MEASURE_BOWL /\ error_reservoir_stddev s' = true)
        /\ (state s = FEED_PRE_MEASURE_BOWL ->
            state s' = FEED_RUN_SYNC /\ error_bowl_stddev s' = true)
        /\ feed_sensor_retries s' = feed_sensor_retries s
        /\ feed_report s' = feed_report s).
Proof.
  apply (sensor_retry_abort 5 first_tick (noisy_reading 3 OPERATIONAL)
           (returned (update_bookkeeping 5 first_tick (noisy_reading 3 OPERATIONAL)))).
  - vm_compute. reflexivity.
  - left. reflexivity.
  - reflexivity.
  - vm_compute. reflexivity.
  - vm_compute. reflexivity.
  - vm_compute. discriminate.
Defined.

(** * Further properties *)

(** ** Sampling sessions *)

Lemma store_at (pre post : list Z) (x v : Z) :
  Loadcell.store (pre ++ x :: post) (List.length pre) v = Ok (pre ++ v :: post).
Proof.
  induction pre as [|y pre IH]; cbn [Loadcell.store app List.length].
  - reflexivity.
  - now rewrite IH.
Qed.

Lemma split_at (a : list Z) (k : nat) :
  (k < List.length a)%nat ->
  exists x, a = firstn k a ++ x :: skipn (S k) a /\ List.length (firstn k a) = k.
Proof.
  revert k. induction a as [|y a IH]; intros k Hk; cbn [List.length] in Hk.
  - lia.
  - destruct k as [|k].
    + exists y. split; reflexivity.
    + destruct (IH k ltac:(lia)) as (x & E & L).
      exists x. cbn [firstn skipn app List.length]. split.
      * f_equal. exact E.
      * now rewrite L.
Qed.

(** A ready pass with more than one sample to go stores the reading at the
    top of what is left of the buffer and does nothing else. *)
Lemma update_stores (raw : Z) (l : Loadcell.t) (k : nat) :
  Loadcell.samples_remaining l = Z.of_nat (S (S k)) ->
  (S k < List.length (Loadcell.samples l))%nat ->
  List.length (Loadcell.samples l) = 32%nat ->
  Loadcell.update true raw l
  = Ok (sampling l (Z.of_nat (S k))
          (firstn (S k) (Loadcell.samples l) ++ raw
           :: skipn (S (S k)) (Loadcell.samples l))).
Proof.
  intros Hn Hk Hlen. unfold Loadcell.update. rewrite Hn.
  destruct (Z.eqb_spec (Z.of_nat (S (S k))) 0) as [E|_]; [lia |].
  cbn [negb].
  replace (Z.of_nat (S (S k)) - 1) with (Z.of_nat (S k)) by lia.
  rewrite int32_ok by (unfold is_int32, INT32_MIN, INT32_MAX; lia).
  cbn [bind].
  destruct (Z.ltb_spec (Z.of_nat (S k)) 0) as [E|_]; [lia |]. cbn [bind].
  rewrite Nat2Z.id.
  destruct (split_at (Loadcell.samples l) (S k) Hk) as (x & E & L).
  pose proof (store_at (firstn (S k) (Loadcell.samples l))
                (skipn (S (S k)) (Loadcell.samples l)) x raw) as Hs.
  rewrite L, <- E in Hs. rewrite Hs. cbn [bind].
  destruct (Z.eqb_spec (Z.of_nat (S k)) 0) as [E0|_]; [lia |].
  reflexivity.
Qed.

Lemma sampling_eta (l : Loadcell.t) :
  sampling l (Loadcell.samples_remaining l) (Loadcell.samples l) = l.
Proof. now destruct l. Qed.

(** Readings taken while more than one sample is to go pile up in the buffer
    from the top down; nothing else changes. *)
Lemma take_readings_busy (rs : list Z) : forall (l : Loadcell.t) (k : nat),
  Loadcell.samples_remaining l = Z.of_nat (S k + List.length rs) ->
  List.length (Loadcell.samples l) = 32%nat ->
  (S k + List.length rs <= 32)%nat ->
  take_readings rs l
  = Ok (sampling l (Z.of_nat (S k))
          (firstn (S k) (Loadcell.samples l) ++ rev rs
           ++ skipn (S k + List.length rs) (Loadcell.samples l))).
Proof.
  induction rs as [|r rs IH]; intros l k Hn Hlen Hk;
    cbn [take_readings List.length rev] in *.
  - rewrite Nat.add_0_r in *. rewrite app_nil_l, firstn_skipn, <- Hn.
    now rewrite sampling_eta.
  - replace (S k + S (List.length rs))%nat
      with (S (S (k + List.length rs))) in * by lia.
    rewrite (update_stores r l (k + List.length rs)) by (try assumption; lia).
    cbn [bind].
    set (s := Loadcell.samples l) in *.
    set (k' := (k + List.length rs)%nat) in *.
    assert (Hf : List.length (firstn (S k') s) = S k')
      by (rewrite length_firstn; lia).
    rewrite (IH _ k).
    + f_equal. unfold sampling at 1. cbn [Loadcell.hx711_gain Loadcell.sensor
        Loadcell.apply_tare Loadcell.tare_reservoir Loadcell.tare_bowl
        Loadcell.mean Loadcell.stddev Loadcell.mean_raw Loadcell.samples sampling].
      unfold sampling. f_equal.
      rewrite firstn_app, firstn_firstn.
      replace (Nat.min (S k) (S k')) with (S k) by lia.
      replace (S k - List.length (firstn (S k') s))%nat with 0%nat by lia.
      rewrite firstn_O, app_nil_r.
      rewrite skipn_app.
      replace (S k + List.length rs)%nat with (S k') by lia.
      rewrite skipn_all2 by lia. rewrite Hf, Nat.sub_diag. cbn [skipn app].
      rewrite <- app_assoc. reflexivity.
    + cbn [sampling Loadcell.samples_remaining]. lia.
    + cbn [sampling Loadcell.samples]. rewrite length_app, Hf.
      cbn [List.length]. rewrite length_skipn. lia.
    + lia.
Qed.

Lemma is_reading_int32 (z : Z) : is_reading z -> is_int32 z.
Proof. unfold is_reading, is_int32, INT32_MIN, INT32_MAX. lia. Qed.

Lemma square_bound (d b : Z) : - b <= d <= b -> 0 <= d * d <= b * b.
Proof. intros H. nia. Qed.

Lemma sum_sqdev_bound (m : Z) (a : list Z) :
  is_reading m -> Forall is_reading a ->
  0 <= sum_sqdev m a <= Z.of_nat (List.length a) * 2 ^ 48.
Proof.
  intros Hm. induction 1 as [|x a Hx _ IH]; cbn [sum_sqdev fold_right List.length].
  - lia.
  - fold (sum_sqdev m a). unfold is_reading in *.
    pose proof (square_bound (x - m) (2 ^ 24) ltac:(lia)) as Hsq.
    change (2 ^ 24 * 2 ^ 24) with (2 ^ 48) in Hsq. lia.
Qed.

Lemma accum_sqdev_ok (m : Z) (a : list Z) : forall accum,
  is_reading m -> Forall is_reading a ->
  0 <= accum ->
  accum + Z.of_nat (List.length a) * 2 ^ 48 <= 2 ^ 62 ->
  Loadcell.accum_sqdev m accum a = Ok (accum + sum_sqdev m a).
Proof.
  induction a as [|x a IH]; intros accum Hm Ha Hacc Hlen.
  - cbn. f_equal. lia.
  - inversion Ha as [|? ? Hx Ha']; subst.
    cbn [Loadcell.accum_sqdev sum_sqdev fold_right List.length] in *.
    fold (sum_sqdev m a).
    assert (Hsq : 0 <= (x - m) * (x - m) <= 2 ^ 48).
    { pose proof (square_bound (x - m) (2 ^ 24)
                    ltac:(unfold is_reading in *; lia)) as Hsq.
      exact Hsq. }
    rewrite int32_ok
      by (unfold is_reading, is_int32, INT32_MIN, INT32_MAX in *; lia).
    cbn [bind]. rewrite int64_ok by (unfold INT64_MIN, INT64_MAX; lia).
    cbn [bind]. rewrite int64_ok by (unfold INT64_MIN, INT64_MAX; lia).
    cbn [bind]. rewrite IH; [f_equal; lia | assumption | assumption | lia | lia].
Qed.

Lemma mean_raw_is_reading (a : list Z) :
  Forall is_reading a -> List.length a = 32%nat ->
  is_reading (Z.quot (16 + sum_samples a) 32).
Proof.
  intros Ha Hlen.
  assert (Hs : - (32 * 2 ^ 23) <= sum_samples a <= 32 * (2 ^ 23 - 1)).
  { clear -Ha Hlen. revert Hlen.
    assert (G : - (Z.of_nat (List.length a) * 2 ^ 23) <= sum_samples a
                <= Z.of_nat (List.length a) * (2 ^ 23 - 1)).
    { induction Ha as [|x a Hx _ IH]; cbn [sum_samples fold_right List.length].
      - lia.
      - fold (sum_samples a). unfold is_reading in Hx. lia. }
    intros Hlen. rewrite Hlen in G. exact G. }
  unfold is_reading.
  destruct (Z_le_gt_dec 0 (16 + sum_samples a)) as [Hp|Hn].
  - rewrite Z.quot_div_nonneg by lia. split.
    + apply Z.le_trans with 0; [lia | apply Z.div_pos; lia].
    + apply Z.div_lt_upper_bound; lia.
  - assert (E : Z.quot (16 + sum_samples a) 32 = - ((- (16 + sum_samples a)) / 32)).
    { rewrite <- (Z.opp_involutive (16 + sum_samples a)) at 1.
      rewrite Z.quot_opp_l by lia. rewrite Z.quot_div_nonneg by lia. reflexivity. }
    rewrite E.
    assert (0 <= (- (16 + sum_samples a)) / 32) by (apply Z.div_pos; lia).
    assert ((- (16 + sum_samples a)) / 32 < 2 ^ 23); [| lia].
    apply Z.div_lt_upper_bound; lia.
Qed.

Lemma take_readings_app (a b : list Z) (l : Loadcell.t) :
  take_readings (a ++ b) l = (l' <- take_readings a l ;; take_readings b l').
Proof.
  revert l. induction a as [|x a IH]; intros l; cbn [take_readings app bind].
  - reflexivity.
  - destruct (Loadcell.update true x l); cbn [bind]; [apply IH | | ]; reflexivity.
Qed.

(** The ready pass that takes the last sample computes the result. *)
Lemma update_completes (raw x : Z) (rest : list Z) (l : Loadcell.t) :
  Loadcell.samples_remaining l = 1 ->
  Loadcell.samples l = x :: rest ->
  List.length rest = 31%nat ->
  Forall is_reading (raw :: rest) ->
  captures_tare l = true \/ - 2 ^ 30 <= tare_of (Loadcell.sensor l) l <= 2 ^ 30 ->
  Loadcell.update true raw l = Ok (session_result l (raw :: rest)).
Proof.
  intros Hn Hs Hlen Hr Ht.
  assert (Hlen' : List.length (raw :: rest) = 32%nat) by (cbn; lia).
  pose proof (mean_raw_is_reading _ Hr Hlen') as Hm.
  unfold Loadcell.update. rewrite Hn, Hs. cbn [Z.eqb negb Z.sub Z.add Z.opp Z.pos_sub].
  cbn [int32 in_int32 bind Z.ltb Z.compare Z.to_nat Loadcell.store Z.eqb negb
       INT32_MIN INT32_MAX Z.leb andb].
  change (int32 0) with (Ok 0). cbn [bind Z.ltb Z.compare Z.to_nat Loadcell.store
                                     Z.eqb negb].
  rewrite (compute_mean_raw_quot (raw :: rest)
             (Forall_impl _ is_reading_int32 Hr) Hlen').
  cbn [bind]. fold (session_mean_raw (raw :: rest)).
  unfold Loadcell.compute_var. change (Loadcell.NUM_SAMPLES / 2) with 16.
  rewrite (accum_sqdev_ok (session_mean_raw (raw :: rest)) (raw :: rest) 16
             Hm Hr ltac:(lia) ltac:(rewrite Hlen'; cbn; lia)).
  cbn [bind].
  unfold session_result, captures_tare, tare_of, gain_of in *.
  set (m := session_mean_raw (raw :: rest)) in *.
  destruct (Loadcell.sensor l);
    match goal with
    | |- context [Loadcell.apply_tare l || ?c] =>
        destruct (Loadcell.apply_tare l || c) eqn:Ec
    end;
    cbv beta iota zeta;
    (rewrite int32_ok;
     [cbn [bind]; reflexivity
     | unfold is_int32, INT32_MIN, INT32_MAX, is_reading in *;
       subst m; unfold session_mean_raw in *;
       destruct Ht as [Ht|Ht]; try discriminate; lia]).
Qed.

Lemma update_not_ready (raw : Z) (l : Loadcell.t) :
  Loadcell.update false raw l = Ok l.
Proof. unfold Loadcell.update. now destruct (Loadcell.samples_remaining l =? 0). Qed.

Lemma update_idle (ready : bool) (raw : Z) (l : Loadcell.t) :
  Loadcell.samples_remaining l = 0 -> Loadcell.update ready raw l = Ok l.
Proof. intros H. unfold Loadcell.update. now rewrite H. Qed.

Lemma take_readings_idle (rs : list Z) (l : Loadcell.t) :
  Loadcell.samples_remaining l = 0 -> take_readings rs l = Ok l.
Proof.
  intros H. induction rs as [|r rs IH]; cbn [take_readings]; [reflexivity |].
  now rewrite update_idle.
Qed.

(** Only the passes in which the converter is ready count. *)
Lemma run_sampler_ready (passes : list (bool * Z)) : forall l,
  run_sampler passes l = take_readings (ready_readings passes) l.
Proof.
  induction passes as [|[ready raw] passes IH]; intros l;
    cbn [run_sampler ready_readings filter map fst snd take_readings].
  - reflexivity.
  - destruct ready; cbn [map snd take_readings].
    + destruct (Loadcell.update true raw l); cbn [bind]; [apply IH | | ];
        reflexivity.
    + rewrite update_not_ready. cbn [bind]. apply IH.
Qed.

Lemma sum_samples_app (a b : list Z) :
  sum_samples (a ++ b) = sum_samples a + sum_samples b.
Proof.
  induction a as [|x a IH]; cbn [sum_samples fold_right app]; [reflexivity |].
  fold (sum_samples (a ++ b)) (sum_samples a). lia.
Qed.

Lemma sum_samples_rev (a : list Z) : sum_samples (rev a) = sum_samples a.
Proof.
  induction a as [|x a IH]; cbn [rev]; [reflexivity |].
  rewrite sum_samples_app, IH. cbn [sum_samples fold_right].
  fold (sum_samples a). lia.
Qed.

Lemma sum_sqdev_app (m : Z) (a b : list Z) :
  sum_sqdev m (a ++ b) = sum_sqdev m a + sum_sqdev m b.
Proof.
  induction a as [|x a IH]; cbn [sum_sqdev fold_right app]; [reflexivity |].
  fold (sum_sqdev m (a ++ b)) (sum_sqdev m a). lia.
Qed.

Lemma sum_sqdev_rev (m : Z) (a : list Z) : sum_sqdev m (rev a) = sum_sqdev m a.
Proof.
  induction a as [|x a IH]; cbn [rev]; [reflexivity |].
  rewrite sum_sqdev_app, IH. cbn [sum_sqdev fold_right].
  fold (sum_sqdev m a). lia.
Qed.

Lemma session_mean_raw_rev (a : list Z) :
  session_mean_raw (rev a) = session_mean_raw a.
Proof. unfold session_mean_raw. now rewrite sum_samples_rev. Qed.

(** A session, in closed form: the 32 readings that follow [start] fill the
    buffer from the top down and the last of them computes the result; what
    is read after that is ignored. *)
Lemma session_closed_form
    (sn : Loadcell.Sensor) (tr : bool) (l : Loadcell.t) (rs extra : list Z) :
  List.length (Loadcell.samples l) = 32%nat ->
  List.length rs = 32%nat ->
  Forall is_reading rs ->
  tr = true \/ tare_of sn l = INT32_MIN \/ - 2 ^ 30 <= tare_of sn l <= 2 ^ 30 ->
  take_readings (rs ++ extra) (Loadcell.start sn tr l)
  = Ok (session_result (Loadcell.start sn tr l) (rev rs)).
Proof.
  intros Hl Hlen Hr Ht.
  destruct (exists_last (l := rs)) as (rs1 & r & ->);
    [intros ->; discriminate |].
  rewrite length_app in Hlen. cbn [List.length] in Hlen.
  assert (Hlen1 : List.length rs1 = 31%nat) by lia.
  apply Forall_app in Hr. destruct Hr as [Hr1 Hr]. inversion Hr as [|? ? Hrr _]; subst.
  rewrite <- !app_assoc, take_readings_app.
  set (l0 := Loadcell.start sn tr l).
  rewrite (take_readings_busy rs1 l0 0)
    by (subst l0; cbn [Loadcell.start Loadcell.samples_remaining Loadcell.samples];
        rewrite ?Hlen1; try assumption; try reflexivity; lia).
  cbn [bind app take_readings].
  assert (Hs : exists x, firstn 1 (Loadcell.samples l0) ++ rev rs1
                         ++ skipn (1 + List.length rs1) (Loadcell.samples l0)
                         = x :: rev rs1).
  { subst l0. cbn [Loadcell.start Loadcell.samples].
    rewrite skipn_all2 by lia. rewrite app_nil_r.
    destruct (Loadcell.samples l) as [|x s]; [discriminate |].
    exists x. reflexivity. }
  destruct Hs as (x & Hs). rewrite Hs.
  rewrite (update_completes r x (rev rs1)).
  - cbn [bind]. rewrite take_readings_idle by reflexivity.
    rewrite rev_app_distr. reflexivity.
  - reflexivity.
  - reflexivity.
  - now rewrite length_rev.
  - constructor; [assumption |]. now apply Forall_rev.
  - unfold captures_tare, tare_of. subst l0.
    cbn [sampling Loadcell.start Loadcell.sensor Loadcell.apply_tare
         Loadcell.tare_reservoir Loadcell.tare_bowl].
    fold (tare_of sn l).
    destruct Ht as [-> | [-> | Ht]].
    + left. reflexivity.
    + left. rewrite Z.eqb_refl. apply orb_true_r.
    + right. exact Ht.
Qed.

(** Until the 32nd reading of a session is in, the sampler stays busy and
    keeps the results and tares of the session before; passes in which the
    converter is not ready change nothing. *)
Theorem sampler_busy_until_full
    (sn : Loadcell.Sensor) (tr : bool) (l : Loadcell.t) (passes : list (bool * Z)) :
  List.length (Loadcell.samples l) = 32%nat ->
  (List.length (ready_readings passes) < 32)%nat ->
  exists l',
    run_sampler passes (Loadcell.start sn tr l) = Ok l'
    /\ Loadcell.is_busy l' = true
    /\ Loadcell.samples_remaining l'
       = 32 - Z.of_nat (List.length (ready_readings passes))
    /\ Loadcell.get_sensor l' = sn
    /\ Loadcell.get_mean l' = Loadcell.get_mean l
    /\ Loadcell.get_stddev l' = Loadcell.get_stddev l
    /\ Loadcell.get_mean_raw l' = Loadcell.get_mean_raw l
    /\ Loadcell.tare_reservoir l' = Loadcell.tare_reservoir l
    /\ Loadcell.tare_bowl l' = Loadcell.tare_bowl l.
Proof.
  intros Hl Hn. rewrite run_sampler_ready.
  set (rs := ready_readings passes) in *.
  rewrite (take_readings_busy rs (Loadcell.start sn tr l)
             (31 - List.length rs)).
  - eexists. split; [reflexivity |].
    unfold Loadcell.is_busy, Loadcell.get_sensor, Loadcell.get_mean,
      Loadcell.get_stddev, Loadcell.get_mean_raw.
    cbn [sampling Loadcell.start Loadcell.samples_remaining Loadcell.sensor
         Loadcell.mean Loadcell.stddev Loadcell.mean_raw
         Loadcell.tare_reservoir Loadcell.tare_bowl].
    repeat split; try reflexivity; try lia; apply Z.ltb_lt; lia.
  - cbn [Loadcell.start Loadcell.samples_remaining].
    unfold Loadcell.NUM_SAMPLES. lia.
  - exact Hl.
  - lia.
Qed.

Lemma sampler_busy_until_full_witness :
  exists l',
    run_sampler [(true, 5); (false, 0); (true, 7)]
      (Loadcell.start Loadcell.BOWL false Loadcell.init) = Ok l'
    /\ Loadcell.is_busy l' = true
    /\ Loadcell.samples_remaining l' = 32 - Z.of_nat 2
    /\ Loadcell.get_sensor l' = Loadcell.BOWL
    /\ Loadcell.get_mean l' = Loadcell.get_mean Loadcell.init
    /\ Loadcell.get_stddev l' = Loadcell.get_stddev Loadcell.init
    /\ Loadcell.get_mean_raw l' = Loadcell.get_mean_raw Loadcell.init
    /\ Loadcell.tare_reservoir l' = Loadcell.tare_reservoir Loadcell.init
    /\ Loadcell.tare_bowl l' = Loadcell.tare_bowl Loadcell.init.
Proof.
  apply (sampler_busy_until_full Loadcell.BOWL false Loadcell.init
           [(true, 5); (false, 0); (true, 7)]).
  - reflexivity.
  - vm_compute. lia.
Defined.

(** The 32nd reading of a session ends it: the sampler is idle, no step had
    undefined behaviour, the raw mean is the sum of the 32 readings plus 16,
    divided by 32 towards zero, and mean and deviation are that raw mean less
    the tare, and the root of the biased mean square deviation, scaled by the
    gain of the sensor.  Readings offered after that are ignored. *)
Theorem sampler_session_result
    (sn : Loadcell.Sensor) (tr : bool) (l : Loadcell.t)
    (passes : list (bool * Z)) (rs extra : list Z) :
  List.length (Loadcell.samples l) = 32%nat ->
  ready_readings passes = rs ++ extra ->
  List.length rs = 32%nat ->
  Forall is_reading rs ->
  tr = true \/ tare_of sn l = INT32_MIN \/ - 2 ^ 30 <= tare_of sn l <= 2 ^ 30 ->
  exists l',
    run_sampler passes (Loadcell.start sn tr l) = Ok l'
    /\ Loadcell.is_busy l' = false
    /\ Loadcell.get_sensor l' = sn
    /\ Loadcell.samples l' = rev rs
    /\ Loadcell.get_mean_raw l' = Z.quot (16 + sum_samples rs) 32
    /\ Loadcell.get_mean l'
       = F32.mul (F32.of_Z (Loadcell.get_mean_raw l' - tare_of sn l')) (gain_of sn)
    /\ Loadcell.get_stddev l'
       = F32.mul
           (F32.sqrt
              (F32.div (F32.of_Z (16 + sum_sqdev (Loadcell.get_mean_raw l') rs))
                 (F32.of_Z 32)))
           (F32.abs (gain_of sn)).
Proof.
  intros Hl Hp Hlen Hr Ht. rewrite run_sampler_ready, Hp.
  rewrite (session_closed_form sn tr l rs extra Hl Hlen Hr Ht).
  eexists. split; [reflexivity |].
  unfold Loadcell.is_busy, Loadcell.get_sensor, Loadcell.get_mean,
    Loadcell.get_stddev, Loadcell.get_mean_raw, session_result.
  cbn [Loadcell.start Loadcell.samples_remaining Loadcell.sensor
       Loadcell.mean Loadcell.stddev Loadcell.mean_raw Loadcell.samples
       Loadcell.tare_reservoir Loadcell.tare_bowl].
  rewrite session_mean_raw_rev, sum_sqdev_rev.
  unfold session_mean_raw.
  repeat split. destruct sn; reflexivity.
Qed.


Lemma sample_readings_are_readings : Forall is_reading sample_readings.
Proof. repeat (constructor; [unfold is_reading; lia |]). constructor. Qed.

Lemma sampler_session_result_witness :
  exists l',
    run_sampler sample_passes
      (Loadcell.start Loadcell.RESERVOIR false Loadcell.init) = Ok l'
    /\ Loadcell.is_busy l' = false
    /\ Loadcell.get_sensor l' = Loadcell.RESERVOIR
    /\ Loadcell.samples l' = rev sample_readings
    /\ Loadcell.get_mean_raw l' = Z.quot (16 + sum_samples sample_readings) 32
    /\ Loadcell.get_mean l'
       = F32.mul
           (F32.of_Z (Loadcell.get_mean_raw l' - tare_of Loadcell.RESERVOIR l'))
           (gain_of Loadcell.RESERVOIR)
    /\ Loadcell.get_stddev l'
       = F32.mul
           (F32.sqrt
              (F32.div
                 (F32.of_Z (16 + sum_sqdev (Loadcell.get_mean_raw l') sample_readings))
                 (F32.of_Z 32)))
           (F32.abs (gain_of Loadcell.RESERVOIR)).
Proof.
  apply (sampler_session_result Loadcell.RESERVOIR false Loadcell.init
           sample_passes sample_readings [99]).
  - reflexivity.
  - reflexivity.
  - reflexivity.
  - exact sample_readings_are_readings.
  - right. left. reflexivity.
Defined.

(** A session that tares, or the first session of a sensor whose tare is
    unset, takes its raw mean as the tare of that sensor and reports a weight
    of zero; any other session keeps the tare.  The tare of the other sensor
    is never touched. *)
Theorem sampler_session_tare
    (sn : Loadcell.Sensor) (tr : bool) (l : Loadcell.t)
    (passes : list (bool * Z)) (rs extra : list Z) :
  List.length (Loadcell.samples l) = 32%nat ->
  ready_readings passes = rs ++ extra ->
  List.length rs = 32%nat ->
  Forall is_reading rs ->
  tr = true \/ tare_of sn l = INT32_MIN \/ - 2 ^ 30 <= tare_of sn l <= 2 ^ 30 ->
  exists l',
    run_sampler passes (Loadcell.start sn tr l) = Ok l'
    /\ tare_of (other_sensor sn) l' = tare_of (other_sensor sn) l
    /\ if tr || (tare_of sn l =? INT32_MIN)
       then tare_of sn l' = Loadcell.get_mean_raw l'
            /\ Loadcell.get_mean l' = tared_mean sn
       else tare_of sn l' = tare_of sn l.
Proof.
  intros Hl Hp Hlen Hr Ht. rewrite run_sampler_ready, Hp.
  rewrite (session_closed_form sn tr l rs extra Hl Hlen Hr Ht).
  eexists. split; [reflexivity |].
  unfold Loadcell.get_mean, Loadcell.get_mean_raw, session_result,
    captures_tare, tare_of, other_sensor.
  cbn [Loadcell.start Loadcell.sensor Loadcell.apply_tare Loadcell.mean
       Loadcell.mean_raw Loadcell.tare_reservoir Loadcell.tare_bowl].
  destruct sn; cbv iota beta;
    match goal with |- context [tr || ?c] => destruct (tr || c) end;
    cbv iota beta; rewrite ?Z.sub_diag; repeat split.
Qed.

Lemma sampler_session_tare_witness :
  exists l',
    run_sampler sample_passes
      (Loadcell.start Loadcell.BOWL false Loadcell.init) = Ok l'
    /\ tare_of (other_sensor Loadcell.BOWL) l'
       = tare_of (other_sensor Loadcell.BOWL) Loadcell.init
    /\ if false || (tare_of Loadcell.BOWL Loadcell.init =? INT32_MIN)
       then tare_of Loadcell.BOWL l' = Loadcell.get_mean_raw l'
            /\ Loadcell.get_mean l' = tared_mean Loadcell.BOWL
       else tare_of Loadcell.BOWL l' = tare_of Loadcell.BOWL Loadcell.init.
Proof.
  apply (sampler_session_tare Loadcell.BOWL false Loadcell.init
           sample_passes sample_readings [99]).
  - reflexivity.
  - reflexivity.
  - reflexivity.
  - exact sample_readings_are_readings.
  - right. left. reflexivity.
Defined.

Lemma sum_samples_repeat (c : Z) (n : nat) :
  sum_samples (repeat c n) = Z.of_nat n * c.
Proof.
  induction n as [|n IH]; [reflexivity |].
  cbn [repeat sum_samples fold_right]. fold (sum_samples (repeat c n)). lia.
Qed.

Lemma sum_sqdev_repeat (m c : Z) (n : nat) :
  sum_sqdev m (repeat c n) = Z.of_nat n * ((c - m) * (c - m)).
Proof.
  induction n as [|n IH]; [reflexivity |].
  cbn [repeat sum_sqdev fold_right]. fold (sum_sqdev m (repeat c n)). lia.
Qed.

(** A signal that does not move at all is not reported with a deviation of
    zero: the rounding bias of 16 enters the variance, which comes out as one
    half, so that the deviation is the root of one half times the gain.  This
    is above zero and below the 1.0 that the controller accepts as quiet. *)
Theorem sampler_constant_signal
    (sn : Loadcell.Sensor) (tr : bool) (l : Loadcell.t)
    (passes : list (bool * Z)) (c : Z) :
  List.length (Loadcell.samples l) = 32%nat ->
  ready_readings passes = repeat c 32 ->
  0 <= c < 2 ^ 23 ->
  tr = true \/ tare_of sn l = INT32_MIN \/ - 2 ^ 30 <= tare_of sn l <= 2 ^ 30 ->
  exists l',
    run_sampler passes (Loadcell.start sn tr l) = Ok l'
    /\ Loadcell.get_mean_raw l' = c
    /\ Loadcell.get_stddev l' = F32.mul stddev_floor (F32.abs (gain_of sn))
    /\ F32.ltb (S754_zero false) (Loadcell.get_stddev l') = true
    /\ F32.ltb (Loadcell.get_stddev l') (F32.of_Z 1) = true.
Proof.
  intros Hl Hp Hc Ht. rewrite run_sampler_ready, Hp.
  assert (Hr : Forall is_reading (repeat c 32)).
  { apply Forall_forall. intros x Hx. apply repeat_spec in Hx. subst x.
    unfold is_reading. lia. }
  rewrite <- (app_nil_r (repeat c 32)).
  rewrite (session_closed_form sn tr l (repeat c 32) [] Hl
             (repeat_length c 32) Hr Ht).
  eexists. split; [reflexivity |].
  unfold Loadcell.get_mean_raw, Loadcell.get_stddev, session_result.
  cbn [Loadcell.start Loadcell.sensor Loadcell.stddev Loadcell.mean_raw].
  rewrite session_mean_raw_rev, sum_sqdev_rev.
  assert (Hm : session_mean_raw (repeat c 32) = c).
  { unfold session_mean_raw. rewrite sum_samples_repeat.
    change (Z.of_nat 32) with 32.
    rewrite Z.quot_div_nonneg by lia.
    symmetry. apply (Z.div_unique (16 + 32 * c) 32 c 16); lia. }
  rewrite Hm, sum_sqdev_repeat, Z.sub_diag.
  change (16 + Z.of_nat 32 * (0 * 0)) with 16.
  replace (F32.sqrt (F32.div (F32.of_Z 16) (F32.of_Z 32))) with stddev_floor
    by (vm_compute; reflexivity).
  split; [reflexivity |]. split; [reflexivity |].
  destruct sn; split; vm_compute; reflexivity.
Qed.

Lemma sampler_constant_signal_witness :
  exists l',
    run_sampler (repeat (true, 8000) 32)
      (Loadcell.start Loadcell.RESERVOIR false Loadcell.init) = Ok l'
    /\ Loadcell.get_mean_raw l' = 8000
    /\ Loadcell.get_stddev l'
       = F32.mul stddev_floor (F32.abs (gain_of Loadcell.RESERVOIR))
    /\ F32.ltb (S754_zero false) (Loadcell.get_stddev l') = true
    /\ F32.ltb (Loadcell.get_stddev l') (F32.of_Z 1) = true.
Proof.
  apply (sampler_constant_signal Loadcell.RESERVOIR false Loadcell.init
           (repeat (true, 8000) 32) 8000).
  - reflexivity.
  - reflexivity.
  - lia.
  - right. left. reflexivity.
Defined.

(** The raw mean of a session is never more than a count and a half away
    from the exact mean of its readings, and within half a count of it
    unless the sum of the readings is below -16. *)
Theorem sampler_mean_raw_accuracy
    (sn : Loadcell.Sensor) (tr : bool) (l : Loadcell.t)
    (passes : list (bool * Z)) (rs extra : list Z) :
  List.length (Loadcell.samples l) = 32%nat ->
  ready_readings passes = rs ++ extra ->
  List.length rs = 32%nat ->
  Forall is_reading rs ->
  tr = true \/ tare_of sn l = INT32_MIN \/ - 2 ^ 30 <= tare_of sn l <= 2 ^ 30 ->
  exists l',
    run_sampler passes (Loadcell.start sn tr l) = Ok l'
    /\ - 48 < sum_samples rs - 32 * Loadcell.get_mean_raw l' < 16
    /\ (- 16 <= sum_samples rs ->
        - 16 <= sum_samples rs - 32 * Loadcell.get_mean_raw l').
Proof.
  intros Hl Hp Hlen Hr Ht. rewrite run_sampler_ready, Hp.
  rewrite (session_closed_form sn tr l rs extra Hl Hlen Hr Ht).
  eexists. split; [reflexivity |].
  unfold Loadcell.get_mean_raw, session_result.
  cbn [Loadcell.mean_raw]. rewrite session_mean_raw_rev.
  unfold session_mean_raw.
  destruct (Z_le_gt_dec 0 (16 + sum_samples rs)) as [Hp0|Hn0].
  - rewrite Z.quot_div_nonneg by lia.
    pose proof (Z.div_mod (16 + sum_samples rs) 32 ltac:(lia)) as E.
    pose proof (Z.mod_pos_bound (16 + sum_samples rs) 32 ltac:(lia)) as B.
    lia.
  - assert (E : Z.quot (16 + sum_samples rs) 32
                = - ((- (16 + sum_samples rs)) / 32)).
    { rewrite <- (Z.opp_involutive (16 + sum_samples rs)) at 1.
      rewrite Z.quot_opp_l by lia. rewrite Z.quot_div_nonneg by lia.
      reflexivity. }
    rewrite E.
    pose proof (Z.div_mod (- (16 + sum_samples rs)) 32 ltac:(lia)) as D.
    pose proof (Z.mod_pos_bound (- (16 + sum_samples rs)) 32 ltac:(lia)) as B.
    lia.
Qed.

Lemma sampler_mean_raw_accuracy_witness :
  exists l',
    run_sampler sample_passes
      (Loadcell.start Loadcell.RESERVOIR false Loadcell.init) = Ok l'
    /\ - 48 < sum_samples sample_readings - 32 * Loadcell.get_mean_raw l' < 16
    /\ (- 16 <= sum_samples sample_readings ->
        - 16 <= sum_samples sample_readings - 32 * Loadcell.get_mean_raw l').
Proof.
  apply (sampler_mean_raw_accuracy Loadcell.RESERVOIR false Loadcell.init
           sample_passes sample_readings [99]).
  - reflexivity.
  - reflexivity.
  - reflexivity.
  - exact sample_readings_are_readings.
  - right. left. reflexivity.
Defined.

(** ** The feed cycle *)

Lemma transition_state (st : State) (s : t) : state (transition st s) = st.
Proof.
  unfold transition. destruct (State_eqb st (state s)); destruct st; reflexivity.
Qed.

Lemma sensor_retry_state (i : Inputs) (s : t) : state (sensor_retry i s) = IDLE.
Proof. unfold sensor_retry. apply transition_state. Qed.

Lemma complete_feed_state (i : Inputs) (s s' : t) :
  complete_feed i s = Ok s' -> state s' = IDLE.
Proof.
  unfold complete_feed.
  destruct (estimate_dispensed_weight_grams s) as [w s1].
  destruct (F32.to_int (F32.mul w (F32.of_Z 1000))) as [mg| |]; cbn [bind];
    try discriminate.
  destruct (int32 (deficit_mg (update_jam_state w s1) - mg)) as [d| |];
    cbn [bind]; try discriminate.
  intros [= <-]. apply transition_state.
Qed.

(** Taking apart the [switch] of [update()]: every test it makes is decided
    and every call of [complete_feed] named. *)
Ltac switch_cases Hr :=
  repeat match goal with
  | |- context [handle_loadcell_readout ?x] =>
      destruct (handle_loadcell_readout x) as [?done ?s2];
      cbn [fst snd] in Hr; cbn zeta
  | |- match need_to_feed ?x with _ => _ end = _ -> _ =>
      destruct (need_to_feed x) eqn:?Hneed
  | |- (if ?c then _ else _) = _ -> _ => destruct c eqn:?Htest
  | |- match ?c with _ => _ end = _ -> _ => destruct c eqn:?Htest
  | |- context [complete_feed ?j ?x] =>
      let E := fresh "Hcomplete" in
      destruct (complete_feed j x) as [?s3| |] eqn:E; cbn [bind]
  end;
  try discriminate.

(** The motor is driven according to the state in which [update()] finds the
    machine. *)
Lemma handle_state_machine_motor (i : Inputs) (s : t) (ms : bool * t) :
  handle_state_machine i s = Ok ms -> fst ms = drives_motor (state s).
Proof.
  unfold handle_state_machine.
  destruct (state s); switch_cases I; intros [= <-]; reflexivity.
Qed.

(** Where the [switch] leaves the state. *)
Lemma handle_state_machine_graph (i : Inputs) (s : t) (ms : bool * t) :
  handle_state_machine i s = Ok ms ->
  state (snd ms) = state s \/ In (state (snd ms)) (successors (state s)).
Proof.
  unfold handle_state_machine.
  pose proof (handle_loadcell_readout_state s) as Hr.
  destruct (state s) eqn:Hst; switch_cases Hr; intros [= <-]; cbn [snd].
  all: rewrite ?transition_state, ?sensor_retry_state, ?Hr.
  all: try match goal with
           | H : complete_feed _ _ = Ok _ |- _ =>
               rewrite (complete_feed_state _ _ _ H)
           end.
  all: cbn [successors In]; auto.
Qed.

Lemma transition_pin_motor (st : State) (s : t) :
  pin_motor (transition st s) = pin_motor s.
Proof.
  unfold transition. destruct (State_eqb st (state s)); destruct st; reflexivity.
Qed.

(** The motor pin is written by [update()] alone, and what [update()] writes
    depends only on the state in which it finds the machine: high in the four
    run states and low in all others.  A command that takes the machine out
    of a run state leaves the motor running until the next [update()]. *)
Theorem motor_follows_state (c : Call) (s s' : t) :
  call c s = Ok s' ->
  pin_motor s' = motor_after c s.
Proof.
  destruct c; cbn [call motor_after]; intros H.
  - apply update_inv in H. destruct H as (s1 & ms & Hb & Hh & ->).
    apply handle_state_machine_motor in Hh.
    rewrite <- (bk_state _ _ _ (update_bookkeeping_frame _ _ _ _ Hb)).
    rewrite <- Hh. reflexivity.
  - injection H as <-. apply transition_pin_motor.
  - injection H as <-. unfold reset. cbv zeta. repeat read_field.
    rewrite transition_pin_motor. unfold error_reset. cbv zeta.
    repeat read_field. reflexivity.
  - injection H as <-. unfold enter_maintenance.
    rewrite transition_pin_motor. unfold error_reset. cbv zeta.
    repeat read_field. reflexivity.
  - injection H as <-. unfold tare_reservoir.
    rewrite transition_pin_motor. reflexivity.
  - injection H as <-. unfold tare_bowl.
    rewrite transition_pin_motor. reflexivity.
  - unfold adjust_deficit in H. apply bind_inv in H.
    destruct H as (d & _ & [= <-]). reflexivity.
  - injection H as <-. reflexivity.
Qed.

Lemma motor_follows_state_witness :
  pin_motor (returned (update 5 first_tick sync_timing_out))
  = motor_after (CallUpdate 5 first_tick) sync_timing_out.
Proof.
  apply (motor_follows_state (CallUpdate 5 first_tick) sync_timing_out
           (returned (update 5 first_tick sync_timing_out))).
  vm_compute. reflexivity.
Defined.

(** A call of [update()] leaves the state where it is or moves it along an
    edge of the feed cycle: the motor is started from the pre-feed weighing of
    the bowl only, a cycle is given up only from the two pre-feed weighings,
    and once the motor has run every step leads on to the end of the cycle. *)
Theorem update_follows_cycle (fuel : nat) (i : Inputs) (s s' : t) :
  update fuel i s = Ok s' ->
  state s' = state s \/ In (state s') (successors (state s)).
Proof.
  intros H. apply update_inv in H. destruct H as (s1 & ms & Hb & Hh & ->).
  apply handle_state_machine_graph in Hh.
  rewrite (bk_state _ _ _ (update_bookkeeping_frame _ _ _ _ Hb)) in Hh.
  exact Hh.
Qed.

Lemma update_follows_cycle_witness :
  state (returned (update 5 first_tick sync_timing_out)) = state sync_timing_out
  \/ In (state (returned (update 5 first_tick sync_timing_out)))
       (successors (state sync_timing_out)).
Proof.
  apply (update_follows_cycle 5 first_tick sync_timing_out
           (returned (update 5 first_tick sync_timing_out))).
  vm_compute. reflexivity.
Defined.

(** ** The deficit over a run of [update()] calls *)

(** The [switch] leaves the books alone unless it completes a feed, which it
    does exactly when it finds the machine in the last weighing and leaves it
    in [IDLE]; the motor is off then. *)
Lemma handle_state_machine_completes (i : Inputs) (s : t) (ms : bool * t) :
  handle_state_machine i s = Ok ms ->
  if feed_completed s (snd ms)
  then fst ms = false
       /\ exists s0, same_books s s0 /\ complete_feed i s0 = Ok (snd ms)
  else same_books s (snd ms).
Proof.
  intros H. unfold feed_completed.
  destruct (state s) eqn:Hst;
    try (destruct (handle_state_machine_books _ _ _ H) as [B | [Habs _]];
         [exact B | rewrite Hst in Habs; discriminate Habs]).
  revert H. unfold handle_state_machine. rewrite Hst.
  pose proof (handle_loadcell_readout_books s) as Hr.
  pose proof (handle_loadcell_readout_state s) as Hs.
  switch_cases Hr; intros [= <-]; cbn [fst snd]; cbn [snd] in Hs.
  all: try match goal with
           | H : complete_feed _ _ = Ok _ |- _ =>
               rewrite (complete_feed_state _ _ _ H);
               split; [reflexivity |]; eexists; split; [| exact H]
           end.
  all: rewrite ?transition_state, ?Hs, ?Hst.
  all: try exact Hr.
  all: try solve [books].
  all: try (eapply same_books_trans; [exact Hr |]).
  all: try (eapply same_books_trans; [| apply transition_books]).
  all: books.
Qed.

(** One call of [update()]: the accrual adds to the deficit, and after it the
    deficit is left alone unless the call completes a feed. *)
Lemma update_deficit_step (fuel : nat) (i : Inputs) (a b : t) :
  update fuel i a = Ok b ->
  exists s1,
    update_bookkeeping fuel i a = Ok s1
    /\ deficit_mg a <= deficit_mg s1
    /\ if feed_completed a b
       then completes_feed i s1 b
       else deficit_mg b = deficit_mg s1.
Proof.
  intros H. apply update_inv in H. destruct H as (s1 & ms & Hb & Hh & ->).
  pose proof (update_bookkeeping_frame _ _ _ _ Hb) as Hf.
  exists s1. split; [exact Hb |].
  apply update_bookkeeping_deficit in Hb.
  destruct Hb as (n & _ & Hmg & _).
  split; [lia |].
  apply handle_state_machine_completes in Hh.
  replace (feed_completed a (assign_pin_motor (fst ms) (snd ms)))
    with (feed_completed s1 (snd ms))
    by (unfold feed_completed; rewrite (bk_state _ _ _ Hf); reflexivity).
  destruct (feed_completed s1 (snd ms)).
  - destruct Hh as (Hm & s0 & [Bmg _ _ _ _] & Hc).
    pose proof (complete_feed_books _ _ _ Hc)
      as (_ & _ & _ & _ & mg & Hto & Hd & Hr).
    exists s0, (snd ms), mg. rewrite Hm.
    split; [exact Bmg |]. split; [exact Hc |]. split; [reflexivity |].
    split; [exact Hto |].
    replace (deficit_mg (assign_pin_motor false (snd ms)))
      with (deficit_mg (snd ms)) by reflexivity.
    replace (feed_report (assign_pin_motor false (snd ms)))
      with (feed_report (snd ms)) by reflexivity.
    split; [lia | exact Hr].
  - destruct Hh as [Bmg _ _ _ _].
    replace (deficit_mg (assign_pin_motor (fst ms) (snd ms)))
      with (deficit_mg (snd ms)) by reflexivity.
    exact Bmg.
Qed.

(** C5.  Along every run of [update()] calls, each call first adds what it
    accrues to [deficit_mg], which never takes it down.  After that, a call
    that does not complete a feed leaves [deficit_mg] as the accrual left it.
    A call that completes a feed (it finds the machine in
    [FEED_POST_MEASURE_RESERVOIR] and leaves it in [IDLE]) ran
    [complete_feed], which took [deficit_mg] down by exactly the dispensed
    weight it computed, converted to whole milligrams, the number it recorded
    in the Success feed report. *)
Theorem deficit_monotone_between_feeds
    (ticks : list (nat * Inputs)) (s : t) (trace : list t) :
  run_updates ticks s = Ok trace ->
  forall (k : nat) (fuel : nat) (i : Inputs) (a b : t),
    nth_error ticks k = Some (fuel, i) ->
    nth_error (s :: trace) k = Some a ->
    nth_error trace k = Some b ->
    update fuel i a = Ok b
    /\ exists s1,
         update_bookkeeping fuel i a = Ok s1
         /\ deficit_mg a <= deficit_mg s1
         /\ if feed_completed a b
            then completes_feed i s1 b
            else deficit_mg b = deficit_mg s1.
Proof.
  revert s trace.
  induction ticks as [|[fuel0 i0] ticks IH]; intros s trace Hrun k fuel i a b Hk Ha Hb.
  - destruct k; discriminate.
  - cbn [run_updates] in Hrun.
    apply bind_inv in Hrun. destruct Hrun as (s' & Hu & Hrun).
    apply bind_inv in Hrun. destruct Hrun as (tr & Htr & [= <-]).
    destruct k as [|k].
    + cbn in Hk, Ha, Hb. injection Hk as -> ->. injection Ha as <-.
      injection Hb as <-. split; [exact Hu |].
      now apply update_deficit_step.
    + cbn [nth_error] in Hk, Ha, Hb. now apply (IH s' tr Htr k fuel i a b).
Qed.

Lemma deficit_monotone_between_feeds_witness :
  update 5 first_tick feed_ending
  = Ok (returned (update 5 first_tick feed_ending))
  /\ exists s1,
       update_bookkeeping 5 first_tick feed_ending = Ok s1
       /\ deficit_mg feed_ending <= deficit_mg s1
       /\ if feed_completed feed_ending
               (returned (update 5 first_tick feed_ending))
          then completes_feed first_tick s1
                 (returned (update 5 first_tick feed_ending))
          else deficit_mg (returned (update 5 first_tick feed_ending))
               = deficit_mg s1.
Proof.
  apply (deficit_monotone_between_feeds
           [(5%nat, first_tick); (5%nat, first_tick)] feed_ending
           [returned (update 5 first_tick feed_ending);
            returned (run [CallUpdate 5 first_tick; CallUpdate 5 first_tick]
                        feed_ending)]
           ltac:(vm_compute; reflexivity) 0%nat 5%nat first_tick);
    vm_compute; reflexivity.
Defined.

(** ** Deadlines *)

(** Turning the tests that were decided into arithmetic. *)
Ltac decided :=
  unfold FEED_RUN_TIMEOUT_MILLIS, FEED_RUN_LIMP_MILLIS, FEED_RUN_POST_MILLIS,
    FEED_TO_MEASURE_MILLIS, FEED_COOLDOWN_MILLIS, FEED_MAX_RETRIES in *;
  repeat match goal with
  | H : (_ <? _) = true |- _ => apply Z.ltb_lt in H
  | H : (_ <? _) = false |- _ => apply Z.ltb_ge in H
  | H : (_ <=? _) = true |- _ => apply Z.leb_le in H
  | H : (_ <=? _) = false |- _ => apply Z.leb_gt in H
  | H : (_ =? _) = true |- _ => apply Z.eqb_eq in H
  | H : (_ =? _) = false |- _ => apply Z.eqb_neq in H
  | H : negb _ = true |- _ => apply negb_true_iff in H
  | H : negb _ = false |- _ => apply negb_false_iff in H
  | H : (_ && _) = true |- _ => apply andb_prop in H; destruct H
  | H : (_ || _) = false |- _ => apply orb_false_elim in H; destruct H
  end.

Lemma transition_since_transition (st : State) (s : t) :
  millis_since_transition (transition st s) = 0.
Proof.
  unfold transition. destruct (State_eqb st (state s)); destruct st; reflexivity.
Qed.

Lemma transition_retry (s : t) :
  state_retries (transition (state s) s) = uint16 (state_retries s + 1).
Proof.
  unfold transition. unfold State_eqb at 1.
  destruct (State_eq_dec (state s) (state s)) as [_|N]; [| now destruct N].
  destruct (state s); reflexivity.
Qed.

Lemma complete_feed_since_transition (i : Inputs) (s s' : t) :
  complete_feed i s = Ok s' -> millis_since_transition s' = 0.
Proof.
  unfold complete_feed.
  destruct (estimate_dispensed_weight_grams s) as [w s1].
  destruct (F32.to_int (F32.mul w (F32.of_Z 1000))) as [mg| |]; cbn [bind];
    try discriminate.
  destruct (int32 (deficit_mg (update_jam_state w s1) - mg)) as [d| |];
    cbn [bind]; try discriminate.
  intros [= <-]. apply transition_since_transition.
Qed.

(** Past ten seconds in the state the readout is over, and it never touches
    the state or the retry count. *)
Lemma handle_loadcell_readout_late (s : t) :
  (10000 < millis_since_transition s -> fst (handle_loadcell_readout s) = true)
  /\ state (snd (handle_loadcell_readout s)) = state s
  /\ state_retries (snd (handle_loadcell_readout s)) = state_retries s.
Proof.
  unfold handle_loadcell_readout.
  destruct (error_loadcell_timeout s) eqn:Et; cbn [orb].
  - repeat split.
  - destruct (Z.ltb_spec 10000 (millis_since_transition s)).
    + repeat split.
    + destruct (Loadcell.is_busy (loadcell s)); [repeat split; lia |].
      destruct (Loadcell.get_sensor (loadcell s)); repeat split.
Qed.

Lemma handle_state_machine_deadline (i : Inputs) (s : t) (ms : bool * t) (d : Z) :
  handle_state_machine i s = Ok ms ->
  deadline (state s) = Some d ->
  d < millis_since_transition s ->
  millis_since_transition (snd ms) = 0
  /\ (state (snd ms) <> state s
      \/ state_retries (snd ms) = uint16 (state_retries s + 1)).
Proof.
  unfold handle_state_machine.
  pose proof (handle_loadcell_readout_late s) as Hr.
  destruct (state s) eqn:Hst; cbn [deadline]; intros H [= <-] Hd; revert H;
    switch_cases Hr; intros [= <-]; cbn [snd];
    destruct Hr as (Hlate & Hrs & Hrr).
  all: decided.
  all: try lia.
  all: try (specialize (Hlate ltac:(lia)); congruence).
  all: rewrite ?transition_since_transition.
  all: try match goal with
           | H : complete_feed _ _ = Ok _ |- _ =>
               rewrite (complete_feed_since_transition _ _ _ H),
                       (complete_feed_state _ _ _ H)
           end.
  all: unfold sensor_retry; rewrite ?transition_since_transition, ?transition_state.
  all: split; [reflexivity |].
  all: try (left; discriminate).
  all: right; rewrite transition_retry; congruence.
Qed.

(** No state but [IDLE] is outstayed: once the time in the state is past its
    deadline (2 s for the waits before weighing, 0.8 s for the wait after the
    run, 3 s for the run phases that watch the limit switch, 10 ms for the
    last run phase, 10 s for every weighing), the call of [update()] makes a
    transition, which either leaves the state or counts as a retry of it. *)
Theorem state_deadline (fuel : nat) (i : Inputs) (s s' : t) (d : Z) :
  update fuel i s = Ok s' ->
  deadline (state s) = Some d ->
  d < time_in_state i s ->
  millis_since_transition s' = 0
  /\ (state s' <> state s \/ state_retries s' = uint16 (state_retries s + 1)).
Proof.
  intros H Hdl Hd. apply update_inv in H. destruct H as (s1 & ms & Hb & Hh & ->).
  pose proof (update_bookkeeping_frame _ _ _ _ Hb) as F.
  rewrite <- (bk_state _ _ _ F) in Hdl.
  unfold time_in_state in Hd. rewrite <- (bk_since_transition _ _ _ F) in Hd.
  destruct (handle_state_machine_deadline _ _ _ _ Hh Hdl Hd) as [Hm Hs].
  rewrite (bk_state _ _ _ F), (bk_state_retries _ _ _ F) in Hs.
  split; [exact Hm | exact Hs].
Qed.

Lemma state_deadline_witness :
  millis_since_transition (returned (update 5 tick_limit_asserted sync_timing_out)) = 0
  /\ (state (returned (update 5 tick_limit_asserted sync_timing_out))
      <> state sync_timing_out
      \/ state_retries (returned (update 5 tick_limit_asserted sync_timing_out))
         = uint16 (state_retries sync_timing_out + 1)).
Proof.
  apply (state_deadline 5 tick_limit_asserted sync_timing_out
           (returned (update 5 tick_limit_asserted sync_timing_out)) 2999).
  - vm_compute. reflexivity.
  - reflexivity.
  - vm_compute. reflexivity.
Defined.

(** ** The limit-switch fault *)

Lemma handle_loadcell_readout_limit_switch (s : t) :
  error_limit_switch (snd (handle_loadcell_readout s)) = error_limit_switch s.
Proof.
  unfold handle_loadcell_readout.
  destruct (error_loadcell_timeout s || (10000 <? millis_since_transition s));
    [reflexivity |].
  destruct (Loadcell.is_busy (loadcell s)); [reflexivity |].
  destruct (Loadcell.get_sensor (loadcell s)); reflexivity.
Qed.

Lemma sensor_retry_limit_switch (i : Inputs) (s : t) :
  error_limit_switch (sensor_retry i s) = error_limit_switch s.
Proof. unfold sensor_retry. now rewrite error_limit_switch_transition. Qed.

Lemma complete_feed_limit_switch (i : Inputs) (s s' : t) :
  complete_feed i s = Ok s' -> error_limit_switch s' = error_limit_switch s.
Proof.
  unfold complete_feed.
  destruct (estimate_dispensed_weight_grams s) as [w s1] eqn:Ee.
  destruct (F32.to_int (F32.mul w (F32.of_Z 1000))) as [mg| |]; cbn [bind];
    try discriminate.
  destruct (int32 (deficit_mg (update_jam_state w s1) - mg)) as [d| |];
    cbn [bind]; try discriminate.
  intros [= <-]. rewrite error_limit_switch_transition. repeat read_field.
  assert (H1 : error_limit_switch s1 = error_limit_switch s).
  { revert Ee. unfold estimate_dispensed_weight_grams.
    repeat match goal with
           | |- (if ?c then _ else _) = _ -> _ => destruct c
           | |- match ?c with _ => _ end = _ -> _ => destruct c
           end; intros [= _ <-]; reflexivity. }
  rewrite <- H1. unfold update_jam_state.
  repeat match goal with
         | |- context [if ?c then _ else _] => destruct c
         | |- context [match maintenance_mode ?c with _ => _ end] =>
             destruct (maintenance_mode c)
         end; reflexivity.
Qed.

Lemma handle_state_machine_limit_switch (i : Inputs) (s : t) (ms : bool * t) :
  handle_state_machine i s = Ok ms ->
  error_limit_switch (snd ms)
  = error_limit_switch s
    || switch_overdue (state s) (limit i) (millis_since_transition s)
  /\ (switch_overdue (state s) (limit i) (millis_since_transition s) = true ->
      state (snd ms) = FEED_POST_WAIT).
Proof.
  unfold handle_state_machine, switch_overdue.
  pose proof (handle_loadcell_readout_limit_switch s) as Hr.
  destruct (state s) eqn:Hst; cbn [awaited_switch];
    switch_cases Hr; intros [= <-]; cbn [snd].
  all: unfold feed.
  all: rewrite ?error_limit_switch_transition, ?sensor_retry_limit_switch,
         ?transition_state.
  all: try match goal with
           | H : complete_feed _ _ = Ok _ |- _ =>
               rewrite (complete_feed_limit_switch _ _ _ H)
           end.
  all: repeat read_field.
  all: rewrite ?Hr, ?orb_false_r.
  all: try (split; [reflexivity | discriminate]).
  all: decided.
  all: repeat match goal with
              | H : (_ && _) = false |- _ =>
                  apply andb_false_iff in H; destruct H
              end.
  all: decided.
  all: destruct (limit i); try discriminate;
       destruct (error_limit_switch s); try discriminate;
       cbn [negb Bool.eqb andb orb];
       try (split; [reflexivity | discriminate]);
       try (split; [reflexivity | reflexivity]).
  all: destruct (Z.leb_spec 3000 (millis_since_transition s));
       try lia; split; try reflexivity; try discriminate.
Qed.

(** The limit-switch fault is raised by a call of [update()] exactly when the
    switch is not at the level the run state waits for and 3000 ms or more
    have passed in that state; the call then goes on to the wait after the
    run.  Nothing else in [update()] raises or clears the flag. *)
Theorem limit_switch_fault (fuel : nat) (i : Inputs) (s s' : t) :
  update fuel i s = Ok s' ->
  error_limit_switch s'
  = error_limit_switch s
    || switch_overdue (state s) (limit i) (time_in_state i s)
  /\ (switch_overdue (state s) (limit i) (time_in_state i s) = true ->
      state s' = FEED_POST_WAIT).
Proof.
  intros H. apply update_inv in H. destruct H as (s1 & ms & Hb & Hh & ->).
  pose proof (update_bookkeeping_frame _ _ _ _ Hb) as F.
  apply handle_state_machine_limit_switch in Hh.
  rewrite (bk_state _ _ _ F), (bk_limit_switch _ _ _ F),
    (bk_since_transition _ _ _ F) in Hh.
  exact Hh.
Qed.

Lemma limit_switch_fault_witness :
  error_limit_switch (returned (update 5 tick_limit_asserted sync_timing_out))
  = error_limit_switch sync_timing_out
    || switch_overdue (state sync_timing_out) (limit tick_limit_asserted)
         (time_in_state tick_limit_asserted sync_timing_out)
  /\ (switch_overdue (state sync_timing_out) (limit tick_limit_asserted)
        (time_in_state tick_limit_asserted sync_timing_out) = true ->
      state (returned (update 5 tick_limit_asserted sync_timing_out))
      = FEED_POST_WAIT).
Proof.
  apply (limit_switch_fault 5 tick_limit_asserted sync_timing_out
           (returned (update 5 tick_limit_asserted sync_timing_out))).
  vm_compute. reflexivity.
Defined.

(** ** Automatic feeding *)

Lemma need_to_feed_not_blocked (s : t) :
  need_to_feed s = NOT_BLOCKED
  <-> maintenance_mode s = OPERATIONAL
      /\ deficit_threshold_mg s <= deficit_mg s
      /\ FEED_COOLDOWN_MILLIS <= millis_since_feed_attempt s.
Proof.
  unfold need_to_feed.
  destruct (maintenance_mode s);
    try (split; [discriminate | intros (H & _); discriminate]).
  destruct (Z.ltb_spec (deficit_mg s) (deficit_threshold_mg s));
    [split; [discriminate | lia] |].
  destruct (Z.ltb_spec (millis_since_feed_attempt s) FEED_COOLDOWN_MILLIS);
    [split; [discriminate | lia] |].
  split; auto.
Qed.

(** Outside a feed cycle the [switch] leaves alone what [need_to_feed] looks
    at, and it begins a feed cycle only if [need_to_feed] does not block. *)
Lemma handle_state_machine_idle (i : Inputs) (s : t) (ms : bool * t) :
  is_feeding (state s) = false ->
  handle_state_machine i s = Ok ms ->
  same_schedule s (snd ms)
  /\ (state s = IDLE -> need_to_feed s = NOT_BLOCKED ->
      state (snd ms) = FEED_PRE_MEASURE_WAIT)
  /\ (is_feeding (state (snd ms)) = false
      \/ (state s = IDLE /\ need_to_feed s = NOT_BLOCKED)).
Proof.
  intros Hidle. unfold handle_state_machine.
  pose proof (conj (handle_loadcell_readout_schedule s)
                (handle_loadcell_readout_state s)) as Hr.
  destruct (state s) eqn:Hst; try discriminate Hidle.
  all: switch_cases Hr; intros [= <-]; cbn [snd]; unfold feed.
  all: rewrite ?transition_state.
  all: try destruct Hr as [Hr Hrs].
  all: split;
       [ first [ apply transition_schedule
               | eapply same_schedule_trans;
                 [exact Hr | apply transition_schedule]
               | exact Hr
               | split; reflexivity ] |].
  all: split; [ intros; try reflexivity; try discriminate; try congruence |].
  all: try (left; reflexivity).
  all: try (right; split; reflexivity).
  all: try (left; rewrite ?Hrs, ?Hst; reflexivity).
Qed.

(** From [IDLE] a call of [update()] begins a feed cycle exactly when the
    mode is Operational, the deficit, with what this call accrued, has
    reached the threshold, and the last feed attempt is five minutes or more
    ago. *)
Theorem auto_feed_start (fuel : nat) (i : Inputs) (s s' : t) :
  update fuel i s = Ok s' ->
  state s = IDLE ->
  (state s' = FEED_PRE_MEASURE_WAIT
   <-> maintenance_mode s = OPERATIONAL
       /\ deficit_threshold_mg s <= deficit_mg s'
       /\ FEED_COOLDOWN_MILLIS <= feed_attempt_timer i s).
Proof.
  intros H Hst. apply update_inv in H. destruct H as (s1 & ms & Hb & Hh & ->).
  pose proof (update_bookkeeping_frame _ _ _ _ Hb) as F.
  pose proof (update_bookkeeping_deficit _ _ _ _ Hb)
    as (n & _ & _ & _ & _ & _ & _ & Hth & _).
  assert (Hst1 : state s1 = IDLE) by (rewrite (bk_state _ _ _ F); exact Hst).
  assert (Hidle : is_feeding (state s1) = false) by (now rewrite Hst1).
  destruct (handle_state_machine_idle _ _ _ Hidle Hh) as (Hs & Hstart & Hor).
  pose proof (need_to_feed_not_blocked s1) as Hn.
  rewrite (bk_mode _ _ _ F), Hth, (bk_since_feed_attempt _ _ _ F),
    <- (sch_mg _ _ Hs) in Hn.
  fold (feed_attempt_timer i s) in Hn.
  replace (state (assign_pin_motor (fst ms) (snd ms))) with (state (snd ms))
    by reflexivity.
  replace (deficit_mg (assign_pin_motor (fst ms) (snd ms)))
    with (deficit_mg (snd ms)) by reflexivity.
  split.
  - intros Hf. apply Hn. destruct Hor as [Hor | [_ Hor]]; [| exact Hor].
    rewrite Hf in Hor. discriminate.
  - intros Hc. apply Hstart; [exact Hst1 | apply Hn; exact Hc].
Qed.

Lemma auto_feed_start_witness :
  state (returned (update 5 first_tick cooled_down)) = FEED_PRE_MEASURE_WAIT
  <-> maintenance_mode cooled_down = OPERATIONAL
      /\ deficit_threshold_mg cooled_down
         <= deficit_mg (returned (update 5 first_tick cooled_down))
      /\ FEED_COOLDOWN_MILLIS <= feed_attempt_timer first_tick cooled_down.
Proof.
  apply (auto_feed_start 5 first_tick cooled_down
           (returned (update 5 first_tick cooled_down))).
  - vm_compute. reflexivity.
  - reflexivity.
Defined.

Lemma update_outside_cycle (fuel : nat) (i : Inputs) (s s' : t) :
  is_feeding (state s) = false ->
  maintenance_mode s <> OPERATIONAL ->
  update fuel i s = Ok s' ->
  is_feeding (state s') = false
  /\ maintenance_mode s' = maintenance_mode s
  /\ pin_motor s' = false.
Proof.
  intros Hidle Hmode H.
  apply update_inv in H. destruct H as (s1 & ms & Hb & Hh & ->).
  pose proof (update_bookkeeping_frame _ _ _ _ Hb) as F.
  pose proof (handle_state_machine_motor _ _ _ Hh) as Hm.
  rewrite (bk_state _ _ _ F) in Hm.
  assert (Hidle1 : is_feeding (state s1) = false)
    by (rewrite (bk_state _ _ _ F); exact Hidle).
  destruct (handle_state_machine_idle _ _ _ Hidle1 Hh) as (Hs & _ & Hor).
  replace (state (assign_pin_motor (fst ms) (snd ms))) with (state (snd ms))
    by reflexivity.
  replace (maintenance_mode (assign_pin_motor (fst ms) (snd ms)))
    with (maintenance_mode (snd ms)) by reflexivity.
  replace (pin_motor (assign_pin_motor (fst ms) (snd ms))) with (fst ms)
    by reflexivity.
  rewrite (sch_mode _ _ Hs), (bk_mode _ _ _ F).
  split; [| split; [reflexivity |]].
  - destruct Hor as [Hor | [_ Hor]]; [exact Hor |].
    apply need_to_feed_not_blocked in Hor. destruct Hor as (Hop & _).
    rewrite (bk_mode _ _ _ F) in Hop. contradiction.
  - rewrite Hm. destruct (state s); try discriminate Hidle; reflexivity.
Qed.

(** In maintenance mode and when jammed the machine does not feed by itself:
    over any run of [update()] calls that starts outside a feed cycle the
    machine stays outside a feed cycle, the motor is kept off and the mode
    stays what it is. *)
Theorem no_feed_unless_operational
    (ticks : list (nat * Inputs)) (s : t) (trace : list t) :
  is_feeding (state s) = false ->
  maintenance_mode s <> OPERATIONAL ->
  run_updates ticks s = Ok trace ->
  Forall (fun u => is_feeding (state u) = false
                   /\ maintenance_mode u = maintenance_mode s
                   /\ pin_motor u = false) trace.
Proof.
  revert s trace.
  induction ticks as [|[fuel i] ticks IH]; intros s trace Hidle Hmode Hrun;
    cbn [run_updates] in Hrun.
  - injection Hrun as <-. constructor.
  - apply bind_inv in Hrun. destruct Hrun as (s1 & Hu & Hrun).
    apply bind_inv in Hrun. destruct Hrun as (tr & Htr & [= <-]).
    destruct (update_outside_cycle _ _ _ _ Hidle Hmode Hu) as (Hi1 & Hm1 & Hp1).
    constructor; [auto |].
    assert (Hmode1 : maintenance_mode s1 <> OPERATIONAL) by (now rewrite Hm1).
    specialize (IH s1 tr Hi1 Hmode1 Htr).
    rewrite Hm1 in IH. exact IH.
Qed.

Lemma no_feed_unless_operational_witness :
  Forall (fun u => is_feeding (state u) = false
                   /\ maintenance_mode u = maintenance_mode jammed_idle
                   /\ pin_motor u = false)
    [returned (update 5 first_tick jammed_idle)].
Proof.
  apply (no_feed_unless_operational [(5%nat, first_tick)] jammed_idle
           [returned (update 5 first_tick jammed_idle)]).
  - reflexivity.
  - discriminate.
  - vm_compute. reflexivity.
Defined.

(** ** Error flags *)

Lemma same_flags_raised (a b : t) : same_flags a b -> flags_stay_raised a b.
Proof. intros []. split; congruence. Qed.

Lemma flags_stay_raised_refl (s : t) : flags_stay_raised s s.
Proof. split; auto. Qed.

Lemma flags_stay_raised_trans (a b c : t) :
  flags_stay_raised a b -> flags_stay_raised b c -> flags_stay_raised a c.
Proof. intros [] []. split; auto. Qed.

Lemma transition_flags (st : State) (s : t) : same_flags s (transition st s).
Proof.
  unfold transition. destruct (State_eqb st (state s)); destruct st;
    split; reflexivity.
Qed.

Lemma transition_raised (st : State) (s : t) :
  flags_stay_raised s (transition st s).
Proof. apply same_flags_raised, transition_flags. Qed.

Lemma handle_loadcell_readout_raised (s : t) :
  flags_stay_raised s (snd (handle_loadcell_readout s)).
Proof.
  unfold handle_loadcell_readout.
  destruct (error_loadcell_timeout s || (10000 <? millis_since_transition s));
    [split; cbn; auto |].
  destruct (Loadcell.is_busy (loadcell s)); [split; auto |].
  destruct (Loadcell.get_sensor (loadcell s)); split; cbn; auto.
Qed.

Lemma sensor_retry_raised (i : Inputs) (s : t) :
  flags_stay_raised s (sensor_retry i s).
Proof.
  unfold sensor_retry.
  eapply flags_stay_raised_trans; [| apply transition_raised].
  split; cbn; auto.
Qed.

Lemma complete_feed_raised (i : Inputs) (s s' : t) :
  complete_feed i s = Ok s' -> flags_stay_raised s s'.
Proof.
  unfold complete_feed.
  destruct (estimate_dispensed_weight_grams s) as [w s1] eqn:Ee.
  destruct (F32.to_int (F32.mul w (F32.of_Z 1000))) as [mg| |]; cbn [bind];
    try discriminate.
  destruct (int32 (deficit_mg (update_jam_state w s1) - mg)) as [d| |];
    cbn [bind]; try discriminate.
  intros [= <-].
  assert (H1 : flags_stay_raised s s1).
  { revert Ee. unfold estimate_dispensed_weight_grams.
    repeat match goal with
           | |- (if ?c then _ else _) = _ -> _ => destruct c
           | |- match ?c with _ => _ end = _ -> _ => destruct c
           end; intros [= _ <-]; split; cbn; auto. }
  assert (H2 : same_flags s1 (update_jam_state w s1)).
  { unfold update_jam_state.
    repeat match goal with
           | |- context [if ?c then _ else _] => destruct c
           | |- context [match maintenance_mode ?c with _ => _ end] =>
               destruct (maintenance_mode c)
           end; split; reflexivity. }
  eapply flags_stay_raised_trans; [exact H1 |].
  eapply flags_stay_raised_trans; [apply same_flags_raised, H2 |].
  eapply flags_stay_raised_trans; [| apply transition_raised].
  split; cbn; auto.
Qed.

(** Walking back from the state a branch of the [switch] leaves to the one it
    started from. *)
Ltac raised :=
  repeat match goal with
  | |- flags_stay_raised ?a ?a => apply flags_stay_raised_refl
  | H : flags_stay_raised ?a ?b |- flags_stay_raised ?a ?b => exact H
  | |- flags_stay_raised _ (transition _ ?y) =>
      apply (flags_stay_raised_trans _ y); [| apply transition_raised]
  | |- flags_stay_raised _ (sensor_retry _ ?y) =>
      apply (flags_stay_raised_trans _ y); [| apply sensor_retry_raised]
  | H : complete_feed _ ?y = Ok ?x |- flags_stay_raised _ ?x =>
      apply (flags_stay_raised_trans _ y);
      [| apply (complete_feed_raised _ _ _ H)]
  | |- flags_stay_raised _ (?f ?v ?y) =>
      apply (flags_stay_raised_trans _ y); [| solve [split; cbn; auto]]
  end.

Lemma handle_state_machine_raised (i : Inputs) (s : t) (ms : bool * t) :
  handle_state_machine i s = Ok ms -> flags_stay_raised s (snd ms).
Proof.
  unfold handle_state_machine.
  pose proof (handle_loadcell_readout_raised s) as Hr.
  destruct (state s) eqn:Hst; switch_cases Hr; intros [= <-]; cbn [snd];
    unfold feed; raised.
Qed.

Lemma update_bookkeeping_flags (fuel : nat) (i : Inputs) (s s1 : t) :
  update_bookkeeping fuel i s = Ok s1 -> same_flags s s1.
Proof.
  intros Hb. pose proof (update_bookkeeping_frame _ _ _ _ Hb) as F.
  pose proof (update_bookkeeping_deficit _ _ _ _ Hb)
    as (n & _ & _ & _ & _ & _ & _ & _ & Hp).
  destruct F. split; assumption.
Qed.

Lemma call_raised (c : Call) (s s' : t) :
  clears_errors c = false -> call c s = Ok s' -> flags_stay_raised s s'.
Proof.
  destruct c; cbn [clears_errors call]; try discriminate; intros _ H.
  - apply update_inv in H. destruct H as (s1 & ms & Hb & Hh & ->).
    apply (flags_stay_raised_trans _ s1);
      [apply same_flags_raised, (update_bookkeeping_flags _ _ _ _ Hb) |].
    apply (flags_stay_raised_trans _ (snd ms));
      [apply (handle_state_machine_raised _ _ _ Hh) |].
    split; cbn; auto.
  - injection H as <-. apply transition_raised.
  - injection H as <-. unfold tare_reservoir.
    eapply flags_stay_raised_trans; [| apply transition_raised].
    split; cbn; auto.
  - injection H as <-. unfold tare_bowl.
    eapply flags_stay_raised_trans; [| apply transition_raised].
    split; cbn; auto.
  - unfold adjust_deficit in H. apply bind_inv in H.
    destruct H as (d & _ & [= <-]). split; cbn; auto.
  - injection H as <-. split; cbn; auto.
Qed.

(** Error flags latch: over any run of calls of [update()] and of the
    commands other than [reset()] and [enter_maintenance()], each of the
    seven error flags, once raised, stays raised. *)
Theorem error_flags_latched (calls : list Call) (s s' : t) :
  forallb (fun c => negb (clears_errors c)) calls = true ->
  run calls s = Ok s' ->
  flags_stay_raised s s'.
Proof.
  revert s. induction calls as [|c calls IH]; intros s Hn H; cbn [run] in H.
  - injection H as <-. apply flags_stay_raised_refl.
  - cbn [forallb] in Hn. apply andb_prop in Hn. destruct Hn as [Hc Hn].
    apply negb_true_iff in Hc.
    apply bind_inv in H. destruct H as (s1 & H1 & H).
    apply (flags_stay_raised_trans _ s1);
      [apply (call_raised c _ _ Hc H1) | apply (IH _ Hn H)].
Qed.

Lemma error_flags_latched_witness :
  flags_stay_raised faulty
    (returned (run [CallUpdate 5 first_tick; CallTareBowl; CallUpdate 5 first_tick]
                 faulty)).
Proof.
  apply (error_flags_latched
           [CallUpdate 5 first_tick; CallTareBowl; CallUpdate 5 first_tick]
           faulty
           (returned (run [CallUpdate 5 first_tick; CallTareBowl;
                           CallUpdate 5 first_tick] faulty))).
  - reflexivity.
  - vm_compute. reflexivity.
Defined.

Lemma error_reset_flags (s : t) :
  error_reservoir_stddev (error_reset s) = false
  /\ error_bowl_stddev (error_reset s) = false
  /\ error_loadcell_timeout (error_reset s) = false
  /\ error_loadcell_disagree (error_reset s) = false
  /\ error_loadcell_unreasonable (error_reset s) = false
  /\ error_limit_switch (error_reset s) = false
  /\ error_power_loss (error_reset s) = false.
Proof. repeat split. Qed.

Lemma transition_keeps_account (st : State) (s : t) :
  maintenance_mode (transition st s) = maintenance_mode s
  /\ deficit_mg (transition st s) = deficit_mg s
  /\ millis_since_feed_attempt (transition st s) = millis_since_feed_attempt s
  /\ feed_jammed_retries (transition st s) = feed_jammed_retries s
  /\ reservoir_mean (transition st s) = reservoir_mean s.
Proof.
  unfold transition. destruct (State_eqb st (state s)); destruct st;
    repeat split.
Qed.

Lemma get_error_report_cleared (s : t) :
  error_limit_switch s = false ->
  loadcell_limp_mode s = None ->
  error_power_loss s = false ->
  maintenance_mode s <> JAMMED ->
  severity (get_error_report s) <> ERROR.
Proof.
  intros Hl Hm Hp Hj. unfold get_error_report. rewrite Hl, Hm, Hp.
  destruct (maintenance_mode s); try contradiction;
    destruct (negb (feed_jammed_retries s =? 0));
    try destruct (F32.ltb (reservoir_mean s) (F32.of_Z 250)); discriminate.
Qed.

Lemma error_reset_account (s : t) :
  deficit_mg (error_reset s) = deficit_mg s
  /\ millis_since_feed_attempt (error_reset s) = millis_since_feed_attempt s.
Proof. split; reflexivity. Qed.

(** The tail that the two clearing commands share, on a state [e] whose
    flags have been cleared. *)
Lemma enter_mode_idle (mode : MaintenanceMode) (e : t) :
  state (transition IDLE (assign_maintenance_mode mode e)) = IDLE
  /\ maintenance_mode (transition IDLE (assign_maintenance_mode mode e)) = mode
  /\ same_flags e (transition IDLE (assign_maintenance_mode mode e))
  /\ deficit_mg (transition IDLE (assign_maintenance_mode mode e)) = deficit_mg e
  /\ millis_since_feed_attempt (transition IDLE (assign_maintenance_mode mode e))
     = millis_since_feed_attempt e.
Proof.
  unfold transition.
  destruct (State_eqb IDLE (state (assign_maintenance_mode mode e)));
    repeat split.
Qed.

Lemma reset_counters (x : t) :
  let r := assign_feed_sensor_retries 0
             (assign_feed_jammed_retries 0 (assign_state_retries 0 x)) in
  state r = state x
  /\ maintenance_mode r = maintenance_mode x
  /\ same_flags x r
  /\ deficit_mg r = deficit_mg x
  /\ millis_since_feed_attempt r = millis_since_feed_attempt x.
Proof. repeat split. Qed.

Lemma same_flags_refl (s : t) : same_flags s s.
Proof. now split. Qed.

Lemma same_flags_trans (a b c : t) :
  same_flags a b -> same_flags b c -> same_flags a c.
Proof. intros [] []; split; congruence. Qed.

(** [reset()] and [enter_maintenance()] bring the machine to [IDLE] with all
    seven error flags cleared, in Operational and Maintenance mode, so that
    the error report is no longer an error.  They leave the deficit and the
    feed-attempt timer as they are: a feed cycle they interrupt is not
    booked and does not restart the cooldown. *)
Theorem clearing_commands (c : Call) (s s' : t) :
  clears_errors c = true ->
  call c s = Ok s' ->
  state s' = IDLE
  /\ maintenance_mode s'
     = match c with CallReset => OPERATIONAL | _ => MAINTENANCE end
  /\ error_limit_switch s' = false
  /\ loadcell_limp_mode s' = None
  /\ error_power_loss s' = false
  /\ severity (get_error_report s') <> ERROR
  /\ deficit_mg s' = deficit_mg s
  /\ millis_since_feed_attempt s' = millis_since_feed_attempt s.
Proof.
  intros Hc H.
  assert (G : state s' = IDLE
              /\ maintenance_mode s'
                 = match c with CallReset => OPERATIONAL | _ => MAINTENANCE end
              /\ same_flags (error_reset s) s'
              /\ deficit_mg s' = deficit_mg s
              /\ millis_since_feed_attempt s' = millis_since_feed_attempt s).
  { destruct (error_reset_account s) as (Ad & Aa).
    destruct c; try discriminate Hc; cbn [call] in H; injection H as <-.
    - destruct (enter_mode_idle OPERATIONAL (error_reset s))
        as (T1 & T2 & T3 & T4 & T5).
      destruct (reset_counters
                  (transition IDLE
                     (assign_maintenance_mode OPERATIONAL (error_reset s))))
        as (R1 & R2 & R3 & R4 & R5).
      unfold reset. cbv zeta.
      rewrite R1, R2, R4, R5, T1, T2, T4, T5, Ad, Aa.
      split; [reflexivity |]. split; [reflexivity |].
      split; [exact (same_flags_trans _ _ _ T3 R3) |].
      split; reflexivity.
    - destruct (enter_mode_idle MAINTENANCE (error_reset s))
        as (T1 & T2 & T3 & T4 & T5).
      unfold enter_maintenance. cbv zeta.
      rewrite T1, T2, T4, T5, Ad, Aa.
      split; [reflexivity |]. split; [reflexivity |].
      split; [exact T3 |]. split; reflexivity. }
  destruct G as (Hst & Hm & F & Hd & Ha).
  destruct (error_reset_flags s) as (E1 & E2 & E3 & E4 & E5 & E6 & E7).
  destruct F.
  assert (Hl : error_limit_switch s' = false) by congruence.
  assert (Hp : error_power_loss s' = false) by congruence.
  assert (Hlimp : loadcell_limp_mode s' = None).
  { unfold loadcell_limp_mode.
    replace (error_loadcell_timeout s') with false by congruence.
    replace (error_reservoir_stddev s') with false by congruence.
    replace (error_bowl_stddev s') with false by congruence.
    replace (error_loadcell_disagree s') with false by congruence.
    replace (error_loadcell_unreasonable s') with false by congruence.
    reflexivity. }
  repeat split; try assumption.
  apply get_error_report_cleared; try assumption.
  rewrite Hm. destruct c; discriminate.
Qed.

Lemma clearing_commands_witness :
  state (reset faulty) = IDLE
  /\ maintenance_mode (reset faulty)
     = match CallReset with CallReset => OPERATIONAL | _ => MAINTENANCE end
  /\ error_limit_switch (reset faulty) = false
  /\ loadcell_limp_mode (reset faulty) = None
  /\ error_power_loss (reset faulty) = false
  /\ severity (get_error_report (reset faulty)) <> ERROR
  /\ deficit_mg (reset faulty) = deficit_mg faulty
  /\ millis_since_feed_attempt (reset faulty) = millis_since_feed_attempt faulty.
Proof.
  apply (clearing_commands CallReset faulty (reset faulty)).
  - reflexivity.
  - reflexivity.
Defined.

(** ** The weights on display *)

Lemma same_weights_refl (s : t) : same_weights s s.
Proof. now split. Qed.

Lemma same_weights_trans (a b c : t) :
  same_weights a b -> same_weights b c -> same_weights a c.
Proof. intros [] []; split; congruence. Qed.

Lemma transition_weights (st : State) (s : t) : same_weights s (transition st s).
Proof.
  unfold transition. destruct (State_eqb st (state s)); destruct st;
    split; reflexivity.
Qed.

Lemma sensor_retry_weights (i : Inputs) (s : t) :
  same_weights s (sensor_retry i s).
Proof.
  unfold sensor_retry.
  eapply same_weights_trans; [| apply transition_weights]. split; reflexivity.
Qed.

Lemma complete_feed_weights (i : Inputs) (s s' : t) :
  complete_feed i s = Ok s' -> same_weights s s'.
Proof.
  unfold complete_feed.
  destruct (estimate_dispensed_weight_grams s) as [w s1] eqn:Ee.
  destruct (F32.to_int (F32.mul w (F32.of_Z 1000))) as [mg| |]; cbn [bind];
    try discriminate.
  destruct (int32 (deficit_mg (update_jam_state w s1) - mg)) as [d| |];
    cbn [bind]; try discriminate.
  intros [= <-].
  assert (H1 : same_weights s s1).
  { revert Ee. unfold estimate_dispensed_weight_grams.
    repeat match goal with
           | |- (if ?c then _ else _) = _ -> _ => destruct c
           | |- match ?c with _ => _ end = _ -> _ => destruct c
           end; intros [= _ <-]; split; reflexivity. }
  assert (H2 : same_weights s1 (update_jam_state w s1)).
  { unfold update_jam_state.
    repeat match goal with
           | |- context [if ?c then _ else _] => destruct c
           | |- context [match maintenance_mode ?c with _ => _ end] =>
               destruct (maintenance_mode c)
           end; split; reflexivity. }
  eapply same_weights_trans; [exact H1 |].
  eapply same_weights_trans; [exact H2 |].
  eapply same_weights_trans; [| apply transition_weights].
  generalize (update_jam_state w s1). intros x. split; reflexivity.
Qed.

(** Once a reading has timed out the readout is cut short and publishes
    nothing. *)
Lemma handle_loadcell_readout_frozen (s : t) :
  error_loadcell_timeout s = true ->
  same_weights s (snd (handle_loadcell_readout s)).
Proof.
  intros H. unfold handle_loadcell_readout. rewrite H. cbn [orb snd].
  split; reflexivity.
Qed.

Ltac weights_kept :=
  repeat match goal with
  | |- same_weights ?a ?a => apply same_weights_refl
  | H : same_weights ?a ?b |- same_weights ?a ?b => exact H
  | |- same_weights _ (transition _ ?y) =>
      apply (same_weights_trans _ y); [| apply transition_weights]
  | |- same_weights _ (sensor_retry _ ?y) =>
      apply (same_weights_trans _ y); [| apply sensor_retry_weights]
  | H : complete_feed _ ?y = Ok ?x |- same_weights _ ?x =>
      apply (same_weights_trans _ y);
      [| apply (complete_feed_weights _ _ _ H)]
  | |- same_weights _ (?f ?v ?y) =>
      apply (same_weights_trans _ y); [| solve [split; reflexivity]]
  end.

Lemma handle_state_machine_frozen (i : Inputs) (s : t) (ms : bool * t) :
  error_loadcell_timeout s = true ->
  handle_state_machine i s = Ok ms -> same_weights s (snd ms).
Proof.
  intros Ht. unfold handle_state_machine.
  pose proof (handle_loadcell_readout_frozen s Ht) as Hr.
  destruct (state s) eqn:Hst; switch_cases Hr; intros [= <-]; cbn [snd];
    unfold feed; weights_kept.
Qed.

Lemma update_bookkeeping_weights (fuel : nat) (i : Inputs) (s s1 : t) :
  update_bookkeeping fuel i s = Ok s1 -> same_weights s s1.
Proof.
  intros H. apply update_bookkeeping_shape in H.
  destruct H as (l & m & r & _ & ->).
  unfold update_timers, update_mqtt_status.
  destruct (5000 <? _); split; reflexivity.
Qed.

Lemma call_frozen (c : Call) (s s' : t) :
  clears_errors c = false -> call c s = Ok s' ->
  error_loadcell_timeout s = true ->
  same_weights s s'.
Proof.
  destruct c; cbn [clears_errors call]; try discriminate; intros _ H Ht.
  - apply update_inv in H. destruct H as (s1 & ms & Hb & Hh & ->).
    apply (same_weights_trans _ s1);
      [apply (update_bookkeeping_weights _ _ _ _ Hb) |].
    assert (Ht1 : error_loadcell_timeout s1 = true)
      by (rewrite (bk_timeout _ _ _ (update_bookkeeping_frame _ _ _ _ Hb));
          exact Ht).
    apply (same_weights_trans _ (snd ms));
      [apply (handle_state_machine_frozen _ _ _ Ht1 Hh) |].
    split; reflexivity.
  - injection H as <-. apply transition_weights.
  - injection H as <-. unfold tare_reservoir.
    eapply same_weights_trans; [| apply transition_weights]. split; reflexivity.
  - injection H as <-. unfold tare_bowl.
    eapply same_weights_trans; [| apply transition_weights]. split; reflexivity.
  - unfold adjust_deficit in H. apply bind_inv in H.
    destruct H as (d & _ & [= <-]). split; reflexivity.
  - injection H as <-. split; reflexivity.
Qed.

(** After a reading has timed out the weights on display are frozen: over
    any run of calls of [update()] and of the commands other than [reset()]
    and [enter_maintenance()] the published means and deviations of the
    reservoir and of the bowl stay what they were, whatever the load cells
    deliver. *)
Theorem weights_frozen_after_timeout (calls : list Call) (s s' : t) :
  forallb (fun c => negb (clears_errors c)) calls = true ->
  run calls s = Ok s' ->
  error_loadcell_timeout s = true ->
  same_weights s s' /\ error_loadcell_timeout s' = true.
Proof.
  revert s. induction calls as [|c calls IH]; intros s Hn H Ht; cbn [run] in H.
  - injection H as <-. split; [apply same_weights_refl | exact Ht].
  - cbn [forallb] in Hn. apply andb_prop in Hn. destruct Hn as [Hc Hn].
    apply negb_true_iff in Hc.
    apply bind_inv in H. destruct H as (s1 & H1 & H).
    pose proof (raised_loadcell_timeout _ _ (call_raised c _ _ Hc H1) Ht) as Ht1.
    destruct (IH _ Hn H Ht1) as [Hw Ht'].
    split; [| exact Ht'].
    apply (same_weights_trans _ s1); [apply (call_frozen c _ _ Hc H1 Ht) | exact Hw].
Qed.

Lemma weights_frozen_after_timeout_witness :
  same_weights faulty
    (returned (run [CallUpdate 5 first_tick; CallTareBowl; CallUpdate 5 first_tick]
                 faulty))
  /\ error_loadcell_timeout
       (returned (run [CallUpdate 5 first_tick; CallTareBowl;
                       CallUpdate 5 first_tick] faulty)) = true.
Proof.
  apply (weights_frozen_after_timeout
           [CallUpdate 5 first_tick; CallTareBowl; CallUpdate 5 first_tick]
           faulty
           (returned (run [CallUpdate 5 first_tick; CallTareBowl;
                           CallUpdate 5 first_tick] faulty))).
  - reflexivity.
  - vm_compute. reflexivity.
  - reflexivity.
Defined.

(** ** The end of a feed cycle *)

Lemma same_attempt_refl (s : t) : same_attempt s s.
Proof. now split. Qed.

Lemma same_attempt_trans (a b c : t) :
  same_attempt a b -> same_attempt b c -> same_attempt a c.
Proof. intros [] []; split; congruence. Qed.

Lemma transition_attempt (st : State) (s : t) : same_attempt s (transition st s).
Proof.
  unfold transition. destruct (State_eqb st (state s)); destruct st;
    split; reflexivity.
Qed.

Lemma handle_loadcell_readout_attempt (s : t) :
  same_attempt s (snd (handle_loadcell_readout s))
  /\ state (snd (handle_loadcell_readout s)) = state s.
Proof.
  split; [| apply handle_loadcell_readout_state].
  unfold handle_loadcell_readout.
  destruct (error_loadcell_timeout s || (10000 <? millis_since_transition s));
    [split; reflexivity |].
  destruct (Loadcell.is_busy (loadcell s)); [split; reflexivity |].
  destruct (Loadcell.get_sensor (loadcell s)); split; reflexivity.
Qed.

Lemma sensor_retry_attempt (i : Inputs) (s : t) :
  millis_since_feed_attempt (sensor_retry i s) = 0
  /\ millis (feed_report (sensor_retry i s)) = now_report i
  /\ result (feed_report (sensor_retry i s)) = SENSOR_RETRY.
Proof.
  unfold sensor_retry. cbv zeta.
  match goal with |- context [transition IDLE ?x] =>
    destruct (transition_attempt IDLE x) as [-> ->] end.
  repeat split.
Qed.

Lemma complete_feed_attempt (i : Inputs) (s s' : t) :
  complete_feed i s = Ok s' ->
  millis_since_feed_attempt s' = 0
  /\ millis (feed_report s') = now_report i
  /\ result (feed_report s') = SUCCESS.
Proof.
  unfold complete_feed.
  destruct (estimate_dispensed_weight_grams s) as [w s1].
  destruct (F32.to_int (F32.mul w (F32.of_Z 1000))) as [mg| |]; cbn [bind];
    try discriminate.
  destruct (int32 (deficit_mg (update_jam_state w s1) - mg)) as [d| |];
    cbn [bind]; try discriminate.
  intros [= <-].
  match goal with |- context [transition IDLE ?x] =>
    destruct (transition_attempt IDLE x) as [-> ->] end.
  generalize (update_jam_state w s1). intros x. repeat split.
Qed.

Ltac attempt_kept :=
  repeat match goal with
  | |- same_attempt ?a ?a => apply same_attempt_refl
  | H : same_attempt ?a ?b |- same_attempt ?a ?b => exact H
  | |- same_attempt _ (transition _ ?y) =>
      apply (same_attempt_trans _ y); [| apply transition_attempt]
  | |- same_attempt _ (?f ?v ?y) =>
      apply (same_attempt_trans _ y); [| solve [split; reflexivity]]
  end.

Lemma handle_state_machine_cycle_end (i : Inputs) (s : t) (ms : bool * t) :
  handle_state_machine i s = Ok ms ->
  if ends_cycle (state s) (state (snd ms))
  then millis_since_feed_attempt (snd ms) = 0
       /\ millis (feed_report (snd ms)) = now_report i
       /\ result (feed_report (snd ms)) = cycle_result (state s)
  else same_attempt s (snd ms).
Proof.
  unfold handle_state_machine.
  pose proof (handle_loadcell_readout_attempt s) as Hr.
  destruct (state s) eqn:Hst; switch_cases Hr; intros [= <-]; cbn [snd];
    unfold feed; try destruct Hr as [Hr Hrs].
  all: rewrite ?transition_state, ?sensor_retry_state, ?Hrs, ?Hst.
  all: try match goal with
           | H : complete_feed _ _ = Ok _ |- _ =>
               rewrite (complete_feed_state _ _ _ H);
               apply complete_feed_attempt in H
           end.
  all: cbn [ends_cycle is_feeding andb negb cycle_result].
  all: try apply sensor_retry_attempt.
  all: try assumption.
  all: attempt_kept.
Qed.

(** The feed report and the cooldown are written at the end of a feed cycle
    and at no other time: the call of [update()] that takes the machine out
    of a feed cycle restarts the feed-attempt timer and leaves a report with
    the time of the call, success when the cycle ran to its last state and a
    sensor retry when it was given up; every other call of [update()] leaves
    the report alone and lets the timer run. *)
Theorem cycle_end_reported (fuel : nat) (i : Inputs) (s s' : t) :
  update fuel i s = Ok s' ->
  if ends_cycle (state s) (state s')
  then millis_since_feed_attempt s' = 0
       /\ millis (feed_report s') = now_report i
       /\ result (feed_report s') = cycle_result (state s)
  else feed_report s' = feed_report s
       /\ millis_since_feed_attempt s' = feed_attempt_timer i s.
Proof.
  intros H. apply update_inv in H. destruct H as (s1 & ms & Hb & Hh & ->).
  pose proof (update_bookkeeping_frame _ _ _ _ Hb) as F.
  apply handle_state_machine_cycle_end in Hh.
  rewrite (bk_state _ _ _ F) in Hh.
  replace (state (assign_pin_motor (fst ms) (snd ms))) with (state (snd ms))
    by reflexivity.
  replace (feed_report (assign_pin_motor (fst ms) (snd ms)))
    with (feed_report (snd ms)) by reflexivity.
  replace (millis_since_feed_attempt (assign_pin_motor (fst ms) (snd ms)))
    with (millis_since_feed_attempt (snd ms)) by reflexivity.
  destruct (ends_cycle (state s) (state (snd ms))); [exact Hh |].
  destruct Hh as [Hrep Htim].
  rewrite Hrep, Htim, (bk_feed_report _ _ _ F), (bk_since_feed_attempt _ _ _ F).
  split; reflexivity.
Qed.

Lemma cycle_end_reported_witness :
  if ends_cycle (state feed_ending) (state (returned (update 5 first_tick feed_ending)))
  then millis_since_feed_attempt (returned (update 5 first_tick feed_ending)) = 0
       /\ millis (feed_report (returned (update 5 first_tick feed_ending)))
          = now_report first_tick
       /\ result (feed_report (returned (update 5 first_tick feed_ending)))
          = cycle_result (state feed_ending)
  else feed_report (returned (update 5 first_tick feed_ending))
       = feed_report feed_ending
       /\ millis_since_feed_attempt (returned (update 5 first_tick feed_ending))
          = feed_attempt_timer first_tick feed_ending.
Proof.
  apply (cycle_end_reported 5 first_tick feed_ending
           (returned (update 5 first_tick feed_ending))).
  vm_compute. reflexivity.
Defined.

(** ** Limp mode *)

Lemma limp_mode_same_flags (a b : t) :
  same_flags a b -> loadcell_limp_mode b = loadcell_limp_mode a.
Proof.
  intros [H1 H2 H3 H4 H5 _ _]. unfold loadcell_limp_mode.
  now rewrite H1, H2, H3, H4, H5.
Qed.

Lemma limp_mode_noise_flag (s : t) :
  error_reservoir_stddev s = true \/ error_bowl_stddev s = true ->
  loadcell_limp_mode s <> None.
Proof.
  unfold loadcell_limp_mode. intros [H|H]; rewrite H;
    destruct (error_loadcell_timeout s); try discriminate;
    destruct (error_reservoir_stddev s); discriminate.
Qed.

(** In limp mode [complete_feed] books the assumed weight and takes the feed
    for a good one. *)
Lemma complete_feed_limp (i : Inputs) (s : t) :
  loadcell_limp_mode s <> None ->
  is_int32 (deficit_mg s - assumed_weight_mg) ->
  exists s',
    complete_feed i s = Ok s'
    /\ deficit_mg s' = deficit_mg s - assumed_weight_mg
    /\ feed_report s'
       = {| result := SUCCESS; arg := assumed_weight_mg; millis := now_report i |}
    /\ feed_jammed_retries s' = 0
    /\ maintenance_mode s' <> JAMMED.
Proof.
  intros Hlimp Hd.
  assert (Ee : estimate_dispensed_weight_grams s = (FEED_ASSUMED_WEIGHT_GRAMS, s)).
  { unfold estimate_dispensed_weight_grams.
    destruct (loadcell_limp_mode s); [reflexivity | contradiction]. }
  assert (E9 : F32.to_int (F32.mul FEED_ASSUMED_WEIGHT_GRAMS (F32.of_Z 1000))
               = Ok assumed_weight_mg) by (vm_compute; reflexivity).
  assert (Hex : exists s', complete_feed i s = Ok s').
  { unfold complete_feed. rewrite Ee, E9. cbn [bind].
    replace (deficit_mg (update_jam_state FEED_ASSUMED_WEIGHT_GRAMS s))
      with (deficit_mg s).
    - rewrite int32_ok by exact Hd. cbn [bind]. eexists. reflexivity.
    - unfold update_jam_state.
      repeat match goal with
             | |- context [if ?c then _ else _] => destruct c
             | |- context [match maintenance_mode ?c with _ => _ end] =>
                 destruct (maintenance_mode c)
             end; reflexivity. }
  destruct Hex as (s' & Hc). exists s'. split; [exact Hc |].
  destruct (complete_feed_books _ _ _ Hc) as (_ & _ & _ & _ & mg & Hmg & Hdef & Hrep).
  destruct (complete_feed_jam_state _ _ _ Hc) as [Hmode Hcount].
  rewrite Ee in Hmg, Hmode, Hcount. cbn [fst snd] in Hmg, Hmode, Hcount.
  rewrite E9 in Hmg. injection Hmg as <-.
  unfold update_jam_state in Hmode, Hcount.
  replace (F32.gtb FEED_ASSUMED_WEIGHT_GRAMS
             (F32.mul FEED_ASSUMED_WEIGHT_GRAMS lit_0_3f)) with true
    in Hmode, Hcount by (vm_compute; reflexivity).
  cbv zeta in Hmode, Hcount.
  change (maintenance_mode (assign_feed_jammed_retries 0 s))
    with (maintenance_mode s) in Hmode, Hcount.
  split; [exact Hdef |]. split; [exact Hrep |].
  destruct (maintenance_mode s) eqn:Em; rewrite Hmode, Hcount;
    (split; [reflexivity |]);
    change (maintenance_mode (assign_feed_jammed_retries 0 s))
      with (maintenance_mode s);
    change (maintenance_mode
              (assign_maintenance_mode OPERATIONAL
                 (assign_feed_jammed_retries 0 s))) with OPERATIONAL;
    rewrite ?Em; discriminate.
Qed.

Lemma handle_state_machine_limp (i : Inputs) (s : t) :
  loadcell_limp_mode s <> None ->
  weighs_feed (state s) = true ->
  (state s = FEED_POST_MEASURE_RESERVOIR ->
   is_int32 (deficit_mg s - assumed_weight_mg)) ->
  exists s',
    handle_state_machine i s = Ok (false, s')
    /\ state s' = after_weighing (state s)
    /\ noise_flag (state s) s' = true
    /\ same_weights s s'
    /\ (state s = FEED_POST_MEASURE_RESERVOIR ->
        deficit_mg s' = deficit_mg s - assumed_weight_mg
        /\ feed_report s'
           = {| result := SUCCESS; arg := assumed_weight_mg;
                millis := now_report i |}
        /\ feed_jammed_retries s' = 0
        /\ maintenance_mode s' <> JAMMED).
Proof.
  intros Hlimp Hw Hd. unfold handle_state_machine.
  destruct (loadcell_limp_mode s) eqn:El; [clear Hlimp | contradiction].
  destruct (state s) eqn:Hst; try discriminate Hw; cbn [after_weighing noise_flag].
  1-3: eexists; split; [reflexivity |]; rewrite transition_state;
       (split; [reflexivity |]); split;
       [ match goal with |- context [transition ?st ?x] =>
           destruct (transition_flags st x) as [T1 T2 _ _ _ _ _] end;
         rewrite ?T1, ?T2; reflexivity
       | split; [weights_kept | discriminate] ].
  destruct (complete_feed_limp i (assign_error_reservoir_stddev true s))
    as (s' & Hc & Hdef & Hrep & Hjam & Hmode).
  - apply limp_mode_noise_flag. left. reflexivity.
  - exact (Hd eq_refl).
  - cbv zeta. rewrite Hc. cbn [bind]. exists s'. split; [reflexivity |].
    split; [apply (complete_feed_state _ _ _ Hc) |].
    split; [apply (raised_reservoir_stddev _ _ (complete_feed_raised _ _ _ Hc));
            reflexivity |].
    split; [weights_kept |].
    intros _. repeat split; assumption.
Qed.

(** In limp mode, that is with any load-cell flag raised, a feed cycle
    weighs nothing: each of its four weighing states is left by the first
    call of [update()], the noise flag of the sensor it was to weigh is
    raised as well, and the weights on display stay as they are.  The last of
    them ends the cycle as a success of the assumed 9 g, whatever came out:
    9000 mg are taken off the deficit, the jam count is cleared and a jammed
    machine is operational again. *)
Theorem limp_mode_cycle (fuel : nat) (i : Inputs) (s s1 : t) :
  update_bookkeeping fuel i s = Ok s1 ->
  loadcell_limp_mode s <> None ->
  weighs_feed (state s) = true ->
  (state s = FEED_POST_MEASURE_RESERVOIR ->
   is_int32 (deficit_mg s1 - assumed_weight_mg)) ->
  exists s',
    update fuel i s = Ok s'
    /\ state s' = after_weighing (state s)
    /\ noise_flag (state s) s' = true
    /\ same_weights s s'
    /\ (state s = FEED_POST_MEASURE_RESERVOIR ->
        deficit_mg s' = deficit_mg s1 - assumed_weight_mg
        /\ feed_report s'
           = {| result := SUCCESS; arg := assumed_weight_mg;
                millis := now_report i |}
        /\ feed_jammed_retries s' = 0
        /\ maintenance_mode s' <> JAMMED).
Proof.
  intros Hb Hlimp Hw Hd.
  pose proof (update_bookkeeping_frame _ _ _ _ Hb) as F.
  pose proof (update_bookkeeping_flags _ _ _ _ Hb) as Fl.
  rewrite <- (limp_mode_same_flags _ _ Fl) in Hlimp.
  rewrite <- (bk_state _ _ _ F) in Hw, Hd |- *.
  destruct (handle_state_machine_limp i s1 Hlimp Hw Hd)
    as (s2 & Hh & Hst & Hn & Hwt & Hend).
  exists (assign_pin_motor false s2).
  split; [apply (update_from_bookkeeping _ _ _ _ _ Hb Hh) |].
  split; [exact Hst |].
  split; [destruct (state s1); exact Hn |].
  split; [| exact Hend].
  apply (same_weights_trans _ s1); [apply (update_bookkeeping_weights _ _ _ _ Hb) |].
  apply (same_weights_trans _ s2); [exact Hwt | split; reflexivity].
Qed.

Lemma limp_mode_cycle_witness :
  exists s',
    update 5 first_tick limping = Ok s'
    /\ state s' = after_weighing (state limping)
    /\ noise_flag (state limping) s' = true
    /\ same_weights limping s'
    /\ (state limping = FEED_POST_MEASURE_RESERVOIR ->
        deficit_mg s'
        = deficit_mg (returned (update_bookkeeping 5 first_tick limping))
          - assumed_weight_mg
        /\ feed_report s'
           = {| result := SUCCESS; arg := assumed_weight_mg;
                millis := now_report first_tick |}
        /\ feed_jammed_retries s' = 0
        /\ maintenance_mode s' <> JAMMED).
Proof.
  apply (limp_mode_cycle 5 first_tick limping
           (returned (update_bookkeeping 5 first_tick limping))).
  - vm_compute. reflexivity.
  - discriminate.
  - reflexivity.
  - intros _. vm_compute. split; discriminate.
Defined.

(** ** The length of a feed cycle *)

Lemma handle_loadcell_readout_pending (s : t) :
  state (snd (handle_loadcell_readout s)) = state s
  /\ state_retries (snd (handle_loadcell_readout s)) = state_retries s
  /\ millis_since_transition (snd (handle_loadcell_readout s))
     = millis_since_transition s
  /\ (fst (handle_loadcell_readout s) = false ->
      millis_since_transition s <= 10000).
Proof.
  unfold handle_loadcell_readout.
  destruct (error_loadcell_timeout s) eqn:Et; cbn [orb].
  - repeat split. discriminate.
  - destruct (Z.ltb_spec 10000 (millis_since_transition s)).
    + repeat split. discriminate.
    + destruct (Loadcell.is_busy (loadcell s)); [repeat split; lia |].
      destruct (Loadcell.get_sensor (loadcell s)); repeat split; lia.
Qed.

Lemma transition_retries_nonneg (st : State) (s : t) :
  0 <= state_retries (transition st s).
Proof.
  unfold transition. destruct (State_eqb st (state s)); destruct st;
    cbn; unfold uint16; try lia; apply Z.mod_pos_bound; lia.
Qed.

Lemma handle_state_machine_budget (i : Inputs) (s : t) (ms : bool * t) :
  handle_state_machine i s = Ok ms ->
  is_feeding (state s) = true ->
  0 <= state_retries s ->
  0 <= millis_since_transition s ->
  state (snd ms) = IDLE
  \/ (is_feeding (state (snd ms)) = true
      /\ 0 <= state_retries (snd ms)
      /\ ((state (snd ms) = state s
           /\ state_retries (snd ms) = state_retries s
           /\ millis_since_transition (snd ms) = millis_since_transition s
           /\ millis_since_transition s <= 10000)
          \/ (state (snd ms) = state s
              /\ state_retries s < 5
              /\ state_retries (snd ms) = state_retries s + 1
              /\ millis_since_transition (snd ms) = 0)
          \/ (phase (state s) < phase (state (snd ms))
              /\ millis_since_transition (snd ms) = 0))).
Proof.
  unfold handle_state_machine.
  pose proof (handle_loadcell_readout_pending s) as Hr.
  intros H Hfeed Hretries Htime. revert H.
  destruct (state s) eqn:Hst; try discriminate Hfeed;
    switch_cases Hr; intros [= <-]; cbn [snd];
    destruct Hr as (Hrs & Hrr & Hrt & Hpend).
  all: try match goal with
           | H : complete_feed _ _ = Ok _ |- _ =>
               left; apply (complete_feed_state _ _ _ H)
           end.
  all: try (left; apply sensor_retry_state).
  all: right.
  all: decided.
  (* a transition to the next state *)
  all: try (rewrite transition_state, transition_since_transition;
            split; [reflexivity |];
            split; [apply transition_retries_nonneg |]; right; right;
            split; [cbn [phase]; lia | reflexivity]).
  (* a retry of the state *)
  all: try (rewrite transition_retry, transition_since_transition,
              transition_state, Hrs, Hrr;
            assert (Hu : uint16 (state_retries s + 1) = state_retries s + 1)
              by (unfold uint16; apply Z.mod_small; lia);
            rewrite Hu; split; [reflexivity |]; split; [lia |]; right; left;
            repeat split; lia).
  (* no transition *)
  all: rewrite ?Hrs, ?Hrr, ?Hrt, ?Hst.
  all: split; [reflexivity |]; split; [lia |]; left; repeat split; try lia.
  all: apply Hpend; assumption.
Qed.

Lemma complete_feed_prev (i : Inputs) (s s' : t) :
  complete_feed i s = Ok s' -> update_prev_millis s' = update_prev_millis s.
Proof.
  unfold complete_feed.
  destruct (estimate_dispensed_weight_grams s) as [w s1] eqn:Ee.
  destruct (F32.to_int (F32.mul w (F32.of_Z 1000))) as [mg| |]; cbn [bind];
    try discriminate.
  destruct (int32 (deficit_mg (update_jam_state w s1) - mg)) as [d| |];
    cbn [bind]; try discriminate.
  intros [= <-]. rewrite (sch_prev _ _ (transition_schedule _ _)).
  assert (E1 : update_prev_millis s1 = update_prev_millis s).
  { revert Ee. unfold estimate_dispensed_weight_grams.
    repeat match goal with
           | |- (if ?c then _ else _) = _ -> _ => destruct c
           | |- match ?c with _ => _ end = _ -> _ => destruct c
           end; intros [= _ <-]; reflexivity. }
  rewrite <- E1. unfold update_jam_state.
  repeat match goal with
         | |- context [if ?c then _ else _] => destruct c
         | |- context [match maintenance_mode ?c with _ => _ end] =>
             destruct (maintenance_mode c)
         end; reflexivity.
Qed.

Lemma handle_state_machine_prev (i : Inputs) (s : t) (ms : bool * t) :
  handle_state_machine i s = Ok ms ->
  update_prev_millis (snd ms) = update_prev_millis s.
Proof.
  unfold handle_state_machine.
  pose proof (rf_prev _ _ (handle_loadcell_readout_frame s)) as Hr.
  destruct (state s) eqn:Hst; switch_cases Hr; intros [= <-]; cbn [snd];
    unfold feed, sensor_retry.
  all: try match goal with
           | H : complete_feed _ _ = Ok _ |- _ =>
               rewrite (complete_feed_prev _ _ _ H)
           end.
  all: rewrite ?(fun st x => sch_prev _ _ (transition_schedule st x)).
  all: try assumption; try reflexivity.
  all: rewrite <- Hr; reflexivity.
Qed.

Lemma update_prev (fuel : nat) (i : Inputs) (s s' : t) :
  update fuel i s = Ok s' -> update_prev_millis s' = now i.
Proof.
  intros H. apply update_inv in H. destruct H as (s1 & ms & Hb & Hh & ->).
  apply handle_state_machine_prev in Hh.
  replace (update_prev_millis (assign_pin_motor (fst ms) (snd ms)))
    with (update_prev_millis (snd ms)) by reflexivity.
  rewrite Hh.
  apply update_bookkeeping_shape in Hb. destruct Hb as (l & m & r & _ & ->).
  unfold update_timers, update_mqtt_status.
  destruct (5000 <? _); reflexivity.
Qed.

(** A call of [update()] within a feed cycle, made a millisecond or more
    after the call before, either ends the cycle or uses up some of its
    budget. *)
Lemma update_spends_budget (fuel : nat) (i : Inputs) (s s' : t) :
  update fuel i s = Ok s' ->
  is_feeding (state s) = true ->
  0 <= state_retries s ->
  0 <= millis_since_transition s <= 10000 ->
  1 <= delta_millis_of i s ->
  state s' = IDLE
  \/ (is_feeding (state s') = true
      /\ 0 <= state_retries s'
      /\ 0 <= millis_since_transition s' <= 10000
      /\ cycle_budget s' < cycle_budget s).
Proof.
  intros H Hfeed Hretries Htime Hdelta.
  apply update_inv in H. destruct H as (s1 & ms & Hb & Hh & ->).
  pose proof (update_bookkeeping_frame _ _ _ _ Hb) as F.
  assert (Hd : delta_millis_of i s <= INT32_MAX).
  { unfold delta_millis_of, to_int32, uint32, INT32_MAX.
    set (x := (now i - update_prev_millis s) mod 2 ^ 32).
    pose proof (Z.mod_pos_bound (x + 2 ^ 31) (2 ^ 32) ltac:(lia)). lia. }
  assert (Ht1 : millis_since_transition s1
                = millis_since_transition s + delta_millis_of i s).
  { rewrite (bk_since_transition _ _ _ F). unfold uint32, INT32_MAX in *.
    apply Z.mod_small. lia. }
  replace (state (assign_pin_motor (fst ms) (snd ms))) with (state (snd ms))
    by reflexivity.
  replace (state_retries (assign_pin_motor (fst ms) (snd ms)))
    with (state_retries (snd ms)) by reflexivity.
  replace (millis_since_transition (assign_pin_motor (fst ms) (snd ms)))
    with (millis_since_transition (snd ms)) by reflexivity.
  replace (cycle_budget (assign_pin_motor (fst ms) (snd ms)))
    with (cycle_budget (snd ms)) by reflexivity.
  destruct (handle_state_machine_budget i s1 ms Hh)
    as [Hend | (Hf & Hr' & Hcase)].
  - rewrite (bk_state _ _ _ F). exact Hfeed.
  - rewrite (bk_state_retries _ _ _ F). exact Hretries.
  - lia.
  - left. exact Hend.
  - right. split; [exact Hf |]. split; [exact Hr' |].
    rewrite (bk_state _ _ _ F), (bk_state_retries _ _ _ F), Ht1 in Hcase.
    unfold cycle_budget.
    assert (Hp : 0 <= phase (state s) <= 9)
      by (destruct (state s); try discriminate Hfeed; cbn [phase]; lia).
    assert (Hp' : 0 <= phase (state (snd ms)) <= 9)
      by (destruct (state (snd ms)); try discriminate Hf; cbn [phase]; lia).
    destruct Hcase as [(Es & Er & Et & Hle) | [(Es & Hlt & Er & Et) | (Hph & Et)]].
    + rewrite Es, Er, Et. lia.
    + rewrite Es, Er, Et. lia.
    + rewrite Et. lia.
Qed.

(** ** Keys *)

Lemma key_state_snoc (samples : list bool) (low : bool) :
  key_state (samples ++ [low])
  = snd (UserInterface.Button.update low (key_state samples)).
Proof. unfold key_state. now rewrite fold_left_app. Qed.

(** The state of a key counts down the passes since it was last held down. *)
Lemma key_state_history (samples : list bool) :
  key_state samples
  = match rev samples with
    | true :: _ => 3
    | false :: true :: _ => 2
    | false :: false :: true :: _ => 1
    | _ => 0
    end.
Proof.
  induction samples as [|low samples IH] using rev_ind; [reflexivity |].
  rewrite key_state_snoc, IH, rev_app_distr. cbn [rev app].
  destruct low; [reflexivity |].
  destruct (rev samples) as [|[|] [|[|] [|[|] h]]]; reflexivity.
Qed.

(** A key is debounced on release: a pass reports a press exactly when it is
    the third in a row to read the key released after a pass that read it
    held down.  Holding a key down reports nothing, and a release shorter
    than three passes is ignored. *)
Theorem key_event_on_release (samples : list bool) (low : bool) :
  key_event samples low = true
  <-> low = false /\ exists older, samples = older ++ [true; false; false].
Proof.
  unfold key_event. rewrite key_state_history.
  destruct low.
  - split; [discriminate | intros [H _]; discriminate].
  - split.
    + intros H. split; [reflexivity |].
      destruct (rev samples) as [|[|] [|[|] [|[|] h]]] eqn:E;
        try discriminate H.
      exists (rev h). rewrite <- (rev_involutive samples), E.
      cbn [rev]. rewrite <- !app_assoc. reflexivity.
    + intros [_ [older ->]]. rewrite rev_app_distr. reflexivity.
Qed.

(** ** The lines of the display *)

Lemma to_int16_small (z : Z) :
  - 2 ^ 15 <= z < 2 ^ 15 -> UserInterface.to_int16 z = z.
Proof. intros H. unfold UserInterface.to_int16. rewrite Z.mod_small; lia. Qed.

Lemma size_t_small (z : Z) : 0 <= z < 2 ^ 32 -> UserInterface.size_t z = z.
Proof. intros H. unfold UserInterface.size_t. apply Z.mod_small. lia. Qed.

(** Deciding whether a column is painted. *)
Ltac painted :=
  unfold paints, columns; cbn [fst snd];
  repeat match goal with
  | |- context [?a <=? ?b] => destruct (Z.leb_spec a b)
  | |- context [?a <? ?b] => destruct (Z.ltb_spec a b)
  end;
  cbn [andb filter List.length app]; try reflexivity; try lia.

(** A line is repainted as a whole: whatever the text, its size and the
    colours, every pixel column of the 240 of the display is painted by
    exactly one of the operations of [render_line], the margins by the two
    fills and the rest by the text, and all of them cover the same rows, the
    height of a character from [y] down.  Nothing of what the line showed
    before is left. *)
Theorem render_line_repaints
    (color_fg color_gr color_bg y scale col : Z) (buffer : string) (grayed : bool) :
  0 < scale < 256 ->
  Z.of_nat (String.length buffer) * 6 * scale < 2 ^ 32 ->
  0 <= y < 2 ^ 15 ->
  0 <= col < 240 ->
  List.length
    (filter (paints col)
       (UserInterface.render_line color_fg color_gr color_bg y buffer scale grayed))
  = 1%nat
  /\ Forall (fun op => rows op = (y, 8 * scale))
       (UserInterface.render_line color_fg color_gr color_bg y buffer scale grayed).
Proof.
  intros Hscale Hlen Hy Hcol. unfold UserInterface.render_line.
  set (n := Z.of_nat (String.length buffer)) in *.
  assert (Hn : 0 <= n) by (subst n; lia).
  assert (Hn6 : 0 <= n * 6 < 2 ^ 32) by nia.
  rewrite (size_t_small (n * 6)) by exact Hn6.
  rewrite (size_t_small (n * 6 * scale)) by nia.
  set (w0 := n * 6 * scale).
  assert (Hw0 : 0 <= w0) by (subst w0; nia).
  assert (Hw : 6 * scale * n = w0) by (subst w0; lia).
  rewrite (size_t_small (8 * scale)) by lia.
  rewrite (to_int16_small y) by lia.
  rewrite (to_int16_small (8 * scale)) by lia.
  assert (Hs : UserInterface.uint8 scale = scale)
    by (unfold UserInterface.uint8; apply Z.mod_small; lia).
  rewrite Hs.
  destruct (Z.ltb_spec 240 w0) as [Hlong|Hfits]; cbv zeta.
  - (* the text is wider than the display *)
    change (UserInterface.size_t (240 - 240) / 2) with 0.
    change (UserInterface.size_t (UserInterface.size_t (240 - 0) - 240)) with 0.
    cbn [Z.eqb negb app]. rewrite (to_int16_small 0) by lia.
    split; [| repeat constructor].
    cbn [filter]. unfold paints, columns. cbn [fst snd]. fold n. rewrite Hw.
    destruct (Z.leb_spec 0 col); [| lia].
    destruct (Z.ltb_spec col (0 + w0)); [reflexivity | lia].
  - set (x := UserInterface.size_t (240 - w0) / 2).
    assert (Hx : 0 <= 2 * x <= 240 - w0 /\ 240 - w0 < 2 * x + 2).
    { subst x. rewrite size_t_small by lia.
      pose proof (Z.div_mod (240 - w0) 2 ltac:(lia)).
      pose proof (Z.mod_pos_bound (240 - w0) 2 ltac:(lia)). lia. }
    rewrite (size_t_small (240 - x)) by lia.
    rewrite (size_t_small (240 - x - w0)) by lia.
    rewrite (size_t_small (x + w0)) by lia.
    rewrite (to_int16_small x) by lia.
    rewrite (to_int16_small (240 - x - w0)) by lia.
    rewrite (to_int16_small (x + w0)) by lia.
    destruct (Z.eqb_spec x 0), (Z.eqb_spec (240 - x - w0) 0), (Z.eqb_spec w0 0);
      cbn [negb app]; try lia;
      (split; [| repeat constructor]);
      cbn [filter]; unfold paints, columns; cbn [fst snd]; fold n;
      rewrite ?Hw;
      repeat match goal with
             | |- context [?a <=? ?b] => destruct (Z.leb_spec a b)
             | |- context [?a <? ?b] => destruct (Z.ltb_spec a b)
             end;
      cbn [andb List.length]; try reflexivity; lia.
Qed.

Lemma render_line_repaints_witness :
  List.length
    (filter (paints 100)
       (UserInterface.render_line 50944 25600 0 108 "Feeding" 2 true))
  = 1%nat
  /\ Forall (fun op => rows op = (108, 8 * 2))
       (UserInterface.render_line 50944 25600 0 108 "Feeding" 2 true).
Proof.
  apply (render_line_repaints 50944 25600 0 108 2 100 "Feeding" true).
  - lia.
  - vm_compute. reflexivity.
  - lia.
  - lia.
Defined.

(** ** The state report *)

Lemma progress_bar_phase (st : State) :
  progress_bar (phase st) = bar (Z.to_nat (phase st)).
Proof. destruct st; reflexivity. Qed.

Lemma successor_phase (a b : State) :
  is_feeding a = true -> is_feeding b = true ->
  b = a \/ In b (successors a) ->
  phase a <= phase b /\ (b <> a -> phase a < phase b).
Proof.
  intros Ha Hb [-> | Hin].
  - split; [lia | intros H; now destruct H].
  - destruct a; try discriminate Ha; cbn [successors In] in Hin;
      repeat match goal with
             | H : _ \/ _ |- _ => destruct H as [<- | H]
             | H : False |- _ => destruct H
             end;
      try discriminate Hb; cbn [phase]; split; intros; lia.
Qed.

(** During a feed cycle the display shows "Feeding" over a bar of ten
    characters, of which as many are [#] as the state has predecessors in the
    cycle; a call of [update()] that stays in the cycle never takes the bar
    back, and it moves the bar forward whenever it changes the state. *)
Theorem progress_shown
    (format_float : bool -> nat -> F32.float -> string)
    (fuel : nat) (i : Inputs) (s s' : t) (before after : Z) :
  update fuel i s = Ok s' ->
  is_feeding (state s) = true ->
  is_feeding (state s') = true ->
  get_state_report format_float before s
  = Ok {| header := "Feeding"; detail1 := bar (Z.to_nat (phase (state s)));
          detail2 := ""; large := true |}
  /\ get_state_report format_float after s'
     = Ok {| header := "Feeding"; detail1 := bar (Z.to_nat (phase (state s')));
             detail2 := ""; large := true |}
  /\ phase (state s) <= phase (state s') <= 9
  /\ (state s' <> state s -> phase (state s) < phase (state s')).
Proof.
  intros H Hf Hf'.
  assert (G : state s' = state s \/ In (state s') (successors (state s))).
  { apply update_inv in H. destruct H as (s1 & ms & Hb & Hh & ->).
    apply handle_state_machine_graph in Hh.
    rewrite (bk_state _ _ _ (update_bookkeeping_frame _ _ _ _ Hb)) in Hh.
    exact Hh. }
  destruct (successor_phase _ _ Hf Hf' G) as [Hle Hlt].
  assert (R : forall now x, is_feeding (state x) = true ->
            get_state_report format_float now x
            = Ok {| header := "Feeding";
                    detail1 := bar (Z.to_nat (phase (state x)));
                    detail2 := ""; large := true |}).
  { intros now x Hx. unfold get_state_report.
    destruct (state x); try discriminate Hx; reflexivity. }
  split; [apply R, Hf |]. split; [apply R, Hf' |].
  split; [| exact Hlt].
  split; [exact Hle |].
  destruct (state s'); try discriminate Hf'; cbn [phase]; lia.
Qed.

Lemma progress_shown_witness :
  get_state_report no_floats 0 sync_timing_out
  = Ok {| header := "Feeding";
          detail1 := bar (Z.to_nat (phase (state sync_timing_out)));
          detail2 := ""; large := true |}
  /\ get_state_report no_floats 1
       (returned (update 5 first_tick sync_timing_out))
     = Ok {| header := "Feeding";
             detail1 :=
               bar (Z.to_nat
                      (phase (state (returned (update 5 first_tick sync_timing_out)))));
             detail2 := ""; large := true |}
  /\ phase (state sync_timing_out)
     <= phase (state (returned (update 5 first_tick sync_timing_out))) <= 9
  /\ (state (returned (update 5 first_tick sync_timing_out))
      <> state sync_timing_out ->
      phase (state sync_timing_out)
      < phase (state (returned (update 5 first_tick sync_timing_out)))).
Proof.
  apply (progress_shown no_floats 5 first_tick sync_timing_out
           (returned (update 5 first_tick sync_timing_out)) 0 1).
  - vm_compute. reflexivity.
  - reflexivity.
  - vm_compute. reflexivity.
Defined.

Lemma uint32_small (z : Z) : 0 <= z < 2 ^ 32 -> uint32 z = z.
Proof. intros H. unfold uint32. apply Z.mod_small. lia. Qed.

Lemma clock_text_fits (seconds : Z) :
  0 <= seconds < 300 -> snprintf21 (clock_text seconds) = clock_text seconds.
Proof.
  intros H.
  assert (A : forallb (fun k => String.eqb (snprintf21 (clock_text (Z.of_nat k)))
                                  (clock_text (Z.of_nat k)))
                (seq 0 300) = true) by (vm_compute; reflexivity).
  rewrite forallb_forall in A.
  specialize (A (Z.to_nat seconds)). rewrite Z2Nat.id in A by lia.
  apply String.eqb_eq, A, in_seq. lia.
Qed.

(** While the machine is idle and cooling down, and the result of the last
    feed is no longer on display, the display shows "Cooldown" over the time
    that is left of the five minutes, in minutes and seconds rounded down,
    from 4:59 to 0:00.  The full 5:00 is never shown: in the pass in which
    the feed-attempt timer stands at zero the line is blank. *)
Theorem cooldown_shown
    (format_float : bool -> nat -> F32.float -> string)
    (current_millis : Z) (s : t) :
  shows_idle (state s) = true ->
  fresh_success current_millis s = false ->
  need_to_feed s = COOLDOWN ->
  0 <= millis_since_feed_attempt s ->
  get_state_report format_float current_millis s
  = Ok {| header := "Cooldown";
          detail1 :=
            if millis_since_feed_attempt s =? 0 then ""
            else clock_text ((FEED_COOLDOWN_MILLIS - millis_since_feed_attempt s)
                             / 1000);
          detail2 := "";
          large := true |}
  /\ (millis_since_feed_attempt s <> 0 ->
      0 <= (FEED_COOLDOWN_MILLIS - millis_since_feed_attempt s) / 1000 < 300).
Proof.
  intros Hidle Hfresh Hneed Hnn.
  assert (Hlt : millis_since_feed_attempt s < FEED_COOLDOWN_MILLIS).
  { revert Hneed. unfold need_to_feed.
    destruct (maintenance_mode s); try discriminate.
    destruct (deficit_mg s <? deficit_threshold_mg s); try discriminate.
    destruct (Z.ltb_spec (millis_since_feed_attempt s) FEED_COOLDOWN_MILLIS);
      [intros _; assumption | discriminate]. }
  unfold FEED_COOLDOWN_MILLIS in *.
  change (5 * 60 * 1000) with 300000 in *.
  set (t := millis_since_feed_attempt s) in *.
  assert (Hq : 0 <= (300000 - t) / 1000 <= 300).
  { split; [apply Z.div_pos; lia |].
    apply Z.div_le_upper_bound; lia. }
  assert (Hq' : t <> 0 -> (300000 - t) / 1000 < 300).
  { intros Ht. apply Z.div_lt_upper_bound; lia. }
  split.
  - assert (Hcond : (match result (feed_report s) with SUCCESS => true | _ => false end)
                    && (uint32 (current_millis - millis (feed_report s)) <? 10000)
                    = false).
    { revert Hfresh. unfold fresh_success.
      destruct (result (feed_report s)); cbn [andb]; auto. }
    unfold get_state_report.
    destruct (state s); try discriminate Hidle; rewrite Hcond, Hneed;
      cbv zeta; fold t; unfold FEED_COOLDOWN_MILLIS;
      change (5 * 60 * 1000) with 300000;
      rewrite (uint32_small (300000 - t)) by lia;
      (destruct (Z.eqb_spec t 0) as [E0|N0];
       [ rewrite E0; reflexivity |]);
      (destruct (Z.ltb_spec (300000 - t) 300000); [| lia]);
      set (q := (300000 - t) / 1000) in *;
      specialize (Hq' N0);
      assert (Hm : 0 <= q / 60 < 5)
        by (split; [apply Z.div_pos; lia | apply Z.div_lt_upper_bound; lia]);
      rewrite (uint32_small (q / 60 * 60)) by lia;
      assert (Hsec : q - q / 60 * 60 = q mod 60)
        by (rewrite (Z.mod_eq q 60) by lia; lia);
      pose proof (Z.mod_pos_bound q 60 ltac:(lia));
      rewrite Hsec;
      rewrite (uint32_small (q mod 60)) by lia;
      rewrite !to_int32_small
        by (unfold is_int32, INT32_MIN, INT32_MAX; lia);
      fold (clock_text q); rewrite clock_text_fits by lia; reflexivity.
  - intros N0. specialize (Hq' N0). lia.
Qed.

Lemma cooldown_shown_witness :
  get_state_report no_floats 0 cooling
  = Ok {| header := "Cooldown";
          detail1 :=
            if millis_since_feed_attempt cooling =? 0 then ""
            else clock_text ((FEED_COOLDOWN_MILLIS - millis_since_feed_attempt cooling)
                             / 1000);
          detail2 := "";
          large := true |}
  /\ (millis_since_feed_attempt cooling <> 0 ->
      0 <= (FEED_COOLDOWN_MILLIS - millis_since_feed_attempt cooling) / 1000 < 300).
Proof.
  apply (cooldown_shown no_floats 0 cooling).
  - reflexivity.
  - reflexivity.
  - reflexivity.
  - vm_compute. discriminate.
Defined.

(** ** Idle measurements *)

Lemma transition_idle_keeps (s : t) :
  loadcell (transition IDLE s) = loadcell s
  /\ millis_since_reservoir_read (transition IDLE s) = millis_since_reservoir_read s
  /\ millis_since_bowl_read (transition IDLE s) = millis_since_bowl_read s.
Proof. unfold transition. destruct (State_eqb IDLE (state s)); repeat split. Qed.

Lemma update_bookkeeping_loadcell (fuel : nat) (i : Inputs) (s s1 : t) :
  update_bookkeeping fuel i s = Ok s1 ->
  Loadcell.update (hx711_is_ready i) (hx711_read i) (loadcell s) = Ok (loadcell s1).
Proof.
  intros H. apply update_bookkeeping_shape in H.
  destruct H as (l & m & r & Hl & ->). rewrite Hl. f_equal.
  unfold update_timers, update_mqtt_status.
  destruct (5000 <? _); reflexivity.
Qed.

(** A call of [update()] in a state that measures outside a feed cycle, no
    reading having timed out by the end of it: while the sampler is busy
    nothing moves, and the call that finds it idle publishes its result and
    returns to [IDLE]. *)
Lemma update_idle_session (fuel : nat) (i : Inputs) (s s' : t)
    (session : Loadcell.Sensor * bool) :
  idle_session (state s) = Some session ->
  update fuel i s = Ok s' ->
  error_loadcell_timeout s' = false ->
  Loadcell.update (hx711_is_ready i) (hx711_read i) (loadcell s) = Ok (loadcell s')
  /\ if Loadcell.is_busy (loadcell s')
     then state s' = state s /\ same_weights s s'
     else state s' = IDLE
          /\ published_mean (Loadcell.get_sensor (loadcell s')) s'
             = Loadcell.get_mean (loadcell s')
          /\ published_stddev (Loadcell.get_sensor (loadcell s')) s'
             = Loadcell.get_stddev (loadcell s')
          /\ millis_since_read (Loadcell.get_sensor (loadcell s')) s' = 0.
Proof.
  intros Hsession H Hflag.
  apply update_inv in H. destruct H as (s1 & ms & Hb & Hh & ->).
  pose proof (update_bookkeeping_frame _ _ _ _ Hb) as F.
  pose proof (update_bookkeeping_loadcell _ _ _ _ Hb) as Hl.
  pose proof (update_bookkeeping_weights _ _ _ _ Hb) as Hw.
  replace (error_loadcell_timeout (assign_pin_motor (fst ms) (snd ms)))
    with (error_loadcell_timeout (snd ms)) in Hflag by reflexivity.
  replace (loadcell (assign_pin_motor (fst ms) (snd ms)))
    with (loadcell (snd ms)) by reflexivity.
  replace (state (assign_pin_motor (fst ms) (snd ms)))
    with (state (snd ms)) by reflexivity.
  assert (G : loadcell (snd ms) = loadcell s1
              /\ if Loadcell.is_busy (loadcell s1)
                 then snd ms = s1
                 else state (snd ms) = IDLE
                      /\ published_mean (Loadcell.get_sensor (loadcell s1)) (snd ms)
                         = Loadcell.get_mean (loadcell s1)
                      /\ published_stddev (Loadcell.get_sensor (loadcell s1)) (snd ms)
                         = Loadcell.get_stddev (loadcell s1)
                      /\ millis_since_read (Loadcell.get_sensor (loadcell s1)) (snd ms)
                         = 0).
  { assert (Hh' : (let '(done, x) := handle_loadcell_readout s1 in
                   if done then Ok (false, transition IDLE x) else Ok (false, x))
                  = Ok ms).
    { revert Hh. unfold handle_state_machine. rewrite (bk_state _ _ _ F).
      destruct (state s); try discriminate Hsession; exact (fun H => H). }
    clear Hh. revert Hh'. unfold handle_loadcell_readout.
    destruct (error_loadcell_timeout s1 || (10000 <? millis_since_transition s1)).
    - intros [= <-]. exfalso. cbn [snd] in Hflag.
      rewrite (flag_loadcell_timeout _ _ (transition_flags IDLE _)) in Hflag.
      discriminate Hflag.
    - destruct (Loadcell.is_busy (loadcell s1)) eqn:Hbusy.
      + intros [= <-]. split; reflexivity.
      + destruct (Loadcell.get_sensor (loadcell s1)) eqn:Hsn;
          intros [= <-]; cbn [snd];
          match goal with |- context [transition IDLE ?x] =>
            destruct (transition_idle_keeps x) as (Tl & Tr & Tb);
            destruct (transition_weights IDLE x) as [Wrm Wrs Wbm Wbs]
          end;
          unfold published_mean, published_stddev, millis_since_read;
          rewrite Tl, ?Tr, ?Tb, ?Wrm, ?Wrs, ?Wbm, ?Wbs, transition_state;
          repeat split. }
  destruct G as (Gl & G). rewrite Gl.
  split; [exact Hl |].
  destruct (Loadcell.is_busy (loadcell s1)).
  - rewrite G. split; [apply (bk_state _ _ _ F) |].
    apply (same_weights_trans _ s1); [exact Hw | split; reflexivity].
  - destruct G as (G1 & G2 & G3 & G4).
    unfold published_mean, published_stddev, millis_since_read in *.
    destruct (Loadcell.get_sensor (loadcell s1));
      (split; [exact G1 |]); (split; [exact G2 |]);
      (split; [exact G3 | exact G4]).
Qed.

Lemma last_cons (a : list t) : forall v d : t, last (v :: a) d = last a v.
Proof.
  induction a as [|w a IH]; intros v d; [reflexivity |].
  change (last (v :: w :: a) d) with (last (w :: a) d).
  rewrite (IH w d), (IH w v). reflexivity.
Qed.

Lemma run_updates_app (a b : list (nat * Inputs)) : forall (s : t) (trace : list t),
  run_updates (a ++ b) s = Ok trace ->
  exists ta tb,
    run_updates a s = Ok ta
    /\ run_updates b (last ta s) = Ok tb
    /\ trace = ta ++ tb.
Proof.
  induction a as [|[fuel i] a IH]; intros s trace H.
  - exists [], trace. repeat split. exact H.
  - cbn [app run_updates] in H |- *.
    apply bind_inv in H. destruct H as (s1 & Hu & H).
    apply bind_inv in H. destruct H as (tr & Htr & [= <-]).
    destruct (IH _ _ Htr) as (ta & tb & Ha & Hb & ->).
    exists (s1 :: ta), tb. cbn [run_updates]. rewrite Hu. cbn [bind].
    rewrite Ha. cbn [bind].
    split; [reflexivity |]. split; [| reflexivity].
    rewrite last_cons. exact Hb.
Qed.

Lemma run_sampler_app (a b : list (bool * Z)) (l : Loadcell.t) :
  run_sampler (a ++ b) l = (l' <- run_sampler a l ;; run_sampler b l').
Proof.
  revert l. induction a as [|[ready raw] a IH]; intros l;
    cbn [run_sampler app bind]; [reflexivity |].
  destruct (Loadcell.update ready raw l); cbn [bind]; [apply IH | | ];
    reflexivity.
Qed.

(** A flag that is down at the end of a run of [update()] calls was down all
    the way. *)
Lemma run_updates_timeout_down (ticks : list (nat * Inputs)) :
  forall (s : t) (trace : list t),
    run_updates ticks s = Ok trace ->
    error_loadcell_timeout (last trace s) = false ->
    error_loadcell_timeout s = false
    /\ Forall (fun v => error_loadcell_timeout v = false) trace.
Proof.
  induction ticks as [|[fuel i] ticks IH]; intros s trace H Hlast;
    cbn [run_updates] in H.
  - injection H as <-. split; [exact Hlast | constructor].
  - apply bind_inv in H. destruct H as (s1 & Hu & H).
    apply bind_inv in H. destruct H as (tr & Htr & [= <-]).
    assert (Hlast1 : error_loadcell_timeout (last tr s1) = false)
      by (rewrite <- (last_cons tr s1 s); exact Hlast).
    destruct (IH _ _ Htr Hlast1) as [H1 Hall].
    split; [| constructor; assumption].
    destruct (error_loadcell_timeout s) eqn:E; [| reflexivity].
    pose proof (raised_loadcell_timeout _ _
                  (call_raised (CallUpdate fuel i) s s1 eq_refl Hu) E).
    congruence.
Qed.

(** While the sampler stays busy a run of [update()] calls in a state that
    measures outside a feed cycle only feeds the sampler. *)
Lemma idle_session_busy (session : Loadcell.Sensor * bool)
    (ticks : list (nat * Inputs)) : forall (s : t) (trace : list t),
  idle_session (state s) = Some session ->
  run_updates ticks s = Ok trace ->
  Forall (fun v => error_loadcell_timeout v = false) trace ->
  (forall (k : nat) (l : Loadcell.t),
     (0 < k <= List.length ticks)%nat ->
     run_sampler (firstn k (passes_of ticks)) (loadcell s) = Ok l ->
     Loadcell.is_busy l = true) ->
  run_sampler (passes_of ticks) (loadcell s) = Ok (loadcell (last trace s))
  /\ state (last trace s) = state s
  /\ Forall (fun v => state v = state s /\ same_weights s v) trace.
Proof.
  induction ticks as [|[fuel i] ticks IH]; intros s trace Hsession H Hflags Hbusy;
    cbn [run_updates] in H.
  - injection H as <-. repeat split. constructor.
  - apply bind_inv in H. destruct H as (s1 & Hu & H).
    apply bind_inv in H. destruct H as (tr & Htr & [= <-]).
    inversion Hflags as [|? ? Hf1 Hftr]; subst.
    destruct (update_idle_session _ _ _ _ _ Hsession Hu Hf1) as (Hl & Hstep).
    assert (Hb1 : Loadcell.is_busy (loadcell s1) = true).
    { apply (Hbusy 1%nat); [cbn [List.length]; lia |].
      cbn [passes_of map firstn run_sampler snd]. rewrite Hl. reflexivity. }
    rewrite Hb1 in Hstep. destruct Hstep as [Hst1 Hw1].
    assert (Hsession1 : idle_session (state s1) = Some session)
      by (rewrite Hst1; exact Hsession).
    destruct (IH s1 tr Hsession1 Htr Hftr) as (Hrun & Hlast & Hall).
    { intros k l Hk Hrs. apply (Hbusy (S k)); [cbn [List.length]; lia |].
      cbn [passes_of map firstn run_sampler snd]. rewrite Hl. exact Hrs. }
    rewrite last_cons. cbn [passes_of map run_sampler snd]. rewrite Hl. cbn [bind].
    split; [exact Hrun |]. split; [congruence |].
    constructor; [split; assumption |].
    apply Forall_impl with (2 := Hall). intros v [Hv Hwv].
    split; [congruence | apply (same_weights_trans _ s1); assumption].
Qed.

Lemma ready_readings_app (a b : list (bool * Z)) :
  ready_readings (a ++ b) = ready_readings a ++ ready_readings b.
Proof. unfold ready_readings. now rewrite filter_app, map_app. Qed.

Lemma passes_of_app (a b : list (nat * Inputs)) :
  passes_of (a ++ b) = passes_of a ++ passes_of b.
Proof. unfold passes_of. apply map_app. Qed.

(** Short of 32 readings a session is busy. *)
Lemma run_sampler_busy
    (sn : Loadcell.Sensor) (tr : bool) (l l' : Loadcell.t) (passes : list (bool * Z)) :
  List.length (Loadcell.samples l) = 32%nat ->
  (List.length (ready_readings passes) < 32)%nat ->
  run_sampler passes (Loadcell.start sn tr l) = Ok l' ->
  Loadcell.is_busy l' = true.
Proof.
  intros Hl Hn. rewrite run_sampler_ready.
  rewrite (take_readings_busy (ready_readings passes) (Loadcell.start sn tr l)
             (31 - List.length (ready_readings passes)));
    [| cbn [Loadcell.start Loadcell.samples_remaining];
       unfold Loadcell.NUM_SAMPLES; lia
     | exact Hl | lia].
  intros [= <-]. unfold Loadcell.is_busy.
  cbn [sampling Loadcell.samples_remaining]. apply Z.ltb_lt. lia.
Qed.

(** A measurement outside a feed cycle publishes the weight of the 32
    readings taken since it began.  From the transition that starts the
    session to the call of [update()] that takes the 32nd reading, no reading
    having timed out: until that call the state and the published weights
    stay as they are; that call returns to [IDLE], restarts the timer of the
    sensor and publishes as its weight the raw mean of the 32 readings,
    (sum + 16) / 32 towards zero, less the tare, times the gain, and as its
    deviation the root of their biased mean square deviation times the gain.
    A session that tares measures against its own raw mean. *)
Theorem idle_measurement_publishes
    (sn : Loadcell.Sensor) (tr : bool) (l : Loadcell.t)
    (ticks : list (nat * Inputs)) (final : nat * Inputs)
    (s : t) (trace : list t) (u : t) :
  idle_session (state s) = Some (sn, tr) ->
  loadcell s = Loadcell.start sn tr l ->
  List.length (Loadcell.samples l) = 32%nat ->
  tr = true \/ tare_of sn l = INT32_MIN \/ - 2 ^ 30 <= tare_of sn l <= 2 ^ 30 ->
  run_updates (ticks ++ [final]) s = Ok (trace ++ [u]) ->
  hx711_is_ready (snd final) = true ->
  List.length (ready_readings (passes_of (ticks ++ [final]))) = 32%nat ->
  Forall is_reading (ready_readings (passes_of (ticks ++ [final]))) ->
  error_loadcell_timeout u = false ->
  let readings := ready_readings (passes_of (ticks ++ [final])) in
  let m := Z.quot (16 + sum_samples readings) 32 in
  let tare := if tr || (tare_of sn l =? INT32_MIN) then m else tare_of sn l in
  Forall (fun v => state v = state s /\ same_weights s v) trace
  /\ state u = IDLE
  /\ published_mean sn u = F32.mul (F32.of_Z (m - tare)) (gain_of sn)
  /\ published_stddev sn u
     = F32.mul
         (F32.sqrt (F32.div (F32.of_Z (16 + sum_sqdev m readings)) (F32.of_Z 32)))
         (F32.abs (gain_of sn))
  /\ millis_since_read sn u = 0.
Proof.
  intros Hsession Hstart Hl Htare Hrun Hready Hlen Hreadings Hflag readings m tare.
  (* the run splits into the calls before the last and the last *)
  destruct (run_updates_app _ _ _ _ Hrun) as (ta & tb & Ha & Hb & Happ).
  cbn [run_updates] in Hb. destruct final as [fuel i].
  apply bind_inv in Hb. destruct Hb as (u' & Hu & [= <-]).
  apply app_inj_tail in Happ. destruct Happ as [<- <-].
  cbn [snd] in Hready.
  (* no reading timed out on the way *)
  assert (Hflags : Forall (fun v => error_loadcell_timeout v = false) trace).
  { destruct (run_updates_timeout_down _ _ _ Hrun) as [_ Hall].
    - rewrite last_last. exact Hflag.
    - apply Forall_app in Hall. apply Hall. }
  (* the readings before the last are 31 *)
  assert (Hsplit : readings
                   = ready_readings (passes_of ticks) ++ [hx711_read i]).
  { subst readings. rewrite passes_of_app, ready_readings_app.
    cbn [passes_of map ready_readings filter fst snd]. rewrite Hready.
    reflexivity. }
  assert (H31 : List.length (ready_readings (passes_of ticks)) = 31%nat).
  { fold readings in Hlen. rewrite Hsplit, length_app in Hlen.
    cbn [List.length] in Hlen. lia. }
  destruct (idle_session_busy _ ticks s trace Hsession Ha Hflags)
    as (Hsampler & Hmid & Hall).
  { intros k l' Hk Hrs. rewrite Hstart in Hrs.
    apply (run_sampler_busy sn tr l l' _ Hl) in Hrs; [exact Hrs |].
    pose proof (firstn_skipn k (passes_of ticks)) as E.
    apply (f_equal ready_readings) in E. rewrite ready_readings_app in E.
    apply (f_equal (@List.length Z)) in E. rewrite length_app in E. lia. }
  split; [exact Hall |].
  (* the last call takes the 32nd reading *)
  assert (Hsession' : idle_session (state (last trace s)) = Some (sn, tr))
    by (rewrite Hmid; exact Hsession).
  destruct (update_idle_session _ _ _ _ _ Hsession' Hu Hflag) as (Hlast & Hstep).
  assert (Hresult : loadcell u
                    = session_result (Loadcell.start sn tr l) (rev readings)).
  { assert (E : run_sampler (passes_of (ticks ++ [(fuel, i)])) (loadcell s)
                = Ok (loadcell u)).
    { rewrite passes_of_app, run_sampler_app, Hsampler. cbn [bind].
      cbn [passes_of map run_sampler snd]. rewrite Hlast. reflexivity. }
    rewrite run_sampler_ready, Hstart in E. fold readings in E.
    rewrite <- (app_nil_r readings) in E.
    rewrite (session_closed_form sn tr l readings [] Hl Hlen Hreadings Htare) in E.
    now injection E. }
  rewrite Hresult in Hstep.
  change (Loadcell.is_busy
            (session_result (Loadcell.start sn tr l) (rev readings)))
    with false in Hstep.
  change (Loadcell.get_sensor
            (session_result (Loadcell.start sn tr l) (rev readings)))
    with sn in Hstep.
  destruct Hstep as (Hidle & Hmean & Hdev & Htimer).
  split; [exact Hidle |].
  rewrite Hmean, Hdev.
  unfold Loadcell.get_mean, Loadcell.get_stddev, session_result.
  cbn [Loadcell.start Loadcell.sensor Loadcell.mean Loadcell.stddev].
  rewrite session_mean_raw_rev, sum_sqdev_rev.
  unfold captures_tare, session_mean_raw.
  cbn [Loadcell.start Loadcell.sensor Loadcell.apply_tare
       Loadcell.tare_reservoir Loadcell.tare_bowl tare_of].
  fold (tare_of sn l). fold m.
  replace (tare_of sn (Loadcell.start sn tr l)) with (tare_of sn l)
    by (destruct sn; reflexivity).
  split; [reflexivity |]. split; [reflexivity | exact Htimer].
Qed.

Lemma idle_measurement_publishes_witness :
  let u := last (traced (taring_run ++ [taring_final]) taring_bowl) init in
  let readings := ready_readings (passes_of (taring_run ++ [taring_final])) in
  let m := Z.quot (16 + sum_samples readings) 32 in
  let tare :=
    if true || (tare_of Loadcell.BOWL (loadcell (begin 0 init)) =? INT32_MIN)
    then m else tare_of Loadcell.BOWL (loadcell (begin 0 init)) in
  Forall (fun v => state v = state taring_bowl /\ same_weights taring_bowl v)
    (removelast (traced (taring_run ++ [taring_final]) taring_bowl))
  /\ state u = IDLE
  /\ published_mean Loadcell.BOWL u
     = F32.mul (F32.of_Z (m - tare)) (gain_of Loadcell.BOWL)
  /\ published_stddev Loadcell.BOWL u
     = F32.mul
         (F32.sqrt (F32.div (F32.of_Z (16 + sum_sqdev m readings)) (F32.of_Z 32)))
         (F32.abs (gain_of Loadcell.BOWL))
  /\ millis_since_read Loadcell.BOWL u = 0.
Proof.
  intros u.
  apply (idle_measurement_publishes Loadcell.BOWL true (loadcell (begin 0 init))
           taring_run taring_final taring_bowl
           (removelast (traced (taring_run ++ [taring_final]) taring_bowl)) u).
  - reflexivity.
  - reflexivity.
  - reflexivity.
  - left. reflexivity.
  - vm_compute. reflexivity.
  - reflexivity.
  - reflexivity.
  - replace (ready_readings (passes_of (taring_run ++ [taring_final])))
      with sample_readings by (vm_compute; reflexivity).
    exact sample_readings_are_readings.
  - vm_compute. reflexivity.
Defined.

(** ** The deficit account and the clock *)

Lemma update_account (fuel : nat) (i : Inputs) (s s' : t) :
  update fuel i s = Ok s' ->
  feed_completed s s' = false ->
  account s' = account s + delta_millis_of i s
  /\ grams_per_day s' = grams_per_day s.
Proof.
  intros H Hst. apply update_inv in H. destruct H as (s1 & ms & Hb & Hh & ->).
  pose proof (update_bookkeeping_frame _ _ _ _ Hb) as F.
  destruct (update_bookkeeping_deficit _ _ _ _ Hb)
    as (n & _ & Hmg & Hms & _ & _ & Hrate & _).
  apply handle_state_machine_completes in Hh.
  replace (feed_completed s1 (snd ms))
    with (feed_completed s (assign_pin_motor (fst ms) (snd ms))) in Hh
    by (unfold feed_completed; rewrite (bk_state _ _ _ F); reflexivity).
  rewrite Hst in Hh.
  destruct Hh as [Bmg Bms _ Brate _].
  unfold account, deficit_period.
  replace (deficit_mg (assign_pin_motor (fst ms) (snd ms)))
    with (deficit_mg (snd ms)) by reflexivity.
  replace (deficit_ms_remain (assign_pin_motor (fst ms) (snd ms)))
    with (deficit_ms_remain (snd ms)) by reflexivity.
  replace (grams_per_day (assign_pin_motor (fst ms) (snd ms)))
    with (grams_per_day (snd ms)) by reflexivity.
  rewrite Bmg, Bms, Brate, Hmg, Hms, Hrate. unfold deficit_period.
  split; [lia | reflexivity].
Qed.

(** The deficit account keeps time.  Over a run of [update()] calls none of
    which completes a feed, the account, a period of 86400 / grams_per_day
    milliseconds for every milligram of the deficit less what is left of the
    countdown, advances by exactly the time that the calls measured: the
    deficit grows by one milligram per period, neither faster nor slower,
    however the calls are spaced and whatever state the machine is in, the
    last weighing of a feed cycle included. *)
Theorem deficit_keeps_time (ticks : list (nat * Inputs)) (s : t) (trace : list t) :
  run_updates ticks s = Ok trace ->
  no_feed_completed s trace = true ->
  account (last trace s) = account s + elapsed (update_prev_millis s) ticks
  /\ grams_per_day (last trace s) = grams_per_day s.
Proof.
  revert s trace.
  induction ticks as [|[fuel i] ticks IH]; intros s trace H Hst;
    cbn [run_updates] in H.
  - injection H as <-. cbn [last elapsed]. split; [lia | reflexivity].
  - apply bind_inv in H. destruct H as (s1 & Hu & H).
    apply bind_inv in H. destruct H as (tr & Htr & [= <-]).
    cbn [no_feed_completed] in Hst. apply andb_prop in Hst.
    destruct Hst as [Hs Hrest]. apply negb_true_iff in Hs.
    destruct (update_account _ _ _ _ Hu Hs) as [Ha Hr].
    rewrite last_cons. cbn [elapsed]. fold (delta_millis_of i s).
    destruct (IH s1 tr Htr Hrest) as [Ha' Hr'].
    rewrite Ha', Ha, (update_prev _ _ _ _ Hu), Hr'.
    split; [lia | exact Hr].
Qed.

Lemma deficit_keeps_time_witness :
  account (last (traced [(5%nat, first_tick); (5%nat, first_tick)] last_weighing)
             last_weighing)
  = account last_weighing
    + elapsed (update_prev_millis last_weighing)
        [(5%nat, first_tick); (5%nat, first_tick)]
  /\ grams_per_day
       (last (traced [(5%nat, first_tick); (5%nat, first_tick)] last_weighing)
          last_weighing)
     = grams_per_day last_weighing.
Proof.
  apply (deficit_keeps_time [(5%nat, first_tick); (5%nat, first_tick)]
           last_weighing
           (traced [(5%nat, first_tick); (5%nat, first_tick)] last_weighing)).
  - vm_compute. reflexivity.
  - vm_compute. reflexivity.
Defined.

(** ** Calibration *)

Lemma transition_loadcell (st : State) (s : t) :
  loadcell (transition st s)
  = match session_of st with
    | Some (sn, tr) => Loadcell.start sn tr (loadcell s)
    | None => loadcell s
    end.
Proof.
  unfold transition. destruct (State_eqb st (state s)); destruct st; reflexivity.
Qed.

Lemma transition_sampler_kept (st : State) (s : t) :
  taring st = false -> sampler_kept (loadcell s) (loadcell (transition st s)).
Proof.
  intros H. rewrite transition_loadcell.
  destruct st; try discriminate H; cbn [session_of]; constructor.
Qed.

Lemma complete_feed_loadcell (i : Inputs) (s s' : t) :
  complete_feed i s = Ok s' -> loadcell s' = loadcell s.
Proof.
  unfold complete_feed.
  destruct (estimate_dispensed_weight_grams s) as [w s1] eqn:Ee.
  destruct (F32.to_int (F32.mul w (F32.of_Z 1000))) as [mg| |]; cbn [bind];
    try discriminate.
  destruct (int32 (deficit_mg (update_jam_state w s1) - mg)) as [d| |];
    cbn [bind]; try discriminate.
  intros [= <-]. rewrite transition_loadcell. cbn [session_of].
  assert (E1 : loadcell s1 = loadcell s).
  { revert Ee. unfold estimate_dispensed_weight_grams.
    repeat match goal with
           | |- (if ?c then _ else _) = _ -> _ => destruct c
           | |- match ?c with _ => _ end = _ -> _ => destruct c
           end; intros [= _ <-]; reflexivity. }
  rewrite <- E1. unfold update_jam_state.
  repeat match goal with
         | |- context [if ?c then _ else _] => destruct c
         | |- context [match maintenance_mode ?c with _ => _ end] =>
             destruct (maintenance_mode c)
         end; reflexivity.
Qed.

(** Outside the taring states the [switch] leaves the sampler alone or starts
    it on a session that takes no tare, and it does not enter a taring
    state. *)
Lemma handle_state_machine_sampler (i : Inputs) (s : t) (ms : bool * t) :
  taring (state s) = false ->
  handle_state_machine i s = Ok ms ->
  taring (state (snd ms)) = false
  /\ sampler_kept (loadcell s) (loadcell (snd ms)).
Proof.
  intros Hcal. unfold handle_state_machine.
  pose proof (conj (rf_loadcell _ _ (handle_loadcell_readout_frame s))
                (handle_loadcell_readout_state s)) as Hr.
  destruct (state s) eqn:Hst; try discriminate Hcal;
    switch_cases Hr; intros [= <-]; cbn [snd]; unfold feed, sensor_retry;
    try destruct Hr as [Hrl Hrs].
  all: try match goal with
           | H : complete_feed _ _ = Ok _ |- _ =>
               rewrite (complete_feed_state _ _ _ H),
                       (complete_feed_loadcell _ _ _ H)
           end.
  all: rewrite ?transition_state, ?Hrs, ?Hst.
  all: (split; [reflexivity |]).
  all: rewrite ?transition_loadcell, ?Hrs; cbn [session_of].
  all: repeat read_field.
  all: rewrite ?Hrl.
  all: constructor.
Qed.

(** A pass of the sampler changes a tare only at the end of a session that
    tares or whose sensor has no tare yet. *)
Lemma sampler_keeps_tares (ready : bool) (raw : Z) (l l' : Loadcell.t) :
  Loadcell.update ready raw l = Ok l' ->
  (Loadcell.is_busy l = true -> Loadcell.apply_tare l = false) ->
  Loadcell.tare_reservoir l <> INT32_MIN ->
  Loadcell.tare_bowl l <> INT32_MIN ->
  Loadcell.tare_reservoir l' = Loadcell.tare_reservoir l
  /\ Loadcell.tare_bowl l' = Loadcell.tare_bowl l
  /\ Loadcell.apply_tare l' = Loadcell.apply_tare l.
Proof.
  unfold Loadcell.update, Loadcell.is_busy. intros H Hbusy Hr Hb.
  destruct (Z.eqb_spec (Loadcell.samples_remaining l) 0) as [E0|N0];
    [injection H as <-; repeat split |].
  destruct ready; cbn [negb] in H; [| injection H as <-; repeat split].
  apply bind_inv in H. destruct H as (n & Hn & H).
  apply int32_inv in Hn. destruct Hn as [-> _].
  apply bind_inv in H. destruct H as ([] & Hpos & H).
  destruct (Z.ltb_spec (Loadcell.samples_remaining l - 1) 0) as [|Hge];
    [discriminate Hpos |].
  apply bind_inv in H. destruct H as (buf & _ & H).
  destruct (negb (Loadcell.samples_remaining l - 1 =? 0));
    [injection H as <-; repeat split |].
  apply bind_inv in H. destruct H as (m & _ & H).
  apply bind_inv in H. destruct H as (var & _ & H).
  cbv zeta in H.
  apply bind_inv in H. destruct H as (d & _ & [= <-]).
  cbn [Loadcell.tare_reservoir Loadcell.tare_bowl Loadcell.apply_tare].
  rewrite (Hbusy ltac:(apply Z.ltb_lt; lia)). cbn [orb].
  destruct (Z.eqb_spec (Loadcell.tare_reservoir l) INT32_MIN); [contradiction |].
  destruct (Z.eqb_spec (Loadcell.tare_bowl l) INT32_MIN); [contradiction |].
  destruct (Loadcell.sensor l); repeat split.
Qed.

Lemma sampler_busy_after (ready : bool) (raw : Z) (l l' : Loadcell.t) :
  Loadcell.update ready raw l = Ok l' ->
  Loadcell.is_busy l' = true -> Loadcell.is_busy l = true.
Proof.
  unfold Loadcell.update, Loadcell.is_busy. intros H.
  destruct (Z.eqb_spec (Loadcell.samples_remaining l) 0) as [E0|N0];
    [injection H as <-; auto |].
  destruct ready; cbn [negb] in H; [| injection H as <-; auto].
  apply bind_inv in H. destruct H as (n & Hn & H).
  apply int32_inv in Hn. destruct Hn as [-> _].
  apply bind_inv in H. destruct H as ([] & Hpos & H).
  destruct (Z.ltb_spec (Loadcell.samples_remaining l - 1) 0) as [|Hge];
    [discriminate Hpos |].
  intros _. apply Z.ltb_lt. lia.
Qed.

Lemma sampler_kept_calibrated (l l' : Loadcell.t) :
  sampler_kept l l' ->
  (Loadcell.is_busy l = true -> Loadcell.apply_tare l = false) ->
  (Loadcell.is_busy l' = true -> Loadcell.apply_tare l' = false)
  /\ Loadcell.tare_reservoir l' = Loadcell.tare_reservoir l
  /\ Loadcell.tare_bowl l' = Loadcell.tare_bowl l.
Proof. intros [|sn] H; repeat split; auto. Qed.

Lemma call_calibrated (c : Call) (s s' : t) :
  is_tare_command c = false ->
  call c s = Ok s' ->
  calibrated s ->
  calibrated s'
  /\ Loadcell.tare_reservoir (loadcell s') = Loadcell.tare_reservoir (loadcell s)
  /\ Loadcell.tare_bowl (loadcell s') = Loadcell.tare_bowl (loadcell s).
Proof.
  intros Hc H [Hst Hses Hr Hb].
  assert (G : taring (state s') = false
              /\ ((Loadcell.is_busy (loadcell s') = true ->
                   Loadcell.apply_tare (loadcell s') = false)
                  /\ Loadcell.tare_reservoir (loadcell s')
                     = Loadcell.tare_reservoir (loadcell s)
                  /\ Loadcell.tare_bowl (loadcell s')
                     = Loadcell.tare_bowl (loadcell s))).
  { destruct c; try discriminate Hc; cbn [call] in H.
    - apply update_inv in H. destruct H as (s1 & ms & Hb1 & Hh & ->).
      pose proof (update_bookkeeping_frame _ _ _ _ Hb1) as F.
      pose proof (update_bookkeeping_loadcell _ _ _ _ Hb1) as Hl.
      destruct (sampler_keeps_tares _ _ _ _ Hl Hses Hr Hb) as (T1 & T2 & T3).
      assert (Hses1 : Loadcell.is_busy (loadcell s1) = true ->
                      Loadcell.apply_tare (loadcell s1) = false).
      { intros Hbusy. rewrite T3. apply Hses.
        apply (sampler_busy_after _ _ _ _ Hl Hbusy). }
      destruct (handle_state_machine_sampler i s1 ms) as [Hst' Hk];
        [rewrite (bk_state _ _ _ F); exact Hst | exact Hh |].
      destruct (sampler_kept_calibrated _ _ Hk Hses1) as (K1 & K2 & K3).
      replace (state (assign_pin_motor (fst ms) (snd ms)))
        with (state (snd ms)) by reflexivity.
      replace (loadcell (assign_pin_motor (fst ms) (snd ms)))
        with (loadcell (snd ms)) by reflexivity.
      split; [exact Hst' |]. split; [exact K1 |]. split; congruence.
    - injection H as <-. unfold feed.
      rewrite transition_state, transition_loadcell. cbn [session_of taring].
      repeat split. exact Hses.
    - injection H as <-. unfold reset. cbv zeta. repeat read_field.
      rewrite ?transition_state, transition_loadcell. cbn [session_of taring].
      unfold error_reset. cbv zeta. repeat read_field.
      repeat split. exact Hses.
    - injection H as <-. unfold enter_maintenance. cbv zeta.
      rewrite transition_state, transition_loadcell. cbn [session_of taring].
      unfold error_reset. cbv zeta. repeat read_field.
      repeat split. exact Hses.
    - unfold adjust_deficit in H. apply bind_inv in H.
      destruct H as (d & _ & [= <-]). repeat read_field.
      repeat split; assumption.
    - injection H as <-. unfold set_grams_per_day. repeat read_field.
      repeat split; assumption. }
  destruct G as (G1 & G2 & G3 & G4).
  split; [| split; assumption].
  split; [exact G1 | exact G2 | rewrite G3; exact Hr | rewrite G4; exact Hb].
Qed.

(** The calibration is changed by the tare commands alone.  From a state in
    which nothing is under way that would take a tare, as after [begin()],
    no sequence of calls of [update()], [feed()], [reset()],
    [enter_maintenance()], [adjust_deficit()] and [set_grams_per_day()]
    changes the tare of the reservoir or of the bowl, whatever the load cells
    deliver. *)
Theorem tares_kept_without_command (calls : list Call) (s s' : t) :
  forallb (fun c => negb (is_tare_command c)) calls = true ->
  run calls s = Ok s' ->
  calibrated s ->
  calibrated s'
  /\ Loadcell.tare_reservoir (loadcell s') = Loadcell.tare_reservoir (loadcell s)
  /\ Loadcell.tare_bowl (loadcell s') = Loadcell.tare_bowl (loadcell s).
Proof.
  revert s. induction calls as [|c calls IH]; intros s Hn H Hcal; cbn [run] in H.
  - injection H as <-. split; [exact Hcal | split; reflexivity].
  - cbn [forallb] in Hn. apply andb_prop in Hn. destruct Hn as [Hc Hn].
    apply negb_true_iff in Hc.
    apply bind_inv in H. destruct H as (s1 & H1 & H).
    destruct (call_calibrated c _ _ Hc H1 Hcal) as (Hcal1 & R1 & B1).
    destruct (IH _ Hn H Hcal1) as (Hcal' & R' & B').
    split; [exact Hcal' |]. split; congruence.
Qed.

Lemma tares_kept_without_command_witness :
  calibrated
    (returned (run [CallUpdate 5 first_tick; CallFeed; CallUpdate 5 first_tick;
                    CallReset] (begin 0 init)))
  /\ Loadcell.tare_reservoir
       (loadcell
          (returned (run [CallUpdate 5 first_tick; CallFeed;
                          CallUpdate 5 first_tick; CallReset] (begin 0 init))))
     = Loadcell.tare_reservoir (loadcell (begin 0 init))
  /\ Loadcell.tare_bowl
       (loadcell
          (returned (run [CallUpdate 5 first_tick; CallFeed;
                          CallUpdate 5 first_tick; CallReset] (begin 0 init))))
     = Loadcell.tare_bowl (loadcell (begin 0 init)).
Proof.
  apply (tares_kept_without_command
           [CallUpdate 5 first_tick; CallFeed; CallUpdate 5 first_tick; CallReset]
           (begin 0 init)
           (returned (run [CallUpdate 5 first_tick; CallFeed;
                           CallUpdate 5 first_tick; CallReset] (begin 0 init)))).
  - reflexivity.
  - vm_compute. reflexivity.
  - split.
    + reflexivity.
    + intros H. reflexivity.
    + vm_compute. discriminate.
    + vm_compute. discriminate.
Defined.

(** ** The weighings of a feed cycle *)

Lemma same_records_refl (s : t) : same_records s s.
Proof. now split. Qed.

Lemma same_records_trans (a b c : t) :
  same_records a b -> same_records b c -> same_records a c.
Proof. intros [] []; split; congruence. Qed.

Lemma transition_records (st : State) (s : t) : same_records s (transition st s).
Proof.
  unfold transition. destruct (State_eqb st (state s)); destruct st;
    split; reflexivity.
Qed.

Lemma complete_feed_records (i : Inputs) (s s' : t) :
  complete_feed i s = Ok s' -> same_records s s'.
Proof.
  unfold complete_feed.
  destruct (estimate_dispensed_weight_grams s) as [w s1] eqn:Ee.
  destruct (F32.to_int (F32.mul w (F32.of_Z 1000))) as [mg| |]; cbn [bind];
    try discriminate.
  destruct (int32 (deficit_mg (update_jam_state w s1) - mg)) as [d| |];
    cbn [bind]; try discriminate.
  intros [= <-].
  assert (H1 : same_records s s1).
  { revert Ee. unfold estimate_dispensed_weight_grams.
    repeat match goal with
           | |- (if ?c then _ else _) = _ -> _ => destruct c
           | |- match ?c with _ => _ end = _ -> _ => destruct c
           end; intros [= _ <-]; split; reflexivity. }
  assert (H2 : same_records s1 (update_jam_state w s1)).
  { unfold update_jam_state.
    repeat match goal with
           | |- context [if ?c then _ else _] => destruct c
           | |- context [match maintenance_mode ?c with _ => _ end] =>
               destruct (maintenance_mode c)
           end; split; reflexivity. }
  eapply same_records_trans; [exact H1 |].
  eapply same_records_trans; [exact H2 |].
  eapply same_records_trans; [| apply transition_records].
  generalize (update_jam_state w s1). intros x. split; reflexivity.
Qed.

(** The readout of a session that is not overdue. *)
Lemma handle_loadcell_readout_in_time (s : t) :
  error_loadcell_timeout s = false ->
  millis_since_transition s <= 10000 ->
  fst (handle_loadcell_readout s) = negb (Loadcell.is_busy (loadcell s))
  /\ (Loadcell.is_busy (loadcell s) = true -> snd (handle_loadcell_readout s) = s)
  /\ readout_frame s (snd (handle_loadcell_readout s))
  /\ same_records s (snd (handle_loadcell_readout s)).
Proof.
  intros Hflag Ht. unfold handle_loadcell_readout. rewrite Hflag. cbn [orb].
  destruct (Z.ltb_spec 10000 (millis_since_transition s)); [lia |].
  destruct (Loadcell.is_busy (loadcell s)).
  - repeat split.
  - destruct (Loadcell.get_sensor (loadcell s));
      (split; [reflexivity |]); (split; [discriminate |]); split; split;
      reflexivity.
Qed.

Lemma limp_mode_none_timeout (s : t) :
  loadcell_limp_mode s = None -> error_loadcell_timeout s = false.
Proof.
  unfold loadcell_limp_mode. destruct (error_loadcell_timeout s);
    [discriminate | reflexivity].
Qed.

Lemma handle_state_machine_weighing (i : Inputs) (s : t) (ms : bool * t) :
  handle_state_machine i s = Ok ms ->
  weighs_feed (state s) = true ->
  loadcell_limp_mode s = None ->
  millis_since_transition s <= 10000 ->
  weighing_outcome (loadcell s) s (snd ms).
Proof.
  intros H Hw Hlimp Ht. revert H. unfold handle_state_machine, weighing_outcome.
  destruct (handle_loadcell_readout_in_time s (limp_mode_none_timeout s Hlimp) Ht)
    as (Hdone & Hsame & Hframe & Hrec).
  destruct Hframe as [Fl Fs Fr _ _ _].
  rewrite Hlimp.
  destruct (handle_loadcell_readout s) as [done s2]. cbn [fst snd] in *.
  subst done. rewrite Fl, Fr, negb_involutive.
  destruct (Loadcell.is_busy (loadcell s)) eqn:Hbusy.
  - (* the session is still running *)
    rewrite (Hsame eq_refl).
    destruct (state s) eqn:Hst; try discriminate Hw; intros [= <-]; cbn [snd];
      repeat split; exact Hst.
  - destruct (F32.ltb (Loadcell.get_stddev (loadcell s)) (F32.of_Z 1)).
    + (* a quiet reading *)
      destruct (state s) eqn:Hst; try discriminate Hw; cbn [after_weighing].
      1-3: intros [= <-]; cbn [snd]; rewrite transition_state;
           (split; [reflexivity |]);
           match goal with |- context [transition ?st ?x] =>
             destruct (transition_records st x) as [R1 R2 R3 R4] end;
           cbn [recorded_weight]; rewrite ?R1, ?R2, ?R3, ?R4;
           read_field; reflexivity.
      intros H. apply bind_inv in H. destruct H as (s3 & Hc & [= <-]).
      cbn [snd]. split; [apply (complete_feed_state _ _ _ Hc) |].
      cbn [recorded_weight].
      rewrite (rec_reservoir_post _ _ (complete_feed_records _ _ _ Hc)).
      read_field. reflexivity.
    + destruct (state_retries s <? 5); [| exact (fun _ => I)].
      (* a noisy reading, tried again *)
      destruct (state s) eqn:Hst; try discriminate Hw; intros [= <-]; cbn [snd];
        rewrite transition_retry, transition_state, transition_loadcell,
          Fs, Fr, Fl;
        (split; [reflexivity |]); (split; [reflexivity |]);
        (split; [reflexivity |]);
        (apply (same_records_trans _ s2);
         [exact Hrec | apply transition_records]).
Qed.

Lemma update_bookkeeping_records (fuel : nat) (i : Inputs) (s s1 : t) :
  update_bookkeeping fuel i s = Ok s1 -> same_records s s1.
Proof.
  intros H. apply update_bookkeeping_shape in H.
  destruct H as (l & m & r & _ & ->).
  unfold update_timers, update_mqtt_status.
  destruct (5000 <? _); split; reflexivity.
Qed.

(** A weighing of the feed cycle, the load cells being trusted and the
    reading not overdue.  While the session runs the call of [update()]
    waits.  When it is over, a reading with a deviation below 1.0 g is taken:
    its mean is recorded as the weight of this weighing and the cycle moves
    on, the last weighing ending it; a reading that is not quiet, a
    deviation that is not a number included, is tried again with a new
    session of the same sensor, as long as fewer than five retries have been
    made in the state. *)
Theorem feed_weighing (fuel : nat) (i : Inputs) (s s1 s' : t) :
  update_bookkeeping fuel i s = Ok s1 ->
  update fuel i s = Ok s' ->
  weighs_feed (state s) = true ->
  loadcell_limp_mode s = None ->
  time_in_state i s <= 10000 ->
  weighing_outcome (loadcell s1) s s'.
Proof.
  intros Hb H Hw Hlimp Ht.
  pose proof (update_bookkeeping_frame _ _ _ _ Hb) as F.
  pose proof (update_bookkeeping_flags _ _ _ _ Hb) as Fl.
  pose proof (update_bookkeeping_records _ _ _ _ Hb) as Fr.
  unfold update in H. rewrite Hb in H. cbn [bind] in H.
  apply bind_inv in H. destruct H as (ms & Hh & [= <-]).
  assert (G : weighing_outcome (loadcell s1) s1 (snd ms)).
  { apply (handle_state_machine_weighing _ _ _ Hh).
    - rewrite (bk_state _ _ _ F). exact Hw.
    - rewrite (limp_mode_same_flags _ _ Fl). exact Hlimp.
    - rewrite (bk_since_transition _ _ _ F). exact Ht. }
  unfold weighing_outcome in *.
  replace (state (assign_pin_motor (fst ms) (snd ms))) with (state (snd ms))
    by reflexivity.
  replace (state_retries (assign_pin_motor (fst ms) (snd ms)))
    with (state_retries (snd ms)) by reflexivity.
  replace (loadcell (assign_pin_motor (fst ms) (snd ms)))
    with (loadcell (snd ms)) by reflexivity.
  replace (recorded_weight (state s) (assign_pin_motor (fst ms) (snd ms)))
    with (recorded_weight (state s) (snd ms))
    by (destruct (state s); reflexivity).
  assert (Hrec : forall x, same_records s1 x ->
                 same_records s (assign_pin_motor (fst ms) x)).
  { intros x Hx. apply (same_records_trans _ s1); [exact Fr |].
    apply (same_records_trans _ x); [exact Hx | split; reflexivity]. }
  rewrite (bk_state _ _ _ F), (bk_state_retries _ _ _ F) in G.
  destruct (Loadcell.is_busy (loadcell s1)).
  - destruct G as (G1 & G2 & G3).
    split; [exact G1 |]. split; [exact G2 | apply Hrec, G3].
  - destruct (F32.ltb (Loadcell.get_stddev (loadcell s1)) (F32.of_Z 1));
      [exact G |].
    destruct (state_retries s <? 5); [| exact I].
    destruct G as (G1 & G2 & G3 & G4).
    split; [exact G1 |]. split; [exact G2 |].
    split; [exact G3 | apply Hrec, G4].
Qed.

Lemma feed_weighing_witness :
  weighing_outcome
    (loadcell (returned (update_bookkeeping 5 first_tick feed_ending)))
    feed_ending (returned (update 5 first_tick feed_ending)).
Proof.
  apply (feed_weighing 5 first_tick feed_ending
           (returned (update_bookkeeping 5 first_tick feed_ending))
           (returned (update 5 first_tick feed_ending))).
  - vm_compute. reflexivity.
  - vm_compute. reflexivity.
  - reflexivity.
  - reflexivity.
  - vm_compute. discriminate.
Defined.

(** ** Soundness of the sampler *)

Lemma init_samples_are_readings : Forall is_reading (Loadcell.samples Loadcell.init).
Proof. repeat (constructor; [unfold is_reading; lia |]). constructor. Qed.

Lemma sampler_init_sound : sampler_sound Loadcell.init.
Proof.
  split; cbn [Loadcell.init Loadcell.samples_remaining Loadcell.tare_reservoir
              Loadcell.tare_bowl].
  - lia.
  - reflexivity.
  - exact init_samples_are_readings.
  - left. reflexivity.
  - left. reflexivity.
Qed.

Lemma readings_prefix (a : list Z) (n : nat) :
  Forall is_reading a -> Forall is_reading (firstn n a).
Proof.
  intros H. rewrite <- (firstn_skipn n a) in H.
  apply Forall_app in H. exact (proj1 H).
Qed.

Lemma readings_suffix (a : list Z) (n : nat) :
  Forall is_reading a -> Forall is_reading (skipn n a).
Proof.
  intros H. rewrite <- (firstn_skipn n a) in H.
  apply Forall_app in H. exact (proj2 H).
Qed.

Lemma update_sound (ready : bool) (raw : Z) (l : Loadcell.t) :
  sampler_sound l -> is_reading raw ->
  exists l', Loadcell.update ready raw l = Ok l' /\ sampler_sound l'.
Proof.
  intros [Hn Hlen Hs Htr Htb] Hraw.
  destruct (Z.eq_dec (Loadcell.samples_remaining l) 0) as [E0|N0].
  { exists l. split; [apply update_idle, E0 | now split]. }
  destruct ready; [| exists l; split; [apply update_not_ready | now split]].
  destruct (Z.eq_dec (Loadcell.samples_remaining l) 1) as [E1|N1].
  - (* the last sample of the session *)
    destruct (Loadcell.samples l) as [|x rest] eqn:Es; [discriminate Hlen |].
    inversion Hs as [|? ? Hx Hrest]; subst.
    assert (Hlen' : List.length rest = 31%nat)
      by (cbn [List.length] in Hlen; lia).
    assert (Hall : Forall is_reading (raw :: rest)) by (constructor; assumption).
    assert (Ht : captures_tare l = true
                 \/ - 2 ^ 30 <= tare_of (Loadcell.sensor l) l <= 2 ^ 30).
    { unfold captures_tare, tare_of.
      destruct (Loadcell.sensor l);
        [destruct Htr as [Hu|Hb] | destruct Htb as [Hu|Hb]];
        try (right; exact Hb);
        left; rewrite Hu, Z.eqb_refl; apply orb_true_r. }
    exists (session_result l (raw :: rest)).
    split; [apply (update_completes raw x rest l E1 Es Hlen' Hall Ht) |].
    pose proof (mean_raw_is_reading (raw :: rest) Hall
                  ltac:(cbn [List.length]; lia)) as Hm.
    fold (session_mean_raw (raw :: rest)) in Hm.
    unfold is_reading in Hm.
    unfold session_result.
    split; cbn [Loadcell.samples_remaining Loadcell.samples
                Loadcell.tare_reservoir Loadcell.tare_bowl].
    + lia.
    + cbn [List.length]. lia.
    + exact Hall.
    + destruct (Loadcell.sensor l); [| exact Htr].
      destruct (captures_tare l); [right; lia | exact Htr].
    + destruct (Loadcell.sensor l); [exact Htb |].
      destruct (captures_tare l); [right; lia | exact Htb].
  - (* a sample before the last *)
    assert (Hk : exists k : nat,
               Loadcell.samples_remaining l = Z.of_nat (S (S k)) /\ (S k < 32)%nat).
    { exists (Z.to_nat (Loadcell.samples_remaining l - 2)). lia. }
    destruct Hk as (k & Hk & Hlt).
    eexists. split;
      [apply (update_stores raw l k Hk); [rewrite Hlen; exact Hlt | exact Hlen] |].
    split; cbn [sampling Loadcell.samples_remaining Loadcell.samples
                Loadcell.tare_reservoir Loadcell.tare_bowl];
      try assumption.
    + lia.
    + rewrite length_app, length_firstn. cbn [List.length].
      rewrite length_skipn. lia.
    + apply Forall_app. split.
      * apply (readings_prefix _ _ Hs).
      * constructor; [exact Hraw | apply (readings_suffix _ _ Hs)].
Qed.

Lemma sampler_op_sound (op : SamplerOp) (l : Loadcell.t) :
  sampler_sound l -> op_in_range op ->
  exists l', sampler_op op l = Ok l' /\ sampler_sound l'.
Proof.
  intros Hsound Hop. destruct op as [sn tare|ready raw|sn raw]; cbn [sampler_op].
  - eexists. split; [reflexivity |]. destruct Hsound.
    split; cbn [Loadcell.start Loadcell.samples_remaining Loadcell.samples
                Loadcell.tare_reservoir Loadcell.tare_bowl];
      try assumption. unfold Loadcell.NUM_SAMPLES. lia.
  - apply update_sound; assumption.
  - eexists. split; [reflexivity |]. destruct Hsound. cbn [op_in_range] in Hop.
    split; cbn [Loadcell.set_tare_raw Loadcell.samples_remaining Loadcell.samples
                Loadcell.tare_reservoir Loadcell.tare_bowl];
      try assumption; destruct sn; try assumption; right; exact Hop.
Qed.

(** The sampler is never undefined.  Whatever sessions are started, passes
    made and tares set, from a sampler that is in order, as the initial one
    is: as long as the readings are those of a 24-bit converter (and a tare
    that is set is no larger than 2^30), every operation returns, with every
    store into the buffer in bounds and no signed overflow in the sums, and
    the sampler stays in order. *)
Theorem sampler_never_undefined (ops : list SamplerOp) (l : Loadcell.t) :
  sampler_sound l ->
  Forall op_in_range ops ->
  exists l', sampler_run ops l = Ok l' /\ sampler_sound l'.
Proof.
  revert l. induction ops as [|op ops IH]; intros l Hsound Hops;
    cbn [sampler_run].
  - exists l. split; [reflexivity | exact Hsound].
  - inversion Hops as [|? ? Hop Hrest]; subst.
    destruct (sampler_op_sound op l Hsound Hop) as (l1 & E1 & Hsound1).
    rewrite E1. cbn [bind]. apply (IH l1 Hsound1 Hrest).
Qed.

Lemma sampler_never_undefined_witness :
  exists l',
    sampler_run [OpSetTare Loadcell.BOWL 31485; OpStart Loadcell.BOWL false;
                 OpUpdate true 8000; OpUpdate false 0; OpUpdate true (-7)]
      Loadcell.init = Ok l'
    /\ sampler_sound l'.
Proof.
  apply (sampler_never_undefined
           [OpSetTare Loadcell.BOWL 31485; OpStart Loadcell.BOWL false;
            OpUpdate true 8000; OpUpdate false 0; OpUpdate true (-7)]
           Loadcell.init).
  - exact sampler_init_sound.
  - repeat constructor; cbn [op_in_range]; unfold is_reading; lia.
Defined.

(** ** The status sent to Home Assistant *)

Lemma same_status_refl (s : t) : same_status s s.
Proof. now split. Qed.

Lemma same_status_trans (a b c : t) :
  same_status a b -> same_status b c -> same_status a c.
Proof. intros [] []; split; congruence. Qed.

Lemma transition_status (st : State) (s : t) : same_status s (transition st s).
Proof.
  unfold transition. destruct (State_eqb st (state s)); destruct st;
    split; reflexivity.
Qed.

Lemma transition_last_feed (st : State) (s : t) :
  mqtt_last_feed (transition st s) = mqtt_last_feed s.
Proof.
  unfold transition. destruct (State_eqb st (state s)); destruct st; reflexivity.
Qed.

Lemma sensor_retry_status (i : Inputs) (s : t) :
  same_status s (sensor_retry i s).
Proof.
  unfold sensor_retry.
  eapply same_status_trans; [| apply transition_status]. split; reflexivity.
Qed.

Lemma sensor_retry_last_feed (i : Inputs) (s : t) :
  mqtt_last_feed (sensor_retry i s) = mqtt_last_feed s.
Proof. unfold sensor_retry. rewrite transition_last_feed. reflexivity. Qed.

Lemma complete_feed_status (i : Inputs) (s s' : t) :
  complete_feed i s = Ok s' -> same_status s s'.
Proof.
  unfold complete_feed.
  destruct (estimate_dispensed_weight_grams s) as [w s1] eqn:Ee.
  destruct (F32.to_int (F32.mul w (F32.of_Z 1000))) as [mg| |]; cbn [bind];
    try discriminate.
  destruct (int32 (deficit_mg (update_jam_state w s1) - mg)) as [d| |];
    cbn [bind]; try discriminate.
  intros [= <-].
  assert (H1 : same_status s s1).
  { revert Ee. unfold estimate_dispensed_weight_grams.
    repeat match goal with
           | |- (if ?c then _ else _) = _ -> _ => destruct c
           | |- match ?c with _ => _ end = _ -> _ => destruct c
           end; intros [= _ <-]; split; reflexivity. }
  assert (H2 : same_status s1 (update_jam_state w s1)).
  { unfold update_jam_state.
    repeat match goal with
           | |- context [if ?c then _ else _] => destruct c
           | |- context [match maintenance_mode ?c with _ => _ end] =>
               destruct (maintenance_mode c)
           end; split; reflexivity. }
  apply (same_status_trans _ s1); [exact H1 |].
  apply (same_status_trans _ (update_jam_state w s1)); [exact H2 |].
  generalize (update_jam_state w s1). intros x.
  eapply same_status_trans; [| apply transition_status]. split; reflexivity.
Qed.

Lemma handle_loadcell_readout_status (s : t) :
  same_status s (snd (handle_loadcell_readout s))
  /\ mqtt_last_feed (snd (handle_loadcell_readout s)) = mqtt_last_feed s.
Proof.
  unfold handle_loadcell_readout.
  destruct (error_loadcell_timeout s || (10000 <? millis_since_transition s));
    [split; [split |]; reflexivity |].
  destruct (Loadcell.is_busy (loadcell s)); [split; [split |]; reflexivity |].
  destruct (Loadcell.get_sensor (loadcell s)); split; try split; reflexivity.
Qed.

Ltac status_kept :=
  repeat match goal with
  | |- same_status ?a ?a => apply same_status_refl
  | H : same_status ?a ?b |- same_status ?a ?b => exact H
  | |- same_status _ (transition _ ?y) =>
      apply (same_status_trans _ y); [| apply transition_status]
  | |- same_status _ (sensor_retry _ ?y) =>
      apply (same_status_trans _ y); [| apply sensor_retry_status]
  | H : complete_feed _ ?y = Ok ?x |- same_status _ ?x =>
      apply (same_status_trans _ y);
      [| apply (complete_feed_status _ _ _ H)]
  | |- same_status _ (?f ?v ?y) =>
      apply (same_status_trans _ y); [| solve [split; reflexivity]]
  end.

Lemma handle_state_machine_status (i : Inputs) (s : t) (ms : bool * t) :
  handle_state_machine i s = Ok ms -> same_status s (snd ms).
Proof.
  unfold handle_state_machine.
  pose proof (proj1 (handle_loadcell_readout_status s)) as Hr.
  destruct (state s) eqn:Hst; switch_cases Hr; intros [= <-]; cbn [snd];
    unfold feed; status_kept.
Qed.

Lemma handle_state_machine_last_feed (i : Inputs) (s : t) (ms : bool * t) :
  state s <> FEED_POST_MEASURE_RESERVOIR ->
  handle_state_machine i s = Ok ms ->
  mqtt_last_feed (snd ms) = mqtt_last_feed s.
Proof.
  intros Hne. unfold handle_state_machine.
  pose proof (proj2 (handle_loadcell_readout_status s)) as Hr.
  destruct (state s) eqn:Hst; try (now destruct Hne);
    switch_cases Hr; intros [= <-]; cbn [snd]; unfold feed;
    repeat first [ rewrite transition_last_feed
                 | rewrite sensor_retry_last_feed
                 | read_field ];
    first [reflexivity | exact Hr].
Qed.

Lemma update_bookkeeping_status (fuel : nat) (i : Inputs) (s s1 : t) :
  update_bookkeeping fuel i s = Ok s1 ->
  mqtt_feeding s1 = is_feeding (state s)
  /\ mqtt_maintenance s1 = in_mode MAINTENANCE s
  /\ mqtt_jammed s1 = in_mode JAMMED s
  /\ mqtt_error s1 = status_text s
  /\ mqtt_grams_per_day s1 = F32.of_Z (grams_per_day s)
  /\ mqtt_deficit s1 = F32.div (F32.of_Z (deficit_mg s1)) (F32.of_Z 1000)
  /\ mqtt_last_feed s1 = mqtt_last_feed s.
Proof.
  intros H. apply update_bookkeeping_shape in H.
  destruct H as (l & m & r & _ & ->).
  unfold update_timers, update_mqtt_status, in_mode, status_text.
  destruct (5000 <? _); repeat split; cbn; try reflexivity;
    destruct (maintenance_mode s); reflexivity.
Qed.

(** The status sent to Home Assistant is that of the machine as [update()]
    finds it, not as it leaves it.  After a call, the feeding sensor tells
    whether the state at entry was one of a feed cycle, the maintenance and
    jammed sensors tell the mode at entry, the error sensor holds the message
    of the error report at entry or "No error", and the rate is the one at
    entry; what the [switch] of the same call changes is sent one call
    later.  Outside the state in which a feed is completed, the deficit sent
    is the deficit held after the call, in grams, and the weight of the last
    feed is not sent anew. *)
Theorem status_published (fuel : nat) (i : Inputs) (s s' : t) :
  update fuel i s = Ok s' ->
  mqtt_feeding s' = is_feeding (state s)
  /\ mqtt_maintenance s' = in_mode MAINTENANCE s
  /\ mqtt_jammed s' = in_mode JAMMED s
  /\ mqtt_error s' = status_text s
  /\ mqtt_grams_per_day s' = F32.of_Z (grams_per_day s)
  /\ (state s <> FEED_POST_MEASURE_RESERVOIR ->
      mqtt_deficit s' = F32.div (F32.of_Z (deficit_mg s')) (F32.of_Z 1000)
      /\ mqtt_last_feed s' = mqtt_last_feed s).
Proof.
  intros H. apply update_inv in H. destruct H as (s1 & ms & Hb & Hh & ->).
  destruct (update_bookkeeping_status _ _ _ _ Hb)
    as (B1 & B2 & B3 & B4 & B5 & B6 & B7).
  destruct (handle_state_machine_status _ _ _ Hh) as [S1 S2 S3 S4 S5 S6].
  pose proof (bk_state _ _ _ (update_bookkeeping_frame _ _ _ _ Hb)) as Hst.
  repeat read_field.
  rewrite S1, S2, S3, S4, S5, S6.
  repeat (split; [assumption |]).
  intros Hne. split.
  - destruct (handle_state_machine_books _ _ _ Hh) as [Hk | [Hk _]].
    + rewrite (books_mg _ _ Hk). exact B6.
    + rewrite Hst in Hk. contradiction.
  - rewrite (handle_state_machine_last_feed i s1 ms); [exact B7 | | exact Hh].
    rewrite Hst. exact Hne.
Qed.

Lemma status_published_witness :
  mqtt_feeding (returned (update 5 first_tick cooled_down))
  = is_feeding (state cooled_down)
  /\ mqtt_maintenance (returned (update 5 first_tick cooled_down))
     = in_mode MAINTENANCE cooled_down
  /\ mqtt_jammed (returned (update 5 first_tick cooled_down))
     = in_mode JAMMED cooled_down
  /\ mqtt_error (returned (update 5 first_tick cooled_down))
     = status_text cooled_down
  /\ mqtt_grams_per_day (returned (update 5 first_tick cooled_down))
     = F32.of_Z (grams_per_day cooled_down)
  /\ (state cooled_down <> FEED_POST_MEASURE_RESERVOIR ->
      mqtt_deficit (returned (update 5 first_tick cooled_down))
      = F32.div
          (F32.of_Z (deficit_mg (returned (update 5 first_tick cooled_down))))
          (F32.of_Z 1000)
      /\ mqtt_last_feed (returned (update 5 first_tick cooled_down))
         = mqtt_last_feed cooled_down).
Proof.
  apply (status_published 5 first_tick cooled_down
           (returned (update 5 first_tick cooled_down))).
  vm_compute. reflexivity.
Defined.

(** ** Rounding to binary32 *)

Lemma digits2_pos_bounds (p : positive) :
  2 ^ (Zpos (digits2_pos p) - 1) <= Zpos p < 2 ^ Zpos (digits2_pos p).
Proof.
  induction p as [p IH|p IH|]; cbn [digits2_pos].
  - rewrite Pos2Z.inj_succ.
    replace (Z.succ (Zpos (digits2_pos p)) - 1) with (Z.succ (Zpos (digits2_pos p) - 1))
      by lia.
    rewrite !Z.pow_succ_r by lia. lia.
  - rewrite Pos2Z.inj_succ.
    replace (Z.succ (Zpos (digits2_pos p)) - 1) with (Z.succ (Zpos (digits2_pos p) - 1))
      by lia.
    rewrite !Z.pow_succ_r by lia. lia.
  - cbn. lia.
Qed.

Lemma Zdigits2_nonneg (m : Z) : 0 <= Zdigits2 m.
Proof. destruct m; cbn; lia. Qed.

Lemma Zdigits2_upper (m : Z) : 0 <= m -> m < 2 ^ Zdigits2 m.
Proof.
  destruct m as [|p|p]; intros H; cbn [Zdigits2]; [cbn; lia | | lia].
  apply digits2_pos_bounds.
Qed.

Lemma Zdigits2_lower (m : Z) (k : Z) : 0 <= m -> 0 <= k -> m < 2 ^ k -> Zdigits2 m <= k.
Proof.
  destruct m as [|p|p]; intros H Hk Hlt; cbn [Zdigits2]; [lia | | lia].
  pose proof (digits2_pos_bounds p) as [Hlo _].
  destruct (Z.le_gt_cases (Zpos (digits2_pos p)) k) as [|Hgt]; [assumption |].
  exfalso.
  assert (2 ^ k <= 2 ^ (Zpos (digits2_pos p) - 1))
    by (apply Z.pow_le_mono_r; lia).
  lia.
Qed.

Lemma shr_1_m (mrs : shr_record) :
  0 <= shr_m mrs -> shr_m (shr_1 mrs) = shr_m mrs / 2.
Proof.
  destruct mrs as [m r s]. cbn [shr_m]. intros H.
  destruct m as [|p|p]; [reflexivity | | lia].
  destruct p as [p|p|]; cbn [shr_1 shr_m].
  - rewrite Pos2Z.inj_xI. apply Z.div_unique with 1; lia.
  - rewrite Pos2Z.inj_xO. apply Z.div_unique with 0; lia.
  - reflexivity.
Qed.

Lemma iter_shr_1_m (p : positive) : forall mrs,
  0 <= shr_m mrs ->
  shr_m (iter_pos shr_1 p mrs) = shr_m mrs / 2 ^ Zpos p.
Proof.
  induction p as [p IH|p IH|]; intros mrs H; cbn [iter_pos].
  - assert (H1 : 0 <= shr_m (shr_1 mrs))
      by (rewrite shr_1_m by assumption; apply Z.div_pos; lia).
    assert (H2 : 0 <= shr_m (iter_pos shr_1 p (shr_1 mrs)))
      by (rewrite IH by assumption; apply Z.div_pos; [assumption | lia]).
    rewrite IH, IH, shr_1_m by assumption.
    rewrite !Z.div_div by lia. f_equal.
    replace (Zpos p~1) with (1 + Zpos p + Zpos p) by lia.
    rewrite !Z.pow_add_r by lia. lia.
  - assert (H2 : 0 <= shr_m (iter_pos shr_1 p mrs))
      by (rewrite IH by assumption; apply Z.div_pos; [assumption | lia]).
    rewrite IH, IH by assumption.
    rewrite !Z.div_div by lia. f_equal.
    replace (Zpos p~0) with (Zpos p + Zpos p) by lia.
    rewrite !Z.pow_add_r by lia. lia.
  - rewrite shr_1_m by assumption. reflexivity.
Qed.

Lemma shr_record_of_loc_m (m : Z) (l : location) : shr_m (shr_record_of_loc m l) = m.
Proof. destruct l as [|[| |]]; reflexivity. Qed.

(** What [shr_fexp] does to a mantissa that is not negative: it is shifted
    right until the exponent is the one of the format, and then has at most
    24 bits. *)
Lemma shr_fexp_spec (m e : Z) (l : location) :
  0 <= m ->
  let e' := snd (shr_fexp 24 128 m e l) in
  let m' := shr_m (fst (shr_fexp 24 128 m e l)) in
  e <= e'
  /\ e' = Z.max e (fexp 24 128 (Zdigits2 m + e))
  /\ m' = m / 2 ^ (e' - e)
  /\ 0 <= m' < 2 ^ 24.
Proof.
  intros Hm. unfold shr_fexp, shr.
  pose proof (Zdigits2_upper m Hm) as Hd.
  pose proof (Zdigits2_nonneg m) as Hd0.
  set (d := Zdigits2 m) in *.
  assert (Hf : d + e - 24 <= fexp 24 128 (d + e)) by (unfold fexp; lia).
  destruct (fexp 24 128 (d + e) - e) as [|p|p] eqn:En; cbn [fst snd].
  - rewrite shr_record_of_loc_m.
    replace (e - e) with 0 by lia. rewrite Z.pow_0_r, Z.div_1_r.
    repeat split; try lia.
    assert (2 ^ d <= 2 ^ 24) by (apply Z.pow_le_mono_r; lia). lia.
  - rewrite iter_shr_1_m by (rewrite shr_record_of_loc_m; exact Hm).
    rewrite shr_record_of_loc_m.
    replace (e + Zpos p - e) with (Zpos p) by lia.
    repeat split; try lia.
    + apply Z.div_pos; [exact Hm | lia].
    + apply Z.div_lt_upper_bound; [lia |].
      rewrite <- Z.pow_add_r by lia.
      assert (2 ^ d <= 2 ^ (Zpos p + 24)) by (apply Z.pow_le_mono_r; lia). lia.
  - rewrite shr_record_of_loc_m.
    replace (e - e) with 0 by lia. rewrite Z.pow_0_r, Z.div_1_r.
    repeat split; try lia.
    assert (2 ^ d <= 2 ^ 24) by (apply Z.pow_le_mono_r; lia). lia.
Qed.

Lemma round_nearest_even_bounds (m : Z) (l : location) :
  m <= round_nearest_even m l <= m + 1.
Proof.
  destruct l as [|[| |]]; cbn [round_nearest_even]; try lia.
  destruct (Z.even m); lia.
Qed.

Lemma round_aux_rounded (sx : bool) (mx ex : Z) (lx : location) :
  0 <= mx -> rounded sx (binary_round_aux 24 128 sx mx ex lx).
Proof.
  intros Hm. unfold binary_round_aux.
  pose proof (shr_fexp_spec mx ex lx Hm) as (_ & _ & _ & H1).
  destruct (shr_fexp 24 128 mx ex lx) as [mrs1 e1]. cbn [fst snd] in H1.
  pose proof (round_nearest_even_bounds (shr_m mrs1) (loc_of_shr_record mrs1)) as Hr.
  set (m2 := round_nearest_even (shr_m mrs1) (loc_of_shr_record mrs1)) in *.
  pose proof (shr_fexp_spec m2 e1 loc_Exact ltac:(lia)) as (_ & _ & _ & H3).
  destruct (shr_fexp 24 128 m2 e1 loc_Exact) as [mrs3 e3]. cbn [fst snd] in H3.
  destruct (shr_m mrs3) as [|p|p]; cbn [rounded]; [reflexivity | | lia].
  destruct (e3 <=? 128 - 24); cbn [rounded]; [split; [reflexivity | lia] | reflexivity].
Qed.

Lemma round_aux_below (B : Z) (sx : bool) (mx ex : Z) (lx : location) :
  0 <= mx -> mx < 2 ^ (B - ex) -> ex <= B -> -149 <= B <= 104 ->
  rounded_below B sx (binary_round_aux 24 128 sx mx ex lx).
Proof.
  intros Hm Hlt Hex HB. unfold binary_round_aux.
  pose proof (shr_fexp_spec mx ex lx Hm) as (He1 & Ee1 & Em1 & H1).
  destruct (shr_fexp 24 128 mx ex lx) as [mrs1 e1]. cbn [fst snd] in *.
  pose proof (round_nearest_even_bounds (shr_m mrs1) (loc_of_shr_record mrs1)) as Hr.
  set (m1 := shr_m mrs1) in *.
  set (m2 := round_nearest_even m1 (loc_of_shr_record mrs1)) in *.
  (* the first shift *)
  assert (Hd : Zdigits2 mx <= B - ex) by (apply Zdigits2_lower; lia).
  assert (He1B : e1 <= B) by (unfold fexp, emin in Ee1; lia).
  assert (Hm1 : m1 < 2 ^ (B - e1)).
  { rewrite Em1. apply Z.div_lt_upper_bound; [apply Z.pow_pos_nonneg; lia |].
    rewrite <- Z.pow_add_r by lia.
    replace (e1 - ex + (B - e1)) with (B - ex) by lia. exact Hlt. }
  (* the second shift *)
  pose proof (shr_fexp_spec m2 e1 loc_Exact ltac:(lia)) as (He3 & _ & Em3 & H3).
  destruct (shr_fexp 24 128 m2 e1 loc_Exact) as [mrs3 e3]. cbn [fst snd] in *.
  destruct (shr_m mrs3) as [|p|p] eqn:Ep; cbn [rounded_below];
    [reflexivity | | lia].
  assert (Hpos : 2 ^ (e3 - e1) <= m2).
  { destruct (Z.le_gt_cases (2 ^ (e3 - e1)) m2) as [|Hgt]; [assumption |].
    exfalso. rewrite Z.div_small in Em3 by lia. lia. }
  assert (He3B : e3 <= B).
  { destruct (Z.le_gt_cases e3 B) as [|Hgt]; [assumption |]. exfalso.
    assert (2 ^ (B - e1) < 2 ^ (e3 - e1)) by (apply Z.pow_lt_mono_r; lia).
    lia. }
  assert (Hm3 : Zpos p <= 2 ^ (B - e3)).
  { rewrite Em3. apply Z.div_le_upper_bound; [apply Z.pow_pos_nonneg; lia |].
    rewrite <- Z.pow_add_r by lia.
    replace (e3 - e1 + (B - e3)) with (B - e1) by lia. lia. }
  replace (e3 <=? 128 - 24) with true by (symmetry; apply Z.leb_le; lia).
  cbn [rounded_below]. repeat split; lia.
Qed.

(** ** The shapes of sums, quotients and products *)

Lemma rounded_bounded_mantissa (sx : bool) (x : F32.float) :
  rounded sx x -> bounded_mantissa x.
Proof. destruct x; cbn; tauto. Qed.

Lemma bounded_mantissa_not_nan (x : F32.float) : bounded_mantissa x -> not_nan x.
Proof. destruct x; cbn; tauto. Qed.

Lemma iter_xO (d : positive) (m : positive) :
  Zpos (Pos.iter xO m d) = Zpos m * 2 ^ Zpos d.
Proof.
  induction d as [|d IH] using Pos.peano_ind.
  - cbn [Pos.iter]. rewrite Pos2Z.inj_xO. lia.
  - rewrite Pos.iter_succ, Pos2Z.inj_xO, IH, Pos2Z.inj_succ, Z.pow_succ_r by lia.
    lia.
Qed.

Lemma shl_align_spec (mx : positive) (ex ex' : Z) :
  snd (shl_align mx ex ex') <= ex
  /\ Zpos (fst (shl_align mx ex ex'))
     = Zpos mx * 2 ^ (ex - snd (shl_align mx ex ex')).
Proof.
  unfold shl_align.
  destruct (ex' - ex) as [|d|d] eqn:E; cbn [fst snd].
  - rewrite Z.sub_diag. cbn. lia.
  - rewrite Z.sub_diag. cbn. lia.
  - rewrite iter_xO. replace (ex - ex') with (Zpos d) by lia. lia.
Qed.

Lemma binary_round_rounded (sx : bool) (mx : positive) (ex : Z) :
  rounded sx (binary_round 24 128 sx mx ex).
Proof.
  unfold binary_round.
  destruct (shl_align mx ex (fexp 24 128 (Zpos (digits2_pos mx) + ex))) as [mz ez].
  apply round_aux_rounded. lia.
Qed.

Lemma binary_round_below (B : Z) (sx : bool) (mx : positive) (ex : Z) :
  Zpos mx < 2 ^ (B - ex) -> ex <= B -> -149 <= B <= 104 ->
  rounded_below B sx (binary_round 24 128 sx mx ex).
Proof.
  intros Hlt Hex HB. unfold binary_round.
  pose proof (shl_align_spec mx ex (fexp 24 128 (Zpos (digits2_pos mx) + ex)))
    as [Hez Hmz].
  destruct (shl_align mx ex (fexp 24 128 (Zpos (digits2_pos mx) + ex))) as [mz ez].
  cbn [fst snd] in *.
  apply round_aux_below; try lia.
  rewrite Hmz.
  replace (B - ez) with ((B - ex) + (ex - ez)) by lia.
  rewrite Z.pow_add_r by lia.
  apply Z.mul_lt_mono_pos_r; [apply Z.pow_pos_nonneg; lia | exact Hlt].
Qed.

Lemma binary_normalize_not_nan (m e : Z) (szero : bool) :
  bounded_mantissa (binary_normalize 24 128 m e szero).
Proof.
  destruct m as [|p|p]; cbn [binary_normalize]; [exact I | |];
    eapply rounded_bounded_mantissa; apply binary_round_rounded.
Qed.

(** An integer of 32 bits is converted to a number of the same size. *)
Lemma of_Z_below (z : Z) :
  - 2 ^ 31 <= z <= 2 ^ 31 ->
  match F32.of_Z z with
  | S754_zero _ => True
  | S754_finite _ m e => Zpos m < 2 ^ 24 /\ Zpos m <= 2 ^ (32 - e) /\ e <= 32
  | _ => False
  end.
Proof.
  intros Hz. unfold F32.of_Z, F32.of_scaled, F32.prec, F32.emax.
  destruct z as [|p|p]; cbn [binary_normalize]; [exact I | |].
  - pose proof (binary_round_below 32 false p 0 ltac:(cbn; lia) ltac:(lia)
                  ltac:(lia)) as H.
    destruct (binary_round 24 128 false p 0); cbn in H |- *; tauto.
  - pose proof (binary_round_below 32 true p 0 ltac:(cbn; lia) ltac:(lia)
                  ltac:(lia)) as H.
    destruct (binary_round 24 128 true p 0); cbn in H |- *; tauto.
Qed.

(** A product of two numbers that stays below [2^B] is finite. *)
Lemma mul_below (B Bx By : Z) (x y : F32.float) :
  match x with
  | S754_zero _ => True
  | S754_finite _ m e => Zpos m <= 2 ^ (Bx - e) /\ e <= Bx
  | _ => False
  end ->
  match y with
  | S754_zero _ => True
  | S754_finite _ m e => Zpos m < 2 ^ (By - e) /\ e <= By
  | _ => False
  end ->
  Bx + By <= B -> -149 <= B <= 104 ->
  match F32.mul x y with
  | S754_zero _ => True
  | S754_finite _ m e => Zpos m < 2 ^ 24 /\ Zpos m <= 2 ^ (B - e) /\ e <= B
  | _ => False
  end.
Proof.
  intros Hx Hy HB HB'. unfold F32.mul, F32.prec, F32.emax.
  destruct x as [sx|sx| |sx mx ex]; try contradiction;
    destruct y as [sy|sy| |sy my ey]; try contradiction; cbn [SFmul];
    try exact I.
  destruct Hx as [Hx Hex]. destruct Hy as [Hy Hey].
  pose proof (round_aux_below B (xorb sx sy) (Zpos (mx * my)) (ex + ey) loc_Exact)
    as H.
  assert (Hlt : Zpos (mx * my) < 2 ^ (B - (ex + ey))).
  { rewrite Pos2Z.inj_mul.
    assert (2 ^ (Bx - ex) * 2 ^ (By - ey) <= 2 ^ (B - (ex + ey))).
    { rewrite <- Z.pow_add_r by lia. apply Z.pow_le_mono_r; lia. }
    assert (0 < 2 ^ (Bx - ex)) by (apply Z.pow_pos_nonneg; lia).
    assert (0 < 2 ^ (By - ey)) by (apply Z.pow_pos_nonneg; lia).
    nia. }
  specialize (H ltac:(lia) Hlt ltac:(lia) HB').
  destruct (binary_round_aux 24 128 (xorb sx sy) (Zpos (mx * my)) (ex + ey) loc_Exact);
    cbn in H |- *; tauto.
Qed.

Lemma sub_not_nan (x y : F32.float) :
  is_finite x = true -> is_finite y = true -> not_nan (F32.sub x y).
Proof.
  unfold F32.sub, F32.prec, F32.emax.
  destruct x as [sx|sx| |sx mx ex]; try discriminate;
    destruct y as [sy|sy| |sy my ey]; try discriminate; intros _ _; cbn [SFsub];
    try exact I.
  - destruct sx, sy; exact I.
  - apply bounded_mantissa_not_nan, binary_normalize_not_nan.
Qed.

Lemma add_finite_not_nan (x y : F32.float) :
  is_finite x = true -> is_finite y = true -> not_nan (F32.add x y).
Proof.
  unfold F32.add, F32.prec, F32.emax.
  destruct x as [sx|sx| |sx mx ex]; try discriminate;
    destruct y as [sy|sy| |sy my ey]; try discriminate; intros _ _; cbn [SFadd];
    try exact I.
  - destruct sx, sy; exact I.
  - apply bounded_mantissa_not_nan, binary_normalize_not_nan.
Qed.

Lemma div_two_bounded (x : F32.float) :
  not_nan x -> bounded_mantissa (F32.div x (F32.of_Z 2)).
Proof.
  replace (F32.of_Z 2) with (S754_finite false 8388608 (-22))
    by (vm_compute; reflexivity).
  unfold F32.div, F32.prec, F32.emax.
  destruct x as [sx|sx| |sx mx ex]; try contradiction; intros _; cbn [SFdiv];
    try exact I.
  unfold SFdiv_core_binary.
  match goal with |- context [Z.div_eucl ?a ?b] =>
    pose proof (Z_div_mod a b ltac:(lia)) as Hq;
    assert (Ha : 0 <= a);
    [| destruct (Z.div_eucl a b) as [q r] ]
  end.
  { match goal with |- 0 <= match ?s with _ => _ end =>
      destruct s; try lia; apply Z.shiftl_nonneg; lia end. }
  eapply rounded_bounded_mantissa. apply round_aux_rounded. nia.
Qed.

(** ** The conversion of the dispensed weight *)

Lemma to_int_below (x : F32.float) :
  match x with
  | S754_zero _ => True
  | S754_finite _ m e => Zpos m <= 2 ^ (15 - e) /\ e <= 15
  | _ => False
  end ->
  exists v, F32.to_int x = Ok v /\ - 2 ^ 15 <= v <= 2 ^ 15.
Proof.
  destruct x as [s|s| |s m e]; try contradiction; cbn [F32.to_int].
  - intros _. exists 0. split; [reflexivity | lia].
  - intros [Hm He].
    set (v := match e with
              | Zneg p => Z.shiftr (Zpos m) (Zpos p)
              | _ => Z.shiftl (Zpos m) e
              end).
    assert (Hv : 0 <= v <= 2 ^ 15).
    { subst v. destruct e as [|p|p].
      - rewrite Z.shiftl_0_r. rewrite Z.sub_0_r in Hm. lia.
      - rewrite Z.shiftl_mul_pow2 by lia.
        assert (2 ^ (15 - Zpos p) * 2 ^ Zpos p = 2 ^ 15)
          by (rewrite <- Z.pow_add_r by lia; f_equal; lia).
        assert (0 < 2 ^ Zpos p) by (apply Z.pow_pos_nonneg; lia).
        nia.
      - rewrite Z.shiftr_div_pow2 by lia. split.
        + apply Z.div_pos; [lia | apply Z.pow_pos_nonneg; lia].
        + apply Z.div_le_upper_bound; [apply Z.pow_pos_nonneg; lia |].
          rewrite <- Z.pow_add_r by lia.
          replace (Zpos p + 15) with (15 - Zneg p) by lia. exact Hm. }
    exists (if s then - v else v).
    unfold int32, in_int32, INT32_MIN, INT32_MAX.
    assert (Hr : - 2 ^ 15 <= (if s then - v else v) <= 2 ^ 15)
      by (destruct s; lia).
    split; [| exact Hr].
    replace (- 2 ^ 31 <=? (if s then - v else v)) with true
      by (symmetry; apply Z.leb_le; lia).
    replace ((if s then - v else v) <=? 2 ^ 31 - 1) with true
      by (symmetry; apply Z.leb_le; lia).
    reflexivity.
Qed.

(** A weight that passed the test of being reasonable, from -2 g to 27 g,
    converts to whole milligrams. *)
Lemma reasonable_converts (d : F32.float) :
  bounded_mantissa d ->
  F32.ltb d (F32.neg (F32.of_Z 2)) = false ->
  F32.gtb d (F32.of_Z 27) = false ->
  exists mg,
    F32.to_int (F32.mul d (F32.of_Z 1000)) = Ok mg /\ - 2 ^ 15 <= mg <= 2 ^ 15.
Proof.
  replace (F32.neg (F32.of_Z 2)) with (S754_finite true 8388608 (-22))
    by (vm_compute; reflexivity).
  replace (F32.of_Z 27) with (S754_finite false 14155776 (-19))
    by (vm_compute; reflexivity).
  replace (F32.of_Z 1000) with (S754_finite false 16384000 (-14))
    by (vm_compute; reflexivity).
  intros Hd Hlo Hhi. apply to_int_below.
  assert (H : match d with
              | S754_zero _ => True
              | S754_finite _ m e => Zpos m <= 2 ^ (5 - e) /\ e <= 5
              | _ => False
              end).
  { destruct d as [s|s| |s m e]; cbn in Hd; try contradiction; [exact I | |].
    - destruct s; [discriminate Hlo | discriminate Hhi].
    - assert (He : e <= -19).
      { destruct s.
        - unfold F32.ltb, SFltb in Hlo. cbn [SFcompare] in Hlo.
          destruct (Z.compare_spec e (-22)); first [lia | discriminate Hlo].
        - unfold F32.gtb, SFltb in Hhi. cbn [SFcompare] in Hhi.
          destruct (Z.compare_spec (-19) e); first [lia | discriminate Hhi]. }
      split; [| lia].
      assert (2 ^ 24 <= 2 ^ (5 - e)) by (apply Z.pow_le_mono_r; lia). lia. }
  pose proof (mul_below 15 5 10 d (S754_finite false 16384000 (-14)) H
                ltac:(cbn; lia) ltac:(lia) ltac:(lia)) as Hm.
  destruct (F32.mul d (S754_finite false 16384000 (-14))); tauto.
Qed.

(** The sum of the two differences is a number unless the differences are
    opposite infinities, and those are told apart by the test for
    disagreement. *)
Lemma agreeing_sum_not_nan (a b : F32.float) :
  not_nan a -> not_nan b ->
  F32.gtb (F32.abs (F32.sub a b)) (F32.of_Z 5) = false ->
  not_nan (F32.add a b).
Proof.
  replace (F32.of_Z 5) with (S754_finite false 10485760 (-21))
    by (vm_compute; reflexivity).
  unfold F32.add, F32.sub, F32.abs, F32.gtb, F32.prec, F32.emax.
  destruct a as [sa|sa| |sa ma ea]; try contradiction;
    destruct b as [sb|sb| |sb mb eb]; try contradiction; intros _ _ H.
  all: try exact I.
  all: try (destruct sa, sb; try exact I; discriminate H).
  all: try (apply (add_finite_not_nan (S754_zero sa)); reflexivity).
  all: try (apply (add_finite_not_nan (S754_finite sa ma ea)); reflexivity).
Qed.

(** ** The machine in order *)

Lemma mean_finite (d : Z) (sn : Loadcell.Sensor) :
  - 2 ^ 31 <= d <= 2 ^ 31 ->
  is_finite (F32.mul (F32.of_Z d) (gain_of sn)) = true.
Proof.
  intros Hd. pose proof (of_Z_below d Hd) as Hx.
  pose proof (mul_below 24 32 (-8) (F32.of_Z d) (gain_of sn)) as H.
  assert (Hx' : match F32.of_Z d with
                | S754_zero _ => True
                | S754_finite _ m e => Zpos m <= 2 ^ (32 - e) /\ e <= 32
                | _ => False
                end)
    by (destruct (F32.of_Z d); tauto).
  specialize (H Hx' ltac:(destruct sn; cbn; lia) ltac:(lia) ltac:(lia)).
  destruct (F32.mul (F32.of_Z d) (gain_of sn)); cbn in H |- *;
    try contradiction; reflexivity.
Qed.

Lemma update_mean_finite (ready : bool) (raw : Z) (l l' : Loadcell.t) :
  sampler_sound l -> is_reading raw ->
  is_finite (Loadcell.mean l) = true ->
  Loadcell.update ready raw l = Ok l' ->
  is_finite (Loadcell.mean l') = true.
Proof.
  intros [Hn Hlen Hs Htr Htb] Hraw Hfin H.
  destruct (Z.eq_dec (Loadcell.samples_remaining l) 0) as [E0|N0].
  { rewrite (update_idle _ _ _ E0) in H. injection H as <-. exact Hfin. }
  destruct ready;
    [| rewrite update_not_ready in H; injection H as <-; exact Hfin].
  destruct (Z.eq_dec (Loadcell.samples_remaining l) 1) as [E1|N1].
  - destruct (Loadcell.samples l) as [|x rest] eqn:Es; [discriminate Hlen |].
    inversion Hs as [|? ? Hx Hrest]; subst.
    assert (Hlen' : List.length rest = 31%nat)
      by (cbn [List.length] in Hlen; lia).
    assert (Hall : Forall is_reading (raw :: rest)) by (constructor; assumption).
    assert (Ht : captures_tare l = true
                 \/ - 2 ^ 30 <= tare_of (Loadcell.sensor l) l <= 2 ^ 30).
    { unfold captures_tare, tare_of.
      destruct (Loadcell.sensor l);
        [destruct Htr as [Hu|Hb] | destruct Htb as [Hu|Hb]];
        try (right; exact Hb);
        left; rewrite Hu, Z.eqb_refl; apply orb_true_r. }
    rewrite (update_completes raw x rest l E1 Es Hlen' Hall Ht) in H.
    injection H as <-.
    pose proof (mean_raw_is_reading (raw :: rest) Hall
                  ltac:(cbn [List.length]; lia)) as Hm.
    fold (session_mean_raw (raw :: rest)) in Hm. unfold is_reading in Hm.
    unfold session_result. cbn [Loadcell.mean].
    apply mean_finite.
    destruct Ht as [Ht|Ht]; [rewrite Ht | destruct (captures_tare l)]; lia.
  - assert (Hk : exists k : nat,
               Loadcell.samples_remaining l = Z.of_nat (S (S k)) /\ (S k < 32)%nat).
    { exists (Z.to_nat (Loadcell.samples_remaining l - 2)). lia. }
    destruct Hk as (k & Hk & Hlt).
    rewrite (update_stores raw l k Hk) in H;
      [| rewrite Hlen; exact Hlt | exact Hlen].
    injection H as <-. exact Hfin.
Qed.

Lemma start_sound (sn : Loadcell.Sensor) (tr : bool) (l : Loadcell.t) :
  sampler_sound l -> sampler_sound (Loadcell.start sn tr l).
Proof.
  intros []. split; cbn [Loadcell.start Loadcell.samples_remaining
                         Loadcell.samples Loadcell.tare_reservoir
                         Loadcell.tare_bowl];
    try assumption. unfold Loadcell.NUM_SAMPLES. lia.
Qed.

Lemma transition_sensors (st : State) (s : t) :
  sensors_sound s -> sensors_sound (transition st s).
Proof.
  intros [H1 H2 H3 H4 H5 H6]. unfold transition.
  destruct (State_eqb st (state s)); destruct st;
    split; try assumption; try (apply start_sound; exact H1).
Qed.

Lemma sensor_retry_sensors (i : Inputs) (s : t) :
  sensors_sound s -> sensors_sound (sensor_retry i s).
Proof.
  intros [H1 H2 H3 H4 H5 H6]. unfold sensor_retry.
  apply transition_sensors. split; assumption.
Qed.

Lemma handle_loadcell_readout_sensors (s : t) :
  sensors_sound s -> sensors_sound (snd (handle_loadcell_readout s)).
Proof.
  intros [H1 H2 H3 H4 H5 H6]. unfold handle_loadcell_readout.
  destruct (error_loadcell_timeout s || (10000 <? millis_since_transition s));
    [split; assumption |].
  destruct (Loadcell.is_busy (loadcell s)); [split; assumption |].
  destruct (Loadcell.get_sensor (loadcell s)); split; assumption.
Qed.

Lemma estimate_sensors (s : t) :
  sensors_sound s -> sensors_sound (snd (estimate_dispensed_weight_grams s)).
Proof.
  intros [H1 H2 H3 H4 H5 H6]. unfold estimate_dispensed_weight_grams.
  repeat match goal with
         | |- context [if ?c then _ else _] => destruct c
         | |- context [match loadcell_limp_mode ?c with _ => _ end] =>
             destruct (loadcell_limp_mode c)
         end; split; assumption.
Qed.

Lemma update_jam_state_sensors (w : F32.float) (s : t) :
  sensors_sound s -> sensors_sound (update_jam_state w s).
Proof.
  intros [H1 H2 H3 H4 H5 H6]. unfold update_jam_state.
  repeat match goal with
         | |- context [if ?c then _ else _] => destruct c
         | |- context [match maintenance_mode ?c with _ => _ end] =>
             destruct (maintenance_mode c)
         end; split; assumption.
Qed.

Lemma complete_feed_sensors (i : Inputs) (s s' : t) :
  complete_feed i s = Ok s' -> sensors_sound s -> sensors_sound s'.
Proof.
  unfold complete_feed. intros H Hs.
  pose proof (estimate_sensors s Hs) as H1.
  destruct (estimate_dispensed_weight_grams s) as [w s1]. cbn [snd] in H1.
  pose proof (update_jam_state_sensors w s1 H1) as H2.
  apply bind_inv in H. destruct H as (mg & _ & H).
  apply bind_inv in H. destruct H as (d & _ & [= <-]).
  apply transition_sensors. clear H1.
  revert H2. generalize (update_jam_state w s1). intros x [].
  split; assumption.
Qed.

(** The estimate of a feed converts to whole milligrams, whatever the weights
    recorded, as long as they are numbers: it is the assumed weight, or it
    passed the tests of agreement and of being reasonable. *)
Lemma estimate_converts (s : t) :
  sensors_sound s ->
  exists mg,
    F32.to_int (F32.mul (fst (estimate_dispensed_weight_grams s)) (F32.of_Z 1000))
    = Ok mg
    /\ - 2 ^ 15 <= mg <= 2 ^ 15.
Proof.
  intros [_ _ H3 H4 H5 H6].
  assert (H9 : exists mg,
             F32.to_int (F32.mul FEED_ASSUMED_WEIGHT_GRAMS (F32.of_Z 1000)) = Ok mg
             /\ - 2 ^ 15 <= mg <= 2 ^ 15)
    by (exists 9000; split; [vm_compute; reflexivity | lia]).
  unfold estimate_dispensed_weight_grams.
  destruct (loadcell_limp_mode s); [exact H9 |].
  set (a := F32.sub (feed_reservoir_pre s) (feed_reservoir_post s)).
  set (b := F32.sub (feed_bowl_post s) (feed_bowl_pre s)).
  assert (Ha : not_nan a) by (apply sub_not_nan; assumption).
  assert (Hb : not_nan b) by (apply sub_not_nan; assumption).
  destruct (F32.gtb (F32.abs (F32.sub a b)) FEED_MAX_DISAGREE_GRAMS) eqn:Eagree;
    [exact H9 |].
  set (d := F32.div (F32.add a b) (F32.of_Z 2)).
  destruct (F32.ltb d (F32.neg (F32.of_Z 2))) eqn:Elo; [exact H9 |].
  cbn [orb].
  destruct (F32.gtb d (F32.mul FEED_ASSUMED_WEIGHT_GRAMS (F32.of_Z 3))) eqn:Ehi;
    [exact H9 |].
  cbn [fst]. apply reasonable_converts.
  - apply div_two_bounded. apply agreeing_sum_not_nan; assumption.
  - exact Elo.
  - replace (F32.of_Z 27) with (F32.mul FEED_ASSUMED_WEIGHT_GRAMS (F32.of_Z 3))
      by (vm_compute; reflexivity).
    exact Ehi.
Qed.

Lemma estimate_books (s : t) :
  same_books s (snd (estimate_dispensed_weight_grams s)).
Proof.
  unfold estimate_dispensed_weight_grams.
  repeat match goal with
         | |- context [if ?c then _ else _] => destruct c
         | |- context [match loadcell_limp_mode ?c with _ => _ end] =>
             destruct (loadcell_limp_mode c)
         end; books.
Qed.

Lemma update_jam_state_books (w : F32.float) (s : t) :
  same_books s (update_jam_state w s).
Proof.
  unfold update_jam_state.
  repeat match goal with
         | |- context [if ?c then _ else _] => destruct c
         | |- context [match maintenance_mode ?c with _ => _ end] =>
             destruct (maintenance_mode c)
         end; books.
Qed.

(** [complete_feed] returns: the conversion of the estimate is defined and
    the deficit has room for it. *)
Lemma complete_feed_returns (i : Inputs) (s : t) :
  sensors_sound s ->
  INT32_MIN + 2 ^ 15 <= deficit_mg s <= INT32_MAX - 2 ^ 15 ->
  exists s', complete_feed i s = Ok s'.
Proof.
  intros Hs Hd. unfold complete_feed.
  destruct (estimate_converts s Hs) as (mg & Hmg & Hb).
  pose proof (books_mg _ _ (estimate_books s)) as B1.
  destruct (estimate_dispensed_weight_grams s) as [w s1]. cbn [fst snd] in *.
  pose proof (books_mg _ _ (update_jam_state_books w s1)) as B2.
  rewrite Hmg. cbn [bind].
  rewrite int32_ok by (unfold is_int32; rewrite B2, B1; lia).
  cbn [bind]. eexists. reflexivity.
Qed.

Ltac sensors_kept :=
  repeat match goal with
  | H : sensors_sound ?a |- sensors_sound ?a => exact H
  | |- sensors_sound (transition _ _) => apply transition_sensors
  | |- sensors_sound (sensor_retry _ _) => apply sensor_retry_sensors
  | H : complete_feed _ ?y = Ok ?x |- sensors_sound ?x =>
      apply (complete_feed_sensors _ _ _ H)
  | |- sensors_sound (?f ?v ?y) =>
      cut (sensors_sound y);
      [ let K := fresh in intros K; destruct K; split; assumption |]
  end.

Lemma handle_state_machine_sensors (i : Inputs) (s : t) (ms : bool * t) :
  sensors_sound s ->
  handle_state_machine i s = Ok ms -> sensors_sound (snd ms).
Proof.
  intros Hs. unfold handle_state_machine.
  pose proof (handle_loadcell_readout_sensors s Hs) as Hr.
  destruct (state s) eqn:Hst; switch_cases Hr; intros [= <-]; cbn [snd];
    unfold feed; sensors_kept.
Qed.

(** The [switch] returns. *)
Lemma handle_state_machine_returns (i : Inputs) (s : t) :
  sensors_sound s ->
  INT32_MIN + 2 ^ 15 <= deficit_mg s <= INT32_MAX - 2 ^ 15 ->
  exists ms, handle_state_machine i s = Ok ms.
Proof.
  intros Hs Hd.
  assert (Hc : forall x, sensors_sound x -> same_books s x ->
                         exists s', complete_feed i x = Ok s').
  { intros x Hx Bx. apply complete_feed_returns; [exact Hx |].
    rewrite (books_mg _ _ Bx). exact Hd. }
  pose proof (handle_loadcell_readout_sensors s Hs) as Hr.
  pose proof (handle_loadcell_readout_books s) as Hb.
  unfold handle_state_machine.
  destruct (state s) eqn:Hst;
    repeat match goal with
    | |- context [handle_loadcell_readout ?x] =>
        destruct (handle_loadcell_readout x) as [done s2];
        cbn [fst snd] in Hr, Hb; cbn zeta
    | |- exists _, match need_to_feed ?x with _ => _ end = _ =>
        destruct (need_to_feed x)
    | |- exists _, (if ?c then _ else _) = _ => destruct c
    | |- exists _, match ?c with _ => _ end = _ => destruct c
    | |- exists _, Ok ?v = Ok _ => exists v; reflexivity
    end.
  all: match goal with
       | |- context [complete_feed ?j ?x] =>
           let K := fresh in
           assert (K : exists s', complete_feed j x = Ok s');
           [ apply Hc | destruct K as (s' & ->); cbn [bind];
                        eexists; reflexivity ]
       end.
  all: first [ solve [sensors_kept]
             | solve [books]
             | eapply same_books_trans; [exact Hb |]; books ].
Qed.

Lemma delta_millis_bound (i : Inputs) (s : t) : delta_millis_of i s <= INT32_MAX.
Proof.
  unfold delta_millis_of, to_int32, uint32, INT32_MAX.
  set (x := (now i - update_prev_millis s) mod 2 ^ 32).
  pose proof (Z.mod_pos_bound (x + 2 ^ 31) (2 ^ 32) ltac:(lia)). lia.
Qed.

(** The bookkeeping of [update()] returns. *)
Lemma update_bookkeeping_returns (fuel : nat) (i : Inputs) (s : t) :
  machine_sound s ->
  is_reading (hx711_read i) ->
  0 <= delta_millis_of i s ->
  (Z.to_nat (delta_millis_of i s) <= fuel)%nat ->
  INT32_MIN <= deficit_mg s ->
  deficit_mg s + delta_millis_of i s <= INT32_MAX ->
  exists s1, update_bookkeeping fuel i s = Ok s1.
Proof.
  intros [[Hsam _ _ _ _ _] Hrate Hcount] Hraw Hd0 Hfuel Hlo Hhi.
  pose proof (delta_millis_bound i s) as Hd1.
  destruct (update_sound (hx711_is_ready i) (hx711_read i) (loadcell s) Hsam Hraw)
    as (l & El & _).
  unfold update_bookkeeping. rewrite El. cbn [bind].
  set (d := delta_millis_of i (assign_loadcell l s)).
  assert (Ed : d = delta_millis_of i s) by reflexivity.
  set (s0 := assign_update_prev_millis (now i) (assign_loadcell l s)).
  assert (E1 : deficit_ms_remain s0 = deficit_ms_remain s) by reflexivity.
  assert (E2 : deficit_mg s0 = deficit_mg s) by reflexivity.
  assert (E3 : grams_per_day s0 = grams_per_day s) by reflexivity.
  unfold update_deficit.
  unfold INT32_MAX, INT32_MIN in *.
  rewrite int32_ok by (unfold is_int32, INT32_MAX, INT32_MIN; lia).
  cbn [bind].
  set (s0' := assign_deficit_ms_remain (deficit_ms_remain s0 - d) s0).
  assert (F1 : deficit_ms_remain s0' = deficit_ms_remain s - d)
    by (rewrite <- E1; reflexivity).
  assert (F2 : deficit_mg s0' = deficit_mg s) by reflexivity.
  assert (F3 : grams_per_day s0' = grams_per_day s) by reflexivity.
  assert (F4 : deficit_period s0' = deficit_period s) by reflexivity.
  clearbody s0' s0 d. subst d.
  assert (Hp : 1 <= deficit_period s <= 86400)
    by (apply deficit_period_bounds; exact Hrate).
  pose proof (accrual_count_bound (deficit_ms_remain s - delta_millis_of i s)
                (deficit_period s) ltac:(lia)) as Hc.
  pose proof (accrual_count_nonneg (deficit_ms_remain s - delta_millis_of i s)
                (deficit_period s) ltac:(lia)) as Hc0.
  destruct (deficit_loop_terminates fuel s0') as (s2 & E & _).
  - rewrite F3. exact Hrate.
  - rewrite F1. unfold is_int32, INT32_MAX, INT32_MIN. lia.
  - rewrite F2. unfold INT32_MIN. lia.
  - rewrite F2, F1, F4. unfold INT32_MAX. lia.
  - rewrite F1, F4. lia.
  - rewrite E. cbn [bind]. eexists. reflexivity.
Qed.

Lemma update_bookkeeping_sensors (fuel : nat) (i : Inputs) (s s1 : t) :
  sensors_sound s -> is_reading (hx711_read i) ->
  update_bookkeeping fuel i s = Ok s1 -> sensors_sound s1.
Proof.
  intros [H1 H2 H3 H4 H5 H6] Hraw H.
  apply update_bookkeeping_shape in H. destruct H as (l & m & r & El & ->).
  destruct (update_sound (hx711_is_ready i) (hx711_read i) (loadcell s) H1 Hraw)
    as (l' & El' & Hl).
  pose proof (update_mean_finite _ _ _ _ H1 Hraw H2 El) as Hm.
  assert (l' = l) by congruence. subst l'.
  unfold update_timers, update_mqtt_status.
  destruct (5000 <? _); split; assumption.
Qed.

(** What the bookkeeping leaves of a machine in order. *)
Lemma update_bookkeeping_sound (fuel : nat) (i : Inputs) (s s1 : t) :
  machine_sound s -> is_reading (hx711_read i) ->
  0 <= delta_millis_of i s ->
  update_bookkeeping fuel i s = Ok s1 ->
  machine_sound s1
  /\ deficit_mg s <= deficit_mg s1 <= deficit_mg s + delta_millis_of i s.
Proof.
  intros [Hsens Hrate Hcount] Hraw Hd0 H.
  pose proof (delta_millis_bound i s) as Hd1.
  pose proof (update_bookkeeping_sensors _ _ _ _ Hsens Hraw H) as Hs1.
  destruct (update_bookkeeping_deficit _ _ _ _ H)
    as (n & _ & Hmg & Hms & Hge & Hlt & Hr & _).
  pose proof (deficit_period_bounds s Hrate) as Hp.
  assert (Hn : Z.of_nat n <= delta_millis_of i s
               /\ deficit_ms_remain s1 <= INT32_MAX).
  { destruct n as [|n].
    - rewrite Hms. unfold INT32_MAX in *. split; lia.
    - specialize (Hlt n ltac:(lia)). rewrite Hms. unfold INT32_MAX in *.
      split; nia. }
  split; [| lia].
  split; [exact Hs1 | rewrite Hr; exact Hrate | lia].
Qed.

(** A call of [update()] on a machine in order returns, with no undefined
    behaviour, and leaves the machine in order. *)
Lemma update_returns (fuel : nat) (i : Inputs) (s : t) :
  machine_sound s ->
  is_reading (hx711_read i) ->
  0 <= delta_millis_of i s ->
  (Z.to_nat (delta_millis_of i s) <= fuel)%nat ->
  INT32_MIN + 2 ^ 15 <= deficit_mg s ->
  deficit_mg s + delta_millis_of i s + 2 ^ 15 <= INT32_MAX ->
  exists s', update fuel i s = Ok s' /\ machine_sound s'.
Proof.
  intros Hs Hraw Hd0 Hfuel Hlo Hhi.
  destruct (update_bookkeeping_returns fuel i s Hs Hraw Hd0 Hfuel
              ltac:(lia) ltac:(lia)) as (s1 & Hb).
  destruct (update_bookkeeping_sound _ _ _ _ Hs Hraw Hd0 Hb)
    as ([Hs1 Hr1 Hc1] & Hmg).
  destruct (handle_state_machine_returns i s1 Hs1 ltac:(lia)) as (ms & Hh).
  exists (assign_pin_motor (fst ms) (snd ms)).
  split; [unfold update; rewrite Hb; cbn [bind]; rewrite Hh; reflexivity |].
  pose proof (handle_state_machine_sensors _ _ _ Hs1 Hh) as Hs2.
  assert (Hbooks : grams_per_day (snd ms) = grams_per_day s1
                   /\ deficit_ms_remain (snd ms) = deficit_ms_remain s1).
  { destruct (handle_state_machine_books _ _ _ Hh)
      as [[_ Bms _ Br _] | (_ & s0 & [_ Bms _ Br _] & Hc)]; [now split |].
    destruct (complete_feed_books _ _ _ Hc) as (Cms & _ & Cr & _).
    split; congruence. }
  destruct Hbooks as [Br Bms].
  split.
  - destruct Hs2. split; assumption.
  - change (grams_per_day (assign_pin_motor (fst ms) (snd ms)))
      with (grams_per_day (snd ms)). rewrite Br. exact Hr1.
  - change (deficit_ms_remain (assign_pin_motor (fst ms) (snd ms)))
      with (deficit_ms_remain (snd ms)). rewrite Bms. exact Hc1.
Qed.

(** ** The end of a feed cycle *)

Lemma elapsed_nonneg (ticks : list (nat * Inputs)) : forall prev,
  ticks_in_order prev ticks -> 0 <= elapsed prev ticks.
Proof.
  induction ticks as [|[fuel i] ticks IH]; intros prev H; cbn [elapsed];
    [lia |].
  cbn [ticks_in_order] in H. destruct H as (H1 & _ & _ & H4).
  specialize (IH (now i) H4). lia.
Qed.

(** A feed cycle ends.  Take a machine in order that is in a feed cycle, and
    calls of [update()] that are in order, each made a millisecond or more
    after the one before, as many as the budget of the cycle, which is at
    most 600119; let the deficit have room for the time of the calls and for
    one feed.  Then the calls return one after the other, none with undefined
    behaviour, none hanging in the accrual loop, and before their number
    exceeds the budget one of them leaves the machine in [IDLE]: no state of
    the cycle can hold the machine for good, whatever the load cells and the
    limit switch do. *)
Theorem feed_cycle_ends (ticks : list (nat * Inputs)) (s : t) :
  machine_sound s ->
  ticks_in_order (update_prev_millis s) ticks ->
  is_feeding (state s) = true ->
  0 <= state_retries s ->
  0 <= millis_since_transition s <= 10000 ->
  cycle_budget s <= Z.of_nat (List.length ticks) ->
  INT32_MIN + 2 ^ 15 <= deficit_mg s ->
  deficit_mg s + elapsed (update_prev_millis s) ticks + 2 ^ 15 <= INT32_MAX ->
  cycle_budget s <= 600119
  /\ exists (k : nat) (trace : list t),
       Z.of_nat k <= cycle_budget s
       /\ run_updates (firstn k ticks) s = Ok trace
       /\ state (last trace s) = IDLE.
Proof.
  intros Hsound Hticks Hfeed Hretries Htime Hlen Hlo Hhi.
  assert (Hphase : forall u, is_feeding (state u) = true -> 0 <= phase (state u) <= 9)
    by (intros u Hu; destruct (state u); try discriminate Hu; cbn [phase]; lia).
  split.
  { unfold cycle_budget. specialize (Hphase s Hfeed). lia. }
  revert s Hsound Hticks Hfeed Hretries Htime Hlen Hlo Hhi.
  induction ticks as [|[fuel i] ticks IH];
    intros s Hsound Hticks Hfeed Hretries Htime Hlen Hlo Hhi.
  - exfalso. cbn [List.length] in Hlen. unfold cycle_budget in Hlen.
    specialize (Hphase s Hfeed). lia.
  - cbn [ticks_in_order] in Hticks. destruct Hticks as (Hd & Hfuel & Hraw & Hrest).
    fold (delta_millis_of i s) in Hd, Hfuel.
    cbn [elapsed] in Hhi. fold (delta_millis_of i s) in Hhi.
    pose proof (elapsed_nonneg ticks (now i) Hrest) as He.
    destruct (update_returns fuel i s Hsound Hraw ltac:(lia) Hfuel Hlo ltac:(lia))
      as (s1 & Hu & Hsound1).
    destruct (update_spends_budget _ _ _ _ Hu Hfeed Hretries Htime Hd)
      as [Hend | (Hf1 & Hr1 & Ht1 & Hb1)].
    + exists 1%nat, [s1]. split.
      * unfold cycle_budget. specialize (Hphase s Hfeed). lia.
      * split; [| exact Hend].
        cbn [firstn run_updates]. rewrite Hu. reflexivity.
    + destruct (update_deficit_step _ _ _ _ Hu) as (s0 & Hb & Hge & Hstep).
      assert (Hnot : feed_completed s s1 = false)
        by (unfold feed_completed; destruct (state s); try reflexivity;
            destruct (state s1); try reflexivity; discriminate Hf1).
      rewrite Hnot in Hstep.
      destruct (update_bookkeeping_sound _ _ _ _ Hsound Hraw ltac:(lia) Hb)
        as (_ & Hmg).
      destruct (IH s1) as (k & trace & Hk & Hrun & Hidle).
      * exact Hsound1.
      * rewrite (update_prev _ _ _ _ Hu). exact Hrest.
      * exact Hf1.
      * exact Hr1.
      * exact Ht1.
      * cbn [List.length] in Hlen. lia.
      * lia.
      * rewrite (update_prev _ _ _ _ Hu). lia.
      * exists (S k), (s1 :: trace). split; [lia |]. split.
        -- cbn [firstn run_updates]. rewrite Hu. cbn [bind]. rewrite Hrun.
           reflexivity.
        -- rewrite last_cons. exact Hidle.
Qed.

Lemma weighing_overdue_sound : machine_sound weighing_overdue.
Proof.
  split; [split | vm_compute; split; [reflexivity | discriminate]
                | vm_compute; split; discriminate]; try reflexivity.
  split.
  - vm_compute. split; discriminate.
  - reflexivity.
  - exact init_samples_are_readings.
  - right. vm_compute. split; discriminate.
  - right. vm_compute. split; discriminate.
Qed.

Lemma feed_cycle_ends_witness :
  cycle_budget weighing_overdue <= 600119
  /\ exists (k : nat) (trace : list t),
       Z.of_nat k <= cycle_budget weighing_overdue
       /\ run_updates (firstn k [tick_at 1; tick_at 2; tick_at 3]) weighing_overdue
          = Ok trace
       /\ state (last trace weighing_overdue) = IDLE.
Proof.
  apply (feed_cycle_ends [tick_at 1; tick_at 2; tick_at 3] weighing_overdue).
  - exact weighing_overdue_sound.
  - vm_compute. repeat split; try discriminate; lia.
  - reflexivity.
  - vm_compute. discriminate.
  - split; vm_compute; discriminate.
  - vm_compute. discriminate.
  - vm_compute. discriminate.
  - vm_compute. discriminate.
Defined.
